(* ===== verification/_CoqProject ===== *)
-Q . S2P
Prelude.v
Schedule.v
Survey.v
SurveyStore.v
SurveyPages.v
Forum.v
TierGate.v
StudentLogin.v
AiActions.v
ScheduleView.v
PlanViewer.v
SettingsPanel.v
ScheduleRender.v
SurveyView.v
StudentPortal.v
LoginPage.v
ForumView.v
SurveyIndex.v
ReminderPopup.v
PostLifecycle.v
