(* ===== verification/Prelude.v ===== *)
(** * A verification development for the teacher-facing education app (ogrtaksis)

    ** The program

    The repository is a Next.js / React application on top of the hosted
    document database Firestore.  Its logic that is not rendering lives in
    hooks, page handlers and server actions.  They never call each other
    directly: each reads and writes the remote database, and real-time
    listeners feed the changes back into React state.  The parts, and the
    file of this development that models each:

    - ScheduleStore, [Schedule.v] ([src/src/hooks/use-weekly-schedule.ts]
      and the handlers of [src/src/components/ders-programi.tsx]): one
      schedule document per teacher, a lesson array per week day and the
      settings [timeSlots]/[lessonDuration].  Modelled: the snapshot loader,
      [updateLesson], [updateSettings] with its clean-up batch,
      [setSchedule], and the page handlers [handleLessonSave],
      [handleClearLesson], [handleSettingsBlur], [handleAddNewTimeSlot],
      [handleRemoveTimeSlot], [getLessonForSlot].  The store is
      [option ScheduleDoc] (a missing document is [None]).
    - SurveyScorer, [Survey.v] (the three pages under
      [src/src/app/anket/]): the scoring, the stable descending ranking
      ([Array.prototype.sort]), the dominant-style [reduce] and the submit
      gate, generic over the typeclass [SurveyBank] (categories, questions,
      answer scale).  The page is the step relation [page_step].
    - SurveyPages, [SurveyPages.v]: the three question banks as instances of
      [SurveyBank] and each page's [calculateResults] (parameter guard,
      scores, results, save, toasts); [SurveyView.v]: what each page
      draws (back link, progress header, question cards with their radio
      groups, submit button, result screens, [PageWrapper]), the question
      screen generic over [SurveyBank].
    - SurveyStore, [SurveyStore.v] ([src/src/hooks/use-surveys.ts]):
      [saveSurveyResult], the student listener (its effect, snapshot and
      error callbacks), [deleteSurvey], over the map of survey documents
      keyed by (teacher uid, id); the [FirestorePermissionError] of
      [src/src/firebase/errors.ts] and the single error emitter as the
      list of events emitted.
    - ForumStore, [Forum.v] ([src/src/hooks/use-forum.ts] and
      [addReplyAction] of [src/src/app/actions.ts]): posts, replies and
      comments as three maps keyed by their paths, write batches as lists of
      [ForumWrite] applied atomically, every state-changing function
      ([addPost], [deletePost] with its cascade, [addReply], [deleteReply],
      [addCommentToReply], [deleteComment], [toggleUpvote]); the clients as
      the transition system [forum_reachable] over [ForumOp].
    - TierGate, [TierGate.v] ([src/src/app/paketler/page.tsx]): the active
      tier, the quota, each tier card's footer and [handleUpgrade], over the
      profile document; the page as the relation [tier_step].
    - StudentLogin, [StudentLogin.v]
      ([src/src/app/actions/student-login.ts], the login page's form and
      [onSubmit]): the linear scan over teachers, classes and students,
      the upper-casing inputs, the zod schema and [handleSubmit].
    - AiActions, [AiActions.v] ([src/src/app/actions.ts]): the server
      actions around the generative-AI flows, each flow call a fallible
      request whose answer is a parameter.
    - SettingsPanel, [SettingsPanel.v] (the settings card of
      [src/src/components/ders-programi.tsx]): the local copy of the
      settings, its input handlers, the blur handlers of [Schedule.v], the
      listener's snapshot and the effect that copies it back, as a run of
      events in the [FS] monad.
    - ScheduleView, [ScheduleView.v] (the page logic of
      [src/src/components/ders-programi.tsx] that is not a store update):
      [calculateEndTime] over the [HH:mm] strings with JavaScript's
      [Number] conversion written out, [findRelatedPlan], the double-click
      protocol of [handleLessonClick] with its 250 ms timer as an explicit
      event ([clickTimerFires]) and any interleaving of clicks and
      expiries as [clickStep] over [ClickEvent], and today's day selection.
    - ScheduleRender, [ScheduleRender.v] (the JSX of
      [src/src/components/ders-programi.tsx]): the page as a function of
      its state (weekday tabs, slot buttons, settings inputs, the props of
      the lesson editor and of the plan viewer); [string-to-color] is a
      section variable.
    - PlanViewer, [PlanViewer.v] ([viewFile], [dataURIToBlob] and
      [closeViewer] of [src/src/components/ders-programi.tsx]): the data
      URI split, [atob] as the forgiving-base64 decode of the HTML
      standard, [decodeURI] as the [Decode] operation of ECMAScript (a loop
      with fuel [length + 1], enough by [decode_loop_total]), the
      [Uint8Array] store modulo 256, the [Blob] type, the first-week-row
      search and the entry ids; the [xlsx] parser is a section variable.
    - StudentPortal, [StudentPortal.v] (the login page's effects and
      [src/src/app/ogrenci/[studentId]/page.tsx]): the student's browser
      (stored session, location, signed-in user, toasts), the login page's
      sign-out of a teacher, the dashboard's session guard and survey
      links, and the survey pages reached from those links.  It joins
      StudentLogin, SurveyPages and SurveyStore.
    - LoginPage, [LoginPage.v] (the student login page): its state
      (values, field messages, error, loading, the pending request) as a
      step function over inputs, submits and responses in the [FS] monad,
      and what it shows.
    - ReminderPopup, [ReminderPopup.v]
      ([src/src/components/smart-reminder-popup.tsx]): the due instant
      parsed from the stored strings as the JavaScript date parser reads
      the ISO form, the form's reset (the date-only string read as
      midnight UTC, in a zone given as an offset), the date the form
      writes, both handlers over the parent's update callbacks, the null
      guard and the buttons shown.
    - SurveyIndex, [SurveyIndex.v] ([src/src/app/anket/page.tsx]): the
      teacher's choice of a class and a student as a step function with
      its consistency invariant, the survey links it shows, and the
      rendered class and student selects ([indexView]): choosing the
      [k]-th student option selects the [k]-th student of the class when
      the ids are distinct.
    - ForumView, [ForumView.v] (the listeners [useForum] and
      [useForumPost] of [src/src/hooks/use-forum.ts] and the forum page
      [src/src/app/forum/soru/[id]/page.tsx]): the ordered queries as
      [merge_sort] on the Firestore order, the listener callbacks as
      functions of their snapshot, the comment reads of the replies
      callback as [FS] requests, the page's category and search filter.
    - PostLifecycle, [PostLifecycle.v] ([useForumPost], lines 59-120 of
      [src/src/hooks/use-forum.ts]): the same callbacks on a time line.
      The effect reruns when [postId] or [refreshTrigger] ([forceRefresh])
      changes, and its cleanup unsubscribes; the replies callback is split
      at its [await], so a comment load in flight is an event of its own
      that can settle after navigation.

    ** How the remote database is modelled (this file)

    Every Firestore request ([getDoc], [getDocs], [updateDoc], [addDoc],
    [deleteDoc], a [writeBatch(...).commit()]) and every AI flow call is
    one [remote] step of the monad [FS] defined below.  A computation of
    [FS S A] receives a fault schedule, a [list bool] consumed one entry per
    request ([true]: the request fails with a network error), and the store
    [S].  A request either succeeds and applies its whole effect (a batch
    is atomic), or fails and changes nothing; an update of a missing
    document fails with [NotFound].  The empty schedule is the fault-free
    run ([fs_run]).  This schedule plays the part of fuel: it is finite,
    every request consumes at most one entry, and when it runs out every
    further request succeeds, so every model terminates (all are
    structural) and a statement over all schedules covers every partial
    failure of a multi-request handler.  [try]/[catch] is [fs_catch].
    Documents are records, collections are stdpp [gmap]s keyed by their
    path ids (or lists where the code depends on query order), strings are
    [string], counters are [nat] or, where [increment(-1)] can go below
    zero, [Z].

    ** Shared library (this file)

    [triple P m Q E] is a Hoare triple for [FS] that holds under every fault
    schedule; [Preserves P m] is its invariant case.  The rules
    ([triple_ret], [triple_bind], [triple_catch], [triple_remote],
    [Preserves_bind], ...) follow the structure of a handler, so the
    invariant of a whole handler is proved from one fact per request.  The
    file also holds the JavaScript helpers ([str_or] for [||] on strings,
    [nth_str_or], [falsy_at]) and the list, option and map lemmas the
    components share.

    ** What is proved (claims C1-C40 of the manifest)

    - Schedule (C1-C2, C4-C5, C8): the settings clean-up re-indexes each day's lessons
      and drops those beyond the new slot count; the invariant "one lesson
      per slot, every slot below the slot count" is kept by [updateLesson]
      and [updateSettings] under every fault schedule (C2); removing a time slot
      from the page re-indexes as if the last slot had been removed (a bug);
      lookup after save/clear, with every other slot and the settings
      unchanged (C5), and failure atomicity of both writes (C8).
    - Surveys (C6, C10, C12-C18, C21-C22): each category's score equals
      the reference sum over its questions, whatever the order of the
      answers (C6, an equivalence); score totals; the ranking is a stable
      descending sort (C12) and refines every stable sort, the dominant style is the
      last maximum (ties go to the last category), the progress bar stays
      in 0..100 and reaches 100 exactly when the submit gate opens, which
      implies every question answered on every reachable page (C15); a
      saved result is listed and deleting it restores the collection
      (C16); the spec's worked example (a lemma); choosing a rendered answer option
      stores exactly its value (the print/parse round trip of [parseInt])
      as a step of the page, with unique radio ids (C18, in
      [SurveyView.v]); the teacher's path from the survey index to a
      stored result (C21, in [SurveyIndex.v]); the Holland result screen
      shows the best three in rank order with their full names (C22).
    - ReminderPopup (C3, C20): the reschedule form opens on the stored
      day only at or east of UTC, and moves a reminder one day earlier
      west of it (C3); rescheduling either stores the new date and
      closes the dialog, leaving the reminder overdue exactly when a time
      already past was chosen, or fails and leaves the dialog open with its
      buttons disabled for good (a bug).
    - Forum (C23-C26, C28): no orphan comment and no duplicate upvote under any
      interleaving of operations with any failures (rule induction over
      [forum_reachable]); the fault-free post deletion is complete and
      framed; [commentCount] stays exact across comment add/delete under
      every schedule; it drifts when a missing comment is deleted (a bug) or
      when [deleteReply] fails half-way (C26); the upvote toggle flips
      membership and is an involution up to order (C28).
    - PlanViewer (C9, C27, C31): a plan file stored as a base64 data
      URI converts back to exactly its bytes (C9, a round trip through an
      RFC 4648 encoder); the decode loop of [decodeURI] terminates (the lemma
      [decode_loop_total], the fuel argument of the model);
      a non-base64 data URI loses its UTF-8 bytes, each code unit being
      stored modulo 256 (C27, a bug); the viewer's entries start at the
      first week row and carry distinct ids (C31).
    - TierGate (C30, C32): upgrade requests never raise the quota, and a
      request from a paid tier drops the active tier to free (against the
      spec); the usage bar stays within 100% exactly when the usage is
      within the quota, and a request above 10 uses overflows it.
    - StudentLogin (C33): soundness and completeness of the scan, and
      its fault behaviour; the lemma [studentLogin_shadowed_class] shows
      the shadowing of a second class with the same code.
    - LoginPage (C7, C34): under any events and faults the button is
      disabled exactly while a request is pending, a submit then does
      nothing, an empty code shows its message and sends nothing, and the
      alert shows exactly a failed login (C7); every session the page
      stores has non-empty upper-case codes, so a code stored with a
      lower-case letter can never log in (C34, the type of the form's
      values).
    - SettingsPanel (C35): on any schedule, emptying a non-empty time-slot
      label runs the clean-up of a removal, which renumbers every day's
      lessons by position and so moves lessons to other slots (a bug); the lemma [duration_field_shown] shows that the
      duration field displays the duration the page then uses.
    - ForumView (C36): with exact comment counts in the store, the post
      page lists for every reply shown exactly [commentCount] comments in
      date order, or, after a failed comment read, keeps its old comments
      and stays loading (a bug).
    - PostLifecycle (C11, C19): after any run of events the listeners
      subscribed are those of the current post, whose snapshots alone the
      page then shows (C11), and the split callback
      refines the one of [ForumView.v] (lemma [replies_then_resolve]);
      but the cleanup cancels no comment load, so after navigating from
      post A to post B, A's pending load ends B's loading state and shows
      A's post, replies and comments (a bug).
    - ScheduleRender (C37): the loaded page shows one active weekday tab
      and one button per slot with its time, end time and stored lesson,
      and a double click on a button opens the editor on exactly that
      lesson with the slot's time range.
    - AiActions: the theorems [speechToNote_passthrough] and
      [ai_actions_never_throw] show that speech-to-note keeps the
      transcript and that no action throws.
    - ScheduleView (C29, C38-C39): the end time of a lesson is its start
      plus the duration modulo a day, and end times compose; a double click
      opens the editor and cancels the pending timer, a single click opens
      the related plan only when the timer fires; every click is answered
      on every continuation of events (C29, a liveness property stated
      with the inductive [eventually], i.e. AF).
    - StudentPortal (C40): a student who logs in reaches their own
      dashboard, but no survey they submit from it is ever saved, since
      [saveSurveyResult] needs a signed-in user of the authentication
      provider and students have none (a bug).

    Each theorem with hypotheses has a witness (a closed lemma ending in
    [Defined]) applying it to the sample data of its file.

    ** Not modelled

    Styling, icons, charts and static texts of the pages (the JSX that
    decides what is shown is modelled for the schedule page, the survey
    pages, the login page and the reminder dialog), the prompt definitions of
    [src/src/ai/flows/], the admin SDK initialisation
    ([src/src/lib/firebaseAdmin.ts]), the [xlsx] library that [viewFile] calls (its
    result is a parameter), and the layout.  The
    types of [lib/types], the profile hook's [updateProfile]
    and the Firestore client are outside [src/]: they are modelled from the
    spec and the Firestore semantics.  Concurrency is modelled as the
    interleaving of whole operations ([forum_reachable]); interleavings
    inside one operation are not, except the [await] of the replies
    callback in [PostLifecycle.v].
*)

From stdpp Require Export base list gmap strings pretty.

Declare Scope fs_scope.
Delimit Scope fs_scope with fs.

Create HintDb fsdb.

(** ** Results of remote requests *)

Inductive FsError :=
  | NetworkError   (** the request did not reach the server or was rejected *)
  | NotFound.      (** [update] on a document that does not exist *)

#[export] Instance FsError_eq_dec : EqDecision FsError.
Proof. solve_decision. Defined.

Inductive outcome (A : Type) :=
  | Ok (a : A)
  | Err (e : FsError).
Arguments Ok {A} a.
Arguments Err {A} e.

(** A computation over the store [S]: fault schedule and store in, outcome,
    remaining schedule and store out. *)
Definition FS (S A : Type) : Type := list bool -> S -> outcome A * list bool * S.

Definition fs_ret {S A} (a : A) : FS S A := fun fl s => (Ok a, fl, s).

Definition fs_bind {S A B} (m : FS S A) (k : A -> FS S B) : FS S B :=
  fun fl s =>
    match m fl s with
    | (Ok a, fl', s') => k a fl' s'
    | (Err e, fl', s') => (Err e, fl', s')
    end.

(** One remote request.  [f] is its effect on the store; [None] means the
    server refused it because a document it updates does not exist. *)
Definition remote {S A} (f : S -> option (A * S)) : FS S A :=
  fun fl s =>
    match fl with
    | true :: fl' => (Err NetworkError, fl', s)
    | _ =>
        match f s with
        | Some (a, s') => (Ok a, tail fl, s')
        | None => (Err NotFound, tail fl, s)
        end
    end.

(** [try { m } catch (e) { h(e) }] *)
Definition fs_catch {S A} (m : FS S A) (h : FsError -> FS S A) : FS S A :=
  fun fl s =>
    match m fl s with
    | (Err e, fl', s') => h e fl' s'
    | r => r
    end.

Notation "'let*' x ':=' c 'in' k" := (fs_bind c (fun x => k))
  (at level 100, x binder, c at next level, k at level 200) : fs_scope.

(** Running a computation. *)
Definition fs_out {S A} (r : outcome A * list bool * S) : outcome A := r.1.1.
Definition fs_state {S A} (r : outcome A * list bool * S) : S := r.2.

(** The fault-free run. *)
Definition fs_run {S A} (m : FS S A) (s : S) : outcome A * S :=
  let r := m [] s in (fs_out r, fs_state r).

Lemma fs_run_eq {S A} (m : FS S A) s o fl s' :
  m [] s = (o, fl, s') -> fs_run m s = (o, s').
Proof. intros E. unfold fs_run. by rewrite E. Qed.

(** ** Triples that hold under every fault schedule *)

(** [triple P m Q E]: from a store satisfying [P], under any fault schedule,
    [m] either returns [a] in a store satisfying [Q a], or fails in a store
    satisfying [E]. *)
Definition triple {S A} (P : S -> Prop) (m : FS S A) (Q : A -> S -> Prop)
    (E : S -> Prop) : Prop :=
  forall fl s, P s ->
    match m fl s with
    | (Ok a, _, s') => Q a s'
    | (Err _, _, s') => E s'
    end.

(** An invariant: kept by success and by failure alike. *)
Definition Preserves {S A} (P : S -> Prop) (m : FS S A) : Prop :=
  triple P m (fun _ => P) P.

Section triples.
Context {S : Type}.

Lemma triple_ret {A} (P : S -> Prop) (a : A) (Q : A -> S -> Prop) E :
  (forall s, P s -> Q a s) -> triple P (fs_ret a) Q E.
Proof. intros H fl s Hs. by apply H. Qed.

Lemma triple_bind {A B} (P : S -> Prop) (R : A -> S -> Prop) (Q : B -> S -> Prop) E
    (m : FS S A) (k : A -> FS S B) :
  triple P m R E -> (forall a, triple (R a) (k a) Q E) -> triple P (fs_bind m k) Q E.
Proof.
  intros Hm Hk fl s Hs. unfold fs_bind.
  specialize (Hm fl s Hs).
  destruct (m fl s) as [[[a|e] fl'] s']; [by apply Hk|exact Hm].
Qed.

Lemma triple_catch {A} (P : S -> Prop) (Q : A -> S -> Prop) (R E : S -> Prop)
    (m : FS S A) (h : FsError -> FS S A) :
  triple P m Q R -> (forall e, triple R (h e) Q E) -> triple P (fs_catch m h) Q E.
Proof.
  intros Hm Hh fl s Hs. unfold fs_catch.
  specialize (Hm fl s Hs).
  destruct (m fl s) as [[[a|e] fl'] s']; [exact Hm|by apply Hh].
Qed.

Lemma triple_remote {A} (P : S -> Prop) (Q : A -> S -> Prop) (E : S -> Prop)
    (f : S -> option (A * S)) :
  (forall s, P s -> E s) ->
  (forall s, P s -> match f s with Some (a, s') => Q a s' | None => E s end) ->
  triple P (remote f) Q E.
Proof.
  intros HE Hf fl s Hs. unfold remote.
  specialize (Hf s Hs).
  destruct fl as [|[] fl]; [| by apply HE |];
    destruct (f s) as [[a s']|]; exact Hf.
Qed.

Lemma triple_weaken {A} (P P' : S -> Prop) (Q Q' : A -> S -> Prop) (E E' : S -> Prop)
    (m : FS S A) :
  triple P m Q E ->
  (forall s, P' s -> P s) -> (forall a s, Q a s -> Q' a s) -> (forall s, E s -> E' s) ->
  triple P' m Q' E'.
Proof.
  intros H HP HQ HE fl s Hs. specialize (H fl s (HP s Hs)).
  destruct (m fl s) as [[[a|e] fl'] s']; auto.
Qed.

(** A read hands the continuation the store it ran on. *)
Lemma triple_read (P : S -> Prop) (Q : S -> S -> Prop) (E : S -> Prop) :
  (forall s, P s -> E s) -> (forall s, P s -> Q s s) ->
  triple P (remote (fun s => Some (s, s))) Q E.
Proof. intros HE HQ. apply triple_remote; [exact HE|]. intros s Hs. by apply HQ. Qed.
End triples.

(** A [catch] that turns every failure into the value [t]: a failure of the
    body that kept the store shows up as [t] with the store unchanged. *)
Lemma triple_catch_restore {S A} (s0 : S) (m : FS S A) (t : A) (Q : A -> S -> Prop) E :
  triple (fun s => s = s0) m Q (fun s => s = s0) ->
  triple (fun s => s = s0) (fs_catch m (fun _ => fs_ret t))
    (fun a s => Q a s \/ (a = t /\ s = s0)) E.
Proof.
  intros Hm. apply (triple_catch _ _ (fun s => s = s0)).
  - eapply triple_weaken; [exact Hm|done|by left|done].
  - intros _. apply triple_ret. by right.
Qed.

(** A request from a known store either succeeds or leaves that store. *)
Lemma triple_remote_keep {S A} (s0 : S) (f : S -> option (A * S)) :
  triple (fun s => s = s0) (remote f) (fun _ _ => True) (fun s => s = s0).
Proof.
  apply triple_remote; [done|]. intros s ->. by destruct (f s0) as [[]|].
Qed.

(** Reading a statement of a triple off one run. *)
Lemma triple_run {S A} (P : S -> Prop) (m : FS S A) (Q : A -> S -> Prop) fl s :
  triple P m Q (fun _ => False) -> P s ->
  exists a, fs_out (m fl s) = Ok a /\ Q a (fs_state (m fl s)).
Proof.
  intros H Hs. specialize (H fl s Hs). unfold fs_out, fs_state.
  destruct (m fl s) as [[[a|e] fl'] s']; [by exists a|done].
Qed.

#[export] Hint Resolve triple_ret : fsdb.

(** Invariants of the store: [Preserves] composes like the program. *)
Section preserves.
Context {S : Type} (P : S -> Prop).

Lemma Preserves_state {A} (m : FS S A) fl s : Preserves P m -> P s -> P (fs_state (m fl s)).
Proof.
  intros H Hs. specialize (H fl s Hs). unfold fs_state.
  by destruct (m fl s) as [[[a|e] fl'] s'].
Qed.

Lemma Preserves_ret {A} (a : A) : Preserves P (fs_ret a).
Proof. by apply triple_ret. Qed.

Lemma Preserves_bind {A B} (m : FS S A) (k : A -> FS S B) :
  Preserves P m -> (forall a, Preserves P (k a)) -> Preserves P (fs_bind m k).
Proof. intros Hm Hk. by apply (triple_bind _ (fun _ => P)). Qed.

Lemma Preserves_catch {A} (m : FS S A) (h : FsError -> FS S A) :
  Preserves P m -> (forall e, Preserves P (h e)) -> Preserves P (fs_catch m h).
Proof. intros Hm Hh. by apply (triple_catch _ _ P). Qed.

Lemma Preserves_remote {A} (f : S -> option (A * S)) :
  (forall s a s', P s -> f s = Some (a, s') -> P s') -> Preserves P (remote f).
Proof.
  intros Hf. apply triple_remote; [done|]. intros s Hs.
  destruct (f s) as [[a s']|] eqn:E; [by eapply Hf|done].
Qed.
End preserves.

#[export] Hint Resolve Preserves_ret Preserves_bind Preserves_catch : fsdb.

(** Every request made on the fault-free path succeeds, so the schedule
    stays empty. *)
Lemma remote_run_Some {S A} (f : S -> option (A * S)) s a s' :
  f s = Some (a, s') -> remote f [] s = (Ok a, [], s').
Proof. intros E. unfold remote. by rewrite E. Qed.

Lemma remote_run_None {S A} (f : S -> option (A * S)) s :
  f s = None -> remote f [] s = (Err NotFound, [], s).
Proof. intros E. unfold remote. by rewrite E. Qed.

Lemma remote_fail {S A} (f : S -> option (A * S)) fl s :
  remote f (true :: fl) s = (Err NetworkError, fl, s).
Proof. reflexivity. Qed.

(** A read under any schedule: it returns the value or fails, and keeps
    the store. *)
Lemma remote_read {S A} (f : S -> A) fl (s : S) :
  (exists fl', remote (fun s => Some (f s, s)) fl s = (Ok (f s), fl', s)) \/
  (exists e fl', remote (fun s => Some (f s, s)) fl s = (Err e, fl', s)).
Proof. unfold remote. destruct fl as [|[] fl]; eauto. Qed.

(** A [try]/[catch] whose handler returns a value never lets an error out. *)
Lemma catch_ret_total {S A} (m : FS S A) (h : FsError -> A) fl s :
  exists a, fs_out (fs_catch m (fun e => fs_ret (h e)) fl s) = Ok a.
Proof. unfold fs_catch, fs_out. destruct (m fl s) as [[[a|e] fl'] s']; eauto. Qed.

Lemma bind_ok {S A B} (m : FS S A) (k : A -> FS S B) fl s a fl' s' :
  m fl s = (Ok a, fl', s') -> fs_bind m k fl s = k a fl' s'.
Proof. intros E. unfold fs_bind. by rewrite E. Qed.

Lemma bind_err {S A B} (m : FS S A) (k : A -> FS S B) fl s e fl' s' :
  m fl s = (Err e, fl', s') -> fs_bind m k fl s = (Err e, fl', s').
Proof. intros E. unfold fs_bind. by rewrite E. Qed.

(** ** User notifications *)

(** A toast shown by a hook or a page: its title and whether it has the
    [destructive] variant. *)
Record Toast := mkToast { toast_title : string; toast_destructive : bool }.

(** The [message] of the error a failed request throws. *)
Definition fs_error_message (e : FsError) : string :=
  match e with
  | NetworkError => "Failed to get document because the client is offline."
  | NotFound => "No document to update"
  end.

(** ** JavaScript idioms *)

(** [s || d] on strings: the empty string is falsy. *)
Definition str_or (s : string) (d : string) : string :=
  if String.eqb s "" then d else s.

Lemma str_or_nonempty s d : d <> "" -> str_or s d <> "".
Proof. unfold str_or. destruct (String.eqb_spec s ""); done. Qed.

(** [a[i] || d] on an array of strings: out of range reads [undefined]. *)
Definition nth_str_or (l : list string) (i : nat) (d : string) : string :=
  match l !! i with
  | Some s => str_or s d
  | None => d
  end.

(** [!a[i]] for an array of strings. *)
Definition falsy_at (l : list string) (i : nat) : bool :=
  match l !! i with
  | Some s => String.eqb s ""
  | None => true
  end.

(** [`${n}`] for a natural number. *)
Definition nat_str (n : nat) : string := pretty (N.of_nat n).

(** [hay.includes(needle)]: the search of [String.index].  On UTF-8
    strings a byte-wise substring is a substring of code points, so this
    is JavaScript's search ([includes], [indexOf(...) >= 0]) on the strings
    the pages compare. *)
Definition includes (hay needle : string) : bool :=
  match String.index 0 needle hay with Some _ => true | None => false end.

Lemma string_app_assoc a b c : (a +:+ b) +:+ c = a +:+ (b +:+ c).
Proof. induction a as [|x a IH]; [done|]. exact (f_equal (String x) IH). Qed.

(** The double-quote character (code 34) as a string. *)
Definition quote : string := String (Ascii.ascii_of_nat 34) EmptyString.

Lemma string_app_inj_r a x y : a +:+ x = a +:+ y -> x = y.
Proof. induction a as [|c a IH]; [done|]. intros [= H]. by apply IH. Qed.

Lemma nat_str_inj n m : nat_str n = nat_str m -> n = m.
Proof. unfold nat_str. intros H. apply (inj (@pretty N _)) in H. by apply Nat2N.inj. Qed.

(** ** Generic lemmas on lists of natural numbers *)

(** Distinct indices below [n] are at most [n]. *)
Lemma NoDup_bounded_length (l : list nat) (n : nat) :
  NoDup l -> Forall (fun k => k < n) l -> length l <= n.
Proof.
  intros Hnd Hb. transitivity (length (seq 0 n)); [|by rewrite length_seq].
  apply NoDup_incl_length; [by apply NoDup_ListNoDup|].
  intros k Hk%list_elem_of_In. apply in_seq. rewrite Forall_forall in Hb.
  specialize (Hb k Hk). lia.
Qed.

Lemma NoDup_seq_0 n : NoDup (seq 0 n).
Proof. apply NoDup_ListNoDup, seq_NoDup. Qed.

Lemma Forall_seq_lt n k : k <= n -> Forall (fun j => j < n) (seq 0 k).
Proof. intros Hk. apply Forall_forall. intros j Hj%list_elem_of_In%in_seq. lia. Qed.

#[export] Hint Resolve NoDup_seq_0 Forall_seq_lt : fsdb.

(** Two summands over [seq a n] that agree away from [j] differ by their
    values at [j], when [j] is in range. *)
Lemma sum_list_with_seq_update (f g : nat -> nat) a n j :
  (forall k, k <> j -> f k = g k) ->
  sum_list_with f (seq a n) + (if decide (a <= j < a + n) then g j else 0) =
  sum_list_with g (seq a n) + (if decide (a <= j < a + n) then f j else 0).
Proof.
  intros Hfg. revert a. induction n as [|n IH]; intros a; cbn [seq sum_list_with].
  - repeat case_decide; lia.
  - specialize (IH (S a)). destruct (decide (a = j)) as [->|Hne].
    + rewrite decide_False in IH by lia. repeat case_decide; lia.
    + rewrite (Hfg a Hne). repeat case_decide; lia.
Qed.

Lemma sum_list_with_0 {A} (f : A -> nat) l : (forall x, f x = 0) -> sum_list_with f l = 0.
Proof. intros Hf. induction l as [|x l IH]; cbn [sum_list_with]; [done|]. by rewrite Hf, IH. Qed.

(** ** Generic lemmas on keys of lists *)

Section keys.
Context {A K : Type} (f : A -> K).

Lemma NoDup_fmap_filter (P : A -> Prop) `{!forall x, Decision (P x)} (l : list A) :
  NoDup (f <$> l) -> NoDup (f <$> filter P l).
Proof. intros Hl. eapply sublist_NoDup; [exact Hl|]. apply fmap_sublist, sublist_filter. Qed.

Lemma NoDup_fmap_insert_same (l : list A) i x y :
  l !! i = Some x -> f y = f x -> NoDup (f <$> l) -> NoDup (f <$> <[i:=y]> l).
Proof.
  intros Hi Hf Hl. rewrite list_fmap_insert, Hf, list_insert_id; [done|].
  by rewrite list_lookup_fmap, Hi.
Qed.

Lemma NoDup_fmap_snoc (l : list A) x :
  f x ∉ f <$> l -> NoDup (f <$> l) -> NoDup (f <$> l ++ [x]).
Proof.
  intros Hx Hl. rewrite fmap_app. apply NoDup_app. split_and!; [done| |].
  - intros k Hk ->%list_elem_of_singleton. by apply Hx.
  - apply NoDup_singleton.
Qed.

(** With distinct keys, the first element with the key of [x] is [x]. *)
Lemma head_filter_key_lookup `{!EqDecision K} (l : list A) k x :
  NoDup (f <$> l) -> l !! k = Some x -> head (filter (fun y => f y = f x) l) = Some x.
Proof.
  revert k. induction l as [|y l IH]; intros k Hnd Hk; [done|].
  rewrite fmap_cons in Hnd. apply NoDup_cons in Hnd as [Hy Hnd]. rewrite filter_cons.
  destruct k as [|k]; simpl in Hk; [injection Hk as ->; by rewrite decide_True|].
  rewrite decide_False; [by apply (IH k)|]. intros Hf. apply Hy. rewrite Hf.
  apply list_elem_of_fmap_2, (list_elem_of_lookup_2 _ k), Hk.
Qed.
End keys.

Lemma Forall_filter_l {A} (Q P : A -> Prop) `{!forall x, Decision (P x)} (l : list A) :
  Forall Q l -> Forall Q (filter P l).
Proof. rewrite !Forall_forall. intros HQ x Hx%list_elem_of_filter. apply HQ, Hx. Qed.

#[export] Hint Resolve NoDup_fmap_filter Forall_filter_l : fsdb.

(** ** Arrays filtered or mapped by index *)

(** [l.filter((_, index) => index !== i)] written with [imap], from offset [k]. *)
Lemma filter_index_ne {A} (l : list A) (k i : nat) :
  snd <$> filter (fun p : nat * A => p.1 <> i) (imap (fun j x => (k + j, x)) l) =
  if decide (i < k) then l else take (i - k) l ++ drop (S (i - k)) l.
Proof.
  revert k. induction l as [|x l IH]; intros k.
  { simpl. destruct (decide (i < k)); [done|]. by destruct (i - k). }
  rewrite imap_cons.
  rewrite (imap_ext ((fun j y => (k + j, y)) ∘ S) (fun j y => (S k + j, y)))
    by (intros; simpl; f_equal; lia).
  rewrite filter_cons. cbn [fst]. rewrite Nat.add_0_r.
  case_decide as Hne; [rewrite fmap_cons|]; rewrite (IH (S k)); cbn [snd].
  - do 2 case_decide; try lia; [done|].
    replace (i - k) with (S (i - S k)) by lia. done.
  - case_decide; [|lia]. case_decide; [lia|]. replace (i - k) with 0 by lia. done.
Qed.

(** Mapping a field the index does not touch. *)
Lemma fmap_imap_same {A B C} (g : B -> C) (h : A -> C) (f : nat -> A -> B) (l : list A) :
  (forall i x, g (f i x) = h x) -> g <$> imap f l = h <$> l.
Proof.
  revert f. induction l as [|x l IH]; intros f Hf; [done|].
  rewrite imap_cons. simpl. rewrite Hf. f_equal. apply IH. intros. apply Hf.
Qed.

(** ** [Array.prototype.find] / [findIndex] after an update of the array *)

Section find.
Context {A : Type} (P : A -> Prop) `{!forall x, Decision (P x)}.

Lemma list_find_insert_neither (l : list A) i x y :
  l !! i = Some x -> ~ P x -> ~ P y -> list_find P (<[i:=y]> l) = list_find P l.
Proof.
  revert i. induction l as [|z l IH]; intros [|i] Hi Hx Hy; simplify_eq/=.
  - by rewrite !decide_False.
  - case_decide; [done|]. by rewrite (IH i).
Qed.

Lemma list_find_insert_found (l : list A) i x y :
  list_find P l = Some (i, x) -> P y -> list_find P (<[i:=y]> l) = Some (i, y).
Proof.
  revert i. induction l as [|z l IH]; intros i Hf Hy; [done|]. simpl in Hf.
  case_decide; simplify_eq/=; [by rewrite decide_True|].
  destruct (list_find P l) as [[j w]|] eqn:E; simplify_eq/=.
  rewrite decide_False by done. by rewrite (IH j).
Qed.

Lemma list_find_snoc_not (l : list A) y :
  ~ P y -> list_find P (l ++ [y]) = list_find P l.
Proof.
  intros Hy. destruct (list_find P l) as [[i x]|] eqn:E.
  - by apply list_find_app_l.
  - rewrite list_find_app_r by done. simpl. by rewrite decide_False.
Qed.

Lemma list_find_snoc_new (l : list A) y :
  list_find P l = None -> P y -> list_find P (l ++ [y]) = Some (length l, y).
Proof. intros E Hy. rewrite list_find_app_r by done. simpl. by rewrite decide_True. Qed.

Lemma list_find_filter_weaker (Q : A -> Prop) `{!forall x, Decision (Q x)} (l : list A) :
  (forall x, P x -> Q x) -> snd <$> list_find P (filter Q l) = snd <$> list_find P l.
Proof.
  intros HPQ. induction l as [|x l IH]; [done|]. rewrite filter_cons. simpl.
  destruct (decide (P x)) as [HP|HP].
  - rewrite decide_True by auto. simpl. by rewrite decide_True.
  - case_decide; simpl; [rewrite decide_False by done|]; revert IH;
      destruct (list_find P (filter Q l)) as [[??]|], (list_find P l) as [[??]|];
      simpl; congruence.
Qed.

Lemma list_find_filter_not (l : list A) :
  list_find P (filter (fun x => ~ P x) l) = None.
Proof.
  apply list_find_None, Forall_forall. intros x Hx%list_elem_of_filter. apply Hx.
Qed.
End find.

(** ** Objects keyed by array indices *)

(** A map whose keys are indices below [n] and that has at least [n] keys
    has every index below [n]. *)
Lemma gmap_nat_full {A} (m : gmap nat A) (n : nat) :
  (forall i x, m !! i = Some x -> i < n) -> n <= size m ->
  forall i, i < n -> is_Some (m !! i).
Proof.
  intros Hdom Hsize i Hi.
  assert (incl (seq 0 n) (map_to_list m).*1) as Hincl.
  { apply NoDup_length_incl.
    - apply NoDup_ListNoDup, NoDup_fst_map_to_list.
    - by rewrite length_fmap, length_map_to_list, length_seq.
    - intros k Hk%list_elem_of_In. apply in_seq.
      apply list_elem_of_fmap in Hk as ([k' x] & -> & Hkx%elem_of_map_to_list).
      specialize (Hdom _ _ Hkx). simpl. lia. }
  assert (In i (map_to_list m).*1) as Hin%list_elem_of_In
    by (apply Hincl, in_seq; lia).
  apply list_elem_of_fmap in Hin as ([k x] & -> & Hkx%elem_of_map_to_list). by exists x.
Qed.

(** Deleting a list of keys one after the other, as a batch of deletes does. *)
Lemma lookup_foldl_delete {K B A} `{Countable K} (f : B -> K) (m : gmap K A) (l : list B) k :
  foldl (fun m b => delete (f b) m) m l !! k = if decide (k ∈ f <$> l) then None else m !! k.
Proof.
  revert m. induction l as [|b l IH]; intros m; simpl.
  - done.
  - rewrite IH, lookup_delete.
    repeat case_decide; rewrite ?elem_of_cons in *; naive_solver.
Qed.

(** A fold of inserts, as [Promise.all] filling an object: the last
    insert of a key wins, and a key never inserted keeps its value. *)
Lemma lookup_foldl_insert {K B A} `{Countable K} (f : B -> K) (g : B -> A) (m : gmap K A) (l : list B) k :
  foldl (fun m b => <[f b := g b]> m) m l !! k =
    match last (filter (fun b => f b = k) l) with Some b => Some (g b) | None => m !! k end.
Proof.
  revert m. induction l as [|b l IH]; intros m; simpl; [done|].
  rewrite IH, filter_cons. case_decide as Hb.
  - destruct (last (filter _ l)) eqn:El; [by rewrite last_cons, El|].
    rewrite last_cons, El. simpl. subst k. apply lookup_insert_eq.
  - destruct (last (filter _ l)); [done|]. by rewrite lookup_insert_ne.
Qed.

Lemma last_filter_eq {B} `{EqDecision B} (l : list B) x :
  x ∈ l -> last (filter (fun y => y = x) l) = Some x.
Proof.
  induction l as [|y l IH]; [by intros ?%elem_of_nil|]. intros Hx. rewrite filter_cons.
  destruct (decide (x ∈ l)) as [Hl|Hl].
  - case_decide; rewrite ?last_cons, IH by done; done.
  - apply elem_of_cons in Hx as [<-|]; [|done]. rewrite decide_True by done.
    rewrite last_cons. destruct (filter _ l) as [|z l'] eqn:E; [done|].
    assert (z ∈ filter (fun y => y = x) l) as [-> ?]%list_elem_of_filter; [rewrite E; left|done].
Qed.

(** [omap] of a function defined on every element keeps the length. *)
Lemma length_omap_Some {A B} (f : A -> option B) (l : list A) :
  (forall x, x ∈ l -> is_Some (f x)) -> length (omap f l) = length l.
Proof.
  induction l as [|x l IH]; intros Hl; [done|].
  destruct (Hl x (list_elem_of_here _ _)) as [y Hy].
  change (omap f (x :: l)) with (match f x with Some y => y :: omap f l | None => omap f l end).
  rewrite Hy. simpl. rewrite IH; [done|]. intros z Hz. by apply Hl, list_elem_of_further.
Qed.

(** Counting the keys of a map that satisfy a predicate, across an insert
    of a fresh key and a delete of a present one. *)
Section count_keys.
Context {K A : Type} `{Countable K} (P : K -> Prop) `{!forall x, Decision (P x)}.

Lemma size_filter_dom_insert (m : gmap K A) k v :
  m !! k = None ->
  size (filter P (dom (<[k:=v]> m) : gset K)) =
    (if decide (P k) then 1 else 0) + size (filter P (dom m) : gset K).
Proof.
  intros Hk.
  assert (filter P (dom (<[k:=v]> m)) = (if decide (P k) then {[k]} else ∅) ∪ filter P (dom m))
    as ->.
  { apply set_eq. intros x. rewrite elem_of_union, !elem_of_filter, !elem_of_dom.
    rewrite lookup_insert_is_Some'.
    case_decide; rewrite ?elem_of_singleton, ?elem_of_empty; naive_solver. }
  case_decide; [|by rewrite union_empty_l_L].
  rewrite size_union; [by rewrite size_singleton|]. apply disjoint_singleton_l.
  rewrite elem_of_filter, elem_of_dom, Hk. by intros [_ []%is_Some_None].
Qed.

Lemma size_filter_dom_delete (m : gmap K A) k v :
  m !! k = Some v ->
  size (filter P (dom m) : gset K) =
    (if decide (P k) then 1 else 0) + size (filter P (dom (delete k m)) : gset K).
Proof.
  intros Hk. transitivity (size (filter P (dom (<[k:=v]> (delete k m))) : gset K)).
  - by rewrite insert_delete_id.
  - apply size_filter_dom_insert, lookup_delete_eq.
Qed.
End count_keys.

(** [where(...).limit(1)]: the first element satisfying the filter. *)
Lemma head_filter_Some {A} (P : A -> Prop) `{!forall x, Decision (P x)} (l : list A) x :
  head (filter P l) = Some x -> x ∈ l /\ P x.
Proof.
  induction l as [|y l IH]; [done|]. rewrite filter_cons.
  case_decide; simpl; [intros [= <-]; split; [left|done]|].
  intros Hx. destruct (IH Hx). split; [by right|done].
Qed.

Lemma head_filter_None {A} (P : A -> Prop) `{!forall x, Decision (P x)} (l : list A) :
  head (filter P l) = None -> forall x, x ∈ l -> ~ P x.
Proof.
  induction l as [|y l IH]; [by intros _ x ?%elem_of_nil|]. rewrite filter_cons.
  case_decide; simpl; [done|]. intros Hn x [->|Hx]%elem_of_cons; [done|by apply IH].
Qed.

(** A property of the numbers below [k], checked by computation. *)
Lemma Forall_seq_check (P : nat -> Prop) `{!forall n, Decision (P n)} k :
  bool_decide (Forall P (seq 0 k)) = true -> forall n, n < k -> P n.
Proof.
  intros Hb n Hn. apply bool_decide_eq_true in Hb. rewrite Forall_forall in Hb.
  apply Hb, elem_of_seq. lia.
Qed.

Lemma elem_of_drop_l {A} (x : A) n (l : list A) : x ∈ drop n l -> x ∈ l.
Proof.
  revert n. induction l as [|y l IH]; intros [|n] Hx; simpl in *; [done|done|done|].
  apply elem_of_cons. right. by eapply IH.
Qed.
