(* ===== verification/Schedule.v ===== *)
(** * ScheduleStore: the weekly lesson schedule of a teacher

    Models [src/src/hooks/use-weekly-schedule.ts] (the hook
    [useWeeklySchedule]: snapshot listener, [updateLesson], [updateSettings],
    [setSchedule]) and the handlers of [src/src/components/ders-programi.tsx]
    that call it.  The store is the schedule document
    [users/{uid}/schedules/weekly-lessons-schedule], [None] when it does not
    exist; its fields are one lesson array per day plus [timeSlots] and
    [lessonDuration].  The hook's [settings] state (the last snapshot) is an
    explicit argument of each operation, as the closure captures it. *)

From S2P Require Import Prelude.

Module Schedule.

(** ** Data *)

Inductive Day := Pazartesi | Sali | Carsamba | Persembe | Cuma | Cumartesi | Pazar.

#[export] Instance Day_eq_dec : EqDecision Day.
Proof. solve_decision. Defined.

Definition day_to_nat (d : Day) : nat :=
  match d with
  | Pazartesi => 0 | Sali => 1 | Carsamba => 2 | Persembe => 3
  | Cuma => 4 | Cumartesi => 5 | Pazar => 6
  end.

Definition nat_to_day (n : nat) : Day :=
  match n with
  | 0 => Pazartesi | 1 => Sali | 2 => Carsamba | 3 => Persembe
  | 4 => Cuma | 5 => Cumartesi | _ => Pazar
  end.

#[export] Instance Day_countable : Countable Day.
Proof. apply (inj_countable' day_to_nat nat_to_day). by intros []. Defined.

(** The document keys of the days, as written in [dayOrder]. *)
Definition day_name (d : Day) : string :=
  match d with
  | Pazartesi => "Pazartesi" | Sali => "Salı" | Carsamba => "Çarşamba"
  | Persembe => "Perşembe" | Cuma => "Cuma" | Cumartesi => "Cumartesi"
  | Pazar => "Pazar"
  end.

Definition dayOrder : list Day :=
  [Pazartesi; Sali; Carsamba; Persembe; Cuma; Cumartesi; Pazar].

Record Lesson := mkLesson {
  lesson_id : string;
  lessonSlot : nat;
  subject : string;
  grade : string;
  class : string;
  time : string;
  planId : option string
}.

(** [Omit<Lesson, 'id' | 'lessonSlot'>] as the form sends it; an optional
    key that is absent is [None] (an object spread then keeps the old value). *)
Record LessonData := mkLessonData {
  ld_subject : string;
  ld_grade : string;
  ld_class : string;
  ld_time : option string;
  ld_planId : option string
}.

Record ScheduleSettings := mkSettings {
  timeSlots : list string;
  lessonDuration : nat
}.

Definition defaultSettings : ScheduleSettings :=
  mkSettings ["08:30"; "09:20"; "10:10"; "11:00"; "11:50"; "13:30"; "14:20"; "15:10"] 40.

(** The remote document: the day fields present in it, and the settings
    fields when present. *)
Record ScheduleDoc := mkDoc {
  dayFields : gmap Day (list Lesson);
  timeSlotsField : option (list string);
  lessonDurationField : option nat
}.

Abbreviation Store := (option ScheduleDoc).

(** ** Reading the document *)

(** [currentData[day] || []] *)
Definition dayLessonsOf (d : ScheduleDoc) (day : Day) : list Lesson :=
  default [] (dayFields d !! day).

(** The listener's [scheduleData]: one item per day in [dayOrder]. *)
Definition loadSchedule (d : ScheduleDoc) : list (Day * list Lesson) :=
  map (fun day => (day, dayLessonsOf d day)) dayOrder.

(** The listener's [scheduleSettings]: [data.timeSlots || default] (an
    array is always truthy) and [data.lessonDuration || 40] (0 is falsy). *)
Definition loadSettings (d : ScheduleDoc) : ScheduleSettings :=
  mkSettings (default (timeSlots defaultSettings) (timeSlotsField d))
    (match lessonDurationField d with
     | Some (S n) => S n
     | _ => lessonDuration defaultSettings
     end).

(** The document written when none exists. *)
Definition initialDoc : ScheduleDoc :=
  mkDoc (list_to_map (map (fun day => (day, [])) dayOrder))
    (Some (timeSlots defaultSettings)) (Some (lessonDuration defaultSettings)).

(** The React state of the hook. *)
Record HookView := mkView {
  view_schedule : list (Day * list Lesson);
  view_settings : ScheduleSettings;
  view_isLoading : bool;
  view_toasts : list Toast
}.

(** ** Remote requests on the schedule document *)

Definition getDoc : FS Store Store := remote (fun s => Some (s, s)).

Definition setDoc (d : ScheduleDoc) : FS Store unit := remote (fun _ => Some (tt, Some d)).

(** [updateDoc] fails on a missing document. *)
Definition updateDoc (f : ScheduleDoc -> ScheduleDoc) : FS Store unit :=
  remote (fun s => match s with Some d => Some (tt, Some (f d)) | None => None end).

Definition set_day (day : Day) (ls : list Lesson) (d : ScheduleDoc) : ScheduleDoc :=
  mkDoc (<[day := ls]> (dayFields d)) (timeSlotsField d) (lessonDurationField d).

Local Open Scope fs_scope.

(** ** The snapshot listener (lines 32-87) *)

Definition getDefaultSchedule : list (Day * list Lesson) :=
  map (fun day => (day, [])) dayOrder.

(** The listener's success callback on a pushed snapshot [snap]. *)
Definition onSnapshotNext (snap : Store) (v : HookView) : FS Store HookView :=
  match snap with
  | Some d => fs_ret (mkView (loadSchedule d) (loadSettings d) false (view_toasts v))
  | None =>
      fs_catch
        (let* _ := setDoc initialDoc in
         fs_ret (mkView getDefaultSchedule defaultSettings false (view_toasts v)))
        (fun _ => fs_ret (mkView (view_schedule v) (view_settings v) false
                            (view_toasts v ++ [mkToast "Hata!" true])))
  end.

(** The listener's error callback. *)
Definition onSnapshotError (v : HookView) : HookView :=
  mkView (view_schedule v) (view_settings v) false
    (view_toasts v ++ [mkToast "Program Yüklenemedi" true]).

(** ** [updateLesson] (lines 90-143) *)

(** [{ ...existingLesson, ...lessonData, lessonSlot, time }] *)
Definition mergeLesson (l : Lesson) (ld : LessonData) (slot : nat) (t : string) : Lesson :=
  mkLesson (lesson_id l) slot (ld_subject ld) (ld_grade ld) (ld_class ld) t
    (match ld_planId ld with Some p => Some p | None => planId l end).

(** [{ id, lessonSlot, time, ...lessonData }]: the form's [time], when
    present, overrides the slot's label. *)
Definition newLesson (day : Day) (slot : nat) (now : string) (t : string)
    (ld : LessonData) : Lesson :=
  mkLesson (day_name day +:+ "-" +:+ nat_str slot +:+ "-" +:+ now) slot
    (ld_subject ld) (ld_grade ld) (ld_class ld)
    (default t (ld_time ld)) (ld_planId ld).

(** [dayLessons.findIndex(l => l.lessonSlot === lessonSlot)] *)
Definition findSlot (slot : nat) (ls : list Lesson) : option (nat * Lesson) :=
  list_find (fun l => lessonSlot l = slot) ls.

(** The new lesson array of the day, or [None] for the early [return]. *)
Definition updatedLessons (settings : ScheduleSettings) (now : string) (day : Day)
    (lessonData : option LessonData) (slot : nat) (dayLessons : list Lesson)
    : option (list Lesson) :=
  let t := nth_str_or (timeSlots settings) slot "" in
  match lessonData, findSlot slot dayLessons with
  | Some ld, Some (i, existing) => Some (<[i := mergeLesson existing ld slot t]> dayLessons)
  | Some ld, None => Some (dayLessons ++ [newLesson day slot now t ld])
  | None, Some _ => Some (filter (fun l => lessonSlot l <> slot) dayLessons)
  | None, None => None
  end.

Definition toast_error : Toast := mkToast "Hata!" true.

(** [if (!userId) return;] *)
Definition no_user (userId : option string) : bool :=
  match userId with Some u => String.eqb u "" | None => true end.

Definition updateLesson (userId : option string) (settings : ScheduleSettings)
    (now : string) (day : Day) (lessonData : option LessonData) (lessonSlot : nat)
    : FS Store (list Toast) :=
  if no_user userId then fs_ret [] else
  fs_catch
    (let* snap := getDoc in
     let dayLessons := match snap with Some d => dayLessonsOf d day | None => [] end in
     match updatedLessons settings now day lessonData lessonSlot dayLessons with
     | Some ls => let* _ := updateDoc (set_day day ls) in fs_ret []
     | None => fs_ret []
     end)
    (fun _ => fs_ret [toast_error]).

(** ** [updateSettings] (lines 145-194) *)

(** [Partial<ScheduleSettings>]: [None] for an absent key. *)
Record SettingsPatch := mkPatch {
  patch_timeSlots : option (list string);
  patch_lessonDuration : option nat
}.

(** [oldTimeSlots.map((_, i) => i).filter(i => !newTimeSlots[i])] *)
Definition removedSlotsIndices (oldTimeSlots newTimeSlots : list string) : list nat :=
  filter (fun i => falsy_at newTimeSlots i = true) (seq 0 (length oldTimeSlots)).

Definition with_slot (l : Lesson) (i : nat) : Lesson :=
  mkLesson (lesson_id l) i (subject l) (grade l) (class l) (time l) (planId l).

(** [dayLessons.filter(l => l.lessonSlot < n).map((l, index) => ({ ...l, lessonSlot: index }))] *)
Definition cleanedLessons (n : nat) (dayLessons : list Lesson) : list Lesson :=
  imap (fun i l => with_slot l i) (filter (fun l => lessonSlot l < n) dayLessons).

(** The [updates] object: every day of [dayOrder] gets its cleaned array. *)
Definition cleanupUpdates (n : nat) (d : ScheduleDoc) : list (Day * list Lesson) :=
  map (fun day => (day, cleanedLessons n (dayLessonsOf d day))) dayOrder.

(** A write of a batch: [batch.update(ref, updates)] or
    [batch.update(ref, newSettings)]. *)
Inductive BatchOp :=
  | UpdateDays (updates : list (Day * list Lesson))
  | UpdateSettings (p : SettingsPatch).

(** [updateDoc] with an object: later keys of the object override earlier ones. *)
Definition set_days (updates : list (Day * list Lesson)) (d : ScheduleDoc) : ScheduleDoc :=
  foldl (fun d' '(day, ls) => set_day day ls d') d updates.

Definition set_settings (p : SettingsPatch) (d : ScheduleDoc) : ScheduleDoc :=
  mkDoc (dayFields d)
    (match patch_timeSlots p with Some ts => Some ts | None => timeSlotsField d end)
    (match patch_lessonDuration p with Some n => Some n | None => lessonDurationField d end).

Definition applyOp (d : ScheduleDoc) (op : BatchOp) : ScheduleDoc :=
  match op with
  | UpdateDays u => set_days u d
  | UpdateSettings p => set_settings p d
  end.

(** [batch.commit()]: atomic; an update of a missing document fails it. *)
Definition commitBatch (ops : list BatchOp) : FS Store unit :=
  remote (fun s =>
    match s, ops with
    | _, [] => Some (tt, s)
    | Some d, _ => Some (tt, Some (foldl applyOp d ops))
    | None, _ :: _ => None
    end).

Definition updateSettings (userId : option string) (settings : ScheduleSettings)
    (newSettings : SettingsPatch) : FS Store (list Toast) :=
  if no_user userId then fs_ret [] else
  fs_catch
    (let* cleanup :=
       match patch_timeSlots newSettings with
       | Some newTimeSlots =>
           match removedSlotsIndices (timeSlots settings) newTimeSlots with
           | [] => fs_ret []
           | _ :: _ =>
               let* snap := getDoc in
               match snap with
               | Some d => fs_ret [UpdateDays (cleanupUpdates (length newTimeSlots) d)]
               | None => fs_ret []
               end
           end
       | None => fs_ret []
       end in
     let* _ := commitBatch (cleanup ++ [UpdateSettings newSettings]) in
     fs_ret [])
    (fun _ => fs_ret [toast_error]).

(** ** [setSchedule] (lines 196-214) *)

Definition setSchedule (userId : option string) (newSchedule : list (Day * list Lesson))
    : FS Store (list Toast) :=
  if no_user userId then fs_ret [] else
  fs_catch
    (let* _ := updateDoc (set_days newSchedule) in fs_ret [])
    (fun _ => fs_ret [toast_error]).

(** ** The page handlers of [ders-programi.tsx] (lines 143-205) *)

Definition toast_saved : Toast := mkToast "Ders Kaydedildi!" false.
Definition toast_cleared : Toast := mkToast "Ders Temizlendi!" true.
Definition toast_settings : Toast := mkToast "Ayarlar Güncellendi" false.

(** [handleLessonSave]: the success toast follows whatever [updateLesson] showed. *)
Definition handleLessonSave (userId : option string) (settings : ScheduleSettings)
    (now : string) (day : Day) (ld : LessonData) (slot : nat) : FS Store (list Toast) :=
  if no_user userId then fs_ret [] else
  let* ts := updateLesson userId settings now day (Some ld) slot in
  fs_ret (ts ++ [toast_saved]).

Definition handleClearLesson (userId : option string) (settings : ScheduleSettings)
    (now : string) (day : Day) (slot : nat) : FS Store (list Toast) :=
  if no_user userId then fs_ret [] else
  let* ts := updateLesson userId settings now day None slot in
  fs_ret (ts ++ [toast_cleared]).

(** [handleSettingsBlur('timeSlots', value)]: [value ?? localSettings.timeSlots],
    written only when its JSON differs from the stored settings. *)
Definition handleTimeSlotsBlur (userId : option string) (settings local : ScheduleSettings)
    (value : option (list string)) : FS Store (list Toast) :=
  if no_user userId then fs_ret [] else
  let v := default (timeSlots local) value in
  if decide (v = timeSlots settings) then fs_ret [] else
  let* ts := updateSettings userId settings (mkPatch (Some v) None) in
  fs_ret (ts ++ [toast_settings]).

(** [handleSettingsBlur('lessonDuration')] *)
Definition handleDurationBlur (userId : option string) (settings local : ScheduleSettings)
    : FS Store (list Toast) :=
  if no_user userId then fs_ret [] else
  let v := lessonDuration local in
  if decide (v = lessonDuration settings) then fs_ret [] else
  let* ts := updateSettings userId settings (mkPatch None (Some v)) in
  fs_ret (ts ++ [toast_settings]).

(** [timeSlots.filter((_, index) => index !== indexToRemove)] *)
Definition dropIndex {A} (k : nat) (l : list A) : list A :=
  snd <$> filter (fun p : nat * A => p.1 <> k) (imap pair l).

Definition handleRemoveTimeSlot (userId : option string) (settings local : ScheduleSettings)
    (indexToRemove : nat) : FS Store (list Toast) :=
  handleTimeSlotsBlur userId settings local (Some (dropIndex indexToRemove (timeSlots local))).

Definition handleAddNewTimeSlot (userId : option string) (settings local : ScheduleSettings)
    : FS Store (list Toast) :=
  handleTimeSlotsBlur userId settings local (Some (timeSlots local ++ ["16:00"])).

(** [getLessonForSlot] on the hook's [schedule] state. *)
Definition getLessonForSlot (schedule : list (Day * list Lesson)) (day : Day) (slot : nat)
    : option Lesson :=
  match list_find (fun p : Day * list Lesson => p.1 = day) schedule with
  | Some (_, (_, ls)) => snd <$> findSlot slot ls
  | None => None
  end.

(** ** Sample data for the witnesses *)

Definition sample_lesson (slot : nat) (t : string) : Lesson :=
  mkLesson ("L" +:+ nat_str slot) slot "Matematik" "5" "5-A" t None.

(** Monday has lessons in slots 1 and 2 of three. *)
Definition sample_doc : ScheduleDoc :=
  mkDoc (<[Pazartesi := [sample_lesson 1 "09:20"; sample_lesson 2 "10:10"]]> ∅)
    (Some ["08:30"; "09:20"; "10:10"]) (Some 40).

Definition sample_form : LessonData := mkLessonData "Fen" "6" "6-B" None None.

(** ** The document invariant of the spec (section 3) *)

(** At most one lesson per slot, and every slot below [n]. *)
Definition slots_ok (n : nat) (ls : list Lesson) : Prop :=
  NoDup (lessonSlot <$> ls) /\ Forall (fun l => lessonSlot l < n) ls.

Definition doc_wf (d : ScheduleDoc) : Prop :=
  forall day, slots_ok (length (timeSlots (loadSettings d))) (dayLessonsOf d day).

(** The invariant on the store, for the hook's current [timeSlots]. *)
Definition sched_inv (ts : list string) (s : Store) : Prop :=
  match s with
  | None => True
  | Some d => timeSlots (loadSettings d) = ts /\ doc_wf d
  end.

(** The invariant on the store, whatever the time slots. *)
Definition store_wf (s : Store) : Prop :=
  match s with None => True | Some d => doc_wf d end.

(** ** Lemmas *)

Lemma dayLessonsOf_set_day d day day' ls :
  dayLessonsOf (set_day day ls d) day' = if decide (day = day') then ls else dayLessonsOf d day'.
Proof.
  unfold dayLessonsOf, set_day; simpl.
  case_decide as Hd; [subst; by rewrite lookup_insert_eq|by rewrite lookup_insert_ne].
Qed.

Lemma loadSettings_set_day d day ls : loadSettings (set_day day ls d) = loadSettings d.
Proof. reflexivity. Qed.

Lemma doc_wf_set_day d day ls :
  doc_wf d -> slots_ok (length (timeSlots (loadSettings d))) ls -> doc_wf (set_day day ls d).
Proof.
  intros Hd Hls day'. rewrite loadSettings_set_day, dayLessonsOf_set_day.
  case_decide; [done|apply Hd].
Qed.

Lemma updatedLessons_ok n settings now day ld slot ls ls' :
  slot < n -> slots_ok n ls ->
  updatedLessons settings now day ld slot ls = Some ls' -> slots_ok n ls'.
Proof.
  intros Hslot [Hnd Hlt]. unfold updatedLessons.
  destruct ld as [ld|], (findSlot slot ls) as [[i x]|] eqn:Hf; intros; simplify_eq.
  - apply list_find_Some in Hf as (Hi & Hx & _). split.
    + by eapply NoDup_fmap_insert_same.
    + by apply Forall_insert.
  - apply list_find_None in Hf. split.
    + apply NoDup_fmap_snoc; [|done]. simpl.
      intros (y & Hy & Hyl)%list_elem_of_fmap. rewrite Forall_forall in Hf.
      by apply (Hf y).
    + apply Forall_app; split; [done|]. by apply Forall_singleton.
  - split; auto with fsdb.
Qed.

Lemma getDoc_triple (P : Store -> Prop) (Q : Store -> Store -> Prop) E :
  (forall s, P s -> E s) -> (forall s, P s -> Q s s) -> triple P getDoc Q E.
Proof. apply triple_read. Qed.

(** [updateLesson] keeps the schedule invariant (one lesson per slot, every
    slot below the number of time slots) under every fault schedule, when the
    slot it writes is one of the hook's time slots. *)
Lemma updateLesson_preserves_wf ts dur userId now day ld slot :
  slot < length ts ->
  Preserves (sched_inv ts) (updateLesson userId (mkSettings ts dur) now day ld slot).
Proof.
  intros Hslot. unfold updateLesson, Preserves.
  destruct (no_user userId); [by apply triple_ret|].
  eapply triple_catch; [|intros; by apply triple_ret].
  eapply triple_bind.
  { apply (getDoc_triple _ (fun a s => sched_inv ts s /\ a = s)); auto. }
  intros snap. simpl.
  destruct (updatedLessons _ _ _ _ _ _) as [ls|] eqn:E; [|apply triple_ret; tauto].
  apply (triple_bind _ (fun _ => sched_inv ts)); [|intros; by apply triple_ret].
  apply triple_remote; [tauto|]. intros s [Hs ->].
  destruct s as [d|]; [|done]. destruct Hs as [Hts Hwf]. split; [done|].
  apply doc_wf_set_day; [done|]. rewrite Hts.
  eapply updatedLessons_ok; [done| |exact E]. rewrite <- Hts. apply Hwf.
Qed.

Lemma slots_ok_mono n m ls : n <= m -> slots_ok n ls -> slots_ok m ls.
Proof.
  intros Hnm [Hnd Hlt]. split; [done|].
  eapply Forall_impl; [exact Hlt|]. simpl. lia.
Qed.

(** The indices [imap] hands out are [k, k+1, ...]. *)
Lemma imap_index {A B} (g : B -> nat) (f : nat -> A -> B) (k : nat) (l : list A) :
  (forall i x, g (f i x) = k + i) -> g <$> imap f l = seq k (length l).
Proof.
  revert f k. induction l as [|x l IH]; intros f k Hf; [done|].
  rewrite imap_cons. simpl. rewrite Hf, Nat.add_0_r. f_equal.
  apply IH. intros i y. simpl. rewrite Hf. lia.
Qed.

Lemma cleanedLessons_slots n ls :
  lessonSlot <$> cleanedLessons n ls = seq 0 (length (cleanedLessons n ls)).
Proof. unfold cleanedLessons. rewrite length_imap. by apply imap_index. Qed.

Lemma length_cleanedLessons n ls :
  length (cleanedLessons n ls) = length (filter (fun l => lessonSlot l < n) ls).
Proof. unfold cleanedLessons. apply length_imap. Qed.

(** At most [n] lessons have distinct slots below [n]. *)
Lemma length_cleanedLessons_le n ls :
  NoDup (lessonSlot <$> ls) -> length (cleanedLessons n ls) <= n.
Proof.
  intros Hnd. rewrite length_cleanedLessons, <- (length_fmap lessonSlot).
  apply NoDup_bounded_length; [by apply NoDup_fmap_filter|].
  apply Forall_fmap, Forall_forall. intros l Hl%list_elem_of_filter. apply Hl.
Qed.

(** The re-indexed lessons satisfy the invariant for the new slot count. *)
Lemma cleanedLessons_ok n ls :
  NoDup (lessonSlot <$> ls) -> slots_ok n (cleanedLessons n ls).
Proof.
  intros Hnd. unfold slots_ok. rewrite cleanedLessons_slots.
  split; [apply NoDup_seq_0|].
  apply (Forall_fmap lessonSlot (fun k => k < n)). rewrite cleanedLessons_slots.
  apply Forall_seq_lt, length_cleanedLessons_le, Hnd.
Qed.

Lemma loadSettings_set_days u d : loadSettings (set_days u d) = loadSettings d.
Proof.
  unfold set_days. revert d. induction u as [|[day ls] u IH]; intros d; [done|].
  simpl. by rewrite IH.
Qed.

(** Writing every day of [dayOrder] replaces every day's lessons. *)
Lemma dayLessonsOf_set_days_all (F : Day -> list Lesson) d day :
  dayLessonsOf (set_days (map (fun day' => (day', F day')) dayOrder) d) day = F day.
Proof. destruct day; unfold set_days; simpl; by rewrite !dayLessonsOf_set_day. Qed.

Lemma timeSlots_set_settings p d :
  timeSlots (loadSettings (set_settings p d)) =
  match patch_timeSlots p with Some ts => ts | None => timeSlots (loadSettings d) end.
Proof. by destruct p as [[ts|] ?]. Qed.

Lemma dayLessonsOf_set_settings p d day :
  dayLessonsOf (set_settings p d) day = dayLessonsOf d day.
Proof. reflexivity. Qed.

(** No slot counts as removed only if the new array is at least as long. *)
Lemma removedSlotsIndices_nil old new :
  removedSlotsIndices old new = [] -> length old <= length new.
Proof.
  intros H. destruct (decide (length old <= length new)) as [|Hlt]; [done|].
  assert (length new ∈ removedSlotsIndices old new) as Hin.
  { apply list_elem_of_filter. split.
    - unfold falsy_at. by rewrite lookup_ge_None_2.
    - apply list_elem_of_In, in_seq. lia. }
  rewrite H in Hin. set_solver.
Qed.

(** The batch of [updateSettings] keeps the invariant. *)
Lemma settings_batch_wf d p ops :
  doc_wf d ->
  (ops = [] /\ forall ts, patch_timeSlots p = Some ts ->
                  length (timeSlots (loadSettings d)) <= length ts) \/
  (exists ts, patch_timeSlots p = Some ts /\
     ops = [UpdateDays (cleanupUpdates (length ts) d)]) ->
  doc_wf (foldl applyOp d (ops ++ [UpdateSettings p])).
Proof.
  intros Hwf [[-> Hlen] | (ts & Hts & ->)] day; rewrite foldl_app; cbn [foldl applyOp].
  - rewrite timeSlots_set_settings, dayLessonsOf_set_settings.
    destruct (patch_timeSlots p) as [ts|] eqn:E; [|apply Hwf].
    eapply slots_ok_mono; [by apply Hlen|apply Hwf].
  - rewrite timeSlots_set_settings, Hts, dayLessonsOf_set_settings.
    unfold cleanupUpdates. rewrite dayLessonsOf_set_days_all.
    apply cleanedLessons_ok, Hwf.
Qed.

Lemma sched_inv_store_wf ts s : sched_inv ts s -> store_wf s.
Proof. destruct s; [intros []|]; done. Qed.

#[local] Hint Resolve sched_inv_store_wf : fsdb.

(** The commit of a batch that ends with a settings update. *)
Lemma commitBatch_triple (P : Store -> Prop) (Q : Store -> Prop) ops p :
  (forall s, P s -> Q s) ->
  (forall d, P (Some d) -> Q (Some (foldl applyOp d (ops ++ [UpdateSettings p])))) ->
  triple P (commitBatch (ops ++ [UpdateSettings p])) (fun _ => Q) Q.
Proof.
  intros HE HQ. apply triple_remote; [done|]. intros s Hs.
  destruct (ops ++ [UpdateSettings p]) as [|o os] eqn:E; [by destruct ops|].
  destruct s as [d|]; [by apply HQ|by apply HE].
Qed.

(** [updateSettings] keeps the schedule invariant under every fault
    schedule: after a successful write every day's lessons have distinct
    slots below the new number of time slots, and a failed one changes
    nothing that breaks it. *)
Lemma updateSettings_preserves_wf ts dur userId p :
  triple (sched_inv ts) (updateSettings userId (mkSettings ts dur) p)
    (fun _ => store_wf) store_wf.
Proof.
  unfold updateSettings.
  destruct (no_user userId); [apply triple_ret; eauto with fsdb|].
  apply (triple_catch _ _ store_wf); [|intros; apply triple_ret; auto].
  apply (triple_bind _ (fun ops s => sched_inv ts s /\
           forall d, s = Some d -> doc_wf (foldl applyOp d (ops ++ [UpdateSettings p])))).
  - destruct (patch_timeSlots p) as [nts|] eqn:Hp; simpl;
      [destruct (removedSlotsIndices ts nts) eqn:Hr|].
    + apply triple_ret. intros s Hs. split; [done|]. intros d ->.
      apply settings_batch_wf; [apply Hs|]. left. split; [done|].
      intros ts' E. rewrite Hp in E. injection E as <-.
      rewrite (proj1 Hs). by apply removedSlotsIndices_nil.
    + eapply triple_bind.
      { apply (getDoc_triple _ (fun a s => sched_inv ts s /\ a = s)); eauto with fsdb. }
      intros snap. destruct snap as [d|]; apply triple_ret; intros s [Hs Es]; subst s;
        (split; [done|]); intros d' Ed; [|done]. injection Ed as <-.
      apply settings_batch_wf; [apply Hs|]. right. by exists nts.
    + apply triple_ret. intros s Hs. split; [done|]. intros d ->.
      apply settings_batch_wf; [apply Hs|]. left. rewrite Hp. split; [done|]. done.
  - intros ops. apply (triple_bind _ (fun _ => store_wf)); [|intros; by apply triple_ret].
    apply commitBatch_triple.
    + intros s [Hs _]. eauto with fsdb.
    + intros d [_ Hd]. by apply Hd.
Qed.

(** C2 *)
(** Both writes of the schedule keep its invariant (one lesson per slot,
    every slot below the number of time slots) under every fault schedule:
    [updateLesson] on a slot of the hook's time slots, and [updateSettings]
    with any patch, whose clean-up batch re-indexes the lessons to the new
    slots; a failed request changes nothing that breaks it. *)
Theorem schedule_writes_preserve_wf ts dur userId :
  (forall now day ld slot, slot < length ts ->
     Preserves (sched_inv ts) (updateLesson userId (mkSettings ts dur) now day ld slot)) /\
  (forall p, triple (sched_inv ts) (updateSettings userId (mkSettings ts dur) p)
               (fun _ => store_wf) store_wf).
Proof.
  split; intros; [by apply updateLesson_preserves_wf|apply updateSettings_preserves_wf].
Qed.

(** *** [updateSettings] on the fault-free path *)

Lemma updateSettings_run_cleanup userId settings p nts d :
  no_user userId = false -> patch_timeSlots p = Some nts ->
  removedSlotsIndices (timeSlots settings) nts <> [] ->
  updateSettings userId settings p [] (Some d) =
    (Ok [], [], Some (set_settings p (set_days (cleanupUpdates (length nts) d) d))).
Proof.
  intros Hu Hp Hr. unfold updateSettings. rewrite Hu, Hp.
  by destruct (removedSlotsIndices _ _).
Qed.

Lemma dayLessonsOf_cleanup n d d0 day :
  dayLessonsOf (set_days (cleanupUpdates n d0) d) day = cleanedLessons n (dayLessonsOf d0 day).
Proof. apply dayLessonsOf_set_days_all. Qed.

Lemma cleanedLessons_ids n ls :
  lesson_id <$> cleanedLessons n ls = lesson_id <$> filter (fun l => lessonSlot l < n) ls.
Proof. by apply fmap_imap_same. Qed.

(** C1 *)
(** When [updateSettings] is given time slots that leave a former slot
    without a label, the fault-free run writes the new slots and, on every
    day, keeps exactly the lessons whose slot is below the new slot count,
    in their order, re-indexed [0 .. k-1]; with distinct slots before, the
    result again has distinct slots below the new count. *)
Theorem updateSettings_removal_reindexes userId settings p nts d :
  no_user userId = false -> patch_timeSlots p = Some nts ->
  removedSlotsIndices (timeSlots settings) nts <> [] ->
  exists d', fs_run (updateSettings userId settings p) (Some d) = (Ok [], Some d') /\
    timeSlots (loadSettings d') = nts /\
    forall day,
      lessonSlot <$> dayLessonsOf d' day = seq 0 (length (dayLessonsOf d' day)) /\
      lesson_id <$> dayLessonsOf d' day =
        lesson_id <$> filter (fun l => lessonSlot l < length nts) (dayLessonsOf d day) /\
      (NoDup (lessonSlot <$> dayLessonsOf d day) -> slots_ok (length nts) (dayLessonsOf d' day)).
Proof.
  intros Hu Hp Hr. eexists. unfold fs_run.
  rewrite (updateSettings_run_cleanup _ _ _ nts) by done. split; [done|].
  rewrite timeSlots_set_settings, Hp. split; [done|]. intros day.
  rewrite dayLessonsOf_set_settings, dayLessonsOf_cleanup.
  split_and!; [apply cleanedLessons_slots|apply cleanedLessons_ids|apply cleanedLessons_ok].
Qed.

(** *** Removing a time slot from the page *)

Lemma dropIndex_spec {A} (i : nat) (l : list A) : dropIndex i l = take i l ++ drop (S i) l.
Proof.
  unfold dropIndex. rewrite (imap_ext pair (fun j x => (0 + j, x))) by done.
  rewrite filter_index_ne. case_decide; [lia|]. by rewrite Nat.sub_0_r.
Qed.

Lemma length_dropIndex {A} (i : nat) (l : list A) :
  i < length l -> length (dropIndex i l) = length l - 1.
Proof. intros. rewrite dropIndex_spec, length_app, length_take, length_drop. lia. Qed.

(** Dropping a label leaves the last former index without one. *)
Lemma removedSlotsIndices_dropIndex ts i :
  i < length ts -> removedSlotsIndices ts (dropIndex i ts) <> [].
Proof.
  intros Hi Hnil. assert (length ts - 1 ∈ removedSlotsIndices ts (dropIndex i ts)) as Hin.
  { apply list_elem_of_filter. split.
    - unfold falsy_at. rewrite lookup_ge_None_2; [done|]. rewrite length_dropIndex; lia.
    - apply list_elem_of_In, in_seq. lia. }
  rewrite Hnil in Hin. set_solver.
Qed.

(** C4 *)
(** Removing the time slot [i] from the page ([handleRemoveTimeSlot]) drops
    the label [i], but the lesson clean-up it triggers does not depend on
    [i]: on every day the lessons kept are those of the first [n-1] slots,
    re-indexed in array order.  Removing a slot other than the last one
    therefore deletes the lessons of the last slot and keeps those of the
    removed slot. *)
Theorem removeTimeSlot_ignores_index userId d i :
  no_user userId = false -> i < length (timeSlots (loadSettings d)) ->
  exists d',
    fs_run (handleRemoveTimeSlot userId (loadSettings d) (loadSettings d) i) (Some d)
      = (Ok [toast_settings], Some d') /\
    timeSlots (loadSettings d') = dropIndex i (timeSlots (loadSettings d)) /\
    forall day, dayLessonsOf d' day =
      cleanedLessons (length (timeSlots (loadSettings d)) - 1) (dayLessonsOf d day).
Proof.
  intros Hu Hi. remember (loadSettings d) as st eqn:Hst.
  unfold handleRemoveTimeSlot, handleTimeSlotsBlur. rewrite Hu. cbn [default from_option id].
  rewrite decide_False.
  2:{ intros E. apply (f_equal length) in E. rewrite length_dropIndex in E; lia. }
  eexists. unfold fs_run.
  erewrite bind_ok by (apply (updateSettings_run_cleanup _ _ _ (dropIndex i (timeSlots st)));
                       [done|done|];
                       by apply removedSlotsIndices_dropIndex).
  split; [done|]. split; [done|]. intros day.
  rewrite dayLessonsOf_set_settings, dayLessonsOf_cleanup, length_dropIndex by done. done.
Qed.

(** *** [updateLesson] on the fault-free path *)

Lemma updateLesson_run userId settings now day ld slot d :
  no_user userId = false ->
  updateLesson userId settings now day ld slot [] (Some d) =
    (Ok [], [], Some (match updatedLessons settings now day ld slot (dayLessonsOf d day) with
                      | Some ls => set_day day ls d | None => d end)).
Proof.
  intros Hu. unfold updateLesson. rewrite Hu.
  unfold fs_catch at 1. unfold fs_bind at 1. unfold getDoc at 1. unfold remote at 1.
  cbn iota beta. by destruct (updatedLessons _ _ _ _ _ _).
Qed.

(** [getLessonForSlot] on the listener's view of a document. *)
Lemma getLessonForSlot_load d day slot :
  getLessonForSlot (loadSchedule d) day slot = snd <$> findSlot slot (dayLessonsOf d day).
Proof. by destruct day. Qed.

Lemma findSlot_update_same settings now day ld slot ls ls' :
  updatedLessons settings now day (Some ld) slot ls = Some ls' ->
  snd <$> findSlot slot ls' =
    Some (match findSlot slot ls with
          | Some (_, old) => mergeLesson old ld slot (nth_str_or (timeSlots settings) slot "")
          | None => newLesson day slot now (nth_str_or (timeSlots settings) slot "") ld
          end).
Proof.
  unfold updatedLessons. destruct (findSlot slot ls) as [[i x]|] eqn:Hf; intros [= <-];
    unfold findSlot in *.
  - by erewrite list_find_insert_found.
  - by rewrite list_find_snoc_new.
Qed.

Lemma findSlot_update_other settings now day ld slot slot' ls ls' :
  slot' <> slot -> updatedLessons settings now day ld slot ls = Some ls' ->
  snd <$> findSlot slot' ls' = snd <$> findSlot slot' ls.
Proof.
  intros Hne. unfold updatedLessons.
  destruct ld as [ld|], (findSlot slot ls) as [[i x]|] eqn:Hf; intros [= <-];
    unfold findSlot in *.
  - apply list_find_Some in Hf as (Hi & Hx & _).
    erewrite list_find_insert_neither; [done|exact Hi|simpl; lia|simpl; lia].
  - rewrite list_find_snoc_not; [done|simpl; lia].
  - apply list_find_filter_weaker. intros l Hl. lia.
Qed.

Lemma findSlot_clear settings now day slot ls ls' :
  updatedLessons settings now day None slot ls = Some ls' -> findSlot slot ls' = None.
Proof.
  unfold updatedLessons. destruct (findSlot slot ls); intros [= <-].
  apply list_find_filter_not.
Qed.

(** Saving a lesson ([updateLesson] with form data) on an existing document:
    afterwards the lesson at [(day, slot)] is the old one merged with the
    form data (same id, the slot's time label), or, if the slot was empty, a
    new lesson with a generated id whose time is the form's time when it
    sends one and the slot's label otherwise. *)
Lemma updateLesson_save_lookup userId settings now day ld slot d :
  no_user userId = false ->
  exists d',
    fs_run (updateLesson userId settings now day (Some ld) slot) (Some d) = (Ok [], Some d') /\
    getLessonForSlot (loadSchedule d') day slot =
      Some (match getLessonForSlot (loadSchedule d) day slot with
            | Some old => mergeLesson old ld slot (nth_str_or (timeSlots settings) slot "")
            | None => newLesson day slot now (nth_str_or (timeSlots settings) slot "") ld
            end).
Proof.
  intros Hu. unfold fs_run. rewrite updateLesson_run by done.
  destruct (updatedLessons _ _ _ _ _ _) as [ls|] eqn:E.
  2:{ unfold updatedLessons in E. by destruct (findSlot _ _) as [[]|]. }
  eexists. split; [done|].
  rewrite !getLessonForSlot_load, dayLessonsOf_set_day, decide_True by done.
  rewrite (findSlot_update_same _ _ _ _ _ _ _ E). by destruct (findSlot _ _) as [[]|].
Qed.

(** Clearing a slot ([updateLesson] with [null]) on an existing document
    leaves no lesson at [(day, slot)]; when the slot was already empty the
    document is not written. *)
Lemma updateLesson_clear_lookup userId settings now day slot d :
  no_user userId = false ->
  exists d',
    fs_run (updateLesson userId settings now day None slot) (Some d) = (Ok [], Some d') /\
    getLessonForSlot (loadSchedule d') day slot = None /\
    (getLessonForSlot (loadSchedule d) day slot = None -> d' = d).
Proof.
  intros Hu. unfold fs_run. rewrite updateLesson_run by done.
  eexists. split; [done|]. rewrite !getLessonForSlot_load.
  destruct (updatedLessons _ _ _ _ _ _) as [ls|] eqn:E.
  - rewrite dayLessonsOf_set_day, decide_True by done.
    rewrite (findSlot_clear _ _ _ _ _ _ E). split; [done|].
    unfold updatedLessons in E. by destruct (findSlot _ _).
  - unfold updatedLessons in E. by destruct (findSlot _ _).
Qed.

(** [updateLesson] changes nothing but the lesson at its own [(day, slot)]:
    every other day and slot reads the same lesson as before, and the
    settings are untouched. *)
Lemma updateLesson_frame userId settings now day ld slot d day' slot' :
  no_user userId = false -> (day', slot') <> (day, slot) ->
  exists d',
    fs_run (updateLesson userId settings now day ld slot) (Some d) = (Ok [], Some d') /\
    getLessonForSlot (loadSchedule d') day' slot' = getLessonForSlot (loadSchedule d) day' slot' /\
    loadSettings d' = loadSettings d.
Proof.
  intros Hu Hne. unfold fs_run. rewrite updateLesson_run by done.
  eexists. split; [done|]. rewrite !getLessonForSlot_load.
  destruct (updatedLessons _ _ _ _ _ _) as [ls|] eqn:E; [|done].
  rewrite dayLessonsOf_set_day, loadSettings_set_day. split; [|done].
  case_decide as Hd; [subst day'|done].
  assert (slot' <> slot) as Hs by (intros ->; by apply Hne).
  exact (findSlot_update_other _ _ _ _ _ _ _ _ Hs E).
Qed.

(** C5 *)
(** Saving or clearing the lesson at [(day, slot)] ([updateLesson] with
    form data or [null]) on an existing document reads back what was asked:
    with form data, the old lesson merged with it (same id, the slot's time
    label) or, in an empty slot, a new lesson with a generated id; with
    [null], no lesson, and an already empty slot is not written.  Nothing
    else changes: every other day and slot reads the same lesson as
    before, and the settings are untouched. *)
Theorem updateLesson_lookup userId settings now day ld slot d :
  no_user userId = false ->
  exists d',
    fs_run (updateLesson userId settings now day ld slot) (Some d) = (Ok [], Some d') /\
    getLessonForSlot (loadSchedule d') day slot =
      ((fun ld => match getLessonForSlot (loadSchedule d) day slot with
                 | Some old => mergeLesson old ld slot (nth_str_or (timeSlots settings) slot "")
                 | None => newLesson day slot now (nth_str_or (timeSlots settings) slot "") ld
                 end) <$> ld) /\
    (ld = None -> getLessonForSlot (loadSchedule d) day slot = None -> d' = d) /\
    (forall day' slot', (day', slot') <> (day, slot) ->
       getLessonForSlot (loadSchedule d') day' slot' = getLessonForSlot (loadSchedule d) day' slot') /\
    loadSettings d' = loadSettings d.
Proof.
  intros Hu.
  assert (Hrest : forall d', fs_run (updateLesson userId settings now day ld slot) (Some d) = (Ok [], Some d') ->
    (forall day' slot', (day', slot') <> (day, slot) ->
       getLessonForSlot (loadSchedule d') day' slot' = getLessonForSlot (loadSchedule d) day' slot') /\
    loadSettings d' = loadSettings d).
  { intros d' Hrun. split.
    - intros day' slot' Hne.
      destruct (updateLesson_frame userId settings now day ld slot d day' slot' Hu Hne) as (d'' & Hrun' & Hf & _).
      rewrite Hrun in Hrun'. injection Hrun' as <-. exact Hf.
    - destruct (updateLesson_frame userId settings now day ld slot d day (S slot) Hu) as (d'' & Hrun' & _ & Hs);
        [intros [=]; lia|].
      rewrite Hrun in Hrun'. injection Hrun' as <-. exact Hs. }
  destruct ld as [ld|].
  - destruct (updateLesson_save_lookup userId settings now day ld slot d Hu) as (d' & Hrun & Hget).
    exists d'. split_and!; [exact Hrun|exact Hget|discriminate|apply (Hrest d' Hrun)..].
  - destruct (updateLesson_clear_lookup userId settings now day slot d Hu) as (d' & Hrun & Hget & Hsame).
    exists d'. split_and!; [exact Hrun|exact Hget| |apply (Hrest d' Hrun)..]. intros _. exact Hsame.
Qed.



(** *** Failures *)

(** Under every fault schedule, [updateSettings] either completes without a
    toast, or shows exactly the destructive error toast and leaves the
    schedule document as it was: the clean-up and the settings are written
    in one atomic batch, and the read before it changes nothing. *)
Lemma updateSettings_failure_atomic userId settings p fl s :
  exists ts, fs_out (updateSettings userId settings p fl s) = Ok ts /\
    (ts = [] \/ (ts = [toast_error] /\ fs_state (updateSettings userId settings p fl s) = s)).
Proof.
  apply (triple_run (fun s' => s' = s) _
           (fun ts s' => ts = [] \/ (ts = [toast_error] /\ s' = s))); [|done].
  unfold updateSettings. destruct (no_user userId); [apply triple_ret; by left|].
  apply triple_catch_restore.
  apply (triple_bind _ (fun _ s' => s' = s)).
  - destruct (patch_timeSlots p) as [nts|]; [|by apply triple_ret].
    destruct (removedSlotsIndices _ _); [by apply triple_ret|].
    eapply triple_bind; [apply (getDoc_triple _ (fun _ s' => s' = s)); done|].
    intros [d|]; by apply triple_ret.
  - intros ops. apply (triple_bind _ (fun _ _ => True)); [apply triple_remote_keep|].
    intros _. by apply triple_ret.
Qed.

(** Under every fault schedule, [updateLesson] either completes without a
    toast, or shows exactly the destructive error toast and leaves the
    schedule document as it was (in particular on a missing document). *)
Lemma updateLesson_failure_atomic userId settings now day ld slot fl s :
  exists ts, fs_out (updateLesson userId settings now day ld slot fl s) = Ok ts /\
    (ts = [] \/ (ts = [toast_error] /\
                 fs_state (updateLesson userId settings now day ld slot fl s) = s)).
Proof.
  apply (triple_run (fun s' => s' = s) _
           (fun ts s' => ts = [] \/ (ts = [toast_error] /\ s' = s))); [|done].
  unfold updateLesson. destruct (no_user userId); [apply triple_ret; by left|].
  apply triple_catch_restore.
  eapply triple_bind; [apply (getDoc_triple _ (fun _ s' => s' = s)); done|].
  intros snap. destruct (updatedLessons _ _ _ _ _ _); [|by apply triple_ret].
  apply (triple_bind _ (fun _ _ => True)); [apply triple_remote_keep|].
  intros _. by apply triple_ret.
Qed.

(** C8 *)
(** Under every fault schedule, both writes of the schedule page are
    atomic: [updateSettings] and [updateLesson] either complete without a
    toast, or show exactly the destructive error toast and leave the
    schedule document as it was (the clean-up and the settings are one
    batch, the reads before a write change nothing, and a missing document
    is left missing). *)
Theorem schedule_writes_failure_atomic :
  (forall userId settings p fl s,
     exists ts, fs_out (updateSettings userId settings p fl s) = Ok ts /\
       (ts = [] \/ (ts = [toast_error] /\ fs_state (updateSettings userId settings p fl s) = s))) /\
  (forall userId settings now day ld slot fl s,
     exists ts, fs_out (updateLesson userId settings now day ld slot fl s) = Ok ts /\
       (ts = [] \/ (ts = [toast_error] /\
                    fs_state (updateLesson userId settings now day ld slot fl s) = s))).
Proof. split; intros; [apply updateSettings_failure_atomic|apply updateLesson_failure_atomic]. Qed.

(** ** Witnesses *)

Lemma updateSettings_removal_reindexes_witness :
  exists d', fs_run (updateSettings (Some "t1") (loadSettings sample_doc)
                      (mkPatch (Some ["08:30"]) None)) (Some sample_doc) = (Ok [], Some d') /\
    timeSlots (loadSettings d') = ["08:30"] /\
    forall day,
      lessonSlot <$> dayLessonsOf d' day = seq 0 (length (dayLessonsOf d' day)) /\
      lesson_id <$> dayLessonsOf d' day =
        lesson_id <$> filter (fun l => lessonSlot l < length ["08:30"]) (dayLessonsOf sample_doc day) /\
      (NoDup (lessonSlot <$> dayLessonsOf sample_doc day) ->
         slots_ok (length ["08:30"]) (dayLessonsOf d' day)).
Proof.
  apply updateSettings_removal_reindexes; [reflexivity|reflexivity|by vm_compute].
Defined.

Lemma schedule_writes_preserve_wf_witness :
  0 < length ["08:30"; "09:20"; "10:10"] /\
  Preserves (sched_inv ["08:30"; "09:20"; "10:10"])
    (updateLesson (Some "t1") (mkSettings ["08:30"; "09:20"; "10:10"] 40) "1700000000000"
       Pazartesi (Some sample_form) 0).
Proof.
  split; [simpl; lia|]. apply (schedule_writes_preserve_wf ["08:30"; "09:20"; "10:10"] 40 (Some "t1")).
  simpl. lia.
Defined.

(** Removing slot 1 keeps the Monday lesson of slot 1 (now in slot 0) and
    deletes the lesson of slot 2. *)
Lemma removeTimeSlot_ignores_index_witness :
  exists d',
    fs_run (handleRemoveTimeSlot (Some "t1") (loadSettings sample_doc) (loadSettings sample_doc) 1)
      (Some sample_doc) = (Ok [toast_settings], Some d') /\
    dayLessonsOf d' Pazartesi = [with_slot (sample_lesson 1 "09:20") 0].
Proof.
  destruct (removeTimeSlot_ignores_index (Some "t1") sample_doc 1) as (d' & Hrun & _ & Hdays);
    [reflexivity|simpl; lia|].
  exists d'. split; [exact Hrun|]. rewrite Hdays. reflexivity.
Defined.

Lemma updateLesson_lookup_witness :
  exists d',
    fs_run (updateLesson (Some "t1") (loadSettings sample_doc) "1700000000000" Pazartesi
              (Some sample_form) 0) (Some sample_doc) = (Ok [], Some d') /\
    getLessonForSlot (loadSchedule d') Pazartesi 0 =
      Some (newLesson Pazartesi 0 "1700000000000" "08:30" sample_form).
Proof.
  destruct (updateLesson_lookup (Some "t1") (loadSettings sample_doc) "1700000000000"
              Pazartesi (Some sample_form) 0 sample_doc) as (d' & Hrun & Hget & _); [reflexivity|].
  exists d'. split; [exact Hrun|]. rewrite Hget. reflexivity.
Defined.

End Schedule.
