(* ===== verification/Survey.v ===== *)
(** * SurveyScorer: scoring, ranking and the completion gate of the surveys

    The three survey pages under [src/src/app/anket/] share one scoring
    procedure, written out in each page's [calculateResults]: an object of
    per-category scores initialised to 0 in the declaration order of the
    categories, a pass over [Object.entries(answers)] adding each answer to
    the category of its question, then either a descending [sort] of the
    entries (Holland, multiple intelligences) or a [reduce] that picks the
    dominant category (learning styles).  The question bank of a page is the
    interface [SurveyBank]; the generic procedure is proved once in the
    section [scoring] against that interface, and [SurveyPages.v] gives the
    three banks as instances. *)

From S2P Require Import Prelude.
From Stdlib Require Import Sorting.Permutation Sorting.Sorted QArith.
Local Close Scope Q_scope.

(** What a page declares: the category keys in declaration order
    ([Object.keys(types)]), the ordered questions with their category, and
    the answer scale ([answerOptions]). *)
Class SurveyBank (C : Type) := {
  categories : list C;
  questions : list (string * C);
  answerOptions : list (string * nat)
}.

Module Survey.

(** The page's [answers] state, [{ [questionIndex]: value }]. *)
Abbreviation Answers := (gmap nat nat).

Section ranking.
Context {A : Type} (score : A -> nat).

(** [.sort((a, b) => b.score - a.score)]: [Array.prototype.sort] is stable,
    so the result is the stable descending sort, computed here by insertion:
    an entry goes before the first one whose score is not larger. *)
Fixpoint insertDesc (x : A) (l : list A) : list A :=
  match l with
  | [] => [x]
  | y :: l' => if decide (score y <= score x) then x :: y :: l' else y :: insertDesc x l'
  end.

Fixpoint rankDesc (l : list A) : list A :=
  match l with
  | [] => []
  | x :: l' => insertDesc x (rankDesc l')
  end.

(** The order of the ranking: [b.score - a.score <= 0]. *)
Definition desc (x y : A) : Prop := score y <= score x.

(** The entries of score [s], in order. *)
Definition with_score (s : nat) (l : list A) : list A :=
  filter (fun p => score p = s) l.

End ranking.

Section scoring.
Context {C : Type} `{!EqDecision C} `{!SurveyBank C}.

(** [setAnswers(prev => ({ ...prev, [questionIndex]: parseInt(value) }))] *)
Definition handleAnswerChange (questionIndex value : nat) (answers : Answers) : Answers :=
  <[questionIndex := value]> answers.

(** [Object.keys(types).reduce((acc, key) => ({ ...acc, [key]: 0 }), {})] *)
Definition initialScores : list (C * nat) := (fun c => (c, 0)) <$> categories.

(** [scores[c] += v] on the entries of [scores]. *)
Definition addScore (c : C) (v : nat) (scores : list (C * nat)) : list (C * nat) :=
  (fun p : C * nat => if decide (p.1 = c) then (p.1, p.2 + v) else p) <$> scores.

(** One step of [Object.entries(answers).forEach]: the question is looked up
    by index, and an answer to no question is skipped ([if (question)]). *)
Definition scoreAnswer (scores : list (C * nat)) (e : nat * nat) : list (C * nat) :=
  match questions !! e.1 with
  | Some (_, c) => addScore c e.2 scores
  | None => scores
  end.

Definition calculateScores (answers : Answers) : list (C * nat) :=
  foldl scoreAnswer initialScores (map_to_list answers).

(** [scores[key]] *)
Definition scoreOf (scores : list (C * nat)) (c : C) : nat :=
  match list_find (fun p : C * nat => p.1 = c) scores with
  | Some (_, (_, s)) => s
  | None => 0
  end.

(** [Object.keys(scores).reduce((a, b) => scores[a] > scores[b] ? a : b)];
    [reduce] without an initial value throws on an empty array. *)
Definition dominantStyle (scores : list (C * nat)) : option C :=
  match fst <$> scores with
  | [] => None
  | k :: ks => Some (foldl (fun a b => if decide (scoreOf scores b < scoreOf scores a)
                                       then a else b) k ks)
  end.

(** [Object.keys(answers).length] *)
Definition answeredCount (answers : Answers) : nat := size answers.

(** [(answeredCount / questions.length) * 100], the value of the page's
    [Progress] bar. *)
Definition progress (answers : Answers) : Q :=
  (inject_Z (Z.of_nat (answeredCount answers)) / inject_Z (Z.of_nat (length questions)) * 100)%Q.

(** [disabled={answeredCount < questions.length || isSaving}] *)
Definition canSubmit (answers : Answers) (isSaving : bool) : bool :=
  negb (bool_decide (size answers < length questions)) && negb isSaving.

(** ** The survey page as a state machine *)

Record PageState := mkPage {
  page_answers : Answers;
  page_isSurveyComplete : bool;
  page_results : list (C * nat)
}.

Definition initialPage : PageState := mkPage ∅ false [].

(** The events the page reacts to: a radio button of question [i] (rendered
    by [questions.map((q, index) => ...)]) set to one of [answerOptions],
    a submission that computed [results] and saved them, and [resetSurvey]. *)
Inductive page_step : PageState -> PageState -> Prop :=
  | step_answer st i v :
      i < length questions -> v ∈ snd <$> answerOptions ->
      page_step st (mkPage (handleAnswerChange i v (page_answers st))
                      (page_isSurveyComplete st) (page_results st))
  | step_complete st :
      canSubmit (page_answers st) false = true ->
      page_step st (mkPage (page_answers st) true (rankDesc snd (calculateScores (page_answers st))))
  | step_reset st :
      page_step st initialPage.

Inductive reachable : PageState -> Prop :=
  | reach_init : reachable initialPage
  | reach_step st st' : reachable st -> page_step st st' -> reachable st'.

(** ** Properties used by the theorems *)

(** Every question's category is a declared category, declared once. *)
Definition bank_wf : Prop :=
  NoDup categories /\ Forall (fun q : string * C => q.2 ∈ categories) questions.

(** Every answer is to a question of the page and on its scale. *)
Definition answers_ok (answers : Answers) : Prop :=
  map_Forall (fun i v => i < length questions /\ v ∈ snd <$> answerOptions) answers.

(** An answer counts when it is the answer to a question. *)
Definition countedValue (e : nat * nat) : nat :=
  if bool_decide (e.1 < length questions) then e.2 else 0.

(** The sum of the answers that count. *)
Definition answerTotal (answers : Answers) : nat :=
  sum_list (countedValue <$> map_to_list answers).

Definition scoreTotal (scores : list (C * nat)) : nat := sum_list (snd <$> scores).

(** What the answer [e] adds to the score of [c]. *)
Definition contribution (c : C) (e : nat * nat) : nat :=
  match questions !! e.1 with
  | Some (_, c') => if decide (c' = c) then e.2 else 0
  | None => 0
  end.

(** The reference score of [c], independent of the order in which the
    answers are visited: over the questions in page order, the answer to
    each question of category [c], [0] for a question not answered. *)
Definition questionValue (answers : Answers) (c : C) (i : nat) : nat :=
  match questions !! i, answers !! i with
  | Some (_, c'), Some v => if decide (c' = c) then v else 0
  | _, _ => 0
  end.

Definition refScore (answers : Answers) (c : C) : nat :=
  sum_list_with (questionValue answers c) (seq 0 (length questions)).

End scoring.

Section ranking_facts.
Context {A : Type} (score : A -> nat).

(** *** The ranking *)

Lemma insertDesc_perm x (l : list A) : Permutation (insertDesc score x l) (x :: l).
Proof.
  induction l as [|y l IH]; simpl; [done|]. case_decide; [done|].
  rewrite IH. apply perm_swap.
Qed.

Lemma rankDesc_perm (l : list A) : Permutation (rankDesc score l) l.
Proof. induction l as [|x l IH]; simpl; [done|]. by rewrite insertDesc_perm, IH. Qed.

Lemma insertDesc_sorted x (l : list A) :
  StronglySorted (desc score) l -> StronglySorted (desc score) (insertDesc score x l).
Proof.
  induction l as [|y l IH]; intros Hs; simpl; [repeat constructor|].
  apply StronglySorted_inv in Hs as [Hl Hy].
  case_decide as Hxy.
  - constructor; [by constructor|]. constructor; [exact Hxy|].
    eapply Forall_impl; [exact Hy|]. unfold desc. intros z Hz. lia.
  - constructor; [by apply IH|]. apply Forall_forall. intros z Hz.
    apply list_elem_of_In, (Permutation_in _ (insertDesc_perm x l)) in Hz as [<-|Hz].
    + unfold desc. lia.
    + rewrite Forall_forall in Hy. by apply Hy, list_elem_of_In.
Qed.

Lemma rankDesc_sorted (l : list A) : StronglySorted (desc score) (rankDesc score l).
Proof. induction l; simpl; [constructor|by apply insertDesc_sorted]. Qed.

Lemma with_score_cons s x (l : list A) :
  with_score score s (x :: l) =
  if decide (score x = s) then x :: with_score score s l else with_score score s l.
Proof. reflexivity. Qed.

Lemma insertDesc_with_score s x (l : list A) :
  with_score score s (insertDesc score x l) = with_score score s (x :: l).
Proof.
  induction l as [|y l IH]; [done|]. simpl insertDesc. case_decide as Hxy; [done|].
  rewrite !with_score_cons, IH, with_score_cons.
  do 2 case_decide; try lia; done.
Qed.

Lemma rankDesc_with_score s (l : list A) :
  with_score score s (rankDesc score l) = with_score score s l.
Proof.
  induction l as [|x l IH]; [done|]. simpl.
  by rewrite insertDesc_with_score, !with_score_cons, IH.
Qed.

(** Two lists sorted by decreasing score that have the same entries of
    every score, in the same order, are equal. *)
Lemma sorted_with_score_eq (a b : list A) :
  StronglySorted (desc score) a -> StronglySorted (desc score) b ->
  (forall s, with_score score s a = with_score score s b) -> a = b.
Proof.
  revert b. induction a as [|x a IH]; intros [|y b] Ha Hb Hs; [done| | |].
  - specialize (Hs (score y)). rewrite with_score_cons, decide_True in Hs by done. done.
  - specialize (Hs (score x)). rewrite with_score_cons, decide_True in Hs by done. done.
  - apply StronglySorted_inv in Ha as [Ha Hxa], Hb as [Hb Hyb].
    assert (forall z (l : list A), z ∈ with_score score (score z) l -> z ∈ l) as Hin.
    { intros z l Hz%list_elem_of_filter. apply Hz. }
    assert ((score x) = (score y)) as Exy.
    { destruct (decide ((score x) < (score y))) as [Hlt|Hge].
      - assert (y ∈ x :: a) as [->|Hy]%elem_of_cons; [|lia|].
        { apply Hin. rewrite Hs, with_score_cons, decide_True by done. left. }
        rewrite Forall_forall in Hxa. specialize (Hxa y Hy). unfold desc in Hxa. lia.
      - destruct (decide ((score y) < (score x))) as [Hlt|]; [|lia].
        assert (x ∈ y :: b) as [->|Hx]%elem_of_cons; [|lia|].
        { apply Hin. rewrite <- Hs, with_score_cons, decide_True by done. left. }
        rewrite Forall_forall in Hyb. specialize (Hyb x Hx). unfold desc in Hyb. lia. }
    assert (x = y) as <-.
    { specialize (Hs (score x)).
      rewrite !with_score_cons, !decide_True in Hs by done. congruence. }
    f_equal. apply IH; [done|done|]. intros s. specialize (Hs s).
    rewrite !with_score_cons in Hs. case_decide; [congruence|done].
Qed.

(** The ranking is a permutation of the score entries, in decreasing order
    of score. *)
Lemma rankDesc_sorted_perm (l : list A) :
  Permutation (rankDesc score l) l /\ Sorted (desc score) (rankDesc score l).
Proof. split; [apply rankDesc_perm|apply StronglySorted_Sorted, rankDesc_sorted]. Qed.

(** The ranking is stable: the entries of any one score appear in the same
    order as in the input, i.e. equal scores keep the declaration order of
    their categories. *)
Lemma rankDesc_stable (l : list A) s :
  with_score score s (rankDesc score l) = with_score score s l.
Proof. apply rankDesc_with_score. Qed.

(** C12 *)
(** The ranking is a stable descending sort of the score entries: a
    permutation of them, in decreasing order of score, in which the entries
    of any one score appear in the same order as in the input, i.e. equal
    scores keep the declaration order of their categories. *)
Theorem rankDesc_stable_sort (l : list A) :
  Permutation (rankDesc score l) l /\ Sorted (desc score) (rankDesc score l) /\
  forall s, with_score score s (rankDesc score l) = with_score score s l.
Proof.
  destruct (rankDesc_sorted_perm l) as [Hp Hs]. split_and!; [done|done|]. intros s.
  apply rankDesc_stable.
Qed.

#[local] Instance desc_trans : Transitive (desc score).
Proof. intros x y z; unfold desc; lia. Qed.

(** C13 *)
(** Refinement of [Array.prototype.sort]: every output that a stable sort
    with the comparator [b.score - a.score] may return (sorted by
    decreasing score, with the entries of each score in their input order,
    which makes it a permutation of the input) is the list [rankDesc score]
    computes. *)
Theorem stable_sort_refines (l out : list A) :
  Sorted (desc score) out ->
  (forall s, with_score score s out = with_score score s l) -> out = rankDesc score l.
Proof.
  intros Hs Hst. apply sorted_with_score_eq.
  - apply Sorted_StronglySorted; [apply desc_trans|exact Hs].
  - apply rankDesc_sorted.
  - intros s. by rewrite rankDesc_with_score.
Qed.

(** In a list sorted by decreasing score, the first [n] entries score at
    least as much as every later one. *)
Lemma sorted_take_drop (l : list A) n x y :
  StronglySorted (desc score) l -> x ∈ take n l -> y ∈ drop n l -> score y <= score x.
Proof.
  revert n. induction l as [|z l IH]; intros n Hs Hx Hy.
  { rewrite take_nil in Hx. by apply elem_of_nil in Hx. }
  apply StronglySorted_inv in Hs as [Hs Hz]. destruct n as [|n]; [by apply elem_of_nil in Hx|].
  simpl in Hx, Hy. apply elem_of_cons in Hx as [->|Hx]; [|by eapply IH].
  rewrite Forall_forall in Hz. apply Hz. by eapply elem_of_drop_l.
Qed.

End ranking_facts.

Section scoring_facts.
Context {C : Type} `{!EqDecision C} `{!SurveyBank C}.

(** ** Lemmas on the score entries *)

Lemma addScore_keys c v (scores : list (C * nat)) : fst <$> addScore c v scores = fst <$> scores.
Proof.
  unfold addScore. rewrite <- list_fmap_compose. apply list_fmap_ext.
  intros i p _. simpl. by case_decide.
Qed.

Lemma scoreAnswer_keys (scores : list (C * nat)) e :
  fst <$> scoreAnswer scores e = fst <$> scores.
Proof. unfold scoreAnswer. destruct (questions !! e.1) as [[]|]; [apply addScore_keys|done]. Qed.

Lemma foldl_scoreAnswer_keys (scores : list (C * nat)) es :
  fst <$> foldl scoreAnswer scores es = fst <$> scores.
Proof.
  revert scores. induction es as [|e es IH]; intros scores; [done|].
  simpl. by rewrite IH, scoreAnswer_keys.
Qed.

Lemma calculateScores_keys answers : fst <$> calculateScores answers = categories.
Proof.
  unfold calculateScores. rewrite foldl_scoreAnswer_keys. unfold initialScores.
  rewrite <- list_fmap_compose. apply list_fmap_id.
Qed.

Lemma addScore_absent c v (scores : list (C * nat)) :
  c ∉ fst <$> scores -> addScore c v scores = scores.
Proof.
  intros Hc. unfold addScore. rewrite <- (list_fmap_id scores) at 2.
  apply list_fmap_ext. intros i [k n] Hi. simpl. rewrite decide_False; [done|].
  intros <-. apply Hc, list_elem_of_fmap. exists (k, n). split; [done|].
  by eapply list_elem_of_lookup_2.
Qed.

Lemma addScore_cons c v k n (scores : list (C * nat)) :
  addScore c v ((k, n) :: scores) =
  (if decide (k = c) then (k, n + v) else (k, n)) :: addScore c v scores.
Proof. reflexivity. Qed.

(** Adding to a key present once adds to the total once. *)
Lemma addScore_total c v (scores : list (C * nat)) :
  NoDup (fst <$> scores) -> c ∈ fst <$> scores ->
  scoreTotal (addScore c v scores) = scoreTotal scores + v.
Proof.
  unfold scoreTotal. induction scores as [|[k n] scores IH]; intros Hnd Hin;
    [by apply elem_of_nil in Hin|].
  rewrite fmap_cons in Hnd, Hin. apply NoDup_cons in Hnd as [Hk Hnd]. cbn [fst] in *.
  rewrite addScore_cons. case_decide as Hkc.
  - subst k. rewrite addScore_absent by done. simpl. lia.
  - apply elem_of_cons in Hin as [->|Hin]; [done|].
    rewrite !fmap_cons. cbn [sum_list snd]. rewrite IH by done. lia.
Qed.

Lemma scoreAnswer_total (scores : list (C * nat)) e :
  bank_wf -> fst <$> scores = categories ->
  scoreTotal (scoreAnswer scores e) = scoreTotal scores + countedValue e.
Proof.
  intros [Hnd Hq] Hk. unfold scoreAnswer, countedValue.
  destruct (questions !! e.1) as [[t c]|] eqn:E.
  - rewrite bool_decide_true by (eapply lookup_lt_Some; eauto).
    apply addScore_total; rewrite Hk; [done|]. exact (Forall_lookup_1 _ _ _ _ Hq E).
  - apply lookup_ge_None in E. rewrite bool_decide_false by lia. by rewrite Nat.add_0_r.
Qed.

Lemma foldl_scoreAnswer_total (scores : list (C * nat)) es :
  bank_wf -> fst <$> scores = categories ->
  scoreTotal (foldl scoreAnswer scores es) = scoreTotal scores + sum_list (countedValue <$> es).
Proof.
  intros Hwf. revert scores. induction es as [|e es IH]; intros scores Hk; [simpl; lia|].
  rewrite fmap_cons. cbn [foldl sum_list id].
  rewrite IH, scoreAnswer_total by (rewrite ?scoreAnswer_keys; done). lia.
Qed.

Lemma scoreTotal_initial : scoreTotal initialScores = 0.
Proof.
  unfold scoreTotal, initialScores. rewrite <- list_fmap_compose.
  induction categories as [|c cs IH]; [done|]. simpl. exact IH.
Qed.

Lemma scoreTotal_calculateScores answers :
  bank_wf -> scoreTotal (calculateScores answers) = answerTotal answers.
Proof.
  intros Hwf. unfold calculateScores, answerTotal.
  rewrite foldl_scoreAnswer_total, scoreTotal_initial; [done|done|].
  unfold initialScores. rewrite <- list_fmap_compose. apply list_fmap_id.
Qed.

(** C10 *)
(** The per-category scores add up to the sum of the answer values of the
    answered questions: nothing is counted twice and nothing is lost, for
    any question bank whose question categories are declared once. *)
Theorem calculateScores_total answers :
  bank_wf -> scoreTotal (calculateScores answers) = answerTotal answers.
Proof. apply scoreTotal_calculateScores. Qed.

(** *** Each category's score against the reference *)

Lemma scoreOf_cons k n (scores : list (C * nat)) c :
  scoreOf ((k, n) :: scores) c = if decide (k = c) then n else scoreOf scores c.
Proof.
  unfold scoreOf. cbn [list_find fst]. case_decide; [done|].
  by destruct (list_find _ scores) as [[? []]|].
Qed.

Lemma scoreOf_addScore c c' v (scores : list (C * nat)) :
  c ∈ fst <$> scores ->
  scoreOf (addScore c' v scores) c = scoreOf scores c + (if decide (c' = c) then v else 0).
Proof.
  induction scores as [|[k n] scores IH]; intros Hin; [by apply elem_of_nil in Hin|].
  rewrite fmap_cons in Hin. cbn [fst] in Hin. rewrite addScore_cons.
  assert (Hstep : forall n', scoreOf ((k, n') :: addScore c' v scores) c =
                             if decide (k = c) then n' else scoreOf (addScore c' v scores) c)
    by (intros; apply scoreOf_cons).
  destruct (decide (k = c')) as [->|Hkc']; rewrite Hstep, scoreOf_cons; clear Hstep;
    repeat case_decide; subst; try done; try lia;
    (apply elem_of_cons in Hin as [->|Hin]; [done|]); rewrite IH by done;
    rewrite ?decide_True, ?decide_False by done; lia.
Qed.

Lemma scoreOf_foldl (scores : list (C * nat)) es c :
  c ∈ fst <$> scores ->
  scoreOf (foldl scoreAnswer scores es) c = scoreOf scores c + sum_list_with (contribution c) es.
Proof.
  revert scores. induction es as [|e es IH]; intros scores Hc; cbn [foldl sum_list_with]; [lia|].
  rewrite IH by (by rewrite scoreAnswer_keys). unfold scoreAnswer, contribution.
  destruct (questions !! e.1) as [[t c']|]; [rewrite scoreOf_addScore by done|]; lia.
Qed.

Lemma scoreOf_initial c : scoreOf initialScores c = 0.
Proof.
  unfold initialScores. induction categories as [|k ks IH]; [done|].
  rewrite fmap_cons, scoreOf_cons. by case_decide.
Qed.

Lemma refScore_empty c : refScore ∅ c = 0.
Proof.
  apply sum_list_with_0. intros i. unfold questionValue. rewrite lookup_empty.
  by destruct (questions !! i) as [[]|].
Qed.

(** A new answer adds its contribution to the reference score. *)
Lemma refScore_insert (answers : Answers) i v c :
  answers !! i = None -> refScore (<[i:=v]> answers) c = refScore answers c + contribution c (i, v).
Proof.
  intros Hi. unfold refScore.
  pose proof (sum_list_with_seq_update (questionValue (<[i:=v]> answers) c)
                (questionValue answers c) 0 (length questions) i) as H.
  ospecialize (H _); [intros k Hk; unfold questionValue; by rewrite lookup_insert_ne|].
  unfold contribution. cbn [fst snd]. destruct (questions !! i) as [[t c']|] eqn:Eq.
  - pose proof (lookup_lt_Some _ _ _ Eq). rewrite !decide_True in H by lia.
    assert (questionValue answers c i = 0) as Hv0 by (unfold questionValue; by rewrite Eq, Hi).
    assert (questionValue (<[i:=v]> answers) c i = if decide (c' = c) then v else 0) as Hv1
      by (unfold questionValue; by rewrite Eq, lookup_insert_eq). lia.
  - apply lookup_ge_None in Eq. rewrite !decide_False in H by lia. lia.
Qed.

Lemma sum_contribution_refScore (answers : Answers) c :
  sum_list_with (contribution c) (map_to_list answers) = refScore answers c.
Proof.
  induction answers as [|i v m Hi IH] using map_ind.
  - by rewrite map_to_list_empty, refScore_empty.
  - rewrite map_to_list_insert by done. cbn [sum_list_with].
    rewrite IH, refScore_insert by done. lia.
Qed.

(** C6 *)
(** The fold over [Object.entries(answers)] computes, for each declared
    category, its reference score: the sum over the page's questions of
    that category of the answer given to each, whatever the order in which
    the answers are visited; answers to no question add nothing. *)
Theorem calculateScores_refScore answers c :
  c ∈ categories -> scoreOf (calculateScores answers) c = refScore answers c.
Proof.
  intros Hc. unfold calculateScores.
  rewrite scoreOf_foldl, scoreOf_initial, Nat.add_0_l; [apply sum_contribution_refScore|].
  unfold initialScores. by rewrite <- list_fmap_compose, list_fmap_id.
Qed.

(** *** The dominant category *)

(** [reduce((a, b) => f(a) > f(b) ? a : b)] returns a key whose value no
    earlier key exceeds and every later key is below. *)
Lemma foldl_pick_last (f : C -> nat) (a : C) (ks : list C) :
  exists pre post,
    a :: ks = pre ++ foldl (fun a b => if decide (f b < f a) then a else b) a ks :: post /\
    Forall (fun k => f k <= f (foldl (fun a b => if decide (f b < f a) then a else b) a ks)) pre /\
    Forall (fun k => f k < f (foldl (fun a b => if decide (f b < f a) then a else b) a ks)) post.
Proof.
  induction ks as [|b ks IH] using rev_ind.
  - by exists [], [].
  - destruct IH as (pre & post & Heq & Hpre & Hpost). rewrite foldl_app. simpl.
    set (r := foldl _ a ks) in *. case_decide as Hbr.
    + exists pre, (post ++ [b]). rewrite app_comm_cons, Heq, <- app_assoc. simpl.
      split_and!; [done|done|]. apply Forall_app. split; [done|by apply Forall_singleton].
    + exists (pre ++ r :: post), []. rewrite app_comm_cons, Heq, <- app_assoc. simpl.
      split_and!; [done| |done]. apply Forall_app. split.
      * eapply Forall_impl; [exact Hpre|]. simpl. intros k Hk. lia.
      * constructor; [lia|]. eapply Forall_impl; [exact Hpost|]. simpl. intros k Hk. lia.
Qed.

(** C14 *)
(** The dominant style is the last category with the highest score: no
    category scores more, and every category declared after it scores
    strictly less (so on a tie the later category wins). *)
Theorem dominantStyle_last_max (scores : list (C * nat)) :
  scores <> [] ->
  exists c pre post,
    dominantStyle scores = Some c /\ fst <$> scores = pre ++ c :: post /\
    Forall (fun k => scoreOf scores k <= scoreOf scores c) pre /\
    Forall (fun k => scoreOf scores k < scoreOf scores c) post.
Proof.
  intros Hne. unfold dominantStyle.
  destruct (fst <$> scores) as [|k ks] eqn:Hk; [by destruct scores|].
  destruct (foldl_pick_last (scoreOf scores) k ks) as (pre & post & ? & ? & ?).
  by eexists _, pre, post.
Qed.

(** *** The page *)

(** The answers of a reachable page are answers to questions of the page,
    on its scale. *)
Lemma reachable_answers_ok st : reachable st -> answers_ok (page_answers st).
Proof.
  induction 1 as [|st st' Hr IH Hstep]; [apply map_Forall_empty|].
  destruct Hstep as [st i v Hi Hv|st Hc|st]; simpl; [|done|apply map_Forall_empty].
  by apply map_Forall_insert_2.
Qed.

Lemma answerTotal_all (answers : Answers) :
  answers_ok answers -> answerTotal answers = sum_list (snd <$> map_to_list answers).
Proof.
  intros Hok. unfold answerTotal. apply map_Forall_to_list in Hok.
  induction (map_to_list answers) as [|[i v] es IH]; [done|].
  apply Forall_cons in Hok as [[Hi _] Hes]. rewrite !fmap_cons. cbn [sum_list id].
  rewrite IH by done. unfold countedValue. simpl. by rewrite bool_decide_true.
Qed.

(** A page holds at most one answer per question. *)
Lemma answers_size_le (answers : Answers) : answers_ok answers -> size answers <= length questions.
Proof.
  intros Hok. rewrite <- (size_dom (D := gset nat)).
  transitivity (size (set_seq (C := gset nat) 0 (length questions))); [|by rewrite size_set_seq].
  apply subseteq_size. intros i [v Hv]%elem_of_dom. apply elem_of_set_seq.
  destruct (Hok i v Hv). lia.
Qed.

(** The bar in the integers: [answered * 100] against [q * questions]. *)
Lemma progress_cmp answers q :
  0 < length questions ->
  ((progress answers <= inject_Z q)%Q <-> (Z.of_nat (answeredCount answers) * 100 <= q * Z.of_nat (length questions))%Z) /\
  ((inject_Z q <= progress answers)%Q <-> (q * Z.of_nat (length questions) <= Z.of_nat (answeredCount answers) * 100)%Z).
Proof.
  intros Hl. unfold progress. destruct (length questions) as [|l]; [lia|].
  unfold Qle, Qdiv, Qmult, Qinv, inject_Z. cbn [Qnum Qden Z.of_nat].
  change (Z.of_nat (S l)) with (Z.pos (Pos.of_succ_nat l)). cbn [Qnum Qden].
  rewrite ?Pos.mul_1_l, ?Pos.mul_1_r, !Zpos_P_of_succ_nat. split; split; nia.
Qed.

(** C15 *)
(** The completion gate and the progress bar: on every reachable page the
    [Progress] value stays between 0 and 100 and reaches 100 exactly when
    the submit button is enabled (not saving); when the button is enabled,
    every question has been answered, and every answer counts, so the
    per-category scores add up to the sum of all the answers given. *)
Theorem submit_all_answered st isSaving :
  bank_wf -> reachable st ->
  (0 < length questions ->
   (0 <= progress (page_answers st))%Q /\ (progress (page_answers st) <= 100)%Q /\
   ((100 <= progress (page_answers st))%Q <-> canSubmit (page_answers st) false = true)) /\
  (canSubmit (page_answers st) isSaving = true ->
   (forall i, i < length questions -> is_Some (page_answers st !! i)) /\
   scoreTotal (calculateScores (page_answers st)) =
     sum_list (snd <$> map_to_list (page_answers st))).
Proof.
  intros Hwf Hr. pose proof (reachable_answers_ok st Hr) as Hok. split.
  - intros Hl. pose proof (answers_size_le _ Hok) as Hle.
    destruct (progress_cmp (page_answers st) 0 Hl) as [_ [_ H0]].
    destruct (progress_cmp (page_answers st) 100 Hl) as [[_ H1] H2].
    unfold canSubmit, answeredCount in *. cbn [negb]. rewrite andb_true_r, negb_true_iff, bool_decide_eq_false.
    split_and!; [apply H0; lia|apply H1; lia|rewrite H2; lia].
  - intros Hc. split.
    + apply gmap_nat_full.
      * intros i x Hix. apply (Hok i x Hix).
      * unfold canSubmit in Hc. apply andb_prop in Hc as [Hc _].
        apply negb_true_iff, bool_decide_eq_false in Hc. lia.
    + rewrite scoreTotal_calculateScores by done. by apply answerTotal_all.
Qed.


End scoring_facts.

End Survey.
