(* ===== verification/SurveyStore.v ===== *)
(** * SurveyStore: persisted survey results ([src/src/hooks/use-surveys.ts])

    The collection [users/{uid}/surveys] of every teacher, as one map keyed
    by [(uid, documentId)].  [saveSurveyResult] adds a document (the id
    Firestore generates is an argument), [studentSurveys] is the listener's
    query [where("studentId", "==", studentId)], and [deleteSurvey] removes a
    document.  Exceptions that [saveSurveyResult] throws to its caller are the
    [Some message] of its result. *)

From S2P Require Import Prelude.

Module SurveyStore.

(** One entry of a ranked result ([finalResults] of the Holland and
    multiple-intelligence pages): category key, display name, score and
    chart colour.  The static description texts are left out. *)
Record RankedEntry := mkRanked {
  entry_id : string;
  entry_name : string;
  entry_score : nat;
  entry_fill : string
}.

(** [results]: the learning-style page stores the dominant style and the
    scores, the other pages the ranked entries. *)
Inductive SurveyResults :=
  | DominantResult (dominantStyle : string) (scores : list (string * nat))
  | RankedResults (entries : list RankedEntry).

(** [Omit<SurveyResult, 'id' | 'userId'>] *)
Record SurveyData := mkSurveyData {
  sd_studentId : string;
  sd_classId : string;
  sd_surveyType : string;
  sd_results : SurveyResults;
  sd_completedAt : string
}.

(** A stored document: [{ ...surveyData, userId }]. *)
Record SurveyDoc := mkSurveyDoc {
  doc_data : SurveyData;
  doc_userId : string
}.

Abbreviation SurveyDb := (gmap (string * string) SurveyDoc).

(** [saveSurveyResult]'s outcome: the toasts it showed and the message of
    the [Error] it threw, if any. *)
Abbreviation SaveResult := (list Toast * option string)%type.

Definition toast_no_session : Toast := mkToast "Hata: Oturum Açılmamış" true.

Definition msg_no_session : string := "Kullanıcı girişi yapılmamış.".

Definition msg_save_failed (e : FsError) : string :=
  "Anket sonuçları veritabanına kaydedilirken bir hata oluştu: " +:+ fs_error_message e.

(** [addDoc(collection(db, `users/${uid}/surveys`), { ...surveyData, userId: uid })] *)
Definition addSurveyDoc (uid newId : string) (data : SurveyData) : FS SurveyDb unit :=
  remote (fun db => Some (tt, <[(uid, newId) := mkSurveyDoc data uid]> db)).

Local Open Scope fs_scope.

(** [saveSurveyResult(surveyData)] with [auth.currentUser]'s uid. *)
Definition saveSurveyResult (currentUser : option string) (newId : string)
    (surveyData : SurveyData) : FS SurveyDb SaveResult :=
  match currentUser with
  | None => fs_ret ([toast_no_session], Some msg_no_session)
  | Some uid =>
      fs_catch (let* _ := addSurveyDoc uid newId surveyData in fs_ret ([], None))
        (fun e => fs_ret ([], Some (msg_save_failed e)))
  end.

(** The listener of [useStudentSurveys]: the documents of the teacher [uid]
    whose [studentId] is [studentId], with their ids. *)
Definition studentSurveys (db : SurveyDb) (uid studentId : string)
    : list (string * SurveyDoc) :=
  (fun kv : (string * string) * SurveyDoc => (kv.1.2, kv.2)) <$>
    filter (fun kv : (string * string) * SurveyDoc =>
              kv.1.1 = uid /\ sd_studentId (doc_data kv.2) = studentId)
      (map_to_list db).

(** [useStudentSurveys(studentId)]'s [surveys] state on a snapshot: empty
    while no teacher is signed in or no student is selected. *)
Definition studentSurveysView (user studentId : option string) (db : SurveyDb)
    : list (string * SurveyDoc) :=
  match user, studentId with
  | Some uid, Some sid => if String.eqb uid "" || String.eqb sid "" then []
                          else studentSurveys db uid sid
  | _, _ => []
  end.

Definition toast_deleted : Toast := mkToast "Anket Sonucu Silindi" true.
Definition toast_delete_failed : Toast := mkToast "Hata" true.

(** [deleteDoc(doc(db, `users/${uid}/surveys`, surveyId))]: deleting a
    missing document succeeds. *)
Definition deleteSurveyDoc (uid surveyId : string) : FS SurveyDb unit :=
  remote (fun db => Some (tt, delete (uid, surveyId) db)).

(** [deleteSurvey(surveyId)]: its boolean result and the toast it shows. *)
Definition deleteSurvey (user : option string) (surveyId : string)
    : FS SurveyDb (bool * list Toast) :=
  match user with
  | None => fs_ret (false, [])
  | Some uid =>
      fs_catch (let* _ := deleteSurveyDoc uid surveyId in fs_ret (true, [toast_deleted]))
        (fun _ => fs_ret (false, [toast_delete_failed]))
  end.

(** ** The listener's error path and [src/src/firebase/] *)

(** [SecurityRuleContext['operation']] *)
Inductive RuleOperation := OpGet | OpList | OpCreate | OpUpdate | OpDelete.

Definition operation_str (o : RuleOperation) : string :=
  match o with
  | OpGet => "get" | OpList => "list" | OpCreate => "create" | OpUpdate => "update" | OpDelete => "delete"
  end.

(** [SecurityRuleContext]; a [path] that is [undefined] is [None]. *)
Record SecurityRuleContext := mkRuleContext {
  ctx_path : option string;
  ctx_operation : RuleOperation
}.

Record PermissionError := mkPermissionError {
  perr_name : string;
  perr_message : string;
  perr_context : SecurityRuleContext
}.

Definition FIRESTORE_PERMISSION_ERROR_NAME : string := "FirestorePermissionError".

(** [new FirestorePermissionError(context)] (errors.ts, lines 9-21): the
    template prints [undefined] for a missing path. *)
Definition firestorePermissionError (ctx : SecurityRuleContext) : PermissionError :=
  mkPermissionError FIRESTORE_PERMISSION_ERROR_NAME
    ("FirestorePermissionError: Insufficient permissions for " +:+ operation_str (ctx_operation ctx) +:+
     " on " +:+ default "undefined" (ctx_path ctx) +:+ ".")
    ctx.

(** The single [errorEmitter] (error-emitter.ts): the events emitted on it,
    in order, with their payload. *)
Definition Emitted : Type := list (string * PermissionError).

(** The state of [useStudentSurveys]: [surveys] and [isLoading]. *)
Record SurveysHook := mkSurveysHook {
  sh_surveys : list (string * SurveyDoc);
  sh_isLoading : bool
}.

Definition surveysHook_init : SurveysHook := mkSurveysHook [] true.

(** The effect on [user?.uid] and [studentId] (lines 53-62): without both
    the list is emptied and nothing is subscribed; otherwise loading starts
    and the query of the teacher's collection for the student is
    subscribed. *)
Definition surveysEffect (user studentId : option string) (h : SurveysHook)
    : SurveysHook * option (string * string) :=
  match user, studentId with
  | Some uid, Some sid =>
      if String.eqb uid "" || String.eqb sid "" then (mkSurveysHook [] false, None)
      else (mkSurveysHook (sh_surveys h) true, Some (uid, sid))
  | _, _ => (mkSurveysHook [] false, None)
  end.

(** The snapshot callback (lines 64-67). *)
Definition onSurveysSnapshot (uid sid : string) (db : SurveyDb) (h : SurveysHook) : SurveysHook :=
  mkSurveysHook (studentSurveys db uid sid) false.

(** The error callback (lines 68-75): a permission error for the query is
    emitted and loading stops; the list keeps what it showed.  [q] is the
    [Query] that [query(...)] returns, which has no [path] property in the
    modular SDK (only collection and document references have one), so
    [q.path] is [undefined]. *)
Definition onSurveysError (h : SurveysHook) (emitted : Emitted) : SurveysHook * Emitted :=
  (mkSurveysHook (sh_surveys h) false,
   emitted ++ [("permission-error", firestorePermissionError (mkRuleContext None OpList))]).

(** ** Lemmas *)

(** What the listener shows: exactly the teacher's documents of the student. *)
Lemma elem_of_studentSurveys db uid sid id d :
  (id, d) ∈ studentSurveys db uid sid <-> db !! (uid, id) = Some d /\ sd_studentId (doc_data d) = sid.
Proof.
  unfold studentSurveys. rewrite list_elem_of_fmap. split.
  - intros ([[u i] d'] & [= -> ->] & Hin). apply list_elem_of_filter in Hin as [[Hu Hs] Hin].
    simpl in *. subst u. apply elem_of_map_to_list in Hin. done.
  - intros [Hd Hs]. exists ((uid, id), d). split; [done|].
    apply list_elem_of_filter. split; [done|]. by apply elem_of_map_to_list.
Qed.

Lemma saveSurveyResult_run uid newId data db :
  saveSurveyResult (Some uid) newId data [] db =
    (Ok ([], None), [], <[(uid, newId) := mkSurveyDoc data uid]> db).
Proof. reflexivity. Qed.

(** Saving a completed survey with a signed-in teacher and a fresh document
    id stores the result, the listener of that student then shows it, and
    no stored result is changed: results are only ever added. *)
Lemma saveSurveyResult_roundtrip uid newId data db :
  db !! (uid, newId) = None ->
  exists db', fs_run (saveSurveyResult (Some uid) newId data) db = (Ok ([], None), db') /\
    (newId, mkSurveyDoc data uid) ∈ studentSurveys db' uid (sd_studentId data) /\
    (forall k v, db !! k = Some v -> db' !! k = Some v).
Proof.
  intros Hfresh. eexists. split; [eapply fs_run_eq, saveSurveyResult_run|].
  split.
  - apply elem_of_studentSurveys. split; [by rewrite lookup_insert_eq|done].
  - intros k v Hk. rewrite lookup_insert_ne; [done|]. intros <-. congruence.
Qed.

(** C17 *)
(** [saveSurveyResult] under every fault schedule: without a signed-in user
    it shows the session toast, throws, and writes nothing; with one it
    either stores the document and returns normally, or throws the save
    error with the request's message and leaves the collection unchanged. *)
Theorem saveSurveyResult_outcome user newId data fl db :
  match user with
  | None => saveSurveyResult user newId data fl db =
              (Ok ([toast_no_session], Some msg_no_session), fl, db)
  | Some uid =>
      (fs_out (saveSurveyResult user newId data fl db) = Ok ([], None) /\
       fs_state (saveSurveyResult user newId data fl db) = <[(uid, newId) := mkSurveyDoc data uid]> db) \/
      (exists e, fs_out (saveSurveyResult user newId data fl db) = Ok ([], Some (msg_save_failed e)) /\
       fs_state (saveSurveyResult user newId data fl db) = db)
  end.
Proof.
  destruct user as [uid|]; [|done].
  unfold saveSurveyResult, fs_catch, fs_bind, addSurveyDoc, remote, fs_out, fs_state.
  destruct fl as [|[] fl]; simpl; [by left|by right; exists NetworkError|by left].
Qed.

Lemma deleteSurvey_run uid surveyId db :
  deleteSurvey (Some uid) surveyId [] db = (Ok (true, [toast_deleted]), [], delete (uid, surveyId) db).
Proof. reflexivity. Qed.

(** Deleting a survey result reports success, the listener no longer shows
    it for any student, and every other stored result is kept. *)
Lemma deleteSurvey_removes uid surveyId db :
  exists db', fs_run (deleteSurvey (Some uid) surveyId) db = (Ok (true, [toast_deleted]), db') /\
    (forall sid d, (surveyId, d) ∉ studentSurveys db' uid sid) /\
    (forall k, k <> (uid, surveyId) -> db' !! k = db !! k).
Proof.
  eexists. split; [eapply fs_run_eq, deleteSurvey_run|]. split.
  - intros sid d [Hd _]%elem_of_studentSurveys. by rewrite lookup_delete_eq in Hd.
  - intros k Hk. by rewrite lookup_delete_ne.
Qed.

(** C16 *)
(** Saving and deleting a survey result: saving a completed survey with a
    signed-in teacher under a fresh document id stores it, the listener of
    that student then shows it, and no stored result is changed; deleting
    it again reports success, the listener no longer shows it for any
    student, and the collection is exactly what it was before the save. *)
Theorem survey_result_save_delete uid newId data db :
  db !! (uid, newId) = None ->
  exists db1 db2,
    fs_run (saveSurveyResult (Some uid) newId data) db = (Ok ([], None), db1) /\
    (newId, mkSurveyDoc data uid) ∈ studentSurveys db1 uid (sd_studentId data) /\
    (forall k v, db !! k = Some v -> db1 !! k = Some v) /\
    fs_run (deleteSurvey (Some uid) newId) db1 = (Ok (true, [toast_deleted]), db2) /\
    (forall sid d, (newId, d) ∉ studentSurveys db2 uid sid) /\
    db2 = db.
Proof.
  intros Hfresh.
  destruct (saveSurveyResult_roundtrip uid newId data db Hfresh) as (db1 & Hs & Hin & Hkeep).
  destruct (deleteSurvey_removes uid newId db1) as (db2 & Hd & Hgone & Hother).
  exists db1, db2. split_and!; [done..|].
  rewrite (fs_run_eq _ _ _ _ _ (saveSurveyResult_run uid newId data db)) in Hs. simplify_eq.
  rewrite (fs_run_eq _ _ _ _ _ (deleteSurvey_run uid newId _)) in Hd. simplify_eq.
  by rewrite delete_insert_id.
Qed.

(** A failed listener stops loading but keeps showing the results of the
    last snapshot, and reports a permission error whose message names no
    path. *)
Lemma onSurveysError_stale h emitted :
  sh_surveys (onSurveysError h emitted).1 = sh_surveys h /\
  sh_isLoading (onSurveysError h emitted).1 = false /\
  (onSurveysError h emitted).2 = emitted ++ [("permission-error",
     mkPermissionError "FirestorePermissionError"
       "FirestorePermissionError: Insufficient permissions for list on undefined."
       (mkRuleContext None OpList))].
Proof. done. Qed.

(** The listener shows exactly the teacher's results of the student after
    a snapshot, and nothing while either is missing. *)
Lemma surveysEffect_snapshot user sid h db :
  match surveysEffect user sid h with
  | (h', Some (u, s)) => user = Some u /\ sid = Some s /\ sh_isLoading h' = true /\
      sh_surveys (onSurveysSnapshot u s db h') = studentSurveysView user sid db
  | (h', None) => sh_surveys h' = [] /\ sh_isLoading h' = false /\ studentSurveysView user sid db = []
  end.
Proof.
  unfold surveysEffect, studentSurveysView.
  destruct user as [u|], sid as [s|]; try done.
  destruct (String.eqb u "" || String.eqb s ""); done.
Qed.

(** ** Witnesses *)

Definition sample_survey : SurveyData :=
  mkSurveyData "s1" "c1" "ogrenme-stilleri"
    (DominantResult "visual" [("visual", 4); ("auditory", 2); ("kinesthetic", 0)]) "2025-01-01".

Lemma survey_result_save_delete_witness :
  exists db', fs_run (saveSurveyResult (Some "t1") "d1" sample_survey) ∅ = (Ok ([], None), db') /\
    ("d1", mkSurveyDoc sample_survey "t1") ∈ studentSurveys db' "t1" "s1".
Proof.
  destruct (survey_result_save_delete "t1" "d1" sample_survey ∅) as (db' & _ & Hrun & Hin & _);
    [reflexivity|].
  exists db'. by split.
Defined.

End SurveyStore.
