(* ===== verification/SurveyPages.v ===== *)
(** * The three survey pages ([src/src/app/anket/*/page.tsx])

    Each page declares its categories, its questions and its answer scale;
    these are the [SurveyBank] instances below.  Its [calculateResults]
    checks the [studentId] / [classId] search parameters, scores the answers
    with the procedure of [Survey.v], builds the result object and saves it
    through [SurveyStore.saveSurveyResult]. *)

From Stdlib Require Import Ascii QArith.
Local Close Scope Q_scope.
From S2P Require Import Prelude Survey SurveyStore.
Import Survey SurveyStore.

Module SurveyPages.

(** [!studentId || !classId] for a search parameter. *)
Definition param_missing (p : option string) : bool :=
  match p with Some v => String.eqb v "" | None => true end.

(** [name.split(' ')[0]] *)
Fixpoint first_word (s : string) : string :=
  match s with
  | EmptyString => EmptyString
  | String c rest => if Ascii.eqb c " "%char then EmptyString else String c (first_word rest)
  end.

(** [name.charAt(0)], on names that start with an ASCII letter. *)
Definition charAt0 (s : string) : string := String.substring 0 1 s.

Definition toast_missing_params : Toast := mkToast "Hata" true.
Definition toast_survey_saved : Toast := mkToast "Başarılı" false.
Definition toast_save_failed : Toast := mkToast "Kaydetme Başarısız" true.

(** The page's state after [calculateResults]: the toasts shown, the
    [results] (or dominant style) it set, and [isSurveyComplete]. *)
Record PageOutcome (R : Type) := mkOutcome {
  out_toasts : list Toast;
  out_results : option R;
  out_complete : bool
}.
Arguments mkOutcome {R}.
Arguments out_toasts {R}.
Arguments out_results {R}.
Arguments out_complete {R}.

Local Open Scope fs_scope.

(** The common tail of [calculateResults]: save, then toast. *)
Definition saveAndReport {R} (currentUser : option string) (newId : string)
    (data : SurveyData) (r : R) : FS SurveyDb (PageOutcome R) :=
  let* res := saveSurveyResult currentUser newId data in
  match res.2 with
  | None => fs_ret (mkOutcome (res.1 ++ [toast_survey_saved]) (Some r) true)
  | Some _ => fs_ret (mkOutcome (res.1 ++ [toast_save_failed]) (Some r) false)
  end.

(** ** Learning styles ([ogrenme-stilleri/page.tsx]) *)

Inductive LearningStyle := visual | auditory | kinesthetic.

#[export] Instance LearningStyle_eq_dec : EqDecision LearningStyle.
Proof. solve_decision. Defined.

Definition learningStyle_key (c : LearningStyle) : string :=
  match c with visual => "visual" | auditory => "auditory" | kinesthetic => "kinesthetic" end.

Definition ogrenme_questions : list (string * LearningStyle) := [
  ("Bir bilgiyi öğrenirken şemalar, grafikler veya resimler kullanmayı tercih ederim.", visual);
  ("Dersleri dinlemek, okumaktan daha çok aklımda kalır.", auditory);
  ("Bir şeyi öğrenirken hareket halinde olmak veya ellerimi kullanmak hoşuma gider (örn: model yapmak, deney yapmak).", kinesthetic);
  ("Okuduğum bir metindeki önemli yerlerin altını renkli kalemlerle çizerim.", visual);
  ("Öğrendiğim bir konuyu başkasına anlatarak veya tartışarak pekiştiririm.", auditory)
].

#[export] Instance ogrenme_bank : SurveyBank LearningStyle := {|
  categories := [visual; auditory; kinesthetic];
  questions := ogrenme_questions;
  answerOptions := [("Bana Uygun", 2); ("Kısmen Uygun", 1); ("Bana Uygun Değil", 0)]
|}.

(** [calculateResults] of the learning-style page (lines 76-113). *)
Definition calculateResults_ogrenme (studentId classId currentUser : option string)
    (newId now : string) (answers : Answers) : FS SurveyDb (PageOutcome LearningStyle) :=
  match studentId, classId with
  | Some sid, Some cid =>
      if param_missing studentId || param_missing classId
      then fs_ret (mkOutcome [toast_missing_params] None false) else
      let scores := calculateScores answers in
      let dom := default kinesthetic (dominantStyle scores) in
      let data := mkSurveyData sid cid "ogrenme-stilleri"
                    (DominantResult (learningStyle_key dom)
                       ((fun p : LearningStyle * nat => (learningStyle_key p.1, p.2)) <$> scores))
                    now in
      saveAndReport currentUser newId data dom
  | _, _ => fs_ret (mkOutcome [toast_missing_params] None false)
  end.

(** ** Holland vocational interests ([holland-meslek-envanteri/page.tsx]) *)

Inductive Personality := realistic | investigative | artistic | social | enterprising | conventional.

#[export] Instance Personality_eq_dec : EqDecision Personality.
Proof. solve_decision. Defined.

Definition personality_key (c : Personality) : string :=
  match c with
  | realistic => "realistic" | investigative => "investigative" | artistic => "artistic"
  | social => "social" | enterprising => "enterprising" | conventional => "conventional"
  end.

Definition personality_name (c : Personality) : string :=
  match c with
  | realistic => "Gerçekçi (Realistic)" | investigative => "Araştırmacı (Investigative)"
  | artistic => "Sanatçı (Artistic)" | social => "Sosyal (Social)"
  | enterprising => "Girişimci (Enterprising)" | conventional => "Geleneksel (Conventional)"
  end.

Definition holland_questions : list (string * Personality) := [
  ("Bozuk bir saati veya bisikleti tamir etmek", realistic);
  ("Açık havada (doğada) çalışmak", realistic);
  ("Elektrikli aletleri kullanmak", realistic);
  ("Bir arabanın motorunu tamir etmek", realistic);
  ("Ahşap veya metalden bir şeyler yapmak", realistic);
  ("Teknik resim çizmek", realistic);
  ("Hayvanlarla ilgilenmek ve onları eğitmek", realistic);
  ("Bir makinenin nasıl çalıştığını anlamaya çalışmak", realistic);
  ("Fiziksel güç gerektiren işler yapmak", realistic);
  ("Bir binanın planını okumak", realistic);
  ("Bilimsel bir deney yapmak", investigative);
  ("Karmaşık bir problemi çözmek için mantık yürütmek", investigative);
  ("Bir konu hakkında derinlemesine araştırma yapmak", investigative);
  ("Tıbbi bir teşhis koymaya çalışmak", investigative);
  ("Bilgisayar programı yazmak", investigative);
  ("Matematik problemleri çözmek", investigative);
  ("Doğa olaylarını (hava durumu, yıldızlar vb.) incelemek", investigative);
  ("Bir teoriyi anlamak ve açıklamak", investigative);
  ("Mikroskop kullanmak", investigative);
  ("Felsefi veya soyut konular üzerine düşünmek", investigative);
  ("Hikaye, şiir veya şarkı sözü yazmak", artistic);
  ("Bir müzik aleti çalmak", artistic);
  ("Resim yapmak veya heykel yontmak", artistic);
  ("Bir tiyatro oyununda rol almak", artistic);
  ("Orijinal fotoğraflar çekmek", artistic);
  ("Dans etmek veya koreografi oluşturmak", artistic);
  ("Kıyafet veya aksesuar tasarlamak", artistic);
  ("Yeni ve yaratıcı yemek tarifleri denemek", artistic);
  ("Bir web sitesi veya poster için görsel tasarım yapmak", artistic);
  ("Bir filmin yönetmenliğini yapmak", artistic);
  ("Başkalarına yeni bir beceri öğretmek", social);
  ("Bir arkadaşının sorunlarını dinlemek ve ona tavsiye vermek", social);
  ("Gönüllü olarak bir sosyal yardım projesinde çalışmak", social);
  ("Hasta veya yaşlı insanlara yardım etmek", social);
  ("Bir takımın veya grubun uyum içinde çalışmasını sağlamak", social);
  ("Çocuklarla oynamak ve onlara bir şeyler öğretmek", social);
  ("Topluluk önünde konuşma yapmak veya sunum yapmak", social);
  ("İnsanlar arasındaki anlaşmazlıkları çözmek", social);
  ("Yeni insanlarla tanışmak ve sohbet etmek", social);
  ("Bir etkinlik veya parti düzenlemek", social);
  ("Bir grup insanı bir hedef için yönetmek ve yönlendirmek", enterprising);
  ("Bir ürün satmak için başkalarını ikna etmek", enterprising);
  ("Yeni bir iş veya proje başlatmak", enterprising);
  ("Bir tartışmada kendi fikrini hararetle savunmak", enterprising);
  ("Risk almak ve kararlar vermek", enterprising);
  ("Para kazanmak için yeni yollar bulmak", enterprising);
  ("Bir kampanyayı veya seçimi yönetmek", enterprising);
  ("Finansal piyasaları takip etmek ve yatırım yapmak", enterprising);
  ("Başkalarını motive etmek ve onlara ilham vermek", enterprising);
  ("Önemli kişilerle tanışmak ve iş ağı kurmak", enterprising);
  ("Bir bütçe hazırlamak ve harcamaları takip etmek", conventional);
  ("Bilgileri düzenli bir şekilde dosyalamak veya sınıflandırmak", conventional);
  ("Bilgisayarda veri girişi yapmak", conventional);
  ("Belirli kurallara ve prosedürlere göre çalışmak", conventional);
  ("Bir ofis ortamında düzenli saatlerde çalışmak", conventional);
  ("Yazım ve dilbilgisi hatalarını bulmak ve düzeltmek", conventional);
  ("Matematiksel hesaplamaları dikkatlice yapmak", conventional);
  ("Bir envanteri (stok) saymak ve kaydını tutmak", conventional);
  ("Randevuları ve toplantıları planlamak", conventional);
  ("Detaylara dikkat gerektiren işler yapmak", conventional)
].

#[export] Instance holland_bank : SurveyBank Personality := {|
  categories := [realistic; investigative; artistic; social; enterprising; conventional];
  questions := holland_questions;
  answerOptions := [("Hoşlanmam", 0); ("Farketmez", 1); ("Hoşlanırım", 2)]
|}.

Definition holland_resultColors : list string :=
  ["hsl(var(--chart-1))"; "hsl(var(--chart-2))"; "hsl(var(--chart-3))";
   "hsl(var(--chart-4))"; "hsl(var(--chart-5))"; "hsl(var(--primary))"].

(** [Object.entries(scores).map(([type, score], index) => ({ ... }))] *)
Definition holland_entries (scores : list (Personality * nat)) : list RankedEntry :=
  imap (fun index (p : Personality * nat) =>
          mkRanked (personality_key p.1) (first_word (personality_name p.1)) p.2
            (default "" (holland_resultColors !! (index mod length holland_resultColors))))
    scores.

Definition holland_results (answers : Answers) : list RankedEntry :=
  rankDesc entry_score (holland_entries (calculateScores answers)).

(** [topThree.map(r => r.name.charAt(0)).join('')] *)
Definition hollandCode (results : list RankedEntry) : string :=
  String.concat "" (charAt0 <$> (entry_name <$> take 3 results)).

(** [calculateResults] of the Holland page (lines 174-217). *)
Definition calculateResults_holland (studentId classId currentUser : option string)
    (newId now : string) (answers : Answers) : FS SurveyDb (PageOutcome (list RankedEntry)) :=
  match studentId, classId with
  | Some sid, Some cid =>
      if param_missing studentId || param_missing classId
      then fs_ret (mkOutcome [toast_missing_params] None false) else
      let results := holland_results answers in
      saveAndReport currentUser newId
        (mkSurveyData sid cid "holland" (RankedResults results) now) results
  | _, _ => fs_ret (mkOutcome [toast_missing_params] None false)
  end.

(** ** Multiple intelligences ([coklu-zeka-kurami/page.tsx]) *)

Inductive Intelligence :=
  | linguistic | logical | spatial | bodily | musical | interpersonal | intrapersonal | naturalist.

#[export] Instance Intelligence_eq_dec : EqDecision Intelligence.
Proof. solve_decision. Defined.

Definition intelligence_key (c : Intelligence) : string :=
  match c with
  | linguistic => "linguistic" | logical => "logical" | spatial => "spatial"
  | bodily => "bodily" | musical => "musical" | interpersonal => "interpersonal"
  | intrapersonal => "intrapersonal" | naturalist => "naturalist"
  end.

Definition intelligence_name (c : Intelligence) : string :=
  match c with
  | linguistic => "Sözel-Dilsel Zeka" | logical => "Mantıksal-Matematiksel Zeka"
  | spatial => "Görsel-Mekansal Zeka" | bodily => "Bedensel-Kinestetik Zeka"
  | musical => "Müziksel-Ritmik Zeka" | interpersonal => "Kişilerarası (Sosyal) Zeka"
  | intrapersonal => "İçsel Zeka" | naturalist => "Doğacı Zeka"
  end.

Definition coklu_questions : list (string * Intelligence) := [
  ("Kitap okumayı severim.", linguistic);
  ("Yaşıma göre iyi bir kelime dağarcığımın olduğunu düşünürüm.", linguistic);
  ("Duygu ve düşüncelerimi yazıya dökerek daha iyi ifade ederim.", linguistic);
  ("Tekerlemeleri, kelime oyunlarını ve şiirleri severim.", linguistic);
  ("Dinlediklerimi ve okuduklarımı kolayca hatırlar ve özetleyebilirim.", linguistic);
  ("İnsanları konuşarak kolayca ikna edebilirim.", linguistic);
  ("Hikaye, fıkra veya anı anlatmaktan hoşlanırım.", linguistic);
  ("Yazım kurallarına ve dilbilgisine dikkat ederim.", linguistic);
  ("Farklı dilleri öğrenmeye karşı ilgim vardır.", linguistic);
  ("Bulmaca çözmeyi (kelime bulmacası, çengel bulmaca vb.) severim.", linguistic);
  ("Sayılarla uğraşmayı ve hesap yapmayı severim.", logical);
  ("Olayların nedenlerini ve sonuçlarını merak ederim.", logical);
  ("Mantık bulmacaları, satranç gibi strateji oyunları ilgimi çeker.", logical);
  ("Bilgisayarda programlama yapmak veya denemek hoşuma gider.", logical);
  ("Bir şeyleri kategorilere ayırmayı, sınıflandırmayı severim.", logical);
  ("Problem çözerken adımları sıralayarak mantıksal bir sıra izlerim.", logical);
  ("Grafikleri ve tabloları kolayca anlarım ve yorumlarım.", logical);
  ("Bilimsel deneyler yapmak veya izlemek ilgimi çeker.", logical);
  ("Her şeyin mantıklı bir açıklaması olması gerektiğini düşünürüm.", logical);
  ("Soyut ve kavramsal düşünmek bana zor gelmez.", logical);
  ("Haritaları, şemaları ve diyagramları kolayca okurum.", spatial);
  ("Gözlerimi kapattığımda nesneleri zihnimde canlandırabilirim.", spatial);
  ("Resim yapmayı, çizim yapmayı veya görsel tasarımlar oluşturmayı severim.", spatial);
  ("Yap-boz (puzzle) ve üç boyutlu bulmacalardan hoşlanırım.", spatial);
  ("Gittiğim yerleri ve yolları kolay kolay unutmam.", spatial);
  ("Legolar, bloklar gibi şeylerle bir şeyler inşa etmeyi severim.", spatial);
  ("Bir şeyin nasıl göründüğünü tarif etmekte iyiyimdir.", spatial);
  ("Hayal gücümün geniş olduğunu düşünürüm.", spatial);
  ("Fotoğraf çekmek veya video kaydetmek ilgimi çeker.", spatial);
  ("Nesnelerin farklı açılardan nasıl görüneceğini hayal edebilirim.", spatial);
  ("Spor yapmaktan, koşmaktan veya dans etmekten hoşlanırım.", bodily);
  ("Ellerimi kullanarak bir şeyler yapmaktan (tamir, model yapımı vb.) hoşlanırım.", bodily);
  ("Uzun süre oturduğumda sıkılırım, hareket etmeye ihtiyaç duyarım.", bodily);
  ("Jest ve mimiklerimi konuşurken sıkça kullanırım.", bodily);
  ("Denge ve koordinasyon gerektiren aktivitelerde (bisiklete binmek, paten kaymak vb.) iyiyimdir.", bodily);
  ("Bir şeyi anlatırken onu canlandırarak veya yaparak göstermeyi tercih ederim.", bodily);
  ("Yeni bir beceriyi sadece izleyerek veya okuyarak değil, deneyerek daha iyi öğrenirim.", bodily);
  ("Tiyatro, drama gibi sahne sanatlarına ilgim vardır.", bodily);
  ("Dokunarak nesneleri tanımakta ve incelemekte iyiyimdir.", bodily);
  ("Fiziksel risk almaktan veya macera sporlarından çekinmem.", bodily);
  ("Şarkı söylemeyi veya bir enstrüman çalmayı severim.", musical);
  ("Ders çalışırken veya dinlenirken müzik dinlemek hoşuma gider.", musical);
  ("Duyduğum bir melodiyi kolayca aklımda tutabilirim.", musical);
  ("Ritim tutmakta (el çırpma, masaya vurma vb.) iyiyimdir.", musical);
  ("Çevremdeki seslere karşı duyarlıyımdır.", musical);
  ("Farklı müzik türlerini dinlemekten keyif alırım.", musical);
  ("Bir şarkının notasının pes veya tiz olduğunu kolayca fark ederim.", musical);
  ("İnsanların veya hayvanların seslerini taklit edebilirim.", musical);
  ("Aklımda sık sık bir şarkı veya melodi tekrar eder.", musical);
  ("Müzik dinlerken duygulandığım veya enerjik hissettiğim olur.", musical);
  ("Arkadaşlarımla vakit geçirmeyi severim.", interpersonal);
  ("Grup çalışmalarını tek başıma çalışmaya tercih ederim.", interpersonal);
  ("Başkalarının duygularını ve düşüncelerini anlamakta zorlanmam.", interpersonal);
  ("Yeni insanlarla tanışmaktan ve sohbet etmekten keyif alırım.", interpersonal);
  ("Arkadaşlarım sorunları olduğunda bana danışırlar.", interpersonal);
  ("Liderlik yapmam gereken durumlarda kendimi rahat hissederim.", interpersonal);
  ("Başkalarını organize etmekte veya bir araya getirmekte iyiyimdir.", interpersonal);
  ("İnsanlar arasındaki anlaşmazlıkları çözmeye yardımcı olabilirim.", interpersonal);
  ("Empati kurma yeteneğimin güçlü olduğunu düşünürüm.", interpersonal);
  ("Topluluk etkinliklerine veya sosyal kulüplere katılmayı severim.", interpersonal);
  ("Kendi başıma vakit geçirmekten hoşlanırım.", intrapersonal);
  ("Güçlü ve zayıf yönlerimin farkındayımdır.", intrapersonal);
  ("Kendi hedeflerimi belirler ve bu hedeflere ulaşmak için plan yaparım.", intrapersonal);
  ("Duygularımın nedenlerini anlarım.", intrapersonal);
  ("Günlük tutmak veya yaşadıklarım üzerine düşünmek bana iyi gelir.", intrapersonal);
  ("Bağımsız çalışmaktan hoşlanırım.", intrapersonal);
  ("Kendi kendimi motive edebilirim.", intrapersonal);
  ("Yaptığım hatalardan ders çıkarırım.", intrapersonal);
  ("Neyi neden istediğim konusunda net bir fikrim vardır.", intrapersonal);
  ("Hayallerim ve hedeflerim hakkında düşünmek için zaman ayırırım.", intrapersonal);
  ("Doğada (kırda, ormanda, deniz kenarında) vakit geçirmeyi severim.", naturalist);
  ("Bitki yetiştirmek veya hayvan beslemek ilgimi çeker.", naturalist);
  ("Farklı hayvan veya bitki türlerini tanımakta ve ayırt etmekte iyiyimdir.", naturalist);
  ("Doğa belgeselleri izlemekten keyif alırım.", naturalist);
  ("Çevre sorunlarına (kirlilik, iklim değişikliği vb.) karşı duyarlıyımdır.", naturalist);
  ("Mevsimlerin, havanın ve doğal olayların değişimini fark ederim.", naturalist);
  ("Kamp yapmayı, doğa yürüyüşlerini veya balık tutmayı severim.", naturalist);
  ("Böceklerden, örümceklerden veya diğer canlılardan korkmam, onları incelerim.", naturalist);
  ("Kaya, yaprak, deniz kabuğu gibi doğal nesneleri biriktirmeyi severim.", naturalist);
  ("Bulutların şekillerini veya yıldızları incelemekten hoşlanırım.", naturalist)
].

#[export] Instance coklu_bank : SurveyBank Intelligence := {|
  categories := [linguistic; logical; spatial; bodily; musical; interpersonal;
                 intrapersonal; naturalist];
  questions := coklu_questions;
  answerOptions := [("Hiçbir Zaman", 0); ("Ara Sıra", 1); ("Sık Sık", 2); ("Her Zaman", 3)]
|}.

Definition coklu_resultColors : list string :=
  ["hsl(var(--chart-1))"; "hsl(var(--chart-2))"; "hsl(var(--chart-3))";
   "hsl(var(--chart-4))"; "hsl(var(--chart-5))"; "hsl(var(--primary))";
   "hsl(35, 92%, 55%)"; "hsl(262, 70%, 57%)"].

Definition coklu_entries (scores : list (Intelligence * nat)) : list RankedEntry :=
  imap (fun index (p : Intelligence * nat) =>
          mkRanked (intelligence_key p.1) (intelligence_name p.1) p.2
            (default "" (coklu_resultColors !! (index mod length coklu_resultColors))))
    scores.

Definition coklu_results (answers : Answers) : list RankedEntry :=
  rankDesc entry_score (coklu_entries (calculateScores answers)).

(** [calculateResults] of the multiple-intelligence page (lines 200-242). *)
Definition calculateResults_coklu (studentId classId currentUser : option string)
    (newId now : string) (answers : Answers) : FS SurveyDb (PageOutcome (list RankedEntry)) :=
  match studentId, classId with
  | Some sid, Some cid =>
      if param_missing studentId || param_missing classId
      then fs_ret (mkOutcome [toast_missing_params] None false) else
      let results := coklu_results answers in
      saveAndReport currentUser newId
        (mkSurveyData sid cid "coklu-zeka" (RankedResults results) now) results
  | _, _ => fs_ret (mkOutcome [toast_missing_params] None false)
  end.

(** ** Theorems *)

(** The example of the spec: answers [2,1,0,2,1] to the five learning-style
    questions (visual, auditory, kinesthetic, visual, auditory) score
    visual 4, auditory 2, kinesthetic 0; the dominant style is visual, and
    the page saves exactly that result and reports success. *)
Lemma ogrenme_spec_example db :
  let answers : Answers := list_to_map [(0, 2); (1, 1); (2, 0); (3, 2); (4, 1)] in
  calculateScores answers = [(visual, 4); (auditory, 2); (kinesthetic, 0)] /\
  fs_run (calculateResults_ogrenme (Some "s1") (Some "c1") (Some "t1") "d1" "2025-01-01" answers) db =
    (Ok (mkOutcome [toast_survey_saved] (Some visual) true),
     <[("t1", "d1") := mkSurveyDoc
         (mkSurveyData "s1" "c1" "ogrenme-stilleri"
            (DominantResult "visual" [("visual", 4); ("auditory", 2); ("kinesthetic", 0)])
            "2025-01-01") "t1"]> db).
Proof. split; reflexivity. Qed.

(** Ties in the learning-style survey go to the category declared last:
    with every answer "Bana Uygun Değil" all three styles score 0, the
    dominant style is kinesthetic, and the page saves kinesthetic as the
    student's style. *)
Theorem ogrenme_tie_last db :
  let answers : Answers := list_to_map [(0, 0); (1, 0); (2, 0); (3, 0); (4, 0)] in
  dominantStyle (calculateScores answers) = Some kinesthetic /\
  fs_run (calculateResults_ogrenme (Some "s1") (Some "c1") (Some "t1") "d1" "2025-01-01" answers) db =
    (Ok (mkOutcome [toast_survey_saved] (Some kinesthetic) true),
     <[("t1", "d1") := mkSurveyDoc
         (mkSurveyData "s1" "c1" "ogrenme-stilleri"
            (DominantResult "kinesthetic" [("visual", 0); ("auditory", 0); ("kinesthetic", 0)])
            "2025-01-01") "t1"]> db).
Proof. split; reflexivity. Qed.

(** A question bank is checked by computation: its categories are
    distinct constructors, and the membership of every question's category
    is decided. *)
Ltac solve_bank_wf :=
  split; [apply NoDup_ListNoDup; repeat constructor; simpl; intuition discriminate
         |apply (bool_decide_unpack _); vm_compute; reflexivity].

Lemma ogrenme_bank_wf : bank_wf (C := LearningStyle).
Proof. solve_bank_wf. Qed.

Lemma holland_bank_wf : bank_wf (C := Personality).
Proof. solve_bank_wf. Qed.

Lemma coklu_bank_wf : bank_wf (C := Intelligence).
Proof. solve_bank_wf. Qed.

(** The three question banks are well formed: their categories are declared
    once and every question belongs to a declared category. *)
Theorem banks_wf :
  bank_wf (C := LearningStyle) /\ bank_wf (C := Personality) /\ bank_wf (C := Intelligence).
Proof. split_and!; [apply ogrenme_bank_wf|apply holland_bank_wf|apply coklu_bank_wf]. Qed.

Lemma holland_entries_ids (scores : list (Personality * nat)) :
  entry_id <$> holland_entries scores = personality_key <$> (fst <$> scores).
Proof. rewrite <- list_fmap_compose. by apply fmap_imap_same. Qed.

(** The Holland results list each of the six categories exactly once, best
    first: the three entries whose initials form the Holland code score at
    least as much as every category left out. *)
Lemma holland_results_ranked answers :
  Permutation (entry_id <$> holland_results answers) (personality_key <$> categories) /\
  (forall e e', e ∈ take 3 (holland_results answers) -> e' ∈ drop 3 (holland_results answers) ->
     entry_score e' <= entry_score e).
Proof.
  unfold holland_results. split.
  - rewrite (rankDesc_perm entry_score), holland_entries_ids, calculateScores_keys. done.
  - intros e e'. apply sorted_take_drop, rankDesc_sorted.
Qed.

(** ** Witnesses *)

(** The answers of the spec's example. *)
Definition ogrenme_sample_answers : Answers :=
  list_to_map [(0, 2); (1, 1); (2, 0); (3, 2); (4, 1)].

Lemma calculateScores_total_witness :
  bank_wf (C := LearningStyle) /\
  scoreTotal (calculateScores (C := LearningStyle) ogrenme_sample_answers) =
    answerTotal (C := LearningStyle) ogrenme_sample_answers.
Proof. split; [apply ogrenme_bank_wf|apply calculateScores_total, ogrenme_bank_wf]. Defined.

Lemma calculateScores_refScore_witness :
  visual ∈ categories (C := LearningStyle) /\
  scoreOf (calculateScores (C := LearningStyle) ogrenme_sample_answers) visual =
    refScore ogrenme_sample_answers visual /\
  refScore ogrenme_sample_answers visual = 4.
Proof.
  assert (Hc : visual ∈ categories (C := LearningStyle)) by apply list_elem_of_here.
  split_and!; [exact Hc|apply calculateScores_refScore, Hc|vm_compute; reflexivity].
Defined.

(** A stable sort of Holland scores with a tie between R and A. *)
Lemma stable_sort_refines_witness :
  [(investigative, 5); (realistic, 3); (artistic, 3)] =
    rankDesc snd [(realistic, 3); (investigative, 5); (artistic, 3)].
Proof.
  apply stable_sort_refines.
  - repeat constructor; unfold desc; simpl; lia.
  - intros s. unfold with_score. rewrite !filter_cons, filter_nil.
    repeat case_decide; simplify_eq/=; try lia; done.
Defined.

Lemma dominantStyle_last_max_witness :
  exists c pre post,
    dominantStyle (calculateScores (C := LearningStyle) ogrenme_sample_answers) = Some c /\
    fst <$> calculateScores (C := LearningStyle) ogrenme_sample_answers = pre ++ c :: post /\
    Forall (fun k => scoreOf (calculateScores ogrenme_sample_answers) k <=
                     scoreOf (calculateScores ogrenme_sample_answers) c) pre /\
    Forall (fun k => scoreOf (calculateScores ogrenme_sample_answers) k <
                     scoreOf (calculateScores ogrenme_sample_answers) c) post.
Proof. apply dominantStyle_last_max. vm_compute. discriminate. Defined.

(** The page after a radio button of question [iv.1] was set to [iv.2]. *)
Definition answer_page {C} `{!EqDecision C} `{!SurveyBank C} (st : PageState (C := C))
    (iv : nat * nat) : PageState (C := C) :=
  mkPage (handleAnswerChange iv.1 iv.2 (page_answers st)) (page_isSurveyComplete st) (page_results st).

Lemma reachable_answers {C} `{!EqDecision C} `{!SurveyBank C} (st : PageState (C := C)) ivs :
  reachable st ->
  Forall (fun iv : nat * nat => iv.1 < length questions /\ iv.2 ∈ snd <$> answerOptions) ivs ->
  reachable (foldl answer_page st ivs).
Proof.
  revert st. induction ivs as [|[i v] ivs IH]; intros st Hr Hivs; [done|].
  apply Forall_cons in Hivs as [[Hi Hv] Hivs]. apply IH; [|done].
  eapply reach_step; [exact Hr|by apply step_answer].
Qed.

(** The learning-style page after the five answers of the spec's example. *)
Definition ogrenme_filled : PageState (C := LearningStyle) :=
  foldl answer_page initialPage [(0, 2); (1, 1); (2, 0); (3, 2); (4, 1)].

Lemma submit_all_answered_witness :
  reachable ogrenme_filled /\ canSubmit (C := LearningStyle) (page_answers ogrenme_filled) false = true /\
  scoreTotal (calculateScores (C := LearningStyle) (page_answers ogrenme_filled)) =
    sum_list (snd <$> map_to_list (page_answers ogrenme_filled)) /\
  (100 <= progress (C := LearningStyle) (page_answers ogrenme_filled))%Q.
Proof.
  assert (Hr : reachable ogrenme_filled).
  { apply reachable_answers; [apply reach_init|]. apply (bool_decide_unpack _). vm_compute.
    reflexivity. }
  split_and!; [exact Hr|reflexivity| |].
  - apply (submit_all_answered ogrenme_filled false ogrenme_bank_wf Hr). reflexivity.
  - destruct (submit_all_answered ogrenme_filled false ogrenme_bank_wf Hr) as [Hp _].
    destruct (Hp ltac:(vm_compute; lia)) as (_ & _ & Hiff). apply Hiff. reflexivity.
Defined.

End SurveyPages.
