(* ===== verification/Forum.v ===== *)
(** * ForumStore: posts, replies and comments ([src/src/hooks/use-forum.ts])

    The collections [forum/{postId}], [forum/{postId}/replies/{replyId}] and
    [forum/{postId}/replies/{replyId}/comments/{commentId}] are three maps
    keyed by their path ids.  As in Firestore, a sub-collection exists
    independently of its parent document: deleting a document does not
    delete what is below it, which is why [deletePost] and [deleteReply]
    delete the comments first.  Replies carry the denormalised
    [commentCount] (an integer: [increment(-1)] can take it below 0) and the
    array [upvotedBy].  [addReply] goes through the server action
    [addReplyAction] of [src/src/app/actions.ts]. *)

From S2P Require Import Prelude.
From Stdlib Require Import ZArith.

Module Forum.

(** ** Data *)

Record ForumAuthor := mkAuthor { author_uid : string; author_name : string }.

Record ForumPost := mkPost {
  post_title : string;
  post_description : string;
  post_category : string;
  post_author : ForumAuthor;
  post_date : string
}.

Record ForumReply := mkReply {
  reply_author : ForumAuthor;
  reply_content : string;
  reply_date : string;
  upvotedBy : list string;
  commentCount : Z
}.

Record ForumComment := mkComment {
  comment_author : ForumAuthor;
  comment_content : string;
  comment_date : string
}.

Record ForumDb := mkForumDb {
  posts : gmap string ForumPost;
  replies : gmap (string * string) ForumReply;
  comments : gmap (string * string * string) ForumComment
}.

(** ** Requests *)

Definition set_posts (m : gmap string ForumPost) (db : ForumDb) : ForumDb :=
  mkForumDb m (replies db) (comments db).
Definition set_replies (m : gmap (string * string) ForumReply) (db : ForumDb) : ForumDb :=
  mkForumDb (posts db) m (comments db).
Definition set_comments (m : gmap (string * string * string) ForumComment) (db : ForumDb)
    : ForumDb :=
  mkForumDb (posts db) (replies db) m.
Arguments set_posts _ _ /.
Arguments set_replies _ _ /.
Arguments set_comments _ _ /.

(** The comment documents of a reply, by their paths. *)
Definition commentKeys (postId replyId : string) (db : ForumDb) : gset (string * string * string) :=
  filter (fun k : string * string * string => k.1 = (postId, replyId)) (dom (comments db)).

(** [getDocs(collection(db, `forum/${postId}/replies/${replyId}/comments`))]:
    the ids of the comments of a reply. *)
Definition commentIds (postId replyId : string) (db : ForumDb) : list string :=
  (fun k : string * string * string => k.2) <$> elements (commentKeys postId replyId db).

(** [getDocs(collection(db, `forum/${postId}/replies`))]: the ids of the
    replies of a post. *)
Definition replyIds (postId : string) (db : ForumDb) : list string :=
  (fun k : string * string => k.2) <$>
    elements (filter (fun k : string * string => k.1 = postId) (dom (replies db))).

Definition getCommentIds (postId replyId : string) : FS ForumDb (list string) :=
  remote (fun db => Some (commentIds postId replyId db, db)).

Definition getReplyIds (postId : string) : FS ForumDb (list string) :=
  remote (fun db => Some (replyIds postId db, db)).

(** One write of a [writeBatch]. *)
Inductive ForumWrite :=
  | DeletePost (postId : string)
  | DeleteReply (postId replyId : string)
  | DeleteComment (postId replyId commentId : string)
  | SetComment (postId replyId commentId : string) (c : ForumComment)
  | IncrementCommentCount (postId replyId : string) (n : Z).

Definition with_count (r : ForumReply) (n : Z) : ForumReply :=
  mkReply (reply_author r) (reply_content r) (reply_date r) (upvotedBy r) n.

(** A write on the store, [None] when it updates a missing document. *)
Definition applyWrite (db : ForumDb) (w : ForumWrite) : option ForumDb :=
  match w with
  | DeletePost p => Some (set_posts (delete p (posts db)) db)
  | DeleteReply p r => Some (set_replies (delete (p, r) (replies db)) db)
  | DeleteComment p r c => Some (set_comments (delete (p, r, c) (comments db)) db)
  | SetComment p r c v => Some (set_comments (<[(p, r, c) := v]> (comments db)) db)
  | IncrementCommentCount p r n =>
      match replies db !! (p, r) with
      | Some rep => Some (set_replies (<[(p, r) := with_count rep (commentCount rep + n)]>
                                          (replies db)) db)
      | None => None
      end
  end.

Fixpoint applyWrites (db : ForumDb) (ws : list ForumWrite) : option ForumDb :=
  match ws with
  | [] => Some db
  | w :: ws' => match applyWrite db w with Some db' => applyWrites db' ws' | None => None end
  end.

(** [batch.commit()]: all the writes or none. *)
Definition commit (ws : list ForumWrite) : FS ForumDb unit :=
  remote (fun db => match applyWrites db ws with Some db' => Some (tt, db') | None => None end).

Local Open Scope fs_scope.

(** ** Operations *)

(** [deleteSubcollection(`forum/${postId}/replies/${replyId}/comments`)] *)
Definition deleteSubcollection (postId replyId : string) : FS ForumDb unit :=
  let* ids := getCommentIds postId replyId in
  commit ((fun c => DeleteComment postId replyId c) <$> ids).

(** The loop of [deletePost]: each reply's comments are deleted by their own
    batch, and the reply is queued in the post's batch. *)
Fixpoint deleteReplies (postId : string) (ids : list string) : FS ForumDb (list ForumWrite) :=
  match ids with
  | [] => fs_ret []
  | r :: rs =>
      let* _ := deleteSubcollection postId r in
      let* ws := deleteReplies postId rs in
      fs_ret (DeleteReply postId r :: ws)
  end.

(** [deletePost(postId)] (lines 147-171). *)
Definition deletePost (postId : string) : FS ForumDb bool :=
  fs_catch
    (let* ids := getReplyIds postId in
     let* ws := deleteReplies postId ids in
     let* _ := commit (ws ++ [DeletePost postId]) in
     fs_ret true)
    (fun _ => fs_ret false).

(** [addPost(postData)] (lines 134-145), with the generated id. *)
Definition addPost (newId : string) (postData : ForumPost) : FS ForumDb (option string) :=
  fs_catch
    (let* _ := remote (fun db => Some (tt, set_posts (<[newId := postData]> (posts db)) db)) in
     fs_ret (Some newId))
    (fun _ => fs_ret None).

(** [addReplyAction(postId, { author, content })] of [src/src/app/actions.ts]
    (lines 114-130): [success] and [error]. *)
Definition addReplyAction (newId now postId : string) (author : option ForumAuthor)
    (content : string) : FS ForumDb (bool * option string) :=
  match author with
  | Some a =>
      if String.eqb content "" then fs_ret (false, Some "Cevap içeriği veya yazar bilgisi eksik.")
      else
        fs_catch
          (let* _ := remote (fun db => Some (tt, set_replies
                        (<[(postId, newId) := mkReply a content now [] 0%Z]> (replies db)) db)) in
           fs_ret (true, None))
          (fun _ => fs_ret (false, Some "Cevap eklenirken bir hata oluştu."))
  | None => fs_ret (false, Some "Cevap içeriği veya yazar bilgisi eksik.")
  end.

(** [addReply(postId, author, content)] (lines 174-185). *)
Definition addReply (newId now postId : string) (author : option ForumAuthor) (content : string)
    : FS ForumDb bool :=
  let* res := addReplyAction newId now postId author content in
  fs_ret res.1.

(** [deleteReply(postId, replyId)] (lines 187-196). *)
Definition deleteReply (postId replyId : string) : FS ForumDb bool :=
  fs_catch
    (let* _ := deleteSubcollection postId replyId in
     let* _ := commit [DeleteReply postId replyId] in
     fs_ret true)
    (fun _ => fs_ret false).

(** [addCommentToReply(postId, replyId, author, content)] (lines 199-225),
    with the id [doc(commentsColRef)] generates. *)
Definition addCommentToReply (newId now postId replyId : string) (author : ForumAuthor)
    (content : string) : FS ForumDb bool :=
  fs_catch
    (let* _ := commit [SetComment postId replyId newId (mkComment author content now);
                       IncrementCommentCount postId replyId 1] in
     fs_ret true)
    (fun _ => fs_ret false).

(** [deleteComment(postId, replyId, commentId)] (lines 227-247). *)
Definition deleteComment (postId replyId commentId : string) : FS ForumDb bool :=
  fs_catch
    (let* _ := commit [DeleteComment postId replyId commentId;
                       IncrementCommentCount postId replyId (-1)] in
     fs_ret true)
    (fun _ => fs_ret false).

(** [arrayRemove(userId)]: every occurrence goes. *)
Definition arrayRemove (u : string) (l : list string) : list string :=
  filter (fun x => x <> u) l.

(** [arrayUnion(userId)]: appended unless present. *)
Definition arrayUnion (u : string) (l : list string) : list string :=
  if decide (u ∈ l) then l else l ++ [u].

Definition set_upvotes (l : list string) (r : ForumReply) : ForumReply :=
  mkReply (reply_author r) (reply_content r) (reply_date r) l (commentCount r).

(** [updateDoc(replyRef, { upvotedBy: f(...) })]: fails on a missing reply. *)
Definition updateUpvotes (postId replyId : string) (f : list string -> list string)
    : FS ForumDb unit :=
  remote (fun db =>
    match replies db !! (postId, replyId) with
    | Some r => Some (tt, set_replies (<[(postId, replyId) := set_upvotes (f (upvotedBy r)) r]>
                                         (replies db)) db)
    | None => None
    end).

(** [toggleUpvote(postId, replyId, userId)] (lines 251-272); errors are
    only logged. *)
Definition toggleUpvote (postId replyId userId : string) : FS ForumDb unit :=
  fs_catch
    (let* snap := remote (fun db => Some (replies db !! (postId, replyId), db)) in
     match snap with
     | None => fs_ret tt
     | Some r =>
         if decide (userId ∈ upvotedBy r)
         then updateUpvotes postId replyId (arrayRemove userId)
         else updateUpvotes postId replyId (arrayUnion userId)
     end)
    (fun _ => fs_ret tt).

(** ** The forum as a transition system

    Any client may run any operation at any time, each under its own fault
    schedule; the store is what the sequence of their runs leaves. *)

Inductive ForumOp :=
  | OpAddPost (newId : string) (postData : ForumPost)
  | OpDeletePost (postId : string)
  | OpAddReply (newId now postId : string) (author : option ForumAuthor) (content : string)
  | OpDeleteReply (postId replyId : string)
  | OpAddComment (newId now postId replyId : string) (author : ForumAuthor) (content : string)
  | OpDeleteComment (postId replyId commentId : string)
  | OpToggleUpvote (postId replyId userId : string).

Definition runOp (op : ForumOp) (fl : list bool) (db : ForumDb) : ForumDb :=
  match op with
  | OpAddPost i d => fs_state (addPost i d fl db)
  | OpDeletePost p => fs_state (deletePost p fl db)
  | OpAddReply i t p a c => fs_state (addReply i t p a c fl db)
  | OpDeleteReply p r => fs_state (deleteReply p r fl db)
  | OpAddComment i t p r a c => fs_state (addCommentToReply i t p r a c fl db)
  | OpDeleteComment p r c => fs_state (deleteComment p r c fl db)
  | OpToggleUpvote p r u => fs_state (toggleUpvote p r u fl db)
  end.

Definition emptyForum : ForumDb := mkForumDb ∅ ∅ ∅.

Inductive forum_reachable : ForumDb -> Prop :=
  | reach_empty : forum_reachable emptyForum
  | reach_op op fl db : forum_reachable db -> forum_reachable (runOp op fl db).

(** ** Invariants *)

(** No orphan comment: every comment document sits under an existing reply. *)
Definition comments_attached (db : ForumDb) : Prop :=
  forall p r c, is_Some (comments db !! (p, r, c)) -> is_Some (replies db !! (p, r)).

(** [upvotedBy] holds every user at most once. *)
Definition upvotes_nodup (db : ForumDb) : Prop :=
  forall k rep, replies db !! k = Some rep -> NoDup (upvotedBy rep).

Definition forum_wf (db : ForumDb) : Prop := comments_attached db /\ upvotes_nodup db.

(** The number of comment documents of a reply. *)
Definition countComments (postId replyId : string) (db : ForumDb) : nat :=
  size (commentKeys postId replyId db).

(** The denormalised [commentCount] of every reply is its number of comments. *)
Definition counts_ok (db : ForumDb) : Prop :=
  forall p r rep, replies db !! (p, r) = Some rep ->
    commentCount rep = Z.of_nat (countComments p r db).

(** ** Requests and batches *)

Lemma applyWrites_app db ws1 ws2 :
  applyWrites db (ws1 ++ ws2) = applyWrites db ws1 ≫= fun db' => applyWrites db' ws2.
Proof.
  revert db. induction ws1 as [|w ws1 IH]; intros db; [done|]. simpl.
  destruct (applyWrite db w); [apply IH|done].
Qed.

Lemma applyWrites_DeleteComments db p r ids :
  applyWrites db ((fun c => DeleteComment p r c) <$> ids) =
    Some (set_comments (foldl (fun m c => delete (p, r, c) m) (comments db) ids) db).
Proof.
  revert db. induction ids as [|c ids IH]; intros db; [by destruct db|]. simpl. by rewrite IH.
Qed.

Lemma applyWrites_DeleteReplies db p ids :
  applyWrites db ((fun r => DeleteReply p r) <$> ids) =
    Some (set_replies (foldl (fun m r => delete (p, r) m) (replies db) ids) db).
Proof.
  revert db. induction ids as [|r ids IH]; intros db; [by destruct db|]. simpl. by rewrite IH.
Qed.

(** What [getDocs] of the comments finds: every comment of the reply. *)
Lemma elem_of_commentIds p r db k :
  k ∈ (fun c => (p, r, c)) <$> commentIds p r db <-> k.1 = (p, r) /\ is_Some (comments db !! k).
Proof.
  unfold commentIds, commentKeys. rewrite <- list_fmap_compose, list_elem_of_fmap.
  setoid_rewrite elem_of_elements. setoid_rewrite elem_of_filter. setoid_rewrite elem_of_dom.
  split.
  - intros ([[p' r'] c'] & -> & Hk & Hc). simpl in *. by simplify_eq.
  - intros [Hk Hc]. exists k. destruct k as [[p' r'] c']. simpl in *. by simplify_eq.
Qed.

Lemma elem_of_replyIds p db r :
  r ∈ replyIds p db <-> is_Some (replies db !! (p, r)).
Proof.
  unfold replyIds. rewrite list_elem_of_fmap.
  setoid_rewrite elem_of_elements. setoid_rewrite elem_of_filter. setoid_rewrite elem_of_dom.
  split.
  - intros ([p' r'] & -> & Hk & Hr). simpl in *. by subst p'.
  - intros Hr. by exists (p, r).
Qed.

(** The store after [deleteSubcollection]. *)
Definition clearOne (postId replyId : string) (db : ForumDb) : ForumDb :=
  set_comments (foldl (fun m c => delete (postId, replyId, c) m) (comments db)
                  (commentIds postId replyId db)) db.

Lemma comments_clearOne p r db k :
  comments (clearOne p r db) !! k = if decide (k.1 = (p, r)) then None else comments db !! k.
Proof.
  unfold clearOne. simpl.
  rewrite (lookup_foldl_delete (fun c => (p, r, c))).
  pose proof (elem_of_commentIds p r db k).
  repeat case_decide; try naive_solver. apply eq_None_not_Some. naive_solver.
Qed.

Lemma deleteSubcollection_run p r db :
  deleteSubcollection p r [] db = (Ok tt, [], clearOne p r db).
Proof.
  unfold deleteSubcollection, fs_bind, getCommentIds, commit, remote. simpl.
  by rewrite applyWrites_DeleteComments.
Qed.

(** Under any schedule: all the comments of the reply go, or nothing. *)
Lemma deleteSubcollection_cases p r fl db :
  (exists fl', deleteSubcollection p r fl db = (Ok tt, fl', clearOne p r db)) \/
  (exists e fl', deleteSubcollection p r fl db = (Err e, fl', db)).
Proof.
  unfold deleteSubcollection, fs_bind, getCommentIds, commit, remote.
  destruct fl as [|[] [|[] fl]]; simpl; rewrite ?applyWrites_DeleteComments; eauto.
Qed.

(** ** The store after the deletion loop *)

Definition clearMany (postId : string) (ids : list string) (db : ForumDb) : ForumDb :=
  foldl (fun db r => clearOne postId r db) db ids.

Lemma clearMany_replies p ids db : replies (clearMany p ids db) = replies db.
Proof. revert db. induction ids as [|r ids IH]; intros db; [done|]. apply (IH (clearOne p r db)). Qed.

Lemma clearMany_posts p ids db : posts (clearMany p ids db) = posts db.
Proof. revert db. induction ids as [|r ids IH]; intros db; [done|]. apply (IH (clearOne p r db)). Qed.

Lemma comments_clearMany p ids db k :
  comments (clearMany p ids db) !! k =
    if decide (k.1.1 = p /\ k.1.2 ∈ ids) then None else comments db !! k.
Proof.
  revert db. induction ids as [|r ids IH]; intros db; simpl.
  - case_decide as Hk; [by destruct Hk as [_ ?%not_elem_of_nil]|done].
  - rewrite IH, comments_clearOne. destruct k as [[p' r'] c]. simpl.
    repeat case_decide; rewrite ?elem_of_cons in *; naive_solver.
Qed.

Lemma deleteReplies_run p ids db :
  deleteReplies p ids [] db = (Ok ((fun r => DeleteReply p r) <$> ids), [], clearMany p ids db).
Proof.
  revert db. induction ids as [|r ids IH]; intros db; [done|]. simpl.
  rewrite (bind_ok _ _ _ _ _ _ _ (deleteSubcollection_run p r db)).
  by rewrite (bind_ok _ _ _ _ _ _ _ (IH _)).
Qed.

(** The store [deletePost] leaves when nothing fails. *)
Definition deletedPost (postId : string) (db : ForumDb) : ForumDb :=
  let db1 := clearMany postId (replyIds postId db) db in
  set_posts (delete postId (posts db1))
    (set_replies (foldl (fun m r => delete (postId, r) m) (replies db1) (replyIds postId db)) db1).

Lemma deletePost_run p db : deletePost p [] db = (Ok true, [], deletedPost p db).
Proof.
  unfold deletePost, fs_catch, getReplyIds. unfold fs_bind at 1. simpl.
  rewrite (bind_ok _ _ _ _ _ _ _ (deleteReplies_run p _ db)).
  unfold fs_bind, commit, remote. by rewrite applyWrites_app, applyWrites_DeleteReplies.
Qed.

Lemma posts_deletedPost p db q :
  posts (deletedPost p db) !! q = if decide (q = p) then None else posts db !! q.
Proof.
  unfold deletedPost. simpl. rewrite lookup_delete, clearMany_posts.
  repeat case_decide; congruence.
Qed.

Lemma replies_deletedPost p db q r :
  replies (deletedPost p db) !! (q, r) =
    if decide (q = p /\ is_Some (replies db !! (p, r))) then None else replies db !! (q, r).
Proof.
  unfold deletedPost. simpl. rewrite (lookup_foldl_delete (fun r => (p, r))), clearMany_replies.
  pose proof (elem_of_replyIds p db r).
  repeat case_decide; rewrite ?list_elem_of_fmap in *; naive_solver.
Qed.

Lemma comments_deletedPost p db q r c :
  comments (deletedPost p db) !! (q, r, c) =
    if decide (q = p /\ is_Some (replies db !! (p, r))) then None else comments db !! (q, r, c).
Proof.
  unfold deletedPost. simpl. rewrite comments_clearMany. simpl.
  pose proof (elem_of_replyIds p db r). repeat case_decide; naive_solver.
Qed.

(** C24 *)
(** Deleting a post with nothing failing reports success and removes the
    post, all its replies and all their comments, and leaves every other
    post, reply and comment as it was; with no orphan comment in the store
    before, none of the post is left behind. *)
Theorem deletePost_complete p db :
  comments_attached db ->
  exists db', fs_run (deletePost p) db = (Ok true, db') /\
    posts db' !! p = None /\
    (forall r, replies db' !! (p, r) = None) /\
    (forall r c, comments db' !! (p, r, c) = None) /\
    (forall q, q <> p -> posts db' !! q = posts db !! q /\
       (forall r, replies db' !! (q, r) = replies db !! (q, r)) /\
       (forall r c, comments db' !! (q, r, c) = comments db !! (q, r, c))).
Proof.
  intros Hatt. eexists. split; [eapply fs_run_eq, deletePost_run|].
  split_and!; [|intros r|intros r c|intros q Hq; split_and!; [|intros r|intros r c]];
    rewrite ?posts_deletedPost, ?replies_deletedPost, ?comments_deletedPost;
    case_decide as Hr; try naive_solver.
  all: apply eq_None_not_Some; intros Hc; apply Hr; split; [done|]; first [done|by eapply Hatt].
Qed.

(** ** Every operation keeps the store well formed, whatever fails *)

Definition no_comments (postId replyId : string) (db : ForumDb) : Prop :=
  forall c, comments db !! (postId, replyId, c) = None.

Lemma clearOne_wf p r db : forum_wf db -> forum_wf (clearOne p r db).
Proof.
  intros [Hatt Hnd]. split; [|exact Hnd]. intros p' r' c. rewrite comments_clearOne.
  case_decide; [by intros []%is_Some_None|]. apply Hatt.
Qed.

Lemma clearOne_no_comments p r db A :
  Forall (fun r' => no_comments p r' db) A ->
  Forall (fun r' => no_comments p r' (clearOne p r db)) (A ++ [r]).
Proof.
  intros HA. apply Forall_app. split; [|apply Forall_singleton; intros c;
    by rewrite comments_clearOne, decide_True].
  eapply Forall_impl; [exact HA|]. intros r' H c. rewrite comments_clearOne.
  case_decide; [done|apply H].
Qed.

Lemma deleteSubcollection_spec p r A :
  triple (fun s => forum_wf s /\ Forall (fun r' => no_comments p r' s) A)
    (deleteSubcollection p r)
    (fun _ s => forum_wf s /\ Forall (fun r' => no_comments p r' s) (A ++ [r])) forum_wf.
Proof.
  intros fl s [Hwf HA].
  destruct (deleteSubcollection_cases p r fl s) as [[fl' ->]|(e & fl' & ->)]; [|done].
  split; [by apply clearOne_wf|by apply clearOne_no_comments].
Qed.

Lemma deleteReplies_spec p ids A :
  triple (fun s => forum_wf s /\ Forall (fun r => no_comments p r s) A)
    (deleteReplies p ids)
    (fun ws s => forum_wf s /\ Forall (fun r => no_comments p r s) (A ++ ids) /\
                 ws = (fun r => DeleteReply p r) <$> ids) forum_wf.
Proof.
  revert A. induction ids as [|r ids IH]; intros A; simpl.
  - apply triple_ret. intros s [? ?]. by rewrite app_nil_r.
  - eapply triple_bind; [apply deleteSubcollection_spec|]. intros u. cbv beta.
    eapply triple_bind; [apply IH|]. intros ws. apply triple_ret.
    intros s (? & ? & ->). by rewrite <- app_assoc in *.
Qed.

(** Deleting replies none of whose comments is left keeps the store well formed. *)
Lemma deleteReplies_wf p ids s :
  forum_wf s -> Forall (fun r => no_comments p r s) ids ->
  forum_wf (set_replies (foldl (fun m r => delete (p, r) m) (replies s) ids) s).
Proof.
  intros [Hatt Hnd] Hids. split.
  - intros p' r' c Hc. simpl in *. rewrite (lookup_foldl_delete (fun r => (p, r))).
    case_decide as Hin; [|by eapply Hatt].
    apply list_elem_of_fmap in Hin as (r & [= -> ->] & Hr).
    rewrite Forall_forall in Hids. rewrite (Hids r) in Hc; [by destruct Hc|done].
  - intros k rep. simpl. rewrite (lookup_foldl_delete (fun r => (p, r))).
    case_decide; [done|apply Hnd].
Qed.

Lemma deletePost_wf p : Preserves forum_wf (deletePost p).
Proof.
  unfold deletePost. apply Preserves_catch; [|intros; apply Preserves_ret].
  eapply triple_bind.
  { apply (triple_remote _ (fun _ s => forum_wf s /\ Forall (fun r => no_comments p r s) []));
      [done|]. intros s Hs. by split. }
  intros ids. eapply triple_bind; [apply deleteReplies_spec|]. intros ws.
  apply (triple_bind _ (fun _ => forum_wf)); [|intros; apply Preserves_ret].
  apply triple_remote; [naive_solver|]. intros s (Hwf & HA & ->).
  rewrite applyWrites_app, applyWrites_DeleteReplies. simpl.
  pose proof (deleteReplies_wf p ids s Hwf HA) as [? ?]. by split.
Qed.

Lemma deleteReply_wf p r : Preserves forum_wf (deleteReply p r).
Proof.
  unfold deleteReply. apply Preserves_catch; [|intros; apply Preserves_ret].
  apply (triple_weaken (fun s => forum_wf s /\ Forall (fun r => no_comments p r s) []) _
           (fun _ => forum_wf) _ forum_wf); [|by split|done|done].
  eapply triple_bind; [apply deleteSubcollection_spec|]. intros u. cbv beta.
  apply (triple_bind _ (fun _ => forum_wf)); [|intros; apply Preserves_ret].
  apply triple_remote; [naive_solver|]. intros s [Hwf HA].
  apply (deleteReplies_wf p [r] s Hwf HA).
Qed.

Lemma addPost_wf newId d : Preserves forum_wf (addPost newId d).
Proof.
  unfold addPost. apply Preserves_catch; [|intros; apply Preserves_ret].
  apply Preserves_bind; [|intros; apply Preserves_ret].
  apply Preserves_remote. by intros s x s' [Hatt Hnd] [= _ <-].
Qed.

Lemma addReply_wf newId now p a c : Preserves forum_wf (addReply newId now p a c).
Proof.
  unfold addReply, addReplyAction. apply Preserves_bind; [|intros; apply Preserves_ret].
  destruct a as [a|]; [|apply Preserves_ret]. destruct (String.eqb c ""); [apply Preserves_ret|].
  apply Preserves_catch; [|intros; apply Preserves_ret].
  apply Preserves_bind; [|intros; apply Preserves_ret].
  apply Preserves_remote. intros s x s' [Hatt Hnd] [= _ <-]. split; hnf; simpl.
  - intros p' r' c' Hc. rewrite lookup_insert_is_Some'. right. by eapply Hatt.
  - intros k rep. rewrite lookup_insert_Some.
    intros [[_ <-]|[_ Hk]]; [apply NoDup_nil_2|by eapply Hnd].
Qed.

(** A batch that also updates the counter of the reply succeeds only
    when the reply exists, so the comment it writes is attached. *)
Lemma addCommentToReply_wf newId now p r a c :
  Preserves forum_wf (addCommentToReply newId now p r a c).
Proof.
  unfold addCommentToReply. apply Preserves_catch; [|intros; apply Preserves_ret].
  apply Preserves_bind; [|intros; apply Preserves_ret].
  apply Preserves_remote. intros s x s' [Hatt Hnd]. simpl.
  destruct (replies s !! (p, r)) as [rep|] eqn:Hr; [|done]. intros [= _ <-]. split; hnf; simpl.
  - intros p' r' c'. rewrite !lookup_insert_is_Some'.
    intros [[= -> -> ->]|Hc]; [by left|right; by eapply Hatt].
  - intros k rep'. rewrite lookup_insert_Some.
    intros [[<- <-]|[_ Hk]]; [apply (Hnd _ _ Hr)|by eapply Hnd].
Qed.

Lemma deleteComment_wf p r c : Preserves forum_wf (deleteComment p r c).
Proof.
  unfold deleteComment. apply Preserves_catch; [|intros; apply Preserves_ret].
  apply Preserves_bind; [|intros; apply Preserves_ret].
  apply Preserves_remote. intros s x s' [Hatt Hnd]. simpl.
  destruct (replies s !! (p, r)) as [rep|] eqn:Hr; [|done]. intros [= _ <-]. split; hnf; simpl.
  - intros p' r' c'. rewrite lookup_insert_is_Some', lookup_delete_is_Some.
    intros [_ Hc]. right. by eapply Hatt.
  - intros k rep'. rewrite lookup_insert_Some.
    intros [[<- <-]|[_ Hk]]; [apply (Hnd _ _ Hr)|by eapply Hnd].
Qed.

Lemma arrayRemove_NoDup u l : NoDup l -> NoDup (arrayRemove u l).
Proof. apply NoDup_filter. Qed.

Lemma arrayUnion_NoDup u l : NoDup l -> NoDup (arrayUnion u l).
Proof.
  unfold arrayUnion. case_decide; [done|]. intros Hl.
  apply NoDup_app. split_and!; [done| |apply NoDup_singleton]. set_solver.
Qed.

Lemma updateUpvotes_wf p r f :
  (forall l, NoDup l -> NoDup (f l)) -> Preserves forum_wf (updateUpvotes p r f).
Proof.
  intros Hf. apply Preserves_remote. intros s x s' [Hatt Hnd].
  destruct (replies s !! (p, r)) as [rep|] eqn:Hr; [|done]. intros [= _ <-]. split; hnf; simpl.
  - intros p' r' c' Hc. rewrite lookup_insert_is_Some'. right. by eapply Hatt.
  - intros k rep'. rewrite lookup_insert_Some.
    intros [[<- <-]|[_ Hk]]; [apply Hf, (Hnd _ _ Hr)|by eapply Hnd].
Qed.

Lemma toggleUpvote_wf p r u : Preserves forum_wf (toggleUpvote p r u).
Proof.
  unfold toggleUpvote. apply Preserves_catch; [|intros; apply Preserves_ret].
  apply Preserves_bind; [apply Preserves_remote; by intros s a s' Hs [= _ <-]|].
  intros [rep|]; [|apply Preserves_ret].
  case_decide; apply updateUpvotes_wf; auto using arrayRemove_NoDup, arrayUnion_NoDup.
Qed.

Lemma runOp_wf op fl db : forum_wf db -> forum_wf (runOp op fl db).
Proof.
  intros Hwf. destruct op; simpl; apply (Preserves_state forum_wf); auto using addPost_wf,
    deletePost_wf, addReply_wf, deleteReply_wf, addCommentToReply_wf, deleteComment_wf,
    toggleUpvote_wf.
Qed.

(** C23 *)
(** Whatever operations the clients run, in any order and with any of
    their requests failing, no comment is ever left without its reply and
    no user appears twice in a reply's upvotes. *)
Theorem forum_reachable_wf db : forum_reachable db -> forum_wf db.
Proof.
  induction 1 as [|op fl db _ IH]; [|by apply runOp_wf].
  split; [intros p r c|intros k rep]; simpl; by rewrite lookup_empty.
Qed.

(** ** The comment counter *)

Lemma countComments_insert p r db db' k v :
  comments db !! k = None -> comments db' = <[k:=v]> (comments db) ->
  countComments p r db' = (if decide (k.1 = (p, r)) then 1 else 0) + countComments p r db.
Proof.
  intros Hk Hc. unfold countComments, commentKeys. rewrite Hc.
  refine (size_filter_dom_insert _ _ _ _ Hk).
Qed.

Lemma countComments_delete p r db db' k v :
  comments db !! k = Some v -> comments db' = delete k (comments db) ->
  countComments p r db = (if decide (k.1 = (p, r)) then 1 else 0) + countComments p r db'.
Proof.
  intros Hk Hc. unfold countComments, commentKeys. rewrite Hc.
  refine (size_filter_dom_delete _ _ _ _ Hk).
Qed.

Lemma countComments_delete_Z p r db db' k v :
  comments db !! k = Some v -> comments db' = delete k (comments db) ->
  Z.of_nat (countComments p r db') =
    (Z.of_nat (countComments p r db) - if decide (k.1 = (p, r)) then 1 else 0)%Z.
Proof.
  intros Hk Hc. rewrite (countComments_delete p r db db' k v Hk Hc). case_decide; lia.
Qed.

Lemma countComments_pos p r c db : is_Some (comments db !! (p, r, c)) -> 0 < countComments p r db.
Proof.
  intros [v Hv]. rewrite (countComments_delete p r db (set_comments (delete (p, r, c) (comments db)) db)
    _ _ Hv); [|done]. rewrite decide_True by done. lia.
Qed.

Lemma countComments_clearOne p r db : countComments p r (clearOne p r db) = 0.
Proof.
  unfold countComments, commentKeys. apply size_empty_iff. apply set_equiv. intros k.
  rewrite elem_of_filter, elem_of_dom, comments_clearOne. split; [|set_solver].
  intros [Hk Hs]. rewrite decide_True in Hs by done. by destruct Hs.
Qed.

(** A batch that moves the counter of one reply by [n], with the number of
    comments of that reply moving by [n] too, keeps the counters right. *)
Lemma counts_ok_update db db' p r rep n :
  counts_ok db -> replies db !! (p, r) = Some rep ->
  replies db' = <[(p, r) := with_count rep (commentCount rep + n)%Z]> (replies db) ->
  (forall p' r', Z.of_nat (countComments p' r' db') =
     (Z.of_nat (countComments p' r' db) + if decide ((p', r') = (p, r)) then n else 0)%Z) ->
  counts_ok db'.
Proof.
  intros Hok Hr Hrep Hcnt p' r' rep'. rewrite Hrep, lookup_insert_Some, Hcnt.
  intros [[[= <- <-] <-]|[Hne Hk]].
  - rewrite decide_True by done. simpl. rewrite (Hok _ _ _ Hr). lia.
  - rewrite decide_False by congruence. rewrite (Hok _ _ _ Hk). lia.
Qed.

Lemma addCommentToReply_counts newId now p r a c :
  triple (fun s => counts_ok s /\ comments s !! (p, r, newId) = None)
    (addCommentToReply newId now p r a c) (fun _ => counts_ok) counts_ok.
Proof.
  unfold addCommentToReply. apply (triple_catch _ _ counts_ok); [|intros; apply Preserves_ret].
  apply (triple_bind _ (fun _ => counts_ok)); [|intros; apply Preserves_ret].
  apply triple_remote; [naive_solver|]. intros s [Hok Hfresh]. simpl.
  destruct (replies s !! (p, r)) as [rep|] eqn:Hr; [|done].
  eapply counts_ok_update; [done|done|done|]. intros p' r'.
  erewrite countComments_insert; [|done|done]. simpl.
  repeat case_decide; simplify_eq; try congruence; lia.
Qed.

Lemma deleteComment_counts p r c :
  triple (fun s => counts_ok s /\ is_Some (comments s !! (p, r, c)))
    (deleteComment p r c) (fun _ => counts_ok) counts_ok.
Proof.
  unfold deleteComment. apply (triple_catch _ _ counts_ok); [|intros; apply Preserves_ret].
  apply (triple_bind _ (fun _ => counts_ok)); [|intros; apply Preserves_ret].
  apply triple_remote; [naive_solver|]. intros s [Hok [v Hc]]. simpl.
  destruct (replies s !! (p, r)) as [rep|] eqn:Hr; [|done].
  eapply counts_ok_update; [done|done|done|]. intros p' r'.
  erewrite (countComments_delete_Z p' r' s); [|exact Hc|done]. simpl.
  repeat case_decide; simplify_eq; try congruence; lia.
Qed.

(** C25 *)
(** The denormalised [commentCount] of every reply stays equal to its
    number of comments across adding a comment under a fresh id and
    deleting an existing one, whichever of their requests fail: each is one
    atomic batch that moves the comment and the counter together. *)
Theorem commentCount_consistent p r :
  (forall newId now a c,
     triple (fun s => counts_ok s /\ comments s !! (p, r, newId) = None)
       (addCommentToReply newId now p r a c) (fun _ => counts_ok) counts_ok) /\
  (forall c,
     triple (fun s => counts_ok s /\ is_Some (comments s !! (p, r, c)))
       (deleteComment p r c) (fun _ => counts_ok) counts_ok).
Proof. split; intros; [apply addCommentToReply_counts|apply deleteComment_counts]. Qed.

Lemma deleteComment_run p r c rep db :
  replies db !! (p, r) = Some rep ->
  deleteComment p r c [] db =
    (Ok true, [], set_replies (<[(p, r) := with_count rep (commentCount rep - 1)%Z]> (replies db))
                    (set_comments (delete (p, r, c) (comments db)) db)).
Proof. intros Hr. unfold deleteComment, fs_catch, fs_bind, commit, remote. simpl. by rewrite Hr. Qed.

(** [deleteComment] does not check that the comment exists: deleting a
    comment that is already gone (a second click, or two clients) still
    reports success and decrements the reply's [commentCount], which then
    no longer matches the comments of the reply. *)
Lemma deleteComment_missing_drift p r c rep db :
  counts_ok db -> replies db !! (p, r) = Some rep -> comments db !! (p, r, c) = None ->
  exists db', fs_run (deleteComment p r c) db = (Ok true, db') /\
    (exists rep', replies db' !! (p, r) = Some rep' /\
       commentCount rep' = (Z.of_nat (countComments p r db') - 1)%Z) /\
    ~ counts_ok db'.
Proof.
  intros Hok Hr Hc.
  pose (db' := set_replies (<[(p, r) := with_count rep (commentCount rep - 1)%Z]> (replies db))
                 (set_comments (delete (p, r, c) (comments db)) db)).
  assert (Hcnt : countComments p r db' = countComments p r db).
  { unfold db', countComments, commentKeys. simpl. by rewrite delete_id. }
  assert (Hr' : replies db' !! (p, r) = Some (with_count rep (commentCount rep - 1)%Z)).
  { apply lookup_insert_eq. }
  exists db'. split; [eapply fs_run_eq, deleteComment_run, Hr|]. split.
  - eexists. split; [exact Hr'|]. simpl. rewrite Hcnt, (Hok _ _ _ Hr). lia.
  - intros Hok'. specialize (Hok' p r _ Hr'). simpl in Hok'.
    rewrite Hcnt, (Hok _ _ _ Hr) in Hok'. lia.
Qed.

Lemma deleteSubcollection_ok p r fl db :
  deleteSubcollection p r (false :: false :: fl) db = (Ok tt, fl, clearOne p r db).
Proof.
  unfold deleteSubcollection, fs_bind, getCommentIds, commit, remote. simpl.
  by rewrite applyWrites_DeleteComments.
Qed.

(** [deleteReply] deletes the comments and then the reply in two separate
    requests: when the second fails it reports failure, yet the comments
    are gone while the reply stays with its old [commentCount], which no
    longer matches.  (The order prevents orphan comments, not this.) *)
Lemma deleteReply_partial_drift p r c rep db :
  counts_ok db -> replies db !! (p, r) = Some rep -> is_Some (comments db !! (p, r, c)) ->
  exists db', deleteReply p r [false; false; true] db = (Ok false, [], db') /\
    replies db' !! (p, r) = Some rep /\ countComments p r db' = 0 /\ ~ counts_ok db'.
Proof.
  intros Hok Hr Hc. exists (clearOne p r db). split_and!.
  - unfold deleteReply, fs_catch. by rewrite (bind_ok _ _ _ _ _ _ _ (deleteSubcollection_ok p r _ db)).
  - done.
  - apply countComments_clearOne.
  - intros Hok'. specialize (Hok' p r rep Hr). rewrite countComments_clearOne in Hok'.
    pose proof (countComments_pos p r c db Hc). specialize (Hok p r rep Hr). lia.
Qed.

(** C26 *)
(** The comment counter drifts on both delete paths.  [deleteComment] does
    not check that the comment exists: deleting a comment that is already
    gone (a second click, or two clients) still reports success and
    decrements the reply's [commentCount].  [deleteReply] deletes the
    comments and then the reply in two separate requests: when the second
    fails it reports failure, yet the comments are gone while the reply
    stays with its old [commentCount].  Either way the counter no longer
    matches the comments of the reply. *)
Theorem comment_count_drift p r c rep db :
  counts_ok db -> replies db !! (p, r) = Some rep ->
  (comments db !! (p, r, c) = None ->
   exists db', fs_run (deleteComment p r c) db = (Ok true, db') /\
     (exists rep', replies db' !! (p, r) = Some rep' /\
        commentCount rep' = (Z.of_nat (countComments p r db') - 1)%Z) /\
     ~ counts_ok db') /\
  (is_Some (comments db !! (p, r, c)) ->
   exists db', deleteReply p r [false; false; true] db = (Ok false, [], db') /\
     replies db' !! (p, r) = Some rep /\ countComments p r db' = 0 /\ ~ counts_ok db').
Proof.
  intros Hok Hr. split; intros Hc;
    [apply (deleteComment_missing_drift p r c rep)|apply (deleteReply_partial_drift p r c rep)]; done.
Qed.

(** ** Upvotes *)

(** What [toggleUpvote] writes into [upvotedBy]. *)
Definition toggled (u : string) (l : list string) : list string :=
  if decide (u ∈ l) then arrayRemove u l else arrayUnion u l.

Lemma elem_of_toggled u l v :
  v ∈ toggled u l <-> (v = u /\ u ∉ l) \/ (v <> u /\ v ∈ l).
Proof.
  unfold toggled, arrayRemove, arrayUnion.
  repeat case_decide; rewrite ?list_elem_of_filter, ?elem_of_app, ?list_elem_of_singleton;
    naive_solver.
Qed.

Lemma toggled_NoDup u l : NoDup l -> NoDup (toggled u l).
Proof. unfold toggled. case_decide; auto using arrayRemove_NoDup, arrayUnion_NoDup. Qed.

Lemma arrayRemove_notin u l : u ∉ l -> arrayRemove u l = l.
Proof.
  induction l as [|x l IH]; intros Hu; [done|]. unfold arrayRemove in *.
  rewrite filter_cons_True by set_solver. rewrite IH; set_solver.
Qed.

(** Toggling twice gives the same set of users back, and the very same
    list when the user had not voted. *)
Lemma toggled_twice u l :
  NoDup l -> toggled u (toggled u l) ≡ₚ l /\ (u ∉ l -> toggled u (toggled u l) = l).
Proof.
  intros Hl. split.
  - apply NoDup_Permutation; [by do 2 apply toggled_NoDup|done|].
    intros v. rewrite !elem_of_toggled. destruct (decide (v = u)), (decide (u ∈ l)); naive_solver.
  - intros Hu. assert (toggled u l = l ++ [u]) as ->.
    { unfold toggled, arrayUnion. by rewrite !decide_False. }
    unfold toggled. rewrite decide_True by set_solver. unfold arrayRemove. rewrite filter_app, filter_cons_False by naive_solver.
    rewrite app_nil_r. by apply arrayRemove_notin.
Qed.

Lemma toggleUpvote_run p r u rep db :
  replies db !! (p, r) = Some rep ->
  toggleUpvote p r u [] db =
    (Ok tt, [], set_replies (<[(p, r) := set_upvotes (toggled u (upvotedBy rep)) rep]> (replies db)) db).
Proof.
  intros Hr. unfold toggleUpvote, fs_catch, toggled. unfold fs_bind at 1. unfold remote at 1.
  simpl. rewrite Hr. case_decide; unfold updateUpvotes, remote; simpl; by rewrite Hr.
Qed.

(** Toggling an upvote on an existing reply flips the user's membership
    in [upvotedBy], keeps every other user's vote and the rest of the
    reply, and changes nothing else in the store. *)
Lemma toggleUpvote_flips p r u rep db :
  replies db !! (p, r) = Some rep ->
  exists db', fs_run (toggleUpvote p r u) db = (Ok tt, db') /\
    (exists rep', replies db' !! (p, r) = Some rep' /\
       (u ∈ upvotedBy rep' <-> u ∉ upvotedBy rep) /\
       (forall v, v <> u -> v ∈ upvotedBy rep' <-> v ∈ upvotedBy rep) /\
       rep' = set_upvotes (upvotedBy rep') rep) /\
    (forall k, k <> (p, r) -> replies db' !! k = replies db !! k) /\
    posts db' = posts db /\ comments db' = comments db.
Proof.
  intros Hr. eexists. split; [eapply fs_run_eq, toggleUpvote_run, Hr|]. split_and!; [|intros k Hk|done|done].
  - eexists. split; [apply lookup_insert_eq|]. simpl.
    split_and!; [|intros v Hv|done]; rewrite elem_of_toggled; naive_solver.
  - simpl. by rewrite lookup_insert_ne by congruence.
Qed.

(** Toggling the same upvote twice in a row restores the reply: the same
    set of voters (a permutation of the list, since [arrayUnion] appends at
    the end), and the very same list when the user had not voted. *)
Lemma toggleUpvote_twice p r u rep db :
  replies db !! (p, r) = Some rep -> NoDup (upvotedBy rep) ->
  exists l db'', fs_run (let* _ := toggleUpvote p r u in toggleUpvote p r u) db = (Ok tt, db'') /\
    replies db'' = <[(p, r) := set_upvotes l rep]> (replies db) /\
    posts db'' = posts db /\ comments db'' = comments db /\
    l ≡ₚ upvotedBy rep /\ (u ∉ upvotedBy rep -> l = upvotedBy rep).
Proof.
  intros Hr Hnd. exists (toggled u (toggled u (upvotedBy rep))). eexists. split.
  - eapply fs_run_eq. rewrite (bind_ok _ _ _ _ _ _ _ (toggleUpvote_run p r u rep db Hr)).
    rewrite (toggleUpvote_run p r u (set_upvotes (toggled u (upvotedBy rep)) rep))
      by apply lookup_insert_eq. reflexivity.
  - simpl. rewrite insert_insert_eq. pose proof (toggled_twice u _ Hnd). naive_solver.
Qed.

(** C28 *)
(** [toggleUpvote] on an existing reply is a toggle: it flips the user's
    membership in [upvotedBy], keeps every other user's vote, the rest of
    the reply and the rest of the store; and toggling twice in a row
    restores the reply, with the same set of voters (a permutation of the
    list, since [arrayUnion] appends at the end) and the very same list
    when the user had not voted. *)
Theorem toggleUpvote_correct p r u rep db :
  replies db !! (p, r) = Some rep ->
  (exists db', fs_run (toggleUpvote p r u) db = (Ok tt, db') /\
    (exists rep', replies db' !! (p, r) = Some rep' /\
       (u ∈ upvotedBy rep' <-> u ∉ upvotedBy rep) /\
       (forall v, v <> u -> v ∈ upvotedBy rep' <-> v ∈ upvotedBy rep) /\
       rep' = set_upvotes (upvotedBy rep') rep) /\
    (forall k, k <> (p, r) -> replies db' !! k = replies db !! k) /\
    posts db' = posts db /\ comments db' = comments db) /\
  (NoDup (upvotedBy rep) ->
   exists l db'', fs_run (let* _ := toggleUpvote p r u in toggleUpvote p r u) db = (Ok tt, db'') /\
    replies db'' = <[(p, r) := set_upvotes l rep]> (replies db) /\
    posts db'' = posts db /\ comments db'' = comments db /\
    l ≡ₚ upvotedBy rep /\ (u ∉ upvotedBy rep -> l = upvotedBy rep)).
Proof. intros Hr. split; [by apply toggleUpvote_flips|intros; by apply toggleUpvote_twice]. Qed.

(** ** Sample forum and witnesses *)

Definition sample_author : ForumAuthor := mkAuthor "u1" "Ayşe Öğretmen".

Definition sample_post : ForumPost :=
  mkPost "Sınıf yönetimi" "Kalabalık sınıflarda ne yapıyorsunuz?" "sinif-yonetimi"
    sample_author "2024-05-01T09:00:00.000Z".

Definition sample_reply : ForumReply :=
  mkReply sample_author "Grup çalışması" "2024-05-01T10:00:00.000Z" ["u2"] 1.

Definition sample_comment : ForumComment :=
  mkComment sample_author "Teşekkürler" "2024-05-01T11:00:00.000Z".

(** Post [p1] with reply [r1], which has the comment [c1]. *)
Definition sample_forum : ForumDb :=
  mkForumDb {["p1" := sample_post]} {[("p1", "r1") := sample_reply]}
    {[("p1", "r1", "c1") := sample_comment]}.

Lemma sample_forum_attached : comments_attached sample_forum.
Proof.
  intros p r c [v Hv]. simpl in Hv. apply lookup_singleton_Some in Hv as [Hk _]. simplify_eq.
  by exists sample_reply.
Qed.

Lemma sample_forum_counts : counts_ok sample_forum.
Proof.
  intros p r rep Hr. simpl in Hr. apply lookup_singleton_Some in Hr as [Hk <-]. simplify_eq.
  vm_compute. reflexivity.
Qed.

(** Three clients add a post, a reply and a comment. *)
Lemma forum_reachable_wf_witness :
  forum_wf (runOp (OpAddComment "c1" "t3" "p1" "r1" sample_author "Teşekkürler") []
             (runOp (OpAddReply "r1" "t2" "p1" (Some sample_author) "Grup çalışması") []
               (runOp (OpAddPost "p1" sample_post) [] emptyForum))).
Proof. apply forum_reachable_wf. repeat apply reach_op. apply reach_empty. Defined.

Lemma deletePost_complete_witness :
  exists db', fs_run (deletePost "p1") sample_forum = (Ok true, db') /\
    posts db' !! "p1" = None /\ replies db' !! ("p1", "r1") = None /\
    comments db' !! ("p1", "r1", "c1") = None.
Proof.
  destruct (deletePost_complete "p1" sample_forum sample_forum_attached)
    as (db' & Hrun & Hp & Hr & Hc & _).
  exists db'. split_and!; [exact Hrun|exact Hp|apply Hr|apply Hc].
Defined.

Lemma comment_count_drift_witness :
  (exists db', fs_run (deleteComment "p1" "r1" "c9") sample_forum = (Ok true, db') /\
     ~ counts_ok db') /\
  (exists db', deleteReply "p1" "r1" [false; false; true] sample_forum = (Ok false, [], db') /\
     ~ counts_ok db').
Proof.
  split.
  - destruct (comment_count_drift "p1" "r1" "c9" sample_reply sample_forum) as [H _];
      [apply sample_forum_counts|reflexivity|].
    destruct H as (db' & Hrun & _ & Hbad); [reflexivity|]. exists db'. by split.
  - destruct (comment_count_drift "p1" "r1" "c1" sample_reply sample_forum) as [_ H];
      [apply sample_forum_counts|reflexivity|].
    destruct H as (db' & Hrun & _ & _ & Hbad); [by eexists|]. exists db'. by split.
Defined.

Lemma toggleUpvote_correct_witness :
  (exists db', fs_run (toggleUpvote "p1" "r1" "u1") sample_forum = (Ok tt, db') /\
    exists rep', replies db' !! ("p1", "r1") = Some rep' /\ "u1" ∈ upvotedBy rep') /\
  exists l db'', fs_run (let* _ := toggleUpvote "p1" "r1" "u2" in toggleUpvote "p1" "r1" "u2")
      sample_forum = (Ok tt, db'') /\
    replies db'' = <[("p1", "r1") := set_upvotes l sample_reply]> (replies sample_forum) /\
    l ≡ₚ ["u2"].
Proof.
  split.
  - destruct (toggleUpvote_correct "p1" "r1" "u1" sample_reply sample_forum)
      as [(db' & Hrun & (rep' & Hr & Hu & _) & _) _]; [reflexivity|].
    exists db'. split; [exact Hrun|]. exists rep'. split; [exact Hr|]. apply Hu. vm_compute.
    intros H. inversion H as [|? ? ? Hin]. inversion Hin.
  - destruct (toggleUpvote_correct "p1" "r1" "u2" sample_reply sample_forum) as [_ H2]; [reflexivity|].
    destruct H2 as (l & db'' & Hrun & Hr & _ & _ & Hperm & _); [apply NoDup_singleton|].
    exists l, db''. by split_and!.
Defined.

End Forum.
