(* ===== verification/TierGate.v ===== *)
(** * TierGate: subscription tiers and upgrade requests ([src/src/app/paketler/page.tsx])

    The page reads the signed-in teacher's profile, derives the active tier
    ([activeTierKey]) and the AI quota ([limit]), shows one card per tier,
    and on a purchase writes the profile back with [tier] set to
    ["pending-" ++ tierKey] ([handleUpgrade]); an administrator confirms it
    out of band.  The profile document is the store, written through
    [updateProfile] of the profile hook (outside [src/], modelled from the
    spec as one remote write of the whole profile). *)

From S2P Require Import Prelude.
From Stdlib Require Import QArith.
Local Close Scope Q_scope.

Module TierGate.

(** ** Data *)

(** [type TierKey = keyof typeof tiers] *)
Inductive TierKey := free | standard | pro.

#[export] Instance TierKey_eq_dec : EqDecision TierKey.
Proof. solve_decision. Defined.

(** The values of the profile's [tier]: a tier key, or a key prefixed by
    ["pending-"]. *)
Inductive UserRole :=
  | RoleTier (t : TierKey)
  | RolePending (t : TierKey).

#[export] Instance UserRole_eq_dec : EqDecision UserRole.
Proof. solve_decision. Defined.

Definition tierKey_str (t : TierKey) : string :=
  match t with free => "free" | standard => "standard" | pro => "pro" end.

(** The stored string of a [tier] value. *)
Definition role_str (r : UserRole) : string :=
  match r with
  | RoleTier t => tierKey_str t
  | RolePending t => "pending-" +:+ tierKey_str t
  end.

(** [tiers[key].name] and [tiers[key].credits] *)
Definition tier_name (t : TierKey) : string :=
  match t with free => "Temel" | standard => "Standart" | pro => "Pro" end.

Definition tier_credits (t : TierKey) : nat :=
  match t with free => 10 | standard => 100 | pro => 500 end.

Record UserProfile := mkProfile {
  tier : option UserRole;
  aiUsageCount : option nat;
  tierStartDate : option string
}.

(** The profile document of the signed-in teacher, as the listener of the
    profile hook delivers it. *)
Abbreviation ProfileStore := (option UserProfile).

(** ** What the page derives from the profile *)

(** [profile?.tier && !profile.tier.startsWith('pending-') ? profile.tier : 'free'] *)
Definition activeTierKey (profile : option UserProfile) : TierKey :=
  match profile with
  | Some p => match tier p with Some (RoleTier t) => t | _ => free end
  | None => free
  end.

(** [tiers[activeTierKey]?.name || 'Temel'] *)
Definition displayTierName (profile : option UserProfile) : string :=
  str_or (tier_name (activeTierKey profile)) "Temel".

(** [profile?.aiUsageCount || 0] *)
Definition usage (profile : option UserProfile) : nat :=
  default 0 (profile ≫= aiUsageCount).

(** [tiers[activeTierKey]?.credits || 10] *)
Definition limit (profile : option UserProfile) : nat :=
  match tier_credits (activeTierKey profile) with 0 => 10 | c => c end.

(** [limit > 0 ? (usage / limit) * 100 : 0] (line 63), the value of the
    usage bar, in exact rationals.  On these small integers the division
    and the product of doubles round monotonically and never to a value
    across 100, so the comparisons with 100 proved below hold of the
    doubles. *)
Definition usagePercentage (profile : option UserProfile) : Q :=
  if 0 <? limit profile
  then ((inject_Z (Z.of_nat (usage profile)) / inject_Z (Z.of_nat (limit profile))) * 100)%Q
  else 0%Q.

(** The footer of the card of [tierKey]: a disabled button labelled
    'Mevcut Paketiniz', 'Onay Bekleniyor' or 'Temel Paket', or the purchase
    dialog whose confirmation calls [handleUpgrade(`pending-${tierKey}`)]. *)
Inductive CardFooter :=
  | CurrentTierButton
  | PendingButton
  | FreeTierButton
  | PurchaseDialog (request : UserRole).

Definition tierCard (profile : option UserProfile) (tierKey : TierKey) : CardFooter :=
  let current := profile ≫= tier in
  if decide (current = Some (RoleTier tierKey)) then CurrentTierButton
  else if decide (current = Some (RolePending tierKey)) then PendingButton
  else if decide (tierKey = free) then FreeTierButton
  else PurchaseDialog (RolePending tierKey).

(** ** The upgrade request *)

Definition set_tier (r : UserRole) (p : UserProfile) : UserProfile :=
  mkProfile (Some r) (aiUsageCount p) (tierStartDate p).

(** [updateProfile(newProfile)] of the profile hook. *)
Definition updateProfile (p : UserProfile) : FS ProfileStore unit :=
  remote (fun _ => Some (tt, Some p)).

Definition toast_requested : Toast := mkToast "İstek Gönderildi!" false.
Definition toast_upgrade_failed : Toast := mkToast "Hata" true.

Local Open Scope fs_scope.

(** [handleUpgrade(newTier)] (lines 35-53). *)
Definition handleUpgrade (profile : option UserProfile) (newTier : UserRole)
    : FS ProfileStore (list Toast) :=
  match profile with
  | None => fs_ret []
  | Some p =>
      fs_catch
        (let* _ := updateProfile (set_tier newTier p) in fs_ret [toast_requested])
        (fun _ => fs_ret [toast_upgrade_failed])
  end.

(** ** What the page shows (lines 67-171) *)

(** [Object.keys(tiers)] *)
Definition tierOrder : list TierKey := [free; standard; pro].

Definition tier_price (t : TierKey) : string :=
  match t with free => "Ücretsiz" | standard => "199,99 TL / Yıllık" | pro => "399,99 TL / Yıllık" end.

Definition tier_features (t : TierKey) : list string :=
  match t with
  | free => ["10 AI Kredisi/Yıl"; "Temel Raporlama"]
  | standard => ["100 AI Kredisi/Yıl"; "Gelişmiş Raporlama"; "Öncelikli Destek"]
  | pro => ["500 AI Kredisi/Yıl"; "Tüm Raporlama Özellikleri"; "Özelleştirilebilir Planlar"; "7/24 Destek"]
  end.

(** The card's description (line 116). *)
Definition tier_description (t : TierKey) : string :=
  match t with
  | free => "Platformu keşfetmek ve temel özellikleri denemek için harika bir başlangıç."
  | standard => "Daha fazla özellik ve daha yüksek limitler."
  | pro => "Tüm özelliklere sınırsız erişim."
  end.

Record TierCardView := mkTierCardView {
  tcv_key : TierKey;
  tcv_name : string;
  tcv_currentBadge : bool;
  tcv_pendingBadge : bool;
  tcv_description : string;
  tcv_price : string;
  tcv_features : list string;
  tcv_footer : CardFooter;
  tcv_purchaseDisabled : bool
}.

(** One card of [Object.keys(tiers).map(tierKey => ...)] (lines 103-166):
    [isCurrent] and [isPending] give the badges; the purchase button is
    [disabled={isLoading}]. *)
Definition tierCardView (profile : option UserProfile) (isLoading : bool) (t : TierKey) : TierCardView :=
  let current := profile ≫= tier in
  mkTierCardView t (tier_name t) (bool_decide (current = Some (RoleTier t)))
    (bool_decide (current = Some (RolePending t))) (tier_description t) (tier_price t)
    (tier_features t) (tierCard profile t) isLoading.

Record UsageCard := mkUsageCard {
  uc_tierName : string;
  uc_usageLabel : string;
  uc_percentage : Q;
  uc_showsStartDate : bool
}.

(** The usage card (lines 82-100): the active tier's name,
    [{usage} / {limit}], the bar, and the start date when there is one. *)
Definition usageCard (profile : option UserProfile) : UsageCard :=
  mkUsageCard (displayTierName profile) (nat_str (usage profile) +:+ " / " +:+ nat_str (limit profile))
    (usagePercentage profile)
    (match profile ≫= tierStartDate with Some d => negb (String.eqb d "") | None => false end).

Record PaketlerPage := mkPaketlerPage {
  pp_usage : UsageCard;
  pp_cards : list TierCardView
}.

(** [PaketlerPageContent] with [isLoading = isProfileLoading || isUpdating]. *)
Definition paketlerPage (profile : option UserProfile) (isProfileLoading isUpdating : bool) : PaketlerPage :=
  mkPaketlerPage (usageCard profile)
    (tierCardView profile (isProfileLoading || isUpdating) <$> tierOrder).

(** ** The page as a transition system

    A step is a confirmation in the purchase dialog of some card, under
    any fault schedule; the page's [profile] is the stored one. *)
Inductive tier_step : ProfileStore -> ProfileStore -> Prop :=
  | step_purchase s t r fl :
      tierCard s t = PurchaseDialog r ->
      tier_step s (fs_state (handleUpgrade s r fl s)).

Inductive tier_reach : ProfileStore -> ProfileStore -> Prop :=
  | tier_reach_refl s : tier_reach s s
  | tier_reach_step s s' s'' : tier_step s s' -> tier_reach s' s'' -> tier_reach s s''.

(** ** Lemmas *)

(** At most one card carries a badge ('Mevcut Paket' or 'Onay Bekliyor'),
    a card with a badge offers no purchase, and the current-tier badge is
    on the card of the tier the usage card names. *)
Lemma paketlerPage_badges profile a b :
  length (filter (fun c => tcv_currentBadge c || tcv_pendingBadge c = true) (pp_cards (paketlerPage profile a b))) <= 1 /\
  (forall c, c ∈ pp_cards (paketlerPage profile a b) ->
     (tcv_currentBadge c || tcv_pendingBadge c = true -> forall r, tcv_footer c <> PurchaseDialog r) /\
     (tcv_currentBadge c = true -> uc_tierName (pp_usage (paketlerPage profile a b)) = tcv_name c)).
Proof.
  destruct profile as [[[[t|t]|] u d]|]; [destruct t..| | ]; split;
    try (vm_compute; lia);
    intros c Hc; apply list_elem_of_fmap in Hc as (t' & -> & _); destruct t'; split; cbn; done.
Qed.

Lemma limit_credits s : limit s = tier_credits (activeTierKey s).
Proof. unfold limit. by destruct (activeTierKey s). Qed.

Lemma credits_free_le t : tier_credits free <= tier_credits t.
Proof. destruct t; simpl; lia. Qed.

(** A purchase dialog requests the pending value of its own tier, which is
    neither free nor the current or pending tier. *)
Lemma tierCard_purchase s t r :
  tierCard s t = PurchaseDialog r ->
  r = RolePending t /\ t <> free /\ s ≫= tier <> Some (RoleTier t) /\ s ≫= tier <> Some (RolePending t).
Proof. unfold tierCard. repeat case_decide; intros; simplify_eq; auto. Qed.

(** [handleUpgrade] either writes the requested tier into the profile or
    leaves the store as it was. *)
Lemma handleUpgrade_cases s r fl :
  fs_state (handleUpgrade s r fl s) = s \/
  exists p, s = Some p /\ fs_state (handleUpgrade s r fl s) = Some (set_tier r p).
Proof.
  destruct s as [p|]; [|by left].
  unfold handleUpgrade, fs_catch, fs_bind, updateProfile, remote, fs_state.
  destruct fl as [|[] fl]; simpl; eauto.
Qed.

Lemma tier_step_active s s' :
  tier_step s s' -> activeTierKey s' = activeTierKey s \/ activeTierKey s' = free.
Proof.
  intros [s0 t r fl Hcard]. apply tierCard_purchase in Hcard as [-> _].
  destruct (handleUpgrade_cases s0 (RolePending t) fl) as [->|(p & -> & ->)]; [by left|by right].
Qed.

Lemma limit_pos s : 10 <= limit s.
Proof. rewrite limit_credits. destruct (activeTierKey s); simpl; lia. Qed.

(** The bar in the integers: [usage * 100] against [q * limit]. *)
Lemma usagePercentage_cmp s q :
  ((usagePercentage s <= inject_Z q)%Q <-> (Z.of_nat (usage s) * 100 <= q * Z.of_nat (limit s))%Z) /\
  ((inject_Z q <= usagePercentage s)%Q <-> (q * Z.of_nat (limit s) <= Z.of_nat (usage s) * 100)%Z) /\
  ((inject_Z q < usagePercentage s)%Q <-> (q * Z.of_nat (limit s) < Z.of_nat (usage s) * 100)%Z).
Proof.
  pose proof (limit_pos s) as Hl. unfold usagePercentage.
  destruct (limit s) as [|l]; [lia|]. cbn [Nat.ltb Nat.leb].
  unfold Qle, Qlt, Qdiv, Qmult, Qinv, inject_Z. cbn [Qnum Qden Z.of_nat].
  change (Z.of_nat (S l)) with (Z.pos (Pos.of_succ_nat l)). cbn [Qnum Qden].
  rewrite ?Pos.mul_1_l, ?Pos.mul_1_r, !Zpos_P_of_succ_nat. split_and!; nia.
Qed.

(** No sequence of upgrade requests made from the page, with any of them
    failing, raises the AI quota or activates a tier: the active tier stays
    what it was or falls back to free.  Activation needs the out-of-band
    approval. *)
Lemma upgrade_never_raises_quota s s' :
  tier_reach s s' ->
  limit s' <= limit s /\ (activeTierKey s' = activeTierKey s \/ activeTierKey s' = free).
Proof.
  induction 1 as [s|s s1 s'' Hstep _ [IHl IHa]]; [by split; [|left]|].
  rewrite !limit_credits in *.
  destruct (tier_step_active s s1 Hstep) as [Ha|Ha]; rewrite Ha in IHl, IHa.
  - split; [done|]. destruct IHa; [left|right]; congruence.
  - split; [etrans; [exact IHl|apply credits_free_le]|]. right. destruct IHa; congruence.
Qed.

(** A teacher on a paid tier who requests another tier loses the active
    tier at once: the stored [tier] becomes the pending value, so the
    active tier is free and the quota drops to 10 until the request is
    approved.  The spec says an upgrade request does not change the
    effective tier. *)
Lemma upgrade_request_drops_active_tier p t u r :
  tier p = Some (RoleTier t) -> t <> free -> tierCard (Some p) u = PurchaseDialog r ->
  exists s', fs_run (handleUpgrade (Some p) r) (Some p) = (Ok [toast_requested], s') /\
    s' = Some (set_tier (RolePending u) p) /\
    activeTierKey s' = free /\ limit s' = 10 /\ limit s' < limit (Some p).
Proof.
  intros Ht Hfree Hcard. apply tierCard_purchase in Hcard as [-> _].
  eexists. split; [reflexivity|]. split_and!; [done|done|done|].
  rewrite !limit_credits. simpl. rewrite Ht. destruct t; simpl; [done|lia|lia].
Qed.

(** C30 *)
(** An upgrade request never raises the quota, but can lower it at once.
    No sequence of upgrade requests made from the page, with any of them
    failing, raises the AI quota or activates a tier: the active tier stays
    what it was or falls back to free; activation needs the out-of-band
    approval.  And a teacher on a paid tier who requests another tier loses
    the active tier at once: the stored [tier] becomes the pending value, so
    the active tier is free and the quota drops to 10 until the request is
    approved, while the spec says a request does not change the effective
    tier. *)
Theorem upgrade_request_effects :
  (forall s s', tier_reach s s' ->
     limit s' <= limit s /\ (activeTierKey s' = activeTierKey s \/ activeTierKey s' = free)) /\
  (forall p t u r,
     tier p = Some (RoleTier t) -> t <> free -> tierCard (Some p) u = PurchaseDialog r ->
     exists s', fs_run (handleUpgrade (Some p) r) (Some p) = (Ok [toast_requested], s') /\
       s' = Some (set_tier (RolePending u) p) /\
       activeTierKey s' = free /\ limit s' = 10 /\ limit s' < limit (Some p)).
Proof. split; [apply upgrade_never_raises_quota|apply upgrade_request_drops_active_tier]. Qed.

(** [handleUpgrade] under every fault schedule: without a profile it does
    nothing; otherwise it either stores the requested tier (keeping the
    usage count and start date) and shows the request toast, or leaves the
    profile unchanged and shows the destructive error toast. *)
Theorem handleUpgrade_outcome s r fl :
  match s with
  | None => handleUpgrade s r fl s = (Ok [], fl, s)
  | Some p =>
      (fs_out (handleUpgrade s r fl s) = Ok [toast_requested] /\
       fs_state (handleUpgrade s r fl s) = Some (set_tier r p)) \/
      (fs_out (handleUpgrade s r fl s) = Ok [toast_upgrade_failed] /\
       fs_state (handleUpgrade s r fl s) = s)
  end.
Proof.
  destruct s as [p|]; [|done].
  unfold handleUpgrade, fs_catch, fs_bind, updateProfile, remote, fs_out, fs_state.
  destruct fl as [|[] fl]; simpl; [left|right|left]; done.
Qed.

(** C32 *)
(** The usage bar is a percentage in [0, 100] exactly when the usage is
    within the quota, and it overflows 100 otherwise; in particular a
    request made from the page by a teacher who has used more than 10
    credits stores the pending tier, keeps the usage, and leaves the bar
    above 100%, since the quota falls to that of the free tier. *)
Theorem usage_bar_bounds s :
  (0 <= usagePercentage s)%Q /\
  ((usagePercentage s <= 100)%Q <-> usage s <= limit s) /\
  (forall p u r, s = Some p -> tierCard s u = PurchaseDialog r -> 10 < usage s ->
     exists s', fs_run (handleUpgrade s r) s = (Ok [toast_requested], s') /\
       usage s' = usage s /\ limit s' = 10 /\ (100 < usagePercentage s')%Q).
Proof.
  split_and!.
  - apply (usagePercentage_cmp s 0). lia.
  - rewrite (proj1 (usagePercentage_cmp s 100)). split; lia.
  - intros p u r -> Hcard Hu. apply tierCard_purchase in Hcard as [-> _].
    exists (Some (set_tier (RolePending u) p)). split; [reflexivity|]. split_and!; [done|done|].
    apply (usagePercentage_cmp _ 100). change (usage (Some (set_tier (RolePending u) p))) with (usage (Some p)).
    change (limit (Some (set_tier (RolePending u) p))) with 10. lia.
Qed.

(** ** Witnesses *)

Definition sample_profile : UserProfile := mkProfile (Some (RoleTier standard)) (Some 42) None.

Lemma upgrade_request_effects_witness :
  limit (Some (set_tier (RolePending pro) sample_profile)) <= limit (Some sample_profile) /\
  exists s', fs_run (handleUpgrade (Some sample_profile) (RolePending pro)) (Some sample_profile)
      = (Ok [toast_requested], s') /\ limit s' < limit (Some sample_profile).
Proof.
  destruct upgrade_request_effects as [H1 H2]. split.
  - apply (H1 (Some sample_profile)).
    eapply tier_reach_step; [|apply tier_reach_refl].
    apply (step_purchase (Some sample_profile) pro (RolePending pro) []). reflexivity.
  - destruct (H2 sample_profile standard pro (RolePending pro))
      as (s' & Hrun & _ & _ & _ & Hlt); [reflexivity|discriminate|reflexivity|].
    exists s'. by split.
Defined.

Lemma usage_bar_bounds_witness :
  exists s', fs_run (handleUpgrade (Some sample_profile) (RolePending pro)) (Some sample_profile) =
    (Ok [toast_requested], s') /\ (100 < usagePercentage s')%Q.
Proof.
  destruct (usage_bar_bounds (Some sample_profile)) as (_ & _ & H).
  destruct (H sample_profile pro (RolePending pro)) as (s' & Hrun & _ & _ & Hq);
    [reflexivity|reflexivity|vm_compute; lia|].
  exists s'. by split.
Defined.

End TierGate.
