(* ===== verification/StudentLogin.v ===== *)
(** * StudentLogin: the class-code / student-code login
      ([src/src/app/actions/student-login.ts], [src/src/app/ogrenci-giris/page.tsx])

    [studentLoginAction] scans the teachers ([users] with role
    ["teacher"]) in query order; for each it asks for the first class with
    the entered class code ([where(...).limit(1)]) and, when there is one,
    for the first student of that class with the entered student code.  It
    returns the first student found, a generic error when the scan finds
    nothing, and a server error when a request fails.  The admin database is
    read only; each query is one remote request of the [FS] monad and reads
    the sub-collection of the document it starts from.  The login page
    upper-cases both codes first and stores the session on success. *)

From S2P Require Import Prelude.
From Stdlib Require Import Ascii.

Module StudentLogin.

(** ** Data *)

Record StudentDoc := mkStudent {
  student_id : string;
  studentCode : string;
  student_name : string
}.

Record ClassDoc := mkClass {
  class_id : string;
  classCode : string;
  class_students : list StudentDoc
}.

Record UserDoc := mkUser {
  user_id : string;
  role : string;
  user_classes : list ClassDoc
}.

(** The [users] collection in query order, with its sub-collections. *)
Abbreviation AdminDb := (list UserDoc).

(** [StudentLoginResult] *)
Record LoginResult := mkLoginResult {
  login_success : bool;
  login_student : option StudentDoc;
  login_classId : option string;
  login_error : option string
}.

Definition msg_no_teacher : string := "Sistemde hiç öğretmen bulunamadı.".
Definition msg_invalid_codes : string := "Sınıf kodu veya öğrenci kodu hatalı.".
Definition msg_server_error : string := "Giriş yapılırken beklenmedik bir sunucu hatası oluştu.".

Definition login_failure (msg : string) : LoginResult := mkLoginResult false None None (Some msg).

(** ** Queries *)

(** [adminDb.collection('users').where('role', '==', 'teacher').get()] *)
Definition teachersOf (db : AdminDb) : list UserDoc :=
  filter (fun u => role u = "teacher") db.

(** [classesRef.where('classCode', '==', classCode).limit(1).get()] *)
Definition firstClass (code : string) (u : UserDoc) : option ClassDoc :=
  head (filter (fun c => classCode c = code) (user_classes u)).

(** [studentsRef.where('studentCode', '==', studentCode).limit(1).get()] *)
Definition firstStudent (code : string) (c : ClassDoc) : option StudentDoc :=
  head (filter (fun s => studentCode s = code) (class_students c)).

Local Open Scope fs_scope.

(** The [for (const userDoc of usersSnapshot.docs)] loop (lines 24-47). *)
Fixpoint searchTeachers (classCode studentCode : string) (teachers : list UserDoc)
    : FS AdminDb (option (StudentDoc * string)) :=
  match teachers with
  | [] => fs_ret None
  | u :: us =>
      let* cls := remote (fun db => Some (firstClass classCode u, db)) in
      match cls with
      | None => searchTeachers classCode studentCode us
      | Some c =>
          let* st := remote (fun db => Some (firstStudent studentCode c, db)) in
          match st with
          | Some s => fs_ret (Some (s, class_id c))
          | None => searchTeachers classCode studentCode us
          end
      end
  end.

(** [studentLoginAction(classCode, studentCode)] (lines 13-56). *)
Definition studentLoginAction (classCode studentCode : string) : FS AdminDb LoginResult :=
  fs_catch
    (let* teachers := remote (fun db => Some (teachersOf db, db)) in
     match teachers with
     | [] => fs_ret (login_failure msg_no_teacher)
     | _ =>
         let* found := searchTeachers classCode studentCode teachers in
         match found with
         | Some (s, cid) => fs_ret (mkLoginResult true (Some s) (Some cid) None)
         | None => fs_ret (login_failure msg_invalid_codes)
         end
     end)
    (fun _ => fs_ret (login_failure msg_server_error)).

(** The search without requests: the first teacher whose first class with
    the class code has a student with the student code. *)
Fixpoint findLogin (classCode studentCode : string) (teachers : list UserDoc)
    : option (StudentDoc * string) :=
  match teachers with
  | [] => None
  | u :: us =>
      match firstClass classCode u ≫= fun c => (fun s => (s, class_id c)) <$> firstStudent studentCode c with
      | Some r => Some r
      | None => findLogin classCode studentCode us
      end
  end.

(** ** The login page *)

(** [toUpperCase()] on the ASCII letters. *)
Definition upperAscii (c : ascii) : ascii :=
  let n := nat_of_ascii c in
  if (97 <=? n) && (n <=? 122) then ascii_of_nat (n - 32) else c.

Fixpoint toUpperCase (s : string) : string :=
  match s with
  | EmptyString => EmptyString
  | String c rest => String (upperAscii c) (toUpperCase rest)
  end.

(** [sessionStorage.setItem('studentAuth', ...)]: student id, data, class. *)
Record StudentSession := mkSession {
  session_studentId : string;
  session_student : StudentDoc;
  session_classId : string
}.

(** [onSubmit(values)] (lines 64-93): the session stored and the page's
    [error] state. *)
Definition onSubmit (classCodeEntered studentCodeEntered : string)
    : FS AdminDb (option StudentSession * option string) :=
  let* result := studentLoginAction (toUpperCase classCodeEntered) (toUpperCase studentCodeEntered) in
  match login_success result, login_student result, login_classId result with
  | true, Some s, Some cid => fs_ret (Some (mkSession (student_id s) s cid), None)
  | _, _, _ => fs_ret (None, Some (str_or (default "" (login_error result)) "Giriş başarısız oldu."))
  end.

(** The values of the form's two inputs; each input upper-cases what is
    typed ([onChange={(e) => field.onChange(e.target.value.toUpperCase())}],
    lines 131 and 153). *)
Record LoginForm := mkLoginForm {
  form_classCode : string;
  form_studentCode : string
}.

(** [defaultValues: { classCode: '', studentCode: '' }] *)
Definition loginForm_init : LoginForm := mkLoginForm "" "".

Inductive FormInput :=
  | ClassCodeInput (value : string)
  | StudentCodeInput (value : string).

Definition formInput (f : LoginForm) (ev : FormInput) : LoginForm :=
  match ev with
  | ClassCodeInput v => mkLoginForm (toUpperCase v) (form_studentCode f)
  | StudentCodeInput v => mkLoginForm (form_classCode f) (toUpperCase v)
  end.

Definition msg_classCode_empty : string := "Sınıf kodu boş olamaz.".
Definition msg_studentCode_empty : string := "Öğrenci kodu boş olamaz.".

(** [zodResolver(formSchema)]: the message of each field shorter than
    [min(1)]. *)
Definition validate (f : LoginForm) : list (string * string) :=
  (if String.eqb (form_classCode f) "" then [("classCode", msg_classCode_empty)] else []) ++
  (if String.eqb (form_studentCode f) "" then [("studentCode", msg_studentCode_empty)] else []).

(** Both values are upper-case. *)
Definition form_upper (f : LoginForm) : Prop :=
  toUpperCase (form_classCode f) = form_classCode f /\ toUpperCase (form_studentCode f) = form_studentCode f.

(** [form.handleSubmit(onSubmit)]: the field messages, or [onSubmit] with
    the values. *)
Definition handleSubmit (f : LoginForm)
    : FS AdminDb (list (string * string) + (option StudentSession * option string)) :=
  match validate f with
  | [] => let* r := onSubmit (form_classCode f) (form_studentCode f) in fs_ret (inr r)
  | errs => fs_ret (inl errs)
  end.

(** ** Lemmas *)

Lemma searchTeachers_run cc sc ts db :
  searchTeachers cc sc ts [] db = (Ok (findLogin cc sc ts), [], db).
Proof.
  induction ts as [|u us IH]; [done|]. simpl. unfold fs_bind at 1, remote at 1. simpl.
  destruct (firstClass cc u) as [c|]; simpl; [|apply IH].
  unfold fs_bind, remote at 1. simpl. destruct (firstStudent sc c); simpl; [done|apply IH].
Qed.

(** Under any schedule the scan reads, never writes, and either finds what
    the fault-free scan finds or fails. *)
Lemma searchTeachers_faults cc sc ts fl db :
  fs_state (searchTeachers cc sc ts fl db) = db /\
  (fs_out (searchTeachers cc sc ts fl db) = Ok (findLogin cc sc ts) \/
   exists e, fs_out (searchTeachers cc sc ts fl db) = Err e).
Proof.
  revert fl. induction ts as [|u us IH]; intros fl; [by split; [|left]|]. simpl.
  unfold fs_bind.
  destruct (remote_read (fun _ => firstClass cc u) fl db) as [[fl1 ->]|(e & fl1 & ->)];
    [|by split; [|right; exists e]].
  destruct (firstClass cc u) as [c|]; simpl; [|apply IH].
  destruct (remote_read (fun _ => firstStudent sc c) fl1 db) as [[fl2 ->]|(e & fl2 & ->)];
    [|by split; [|right; exists e]].
  destruct (firstStudent sc c); simpl; [by split; [|left]|apply IH].
Qed.

Lemma firstClass_Some cc u c : firstClass cc u = Some c -> c ∈ user_classes u /\ classCode c = cc.
Proof. intros H. exact (head_filter_Some _ _ _ H). Qed.

Lemma firstStudent_Some sc c s :
  firstStudent sc c = Some s -> s ∈ class_students c /\ studentCode s = sc.
Proof. intros H. exact (head_filter_Some _ _ _ H). Qed.

Lemma findLogin_sound cc sc ts s cid :
  findLogin cc sc ts = Some (s, cid) ->
  exists u c, u ∈ ts /\ firstClass cc u = Some c /\ class_id c = cid /\ firstStudent sc c = Some s.
Proof.
  induction ts as [|u us IH]; [done|]. simpl.
  destruct (firstClass cc u) as [c|] eqn:Hc; simpl;
    [destruct (firstStudent sc c) as [s'|] eqn:Hs; simpl|].
  - intros [= <- <-]. exists u, c. split_and!; [left|done|done|done].
  - intros (u' & c' & Hu & ?)%IH. exists u', c'. split_and!; [by right|naive_solver..].
  - intros (u' & c' & Hu & ?)%IH. exists u', c'. split_and!; [by right|naive_solver..].
Qed.

Lemma findLogin_complete cc sc ts u c :
  u ∈ ts -> firstClass cc u = Some c -> is_Some (firstStudent sc c) -> is_Some (findLogin cc sc ts).
Proof.
  induction ts as [|u' us IH]; [by intros ?%elem_of_nil|].
  intros [->|Hu]%elem_of_cons Hc [s Hs]; simpl.
  - rewrite Hc. simpl. rewrite Hs. by eexists.
  - destruct (firstClass cc u' ≫= _); [by eexists|]. by apply IH; [|done|exists s].
Qed.

(** The whole action on the fault-free path. *)
Lemma studentLogin_run cc sc db :
  studentLoginAction cc sc [] db =
    (Ok match teachersOf db with
        | [] => login_failure msg_no_teacher
        | _ => match findLogin cc sc (teachersOf db) with
               | Some (s, cid) => mkLoginResult true (Some s) (Some cid) None
               | None => login_failure msg_invalid_codes
               end
        end, [], db).
Proof.
  unfold studentLoginAction, fs_catch. unfold fs_bind at 1, remote at 1. simpl.
  destruct (teachersOf db) as [|u us] eqn:Ht; [done|].
  rewrite <- Ht. rewrite (bind_ok _ _ _ _ _ _ _ (searchTeachers_run cc sc _ db)).
  by destruct (findLogin cc sc (teachersOf db)) as [[s cid]|].
Qed.

(** The login scan is sound and complete for the first matching class of
    each teacher: a success returns a student with the entered student code
    in a class with the entered class code of a teacher, and its class id;
    a failure says only that the codes are wrong (or that there is no
    teacher at all), whichever lookup failed; and whenever some teacher's
    first class with the class code has a student with the student code,
    the login succeeds.  The action writes nothing. *)
Lemma studentLogin_correct db cc sc :
  exists r, fs_run (studentLoginAction cc sc) db = (Ok r, db) /\
    (login_success r = true -> exists u c s,
       u ∈ db /\ role u = "teacher" /\ c ∈ user_classes u /\ classCode c = cc /\
       s ∈ class_students c /\ studentCode s = sc /\
       login_student r = Some s /\ login_classId r = Some (class_id c)) /\
    (login_success r = false -> login_error r =
       Some match teachersOf db with [] => msg_no_teacher | _ => msg_invalid_codes end) /\
    ((exists u c, u ∈ teachersOf db /\ firstClass cc u = Some c /\ is_Some (firstStudent sc c)) ->
       login_success r = true).
Proof.
  eexists. split; [eapply fs_run_eq, studentLogin_run|].
  destruct (teachersOf db) as [|t ts] eqn:Ht.
  - split_and!; [done|done|]. intros (u & c & Hu & _). by apply elem_of_nil in Hu.
  - rewrite <- Ht. destruct (findLogin cc sc (teachersOf db)) as [[s cid]|] eqn:Hf.
    + split_and!; [|done|done]. intros _.
      apply findLogin_sound in Hf as (u & c & Hu & Hc & <- & Hs).
      apply list_elem_of_filter in Hu as [Hrole Hu].
      apply firstClass_Some in Hc as [Hc Hcc]. apply firstStudent_Some in Hs as [Hs Hsc].
      exists u, c, s. split_and!; done.
    + split_and!; [done|first [done|by rewrite Ht]|]. intros (u & c & Hu & Hc & Hs).
      destruct (findLogin_complete cc sc _ u c Hu Hc Hs) as [? Hf']. congruence.
Qed.

(** Under every fault schedule the login writes nothing and returns either
    what it returns when nothing fails or the server-error result: a failed
    request never produces a wrong student or the wrong-codes message. *)
Lemma studentLogin_faults cc sc fl db :
  fs_state (studentLoginAction cc sc fl db) = db /\
  (fs_out (studentLoginAction cc sc fl db) = fs_out (studentLoginAction cc sc [] db) \/
   fs_out (studentLoginAction cc sc fl db) = Ok (login_failure msg_server_error)).
Proof.
  rewrite studentLogin_run. unfold studentLoginAction, fs_catch, fs_bind.
  destruct (remote_read teachersOf fl db) as [[fl1 ->]|(e & fl1 & ->)];
    [|by split; [|right]].
  destruct (teachersOf db) as [|u us] eqn:Ht; [by split; [|left]|].
  rewrite <- Ht.
  destruct (searchTeachers_faults cc sc (teachersOf db) fl1 db) as [Hs [Ho|[e Ho]]];
    unfold fs_out, fs_state in Hs, Ho;
    destruct (searchTeachers cc sc (teachersOf db) fl1 db) as [[o fl2] db'];
    simpl in Hs, Ho; subst db' o; [|by split; [|right]].
  destruct (findLogin cc sc (teachersOf db)) as [[s cid]|]; by split; [|left].
Qed.

(** [toUpperCase] on ASCII letters is idempotent, checked on the 256
    characters. *)
Lemma upperAscii_idem c : upperAscii (upperAscii c) = upperAscii c.
Proof.
  destruct c as [b0 b1 b2 b3 b4 b5 b6 b7]. by destruct b0, b1, b2, b3, b4, b5, b6, b7.
Qed.

Lemma toUpperCase_idem s : toUpperCase (toUpperCase s) = toUpperCase s.
Proof. induction s as [|c s IH]; [done|]. cbn [toUpperCase]. by rewrite upperAscii_idem, IH. Qed.

Lemma foldl_formInput_upper evs : form_upper (foldl formInput loginForm_init evs).
Proof.
  assert (Hinit : form_upper loginForm_init) by done. revert Hinit.
  generalize loginForm_init. induction evs as [|ev evs IH]; intros f Hf; [done|].
  apply IH. destruct Hf as [H1 H2].
  destruct ev; split; cbn [formInput form_classCode form_studentCode]; rewrite ?toUpperCase_idem; done.
Qed.

Lemma validate_nil f : validate f = [] -> form_classCode f <> "" /\ form_studentCode f <> "".
Proof.
  unfold validate. destruct (String.eqb_spec (form_classCode f) ""), (String.eqb_spec (form_studentCode f) "");
    done.
Qed.

(** The scan asks each teacher for the first class with the code only:
    when a teacher has two classes with the same code, a student of the
    second one cannot log in and gets the wrong-codes message, although the
    entered codes match. *)
Theorem studentLogin_shadowed_class :
  let s := mkStudent "st1" "123" "Ali" in
  let c2 := mkClass "c2" "5A" [s] in
  let u := mkUser "t1" "teacher" [mkClass "c1" "5A" []; c2] in
  c2 ∈ user_classes u /\ classCode c2 = "5A" /\ s ∈ class_students c2 /\ studentCode s = "123" /\
  fs_run (studentLoginAction "5A" "123") [u] = (Ok (login_failure msg_invalid_codes), [u]).
Proof. simpl. split_and!; [right; left|done|left|done|reflexivity]. Qed.

(** C33 *)
(** The login scan is sound and complete for the first matching class of
    each teacher, and safe under failures: a success returns a student with
    the entered student code in a class with the entered class code of a
    teacher, and its class id; a failure says only that the codes are wrong
    (or that there is no teacher at all), whichever lookup failed; whenever
    some teacher's first class with the class code has a student with the
    student code, the login succeeds; and under every fault schedule the
    action writes nothing and returns its fault-free result or the
    server-error result, never a wrong student. *)
Theorem studentLogin_spec db cc sc :
  (exists r, fs_run (studentLoginAction cc sc) db = (Ok r, db) /\
    (login_success r = true -> exists u c s,
       u ∈ db /\ role u = "teacher" /\ c ∈ user_classes u /\ classCode c = cc /\
       s ∈ class_students c /\ studentCode s = sc /\
       login_student r = Some s /\ login_classId r = Some (class_id c)) /\
    (login_success r = false -> login_error r =
       Some match teachersOf db with [] => msg_no_teacher | _ => msg_invalid_codes end) /\
    ((exists u c, u ∈ teachersOf db /\ firstClass cc u = Some c /\ is_Some (firstStudent sc c)) ->
       login_success r = true)) /\
  (forall fl, fs_state (studentLoginAction cc sc fl db) = db /\
    (fs_out (studentLoginAction cc sc fl db) = fs_out (studentLoginAction cc sc [] db) \/
     fs_out (studentLoginAction cc sc fl db) = Ok (login_failure msg_server_error))).
Proof. split; [apply studentLogin_correct|intros fl; apply studentLogin_faults]. Qed.

(** A session that [onSubmit] opens for codes that pass the schema and are
    upper-case is one of a teacher's students whose stored codes are
    non-empty and upper-case. *)
Lemma onSubmit_codes_uppercase f fl db s err :
  validate f = [] -> form_upper f ->
  fs_out (onSubmit (form_classCode f) (form_studentCode f) fl db) = Ok (Some s, err) ->
  exists u c, u ∈ db /\ role u = "teacher" /\ c ∈ user_classes u /\ class_id c = session_classId s /\
    session_student s ∈ class_students c /\
    classCode c <> "" /\ toUpperCase (classCode c) = classCode c /\
    studentCode (session_student s) <> "" /\
    toUpperCase (studentCode (session_student s)) = studentCode (session_student s).
Proof.
  intros Hv [Uc Us] Hs. destruct (validate_nil f Hv) as [Hc0 Hs0].
  unfold onSubmit in Hs. rewrite Uc, Us in Hs.
  destruct (studentLogin_faults (form_classCode f) (form_studentCode f) fl db) as [_ Hout].
  destruct (studentLogin_correct db (form_classCode f) (form_studentCode f)) as (r & Hrun & Hsucc & _ & _).
  assert (Hr0 : fs_out (studentLoginAction (form_classCode f) (form_studentCode f) [] db) = Ok r).
  { unfold fs_run in Hrun. unfold fs_out. by destruct (studentLoginAction _ _ [] db) as [[o ?] ?]; simplify_eq. }
  destruct Hout as [Ho|Ho]; [rewrite Hr0 in Ho|]; unfold fs_bind, fs_out in Hs, Ho;
    destruct (studentLoginAction _ _ fl db) as [[o fl'] db'] eqn:E; cbn in Ho; subst o; cbn in Hs; [|done].
  destruct (login_success r) eqn:Es, (login_student r) as [st|] eqn:Est, (login_classId r) as [cid|] eqn:Ec;
    cbn in Hs; try done.
  injection Hs as <- <-. destruct (Hsucc eq_refl) as (u & c & s' & Hu & Hrole & Hcu & Hcc & Hsc & Hscode & Hst & Hcid).
  simplify_eq.
  exists u, c. cbn [session_classId session_student]. rewrite Hcc, Hscode. done.
Qed.

(** The codes the login form sends have the type its schema and inputs
    give them: whatever is typed, a code is non-empty and upper-case, so a
    session is opened only for a class and student whose stored codes are
    non-empty and upper-case. *)
Lemma login_codes_uppercase evs fl db s err :
  let f := foldl formInput loginForm_init evs in
  fs_out (handleSubmit f fl db) = Ok (inr (Some s, err)) ->
  exists u c, u ∈ db /\ role u = "teacher" /\ c ∈ user_classes u /\ class_id c = session_classId s /\
    session_student s ∈ class_students c /\
    classCode c <> "" /\ toUpperCase (classCode c) = classCode c /\
    studentCode (session_student s) <> "" /\
    toUpperCase (studentCode (session_student s)) = studentCode (session_student s).
Proof.
  intros f Hs. unfold handleSubmit in Hs. destruct (validate f) eqn:Hv; [|done].
  unfold fs_bind, fs_out in Hs.
  destruct (onSubmit _ _ fl db) as [[[r|e] fl'] db'] eqn:E; cbn in Hs; [|done].
  injection Hs as ->. apply (onSubmit_codes_uppercase f fl db s err); [done|apply foldl_formInput_upper|].
  unfold fs_out. by rewrite E.
Qed.

(** ** Witnesses *)

Lemma studentLogin_correct_witness :
  exists r, fs_run (studentLoginAction "5A" "123") [mkUser "t1" "teacher" [mkClass "c2" "5A"
      [mkStudent "st1" "123" "Ali"]]] = (Ok r, [mkUser "t1" "teacher" [mkClass "c2" "5A"
      [mkStudent "st1" "123" "Ali"]]]) /\ login_success r = true.
Proof.
  destruct (studentLogin_correct [mkUser "t1" "teacher" [mkClass "c2" "5A"
      [mkStudent "st1" "123" "Ali"]]] "5A" "123") as (r & Hrun & _ & _ & Hcomp).
  exists r. split; [exact Hrun|]. apply Hcomp.
  exists (mkUser "t1" "teacher" [mkClass "c2" "5A" [mkStudent "st1" "123" "Ali"]]),
    (mkClass "c2" "5A" [mkStudent "st1" "123" "Ali"]).
  split_and!; [left|reflexivity|by eexists].
Defined.

(** A student types the class code in lower case; the input upper-cases it. *)
Definition sample_login_db : AdminDb :=
  [mkUser "t1" "teacher" [mkClass "c2" "5A" [mkStudent "st1" "123" "Ali"]]].

Lemma login_codes_uppercase_witness :
  fs_out (handleSubmit (foldl formInput loginForm_init [ClassCodeInput "5a"; StudentCodeInput "123"])
            [] sample_login_db) =
    Ok (inr (Some (mkSession "st1" (mkStudent "st1" "123" "Ali") "c2"), None)) /\
  exists u c, u ∈ sample_login_db /\ class_id c = "c2" /\ toUpperCase (classCode c) = classCode c.
Proof.
  assert (H : fs_out (handleSubmit (foldl formInput loginForm_init [ClassCodeInput "5a"; StudentCodeInput "123"])
            [] sample_login_db) = Ok (inr (Some (mkSession "st1" (mkStudent "st1" "123" "Ali") "c2"), None)))
    by reflexivity.
  split; [exact H|].
  destruct (login_codes_uppercase [ClassCodeInput "5a"; StudentCodeInput "123"] [] sample_login_db
              (mkSession "st1" (mkStudent "st1" "123" "Ali") "c2") None H)
    as (u & c & Hu & _ & _ & Hcid & _ & _ & Hup & _).
  exists u, c. by split_and!.
Defined.

End StudentLogin.
