(* ===== verification/AiActions.v ===== *)
(** * AiActions: the server actions around the generative-AI flows
      ([src/src/app/actions.ts])

    Each action awaits one flow (a request to the AI service, outside the
    program) inside [try]/[catch] and turns its answer into the object the
    pages read.  A flow call is one remote request of the [FS] monad on a
    trivial store: it fails under the fault schedule, and otherwise returns
    the flow's answer, an argument of the model ([None] when the flow
    returned nothing or the field the action reads is missing).  JavaScript
    truthiness of a returned string is [truthy]. *)

From S2P Require Import Prelude.

Module AiActions.

(** ** Flow calls *)

Definition aiCall {R} (answer : R) : FS unit R := remote (fun s => Some (answer, s)).

(** A string field that is present and not empty. *)
Definition truthy (o : option string) : option string :=
  match o with
  | Some v => if String.eqb v "" then None else Some v
  | None => None
  end.

(** [{ field: value }] or [{ error: message }] *)
Inductive ActionResult (T : Type) :=
  | Success (value : T)
  | Failure (message : string).
Arguments Success {T}.
Arguments Failure {T}.

Local Open Scope fs_scope.

(** [generateDescriptionAction(input)] (lines 22-36). *)
Definition generateDescriptionAction (answer : option string) : FS unit (ActionResult string) :=
  fs_catch
    (let* r := aiCall answer in
     match truthy r with
     | Some d => fs_ret (Success d)
     | None => fs_ret (Success "AI-powered description could not be generated.")
     end)
    (fun _ => fs_ret (Failure "AI ile açıklama üretilirken bir hata oluştu.")).

(** [parseStudentListAction(input)] (lines 44-55): an array is truthy even
    when empty. *)
Definition parseStudentListAction {C} (answer : option (list C)) : FS unit (ActionResult (list C)) :=
  fs_catch
    (let* r := aiCall answer in
     match r with
     | Some classes => fs_ret (Success classes)
     | None => fs_ret (Failure "Dosya ayrıştırılamadı.")
     end)
    (fun _ => fs_ret (Failure "Dosya ayrıştırılırken bir hata oluştu.")).

(** [speechToNoteAction(input)] (lines 57-71): the note, and the error
    that comes with the fallback after an exception. *)
Definition speechToNoteAction (transcript : string) (answer : option string)
    : FS unit (string * option string) :=
  fs_catch
    (let* r := aiCall answer in
     match truthy r with
     | Some n => fs_ret (n, None)
     | None => fs_ret (transcript, None)
     end)
    (fun _ => fs_ret (transcript, Some "Sesli not işlenirken bir hata oluştu.")).

(** [assistantAction(input)] (lines 73-84). *)
Definition assistantAction (answer : option string) : FS unit (ActionResult string) :=
  fs_catch
    (let* r := aiCall answer in
     match truthy r with
     | Some v => fs_ret (Success v)
     | None => fs_ret (Failure "Yapay zekadan bir cevap alınamadı.")
     end)
    (fun _ => fs_ret (Failure "Yapay zeka ile iletişim kurulurken bir hata oluştu.")).

(** [generateIndividualReportAction] and [generateClassReportAction]
    (lines 87-111): the report object, truthy when present. *)
Definition generateReportAction {R} (noReport failed : string) (answer : option R)
    : FS unit (ActionResult R) :=
  fs_catch
    (let* r := aiCall answer in
     match r with
     | Some rep => fs_ret (Success rep)
     | None => fs_ret (Failure noReport)
     end)
    (fun _ => fs_ret (Failure failed)).

Definition generateIndividualReportAction {R} : option R -> FS unit (ActionResult R) :=
  generateReportAction "Yapay zeka raporu oluşturulamadı."
    "Yapay zeka ile rapor üretilirken bir hata oluştu.".

Definition generateClassReportAction {R} : option R -> FS unit (ActionResult R) :=
  generateReportAction "Yapay zeka sınıf raporu oluşturulamadı."
    "Yapay zeka ile sınıf raporu üretilirken bir hata oluştu.".

(** [generateStandaloneAiAnswerAction(input)] (lines 133-146): a missing
    answer is thrown inside the [try] and reported with its message; a
    failed request is reported with the request's message. *)
Definition generateStandaloneAiAnswerAction (answer : option string)
    : FS unit (ActionResult string) :=
  fs_catch
    (let* r := aiCall answer in
     match truthy r with
     | Some a => fs_ret (Success a)
     | None => fs_ret (Failure "Yapay zeka bir cevap üretemedi.")
     end)
    (fun e => fs_ret (Failure (str_or (fs_error_message e)
       "Yapay zeka cevabı oluşturulurken bilinmeyen bir hata oluştu."))).

(** ** Theorems *)

(** No failure of an AI flow, and no answer it gives, makes a server action
    throw: every action returns an object for the page under every fault
    schedule. *)
Theorem ai_actions_never_throw {C R} fl (answer : option string) (classes : option (list C))
    (report : option R) transcript :
  (exists r, fs_out (generateDescriptionAction answer fl tt) = Ok r) /\
  (exists r, fs_out (parseStudentListAction classes fl tt) = Ok r) /\
  (exists r, fs_out (speechToNoteAction transcript answer fl tt) = Ok r) /\
  (exists r, fs_out (assistantAction answer fl tt) = Ok r) /\
  (exists r, fs_out (generateIndividualReportAction report fl tt) = Ok r) /\
  (exists r, fs_out (generateClassReportAction report fl tt) = Ok r) /\
  (exists r, fs_out (generateStandaloneAiAnswerAction answer fl tt) = Ok r).
Proof. split_and!; apply catch_ret_total. Qed.

(** [speechToNoteAction] never loses the teacher's words: the note is the
    refined note when the flow returned a non-empty one, and the original
    transcript otherwise; the error message comes only with a failed
    request, together with the transcript. *)
Theorem speechToNote_passthrough transcript answer fl :
  fs_out (speechToNoteAction transcript answer fl tt) =
    Ok (match truthy answer with Some n => (n, None) | None => (transcript, None) end) \/
  fs_out (speechToNoteAction transcript answer fl tt) =
    Ok (transcript, Some "Sesli not işlenirken bir hata oluştu.").
Proof.
  unfold speechToNoteAction, fs_catch, fs_bind, aiCall, remote, fs_out.
  destruct fl as [|[] fl]; simpl; [left|right|left]; by destruct (truthy answer).
Qed.

End AiActions.
