(* ===== verification/ScheduleView.v ===== *)
(** * ScheduleView: the schedule page's own logic ([src/src/components/ders-programi.tsx])

    What the weekly-schedule page computes without the database: the end
    time shown under each time slot ([calculateEndTime]), the plan related
    to a lesson ([findRelatedPlan]), the single/double click protocol of a
    slot ([handleLessonClick] with its 250 ms timer), and the day selected
    on opening the page.  The click protocol is a small state machine over
    the page's [clickTimeoutRef], [editingLesson] and the plan passed to
    [viewFile]; the timer firing is an explicit event, so any ordering of
    clicks and timer expiries is a sequence of steps. *)

From S2P Require Import Prelude Schedule.
From Stdlib Require Import Ascii.
Import Schedule.

Module ScheduleView.

(** ** The end time of a lesson *)

(** [s.split(':')] *)
Fixpoint split_at (sep : ascii) (s : string) : list string :=
  match s with
  | EmptyString => [EmptyString]
  | String c rest =>
      if Ascii.eqb c sep then EmptyString :: split_at sep rest
      else match split_at sep rest with
           | w :: ws => String c w :: ws
           | [] => [String c EmptyString]
           end
  end.

Definition digit_value (c : ascii) : option nat :=
  let n := nat_of_ascii c in
  if (48 <=? n) && (n <=? 57) then Some (n - 48) else None.

Fixpoint digits_acc (s : string) (acc : nat) : option nat :=
  match s with
  | EmptyString => Some acc
  | String c rest => match digit_value c with
                     | Some d => digits_acc rest (acc * 10 + d)
                     | None => None
                     end
  end.

(** [Number(s)] on the strings the [type="time"] inputs and the added
    slot ["16:00"] produce: the empty string is 0 and a string of decimal
    digits is its value; [None] is [NaN].  JavaScript also accepts white
    space, a sign, a fraction, an exponent or a radix prefix, which these
    inputs never contain; such strings are [NaN] here. *)
Definition jsNumber (s : string) : option nat := digits_acc s 0.

(** [String(n).padStart(2, '0')] *)
Definition padStart2 (s : string) : string :=
  match String.length s with
  | 0 => "00"
  | 1 => "0" +:+ s
  | _ => s
  end.

Definition hhmm (h m : nat) : string := padStart2 (nat_str h) +:+ ":" +:+ padStart2 (nat_str m).

(** [calculateEndTime(startTime, duration)] (lines 38-46).  The start is
    set on today's date and [duration] minutes are added to it; the wall
    clock of the result is the sum modulo one day, as no daylight-saving
    change happens in the interval (Türkiye has had none since 2016). *)
Definition calculateEndTime (startTime : string) (duration : nat) : string :=
  if String.eqb startTime "" || (duration =? 0) then "" else
  match jsNumber <$> split_at ":" startTime with
  | Some h :: Some m :: _ =>
      let t := (h * 60 + m + duration) mod 1440 in hhmm (t / 60) (t mod 60)
  | _ => ""
  end.

(** ** The plan of a lesson *)

Record Plan := mkPlan {
  plan_id : string;
  plan_title : string;
  plan_grade : string;
  plan_type : string;
  fileType : string;
  fileDataUrl : string
}.

(** [if (lesson.planId)]: a present, non-empty id. *)
Definition truthy_id (o : option string) : option string :=
  match o with Some v => if String.eqb v "" then None else Some v | None => None end.

(** [findRelatedPlan(lesson)] (lines 211-221). *)
Definition findRelatedPlan (plans : list Plan) (lesson : option Lesson) : option Plan :=
  match lesson with
  | None => None
  | Some l =>
      match truthy_id (planId l) ≫= fun pid => head (filter (fun p => plan_id p = pid) plans) with
      | Some p => Some p
      | None =>
          if String.eqb (grade l) "" then None
          else head (filter (fun p => plan_grade p = grade l /\ plan_type p = "annual") plans)
      end
  end.

(** ** The click protocol of a slot *)

(** [{ day, lessonSlot, lesson }] *)
Abbreviation EditTarget := (Day * nat * option Lesson)%type.

(** [clickTimeoutRef.current] holds the pending single-click action, with
    the [plans] its closure captured; [editingLesson] is the open editor;
    [viewRequested] the plan last passed to [viewFile]. *)
Record ClickState := mkClickState {
  clickTimeout : option (EditTarget * list Plan);
  editingLesson : option EditTarget;
  viewRequested : option Plan
}.

Definition idleClicks : ClickState := mkClickState None None None.

(** [handleLessonClick(day, slotIndex, lesson)] (lines 223-247): a click
    while a timer is pending is a double click. *)
Definition handleLessonClick (st : ClickState) (plans : list Plan) (target : EditTarget)
    : ClickState :=
  match clickTimeout st with
  | Some _ => mkClickState None (Some target) (viewRequested st)
  | None => mkClickState (Some (target, plans)) (editingLesson st) (viewRequested st)
  end.

(** The [setTimeout] callback, 250 ms after a single click. *)
Definition clickTimerFires (st : ClickState) : ClickState :=
  match clickTimeout st with
  | None => st
  | Some ((day, slot, lesson), plans) =>
      match lesson with
      | Some l =>
          match findRelatedPlan plans (Some l) with
          | Some p => mkClickState None (editingLesson st) (Some p)
          | None => mkClickState None (Some (day, slot, lesson)) (viewRequested st)
          end
      | None => mkClickState None (Some (day, slot, lesson)) (viewRequested st)
      end
  end.

(** The events of a slot's click protocol, in any interleaving: a click
    on a slot (with the [plans] the page has then) and the expiry of the
    pending timer.  An expiry with no timer pending is a no-op. *)
Inductive ClickEvent :=
  | LessonClick (plans : list Plan) (target : EditTarget)
  | TimerFires.

Definition clickStep (st : ClickState) (ev : ClickEvent) : ClickState :=
  match ev with
  | LessonClick plans target => handleLessonClick st plans target
  | TimerFires => clickTimerFires st
  end.

(** [P] holds on every continuation of events, at some point ([AF P]). *)
Inductive eventually (P : ClickState -> Prop) (st : ClickState) : Prop :=
  | ev_now : P st -> eventually P st
  | ev_later : (forall ev, eventually P (clickStep st ev)) -> eventually P st.

(** A click has been answered: no action is pending and an editor is open
    or a plan was passed to [viewFile]. *)
Definition answered (st : ClickState) : Prop :=
  clickTimeout st = None /\ (is_Some (editingLesson st) \/ is_Some (viewRequested st)).

(** ** The day selected when the page opens *)

(** [new Date().getDay()] of a day: Sunday is 0. *)
Definition jsGetDay (d : Day) : nat :=
  match d with
  | Pazar => 0 | Pazartesi => 1 | Sali => 2 | Carsamba => 3
  | Persembe => 4 | Cuma => 5 | Cumartesi => 6
  end.

(** The effect of lines 69-77: the selected day, if the index is valid. *)
Definition todaySelection (todayIndex : nat) : option Day :=
  let adjustedIndex := if todayIndex =? 0 then 6 else todayIndex - 1 in
  dayOrder !! adjustedIndex.

(** [dayShort] *)
Definition dayShort (d : Day) : string :=
  match d with
  | Pazartesi => "Pzt" | Sali => "Sal" | Carsamba => "Çar" | Persembe => "Per"
  | Cuma => "Cum" | Cumartesi => "Cmt" | Pazar => "Paz"
  end.

(** ** Lemmas *)

(** The string has no [sep] character. *)
Fixpoint sep_free (sep : ascii) (s : string) : bool :=
  match s with
  | EmptyString => true
  | String c rest => negb (Ascii.eqb c sep) && sep_free sep rest
  end.

Lemma split_at_app sep a b :
  sep_free sep a = true -> split_at sep (a +:+ String sep EmptyString +:+ b) = a :: split_at sep b.
Proof.
  induction a as [|c a IH]; simpl; intros H; [by rewrite Ascii.eqb_refl|].
  apply andb_prop in H as [Hc Ha]. apply negb_true_iff in Hc. rewrite Hc, IH by done. done.
Qed.

Lemma split_at_free sep a : sep_free sep a = true -> split_at sep a = [a].
Proof.
  induction a as [|c a IH]; simpl; intros H; [done|].
  apply andb_prop in H as [Hc Ha]. apply negb_true_iff in Hc. rewrite Hc, IH by done. done.
Qed.

Lemma sep_free_app c a b : sep_free c (a +:+ b) = sep_free c a && sep_free c b.
Proof. induction a as [|x a IH]; simpl; [done|]. by rewrite IH, andb_assoc. Qed.

(** Two-digit fields print without a colon and parse back, checked on the
    hundred values by computation. *)
Lemma padStart2_ok n :
  n < 100 -> sep_free ":" (padStart2 (nat_str n)) = true /\ jsNumber (padStart2 (nat_str n)) = Some n.
Proof.
  apply (Forall_seq_check (fun n => sep_free ":" (padStart2 (nat_str n)) = true /\
                                    jsNumber (padStart2 (nat_str n)) = Some n)).
  vm_compute. reflexivity.
Qed.

Lemma append_sep_nonempty a b : String.eqb (a +:+ ":" +:+ b) "" = false.
Proof. by destruct a. Qed.

Lemma calculateEndTime_hhmm h m d :
  h < 24 -> m < 60 -> 0 < d ->
  calculateEndTime (hhmm h m) d = hhmm ((h * 60 + m + d) mod 1440 / 60) ((h * 60 + m + d) mod 1440 mod 60).
Proof.
  intros Hh Hm Hd. destruct (padStart2_ok h) as [Hsh Hnh]; [lia|].
  destruct (padStart2_ok m) as [Hsm Hnm]; [lia|].
  unfold calculateEndTime, hhmm. rewrite append_sep_nonempty. destruct d as [|d]; [lia|]. simpl orb.
  rewrite split_at_app, split_at_free by done. simpl. by rewrite Hnh, Hnm.
Qed.

(** C38 *)
(** The end time shown under a slot ["HH:MM"] for a lesson of [d > 0]
    minutes is the start plus [d] minutes on the 24-hour clock, printed
    ["HH:MM"] again; so computing the end of a lesson from the end of
    another one gives the end of both together. *)
Theorem calculateEndTime_correct h m d :
  h < 24 -> m < 60 -> 0 < d ->
  calculateEndTime (hhmm h m) d = hhmm ((h * 60 + m + d) mod 1440 / 60) ((h * 60 + m + d) mod 1440 mod 60) /\
  forall d', 0 < d' -> calculateEndTime (calculateEndTime (hhmm h m) d) d' = calculateEndTime (hhmm h m) (d + d').
Proof.
  intros Hh Hm Hd. rewrite calculateEndTime_hhmm by done. split; [done|]. intros d' Hd'.
  set (t := (h * 60 + m + d) mod 1440).
  assert (t < 1440) by (apply Nat.mod_upper_bound; lia).
  rewrite (calculateEndTime_hhmm (t / 60) (t mod 60) d');
    [|apply Nat.Div0.div_lt_upper_bound; lia|apply Nat.mod_upper_bound; lia|lia].
  rewrite (calculateEndTime_hhmm h m (d + d')) by lia.
  assert (Ht : t / 60 * 60 + t mod 60 = t).
  { rewrite Nat.mul_comm. symmetry. apply Nat.div_mod. lia. }
  rewrite Ht. unfold t. rewrite Nat.Div0.add_mod_idemp_l. by rewrite Nat.add_assoc.
Qed.

(** C39 *)
(** The click protocol of a slot: two clicks within the timer's delay open
    the editor on the slot of the second click, cancel the first click's
    action (its timer no longer does anything) and view no plan; a single
    click, once the timer fires, views the lesson's related plan when there
    is one and opens the editor otherwise (and always for an empty slot). *)
Theorem lesson_click_protocol st plans1 plans2 (a b : EditTarget) :
  clickTimeout st = None ->
  (let st2 := handleLessonClick (handleLessonClick st plans1 a) plans2 b in
   editingLesson st2 = Some b /\ viewRequested st2 = viewRequested st /\ clickTimerFires st2 = st2) /\
  (let st1 := clickTimerFires (handleLessonClick st plans1 a) in
   clickTimeout st1 = None /\
   match findRelatedPlan plans1 a.2 with
   | Some p => viewRequested st1 = Some p /\ editingLesson st1 = editingLesson st
   | None => editingLesson st1 = Some a /\ viewRequested st1 = viewRequested st
   end).
Proof.
  intros Hidle. unfold handleLessonClick. rewrite Hidle. cbn -[findRelatedPlan]. split; [done|].
  unfold clickTimerFires. cbn -[findRelatedPlan].
  destruct a as [[day slot] [l|]]; cbn -[findRelatedPlan]; [|done].
  by destruct (findRelatedPlan plans1 (Some l)).
Qed.

(** A pending action is resolved by the next event, whichever it is. *)
Lemma pending_answered st x ev : clickTimeout st = Some x -> answered (clickStep st ev).
Proof.
  intros Hx. unfold answered. destruct ev as [plans target|]; cbn [clickStep].
  - unfold handleLessonClick. rewrite Hx. split; [done|]. left. eexists. reflexivity.
  - unfold clickTimerFires. rewrite Hx. destruct x as [[[day slot] [l|]] plans].
    + destruct (findRelatedPlan plans (Some l)); (split; [done|]); [right|left]; eexists; reflexivity.
    + split; [done|]. left. eexists. reflexivity.
Qed.

(** C29 *)
(** Every click is answered: whatever events follow a click on a slot, in
    whatever order (more clicks, timer expiries), a state is reached with
    no action pending and an editor open or a plan viewed: a click while a
    timer is pending is answered at once, and the pending action of a
    single click by the very next event. *)
Theorem click_eventually_answered st plans target :
  eventually answered (clickStep st (LessonClick plans target)).
Proof.
  destruct (clickTimeout st) as [x|] eqn:Hx.
  - apply ev_now. cbn [clickStep]. unfold answered, handleLessonClick. rewrite Hx.
    split; [done|]. left. eexists. reflexivity.
  - apply ev_later. intros ev. apply ev_now. eapply pending_answered.
    cbn [clickStep]. unfold handleLessonClick. rewrite Hx. reflexivity.
Qed.

(** The page opens on today's day of the week. *)
Lemma todaySelection_jsGetDay d : todaySelection (jsGetDay d) = Some d.
Proof. by destruct d. Qed.

(** ** Witnesses *)

Lemma calculateEndTime_correct_witness :
  calculateEndTime "08:30" 40 = "09:10" /\
  calculateEndTime (calculateEndTime "08:30" 40) 40 = calculateEndTime "08:30" 80.
Proof.
  destruct (calculateEndTime_correct 8 30 40) as [H1 H2]; [lia|lia|lia|].
  split; [exact H1|]. apply H2. lia.
Defined.

Definition sample_plan : Plan :=
  mkPlan "p1" "5. Sınıf Yıllık Plan" "5" "annual" "application/vnd.ms-excel"
    "data:application/vnd.ms-excel;base64,0M8R4A==".

Lemma lesson_click_protocol_witness :
  editingLesson (handleLessonClick (handleLessonClick idleClicks [sample_plan]
      (Pazartesi, 0, Some (sample_lesson 0 "08:30"))) [sample_plan] (Sali, 2, None)) = Some (Sali, 2, None) /\
  viewRequested (clickTimerFires (handleLessonClick idleClicks [sample_plan]
      (Pazartesi, 0, Some (sample_lesson 0 "08:30")))) = Some sample_plan.
Proof.
  destruct (lesson_click_protocol idleClicks [sample_plan] [sample_plan]
    (Pazartesi, 0, Some (sample_lesson 0 "08:30")) (Sali, 2, None)) as [[H1 _] [_ H2]]; [reflexivity|].
  split; [exact H1|]. exact (proj1 H2).
Defined.

End ScheduleView.
