(* ===== verification/PlanViewer.v ===== *)
(** * PlanViewer: opening a lesson's annual plan ([src/src/components/ders-programi.tsx])

    A single click on a lesson with a related plan calls [viewFile(plan,
    lesson)] (lines 99-136): the plan's stored data URI is turned into a
    [Blob] by [dataURIToBlob] (lines 82-97), a spreadsheet is parsed by the
    [xlsx] library into rows, and the rows from the first one that names a
    week become the entries of the plan viewer, which is open while
    [viewingPlanContent] is not [null].  [closeViewer] (lines 138-141)
    closes it.

    The browser functions the conversion calls are written out from their
    standards: [atob] is the forgiving-base64 decode of the HTML standard,
    [decodeURI] the [Decode] operation of ECMAScript with its reserved set,
    [new Uint8Array] stores each code unit modulo 256, and the [Blob]
    constructor normalises its type.  A JavaScript string the conversion
    produces is a list of UTF-16 code units ([list N]); the data URI itself
    is a [string] of bytes, each byte a code unit below 256 (the URIs
    [FileReader.readAsDataURL] writes are ASCII).  The [xlsx] library is a
    section variable: the rows [sheet_to_json] returns for the first sheet
    of the bytes, or [None] when it throws. *)

From S2P Require Import Prelude Schedule ScheduleView.
From Stdlib Require Import Ascii.
Import ScheduleView.

Module PlanViewer.

Local Open Scope N_scope.

(** ** The forgiving-base64 decode of [atob] *)

(** ASCII whitespace: TAB, LF, FF, CR and SPACE. *)
Definition ascii_ws (c : ascii) : bool :=
  bool_decide (N_of_ascii c ∈ [9; 10; 12; 13; 32]).

(** The value of a character of the base64 alphabet. *)
Definition b64_value (c : ascii) : option N :=
  let n := N_of_ascii c in
  if (65 <=? n) && (n <=? 90) then Some (n - 65)
  else if (97 <=? n) && (n <=? 122) then Some (n - 71)
  else if (48 <=? n) && (n <=? 57) then Some (n + 4)
  else if (n =? 43) then Some 62
  else if (n =? 47) then Some 63
  else None.

(** "If data ends with one or two U+003D (=) code points, then remove
    them", applied when the length is a multiple of four. *)
Definition strip_padding (cs : list ascii) : list ascii :=
  match reverse cs with
  | "="%char :: "="%char :: rest => reverse rest
  | "="%char :: rest => reverse rest
  | _ => cs
  end%list.

(** The decode loop: each character appends its six bits to [buffer]; at 24
    bits the buffer is three bytes, big-endian.  At the end 12 bits lose
    their last four (one byte) and 18 bits their last two (two bytes). *)
Fixpoint b64_bits (vs : list N) (buffer : N) (nbits : nat) : list N :=
  match vs with
  | [] =>
      match nbits with
      | 12%nat => [buffer / 16]
      | 18%nat => [buffer / 4 / 256; buffer / 4 mod 256]
      | _ => []
      end
  | v :: vs' =>
      let buffer' := buffer * 64 + v in
      if Nat.eqb nbits 18 then [buffer' / 65536; buffer' / 256 mod 256; buffer' mod 256] ++ b64_bits vs' 0 0
      else b64_bits vs' buffer' (nbits + 6)%nat
  end.

(** [atob(data)]: [None] is the [InvalidCharacterError] it throws. *)
Definition atob (data : string) : option (list N) :=
  let cs := filter (fun c => ascii_ws c = false) (String.list_ascii_of_string data) in
  let cs := if Nat.eqb (Nat.modulo (length cs) 4) 0 then strip_padding cs else cs in
  if Nat.eqb (Nat.modulo (length cs) 4) 1 then None
  else (fun vs => b64_bits vs 0 0%nat) <$> mapM b64_value cs.

(** ** The [Decode] operation of [decodeURI] *)

(** [";/?:@&=+$,#"]: escapes of these characters are kept. *)
Definition uriReserved : list N := [59; 47; 63; 58; 64; 38; 61; 43; 36; 44; 35].

Definition hex_value (c : ascii) : option N :=
  let n := N_of_ascii c in
  if (48 <=? n) && (n <=? 57) then Some (n - 48)
  else if (65 <=? n) && (n <=? 70) then Some (n - 55)
  else if (97 <=? n) && (n <=? 102) then Some (n - 87)
  else None.

Definition hex_byte (h1 h2 : ascii) : option N :=
  d1 ← hex_value h1; d2 ← hex_value h2; Some (d1 * 16 + d2).

(** The number of leading one bits of a byte at least [0x80]. *)
Definition leading_ones (b : N) : nat :=
  if b <? 192 then 1%nat else if b <? 224 then 2%nat else if b <? 240 then 3%nat
  else if b <? 248 then 4%nat else 5%nat.

(** The [n] continuation octets [%XX], each [10xxxxxx]. *)
Fixpoint take_conts (n : nat) (s : list ascii) : option (list N * list ascii) :=
  match n with
  | O => Some ([], s)
  | S n' =>
      match s with
      | c :: h1 :: h2 :: rest =>
          if Ascii.eqb c "%" then
            b ← hex_byte h1 h2;
            if (128 <=? b) && (b <? 192) then
              '(bs, rest') ← take_conts n' rest; Some (b :: bs, rest')
            else None
          else None
      | _ => None
      end
  end.

(** The code point of a well-formed UTF-8 sequence: its leading byte and
    continuation octets, rejecting overlong forms, surrogates and values
    above U+10FFFF. *)
Definition utf8_code_point (b : N) (conts : list N) : option N :=
  match conts with
  | [c1] => let v := b mod 32 * 64 + c1 mod 64 in
            if 128 <=? v then Some v else None
  | [c1; c2] => let v := (b mod 16 * 64 + c1 mod 64) * 64 + c2 mod 64 in
                if (2048 <=? v) && negb ((55296 <=? v) && (v <=? 57343)) then Some v else None
  | [c1; c2; c3] =>
      let v := ((b mod 8 * 64 + c1 mod 64) * 64 + c2 mod 64) * 64 + c3 mod 64 in
      if (65536 <=? v) && (v <=? 1114111) then Some v else None
  | _ => None
  end.

(** A code point as UTF-16 code units. *)
Definition utf16 (v : N) : list N :=
  if v <? 65536 then [v]
  else [(v - 65536) / 1024 + 55296; (v - 65536) mod 1024 + 56320].

(** The outcome of the decode loop; [OutOfFuel] is never reached with the
    fuel [decodeURI] gives ([decode_loop_total]). *)
Inductive Decoded :=
  | DecodeOk (units : list N)
  | URIError
  | OutOfFuel.

Definition decoded_app (pre : list N) (r : Decoded) : Decoded :=
  match r with DecodeOk u => DecodeOk (pre ++ u) | e => e end.

(** The loop of [Decode(string, reservedSet)]: a character other than [%]
    is copied; [%XX] below [0x80] is its character, or the three original
    characters for a reserved one; a leading byte of [n] ones takes [n - 1]
    continuation escapes and the code point they encode, as UTF-16.  Every
    malformed escape is a [URIError].  Each round consumes at least one
    character, so the length of the input plus one is enough fuel. *)
Fixpoint decode_loop (fuel : nat) (s : list ascii) : Decoded :=
  match fuel with
  | O => OutOfFuel
  | S fuel' =>
      match s with
      | [] => DecodeOk []
      | c :: rest =>
          if Ascii.eqb c "%" then
            match rest with
            | h1 :: h2 :: rest' =>
                match hex_byte h1 h2 with
                | None => URIError
                | Some b =>
                    if b <? 128 then
                      decoded_app (if bool_decide (b ∈ uriReserved)
                                   then [37; N_of_ascii h1; N_of_ascii h2] else [b])
                        (decode_loop fuel' rest')
                    else
                      let n := leading_ones b in
                      if Nat.eqb n 1 || Nat.ltb 4 n then URIError
                      else match take_conts (n - 1) rest' with
                           | None => URIError
                           | Some (conts, rest'') =>
                               match utf8_code_point b conts with
                               | None => URIError
                               | Some v => decoded_app (utf16 v) (decode_loop fuel' rest'')
                               end
                           end
                end
            | _ => URIError
            end
          else decoded_app [N_of_ascii c] (decode_loop fuel' rest)
      end
  end.

(** [decodeURI(s)] *)
Definition decodeURI (s : string) : Decoded :=
  let cs := String.list_ascii_of_string s in decode_loop (S (length cs)) cs.

(** The code units a decode returns, [None] when it throws. *)
Definition decoded_units (r : Decoded) : option (list N) :=
  match r with DecodeOk u => Some u | _ => None end.

(** ** [dataURIToBlob] *)

Record Blob := mkBlob { blob_bytes : list N; blob_type : string }.

Fixpoint printable (s : string) : bool :=
  match s with
  | EmptyString => true
  | String c r => (32 <=? N_of_ascii c) && (N_of_ascii c <=? 126) && printable r
  end.

Fixpoint ascii_lowercase (s : string) : string :=
  match s with
  | EmptyString => EmptyString
  | String c r =>
      String (if (65 <=? N_of_ascii c) && (N_of_ascii c <=? 90) then ascii_of_N (N_of_ascii c + 32) else c)
        (ascii_lowercase r)
  end.

(** The [type] option of [new Blob]: empty when a character is outside
    U+0020-U+007E, ASCII-lowercased otherwise. *)
Definition blobType (t : string) : string := if printable t then ascii_lowercase t else "".

(** Lines 82-97.  [splitDataURI[1]] is [undefined] for a URI without a
    comma, which both decoders read as the string ["undefined"];
    [.split(':')[1].split] throws on a header without a colon; every
    exception is caught and gives [null] ([None]). *)
Definition dataURIToBlob (dataURI : string) : option Blob :=
  match split_at "," dataURI with
  | [] => None
  | header :: parts =>
      let data := default "undefined" (head parts) in
      byteString ← (if includes header "base64" then atob data else decoded_units (decodeURI data));
      mimeString ← (h ← split_at ":" header !! 1%nat; head (split_at ";" h));
      Some (mkBlob ((fun u => u mod 256) <$> byteString) (blobType mimeString))
  end.

(** ** The rows of the spreadsheet and the viewer's entries *)

(** A cell value of [sheet_to_json]: a string, a number (the plan sheets
    hold integers) or a boolean. *)
Inductive Cell :=
  | CStr (s : string)
  | CNum (z : Z)
  | CBool (b : bool).

(** A row object, keyed by the [header] names given to [sheet_to_json]. *)
Abbreviation Row := (gmap string Cell) (only parsing).

Definition cell_truthy (c : Cell) : bool :=
  match c with
  | CStr s => negb (String.eqb s "")
  | CNum z => negb (Z.eqb z 0)
  | CBool b => b
  end.

(** [toString()] of a cell. *)
Definition cell_toString (c : Cell) : string :=
  match c with
  | CStr s => s
  | CNum z => pretty z
  | CBool b => if b then "true" else "false"
  end.

(** [/\d/.test(s)] *)
Definition has_digit (s : string) : bool :=
  existsb (fun c => (48 <=? N_of_ascii c) && (N_of_ascii c <=? 57)) (String.list_ascii_of_string s).

(** [row => row.week && (row.week.toString().includes('Hafta') || /\d/.test(row.week.toString()))] *)
Definition isWeekRow (row : Row) : bool :=
  match row !! "week" with
  | Some w => cell_truthy w && (includes (cell_toString w) "Hafta" || has_digit (cell_toString w))
  | None => false
  end.

(** An entry of the viewer, [{ id, ...row }]: the row's own keys win. *)
Abbreviation Entry := (gmap string Cell) (only parsing).

(** [json.findIndex(...)], [json.slice(startIndex >= 0 ? startIndex : 0)]
    and [.map((row, index) => ({ id: `${plan.id}-${index}`, ...row }))]. *)
Definition planEntries (plan : Plan) (json : list Row) : list Entry :=
  let startIndex := match list_find (fun r => isWeekRow r = true) json with
                    | Some (i, _) => i
                    | None => 0%nat
                    end in
  imap (fun index (row : Row) => row ∪ {["id" := CStr (plan_id plan +:+ "-" +:+ nat_str index)]})
    (drop startIndex json).

(** The viewer's state: [viewingPlanContent], [viewingPlanTitle],
    [startWeekForPlan], and the toasts shown. *)
Record Viewer := mkViewer {
  viewingPlanContent : option (list Entry);
  viewingPlanTitle : string;
  startWeekForPlan : nat;
  viewer_toasts : list Toast
}.

Definition closedViewer : Viewer := mkViewer None "" 1 [].

Definition toast_unreadable : Toast := mkToast "Hata" true.
Definition toast_excel_error : Toast := mkToast "Hata" true.
Definition toast_no_viewer : Toast := mkToast "Plan Görüntülenemiyor" false.

(** [closeViewer] *)
Definition closeViewer (v : Viewer) : Viewer :=
  mkViewer None "" (startWeekForPlan v) (viewer_toasts v).

(** [isOpen={!!viewingPlanContent}]: an empty array is truthy. *)
Definition viewerOpen (v : Viewer) : bool := bool_decide (is_Some (viewingPlanContent v)).

Section viewing.
(** [XLSX.read] of the bytes and [sheet_to_json] of its first sheet with
    the eleven header names; [None] when either throws. *)
Variable xlsxRows : list N -> option (list Row).

(** [viewFile(plan, lesson)] (lines 99-136); the lesson is not used. *)
Definition viewFile (plan : Plan) (v : Viewer) : Viewer :=
  let v1 := mkViewer (viewingPlanContent v) (plan_title plan) (startWeekForPlan v) (viewer_toasts v) in
  match dataURIToBlob (fileDataUrl plan) with
  | None => mkViewer (viewingPlanContent v1) (viewingPlanTitle v1) (startWeekForPlan v1)
              (viewer_toasts v1 ++ [toast_unreadable])
  | Some blob =>
      if includes (fileType plan) "sheet" || includes (fileType plan) "excel" then
        match xlsxRows (blob_bytes blob) with
        | Some json => mkViewer (Some (planEntries plan json)) (viewingPlanTitle v1) 1 (viewer_toasts v1)
        | None => mkViewer (viewingPlanContent v1) "" (startWeekForPlan v1)
                    (viewer_toasts v1 ++ [toast_excel_error])
        end
      else mkViewer (viewingPlanContent v1) (viewingPlanTitle v1) (startWeekForPlan v1)
             (viewer_toasts v1 ++ [toast_no_viewer])
  end.

End viewing.

(** ** The data URIs [FileReader.readAsDataURL] writes *)

(** The base64 alphabet of RFC 4648. *)
Definition b64_char (v : N) : ascii :=
  ascii_of_N (if v <? 26 then 65 + v else if v <? 52 then v + 71
              else if v <? 62 then v - 4 else if v =? 62 then 43 else 47).

(** The six-bit values of the encoding: three bytes give four values, a
    final one or two bytes give two or three. *)
Fixpoint b64_sextets (bs : list N) : list N :=
  match bs with
  | b0 :: b1 :: b2 :: rest =>
      [b0 / 4; b0 mod 4 * 16 + b1 / 16; b1 mod 16 * 4 + b2 / 64; b2 mod 64] ++ b64_sextets rest
  | [b0; b1] => [b0 / 4; b0 mod 4 * 16 + b1 / 16; b1 mod 16 * 4]
  | [b0] => [b0 / 4; b0 mod 4 * 16]
  | [] => []
  end.

Definition b64_padding (bs : list N) : list ascii :=
  match Nat.modulo (length bs) 3 with 1%nat => ["="; "="] | 2%nat => ["="] | _ => [] end%char.

Definition b64_encode (bs : list N) : string :=
  String.string_of_list_ascii (map b64_char (b64_sextets bs) ++ b64_padding bs).

(** [data:<type>;base64,<data>] *)
Definition base64DataURI (type : string) (bs : list N) : string :=
  "data:" +:+ type +:+ ";base64," +:+ b64_encode bs.

(** [%XX] with upper-case hexadecimal digits, as [encodeURI] writes it. *)
Definition hex_digit (d : N) : ascii := ascii_of_N (if d <? 10 then 48 + d else 55 + d).

Definition pct (b : N) : string :=
  String "%" (String (hex_digit (b / 16)) (String (hex_digit (b mod 16)) EmptyString)).

(** The escaped UTF-8 of a code point of two UTF-8 bytes (U+0080-U+07FF). *)
Definition pct_utf8_2 (v : N) : string := pct (192 + v / 64) +:+ pct (128 + v mod 64).

(** A data URI without [;base64]: [data:<type>,<escaped text>]. *)
Definition textDataURI (type text : string) : string := "data:" +:+ type +:+ "," +:+ text.

#[export] Instance Decoded_eq_dec : EqDecision Decoded.
Proof. solve_decision. Defined.

(** ** Lemmas *)

Lemma N_divmod_small a q r : r < a -> (q * a + r) / a = q /\ (q * a + r) mod a = r.
Proof.
  intros Hr. split; symmetry; [apply (N.div_unique _ _ _ r)|apply (N.mod_unique _ _ q)]; lia.
Qed.

(** Four values of a group hold its three bytes, big-endian. *)
Lemma b64_group_buffer b0 b1 b2 :
  (((0 * 64 + b0 / 4) * 64 + (b0 mod 4 * 16 + b1 / 16)) * 64 + (b1 mod 16 * 4 + b2 / 64)) * 64
    + b2 mod 64 = (b0 * 256 + b1) * 256 + b2.
Proof.
  pose proof (N.div_mod b0 4 ltac:(lia)). pose proof (N.div_mod b1 16 ltac:(lia)).
  pose proof (N.div_mod b2 64 ltac:(lia)). lia.
Qed.

Lemma b64_bits_group b0 b1 b2 rest :
  b1 < 256 -> b2 < 256 ->
  b64_bits (b64_sextets (b0 :: b1 :: b2 :: rest)) 0 0 = b0 :: b1 :: b2 :: b64_bits (b64_sextets rest) 0 0.
Proof.
  intros H1 H2. cbn [b64_sextets app b64_bits Nat.eqb Nat.add]. rewrite b64_group_buffer.
  assert (((b0 * 256 + b1) * 256 + b2) / 65536 = b0) as ->
    by (symmetry; apply (N.div_unique _ _ _ (b1 * 256 + b2)); lia).
  destruct (N_divmod_small 256 (b0 * 256 + b1) b2 H2) as [-> ->].
  by rewrite (proj2 (N_divmod_small 256 b0 b1 H1)).
Qed.

(** Induction along the groups of three bytes of [b64_sextets]. *)
Lemma groups3_ind (P : list N -> Prop) :
  P [] -> (forall b0, P [b0]) -> (forall b0 b1, P [b0; b1]) ->
  (forall b0 b1 b2 rest, P rest -> P (b0 :: b1 :: b2 :: rest)) -> forall l, P l.
Proof.
  intros H0 H1 H2 H3 l. remember (length l) as n eqn:Hn. revert l Hn.
  induction n as [n IH] using lt_wf_ind. intros [|b0 [|b1 [|b2 rest]]] Hn; auto.
  apply H3, (IH (length rest)); [simpl in Hn; lia|done].
Qed.

(** The Euclidean facts of [b / d] and [b mod d], for [lia]. *)
Ltac divmod b d :=
  pose proof (N.div_mod b d ltac:(lia)); pose proof (N.mod_lt b d ltac:(lia));
  pose proof (N.le_0_l (b / d)); pose proof (N.le_0_l (b mod d)).

Lemma b64_bits_sextets bs : Forall (fun b => b < 256) bs -> b64_bits (b64_sextets bs) 0 0 = bs.
Proof.
  induction bs as [|b0|b0 b1|b0 b1 b2 rest IH] using groups3_ind; intros Hbs; [done|..].
  - cbn. f_equal. pose proof (N.div_mod b0 4 ltac:(lia)).
    match goal with |- ?x / 16 = _ => replace x with (b0 * 16 + 0) by lia end.
    apply (N_divmod_small 16 b0 0). lia.
  - apply Forall_cons in Hbs as [_ Hbs]. apply Forall_cons in Hbs as [H1 _]. cbn.
    pose proof (N.div_mod b0 4 ltac:(lia)). pose proof (N.div_mod b1 16 ltac:(lia)).
    match goal with |- [?x / 4 / 256; _] = _ => replace x with ((b0 * 256 + b1) * 4 + 0) by lia end.
    rewrite (proj1 (N_divmod_small 4 _ 0 ltac:(lia))).
    by destruct (N_divmod_small 256 b0 b1 H1) as [-> ->].
  - apply Forall_cons in Hbs as [_ Hbs]. apply Forall_cons in Hbs as [H1 Hbs].
    apply Forall_cons in Hbs as [H2 Hbs]. rewrite b64_bits_group by done. by rewrite IH.
Qed.

(** The alphabet, checked on its 64 values: each character decodes to its
    value, is not whitespace and is not the padding [=]. *)
Lemma b64_char_ok v :
  v < 64 -> b64_value (b64_char v) = Some v /\ ascii_ws (b64_char v) = false /\
    b64_char v <> "="%char /\ b64_char v <> ","%char.
Proof.
  intros Hv. rewrite <- (N2Nat.id v). assert (N.to_nat v < 64)%nat as Hn by lia. revert Hn.
  generalize (N.to_nat v). clear v Hv.
  apply (Forall_seq_check (fun n => b64_value (b64_char (N.of_nat n)) = Some (N.of_nat n) /\
                                    ascii_ws (b64_char (N.of_nat n)) = false /\
                                    b64_char (N.of_nat n) <> "="%char /\ b64_char (N.of_nat n) <> ","%char)).
  vm_compute. reflexivity.
Qed.

Lemma b64_sextets_lt bs : Forall (fun b => b < 256) bs -> Forall (fun v => v < 64) (b64_sextets bs).
Proof.
  induction bs as [|b0|b0 b1|b0 b1 b2 rest IH] using groups3_ind; intros Hbs; [done|..];
    rewrite ?Forall_cons in Hbs; destruct_and? Hbs; cbn [b64_sextets app]; rewrite ?Forall_app, ?Forall_cons;
    divmod b0 4; [|divmod b1 16|divmod b1 16; divmod b2 64]; split_and!;
    try apply Forall_nil; try lia.
  by apply IH.
Qed.

Lemma b64_padding_cons3 b0 b1 b2 rest : b64_padding (b0 :: b1 :: b2 :: rest) = b64_padding rest.
Proof.
  unfold b64_padding. cbn [length]. replace (S (S (S (length rest)))) with (length rest + 1 * 3)%nat by lia.
  by rewrite Nat.Div0.mod_add.
Qed.

(** The encoding is a whole number of four-character groups, and never one
    character beyond a group. *)
Lemma b64_encode_length bs :
  Nat.modulo (length (b64_sextets bs) + length (b64_padding bs)) 4 = 0%nat /\
  Nat.modulo (length (b64_sextets bs)) 4 <> 1%nat.
Proof.
  induction bs as [|b0|b0 b1|b0 b1 b2 rest IH] using groups3_ind; [done|done|done|].
  rewrite b64_padding_cons3. cbn [b64_sextets]. rewrite length_app. cbn [length].
  replace (4 + length (b64_sextets rest))%nat with (length (b64_sextets rest) + 1 * 4)%nat by lia.
  rewrite <- Nat.add_assoc, (Nat.add_comm (1 * 4)), Nat.add_assoc, !Nat.Div0.mod_add. done.
Qed.


Lemma strip_padding_app (l pad : list ascii) :
  Forall (fun c => c <> "="%char) l ->
  pad = [] \/ pad = ["="%char] \/ pad = ["="%char; "="%char] -> strip_padding (l ++ pad) = l.
Proof.
  intros Hl Hpad. unfold strip_padding. rewrite reverse_app.
  assert (Hr : Forall (fun c => c <> "="%char) (reverse l)) by (by rewrite reverse_Permutation).
  destruct Hpad as [-> | [-> | ->]];
    [change (reverse (@nil ascii)) with (@nil ascii)
    |change (reverse ["="%char]) with ["="%char]
    |change (reverse ["="%char; "="%char]) with ["="%char; "="%char]]; cbn [app];
    [| |by rewrite reverse_involutive];
    destruct (reverse l) as [|c l'] eqn:E; [by rewrite app_nil_r|..|by rewrite <- E, reverse_involutive|];
    apply Forall_cons in Hr as [Hc _];
    destruct c as [b0 b1 b2 b3 b4 b5 b6 b7]; destruct b0, b1, b2, b3, b4, b5, b6, b7;
    try (by rewrite app_nil_r); try done;
    by rewrite <- E, reverse_involutive.
Qed.

Lemma filter_all {A} (P : A -> Prop) `{!forall x, Decision (P x)} (l : list A) :
  Forall P l -> filter P l = l.
Proof.
  induction 1 as [|x l Hx Hl IH]; [done|]. by rewrite filter_cons, decide_True, IH.
Qed.

(** [atob] decodes what the encoder writes. *)
Lemma atob_b64_encode bs : Forall (fun b => b < 256) bs -> atob (b64_encode bs) = Some bs.
Proof.
  intros Hbs. pose proof (b64_sextets_lt bs Hbs) as Hss. destruct (b64_encode_length bs) as [Hl4 Hl1].
  assert (Hchars : Forall (fun c => ascii_ws c = false /\ c <> "="%char) (map b64_char (b64_sextets bs))).
  { apply Forall_fmap. eapply Forall_impl; [exact Hss|]. intros v Hv.
    destruct (b64_char_ok v Hv) as (_ & ? & ? & _). by split. }
  assert (Hpad : b64_padding bs = [] \/ b64_padding bs = ["="%char] \/ b64_padding bs = ["="%char; "="%char])
    by (unfold b64_padding; destruct (Nat.modulo _ 3) as [|[|[|]]]; auto).
  unfold atob, b64_encode. rewrite String.list_ascii_of_string_of_list_ascii. cbv zeta.
  rewrite filter_all.
  2:{ apply Forall_app. split; [eapply Forall_impl; [exact Hchars|]; naive_solver|].
      destruct Hpad as [-> | [-> | ->]]; repeat constructor. }
  rewrite length_app, length_map, Hl4. cbn [Nat.eqb].
  rewrite strip_padding_app by (done || (eapply Forall_impl; [exact Hchars|]; naive_solver)).
  rewrite length_map. destruct (Nat.eqb_spec (Nat.modulo (length (b64_sextets bs)) 4) 1); [done|].
  rewrite (mapM_Some_2 _ _ (b64_sextets bs)).
  - cbn [fmap option_fmap option_map]. by rewrite b64_bits_sextets.
  - apply Forall2_fmap_l, Forall_Forall2_diag. eapply Forall_impl; [exact Hss|].
    intros v Hv. by destruct (b64_char_ok v Hv).
Qed.


Lemma sep_free_list sep (l : list ascii) :
  Forall (fun c => c <> sep) l -> sep_free sep (String.string_of_list_ascii l) = true.
Proof.
  induction 1 as [|c l Hc Hl IH]; [done|]. cbn [String.string_of_list_ascii sep_free].
  rewrite IH. apply andb_true_intro. split; [|done]. apply negb_true_iff, Ascii.eqb_neq, Hc.
Qed.

Lemma b64_encode_comma_free bs : Forall (fun b => b < 256) bs -> sep_free "," (b64_encode bs) = true.
Proof.
  intros Hbs. apply sep_free_list, Forall_app. split.
  - apply Forall_fmap. eapply Forall_impl; [exact (b64_sextets_lt bs Hbs)|]. intros v Hv.
    by destruct (b64_char_ok v Hv) as (_ & _ & _ & ?).
  - unfold b64_padding. destruct (Nat.modulo _ 3) as [|[|[|]]]; repeat constructor; done.
Qed.

Lemma includes_base64 a : includes (a +:+ ";base64") "base64" = true.
Proof.
  unfold includes. induction a as [|c a IH]; [reflexivity|].
  change (String.index 0 "base64" (String c a +:+ ";base64")) with
    (if String.prefix "base64" (String c (a +:+ ";base64")) then Some 0%nat
     else match String.index 0 "base64" (a +:+ ";base64") with Some n => Some (S n) | None => None end).
  destruct (String.prefix _ _); [done|]. by destruct (String.index 0 "base64" (a +:+ ";base64")).
Qed.

Lemma bytes_mod256 (bs : list N) : Forall (fun b => b < 256) bs -> (fun u => u mod 256) <$> bs = bs.
Proof. induction 1 as [|b bs Hb _ IH]; [done|]. rewrite fmap_cons, IH, N.mod_small by done. done. Qed.


Lemma take_conts_length n s bs rest : take_conts n s = Some (bs, rest) -> (length rest <= length s)%nat.
Proof.
  revert s bs rest. induction n as [|n IH]; intros s bs rest H; cbn [take_conts] in H; [by simplify_eq|].
  destruct s as [|c [|h1 [|h2 s]]]; try done. destruct (Ascii.eqb c "%"); [|done].
  destruct (hex_byte h1 h2) as [b|]; [|done]. cbn [mbind option_bind] in H.
  destruct (_ && _); [|done]. destruct (take_conts n s) as [[bs' rest']|] eqn:E; [|done].
  cbn in H. simplify_eq. apply IH in E. simpl. lia.
Qed.

Lemma decoded_app_fuel pre r : r <> OutOfFuel -> decoded_app pre r <> OutOfFuel.
Proof. by destruct r. Qed.

(** Every two-byte escape decodes to its one code unit, and has no comma:
    checked on the 1920 code points by computation. *)
Lemma decodeURI_pct_utf8_2 v :
  128 <= v < 2048 -> decodeURI (pct_utf8_2 v) = DecodeOk [v] /\ sep_free "," (pct_utf8_2 v) = true.
Proof.
  intros Hv. rewrite <- (N2Nat.id v). assert (N.to_nat v < 2048)%nat as Hn by lia.
  assert (128 <= N.to_nat v)%nat as Hl by lia. revert Hn Hl. generalize (N.to_nat v). clear v Hv. intros n Hn.
  revert n Hn. apply (Forall_seq_check (fun n => 128 <= n ->
    decodeURI (pct_utf8_2 (N.of_nat n)) = DecodeOk [N.of_nat n] /\ sep_free "," (pct_utf8_2 (N.of_nat n)) = true)%nat).
  vm_compute. reflexivity.
Qed.

(** The header of a data URI: [splitDataURI[0].split(':')[1]] is what
    follows [data:] when that has no colon. *)
Lemma header_mime type :
  sep_free ":" type = true ->
  (h ← split_at ":" ("data:" +:+ type) !! 1%nat; head (split_at ";" h)) = head (split_at ";" type).
Proof.
  intros Hc. change ("data:" +:+ type) with ("data" +:+ String ":" EmptyString +:+ type).
  by rewrite (split_at_app ":" "data"), (split_at_free ":" type).
Qed.

(** The ids [`${plan.id}-${index}`] differ for different indices. *)
Lemma entry_id_inj p i j : p +:+ "-" +:+ nat_str i = p +:+ "-" +:+ nat_str j -> i = j.
Proof.
  intros H. apply string_app_inj_r, (string_app_inj_r "-") in H. by apply nat_str_inj.
Qed.

(** Where [findIndex] starts the entries. *)
Lemma planEntries_start plan json :
  exists start, planEntries plan json =
      imap (fun index (row : Row) => row ∪ {["id" := CStr (plan_id plan +:+ "-" +:+ nat_str index)]})
        (drop start json) /\
    Forall (fun r => isWeekRow r = false) (take start json) /\
    ((start = 0%nat /\ Forall (fun r => isWeekRow r = false) json) \/
     exists r, json !! start = Some r /\ isWeekRow r = true).
Proof.
  unfold planEntries. destruct (list_find _ json) as [[i r]|] eqn:E.
  - apply list_find_Some in E as (Hi & Hr & Hbefore). exists i. split_and!; [done| |by right; exists r].
    apply Forall_lookup_2. intros j y Hj. apply lookup_take_Some in Hj as [Hj Hlt].
    apply not_true_is_false. exact (Hbefore j y Hj Hlt).
  - apply list_find_None in E. exists 0%nat.
    assert (Hall : Forall (fun r => isWeekRow r = false) json)
      by (eapply Forall_impl; [exact E|]; intros r Hr; by apply not_true_is_false).
    split_and!; [done|by rewrite take_0|by left].
Qed.

(** ** Theorems *)

(** C9 *)
(** A plan file stored the way [FileReader.readAsDataURL] writes it,
    [data:<type>;base64,<data>], converts back to a blob of exactly the
    bytes that were read, with the type ASCII-lowercased (or empty when it
    has a character outside U+0020-U+007E), for every byte sequence and
    every type without a comma, colon or semicolon. *)
Theorem dataURIToBlob_base64 type bs :
  Forall (fun b => b < 256) bs ->
  sep_free "," type = true -> sep_free ":" type = true -> sep_free ";" type = true ->
  dataURIToBlob (base64DataURI type bs) = Some (mkBlob bs (blobType type)).
Proof.
  intros Hbs Hc Hcol Hsc. unfold dataURIToBlob, base64DataURI.
  replace ("data:" +:+ type +:+ ";base64," +:+ b64_encode bs)
    with (("data:" +:+ type +:+ ";base64") +:+ String "," EmptyString +:+ b64_encode bs)
    by (rewrite !string_app_assoc; reflexivity).
  rewrite split_at_app, (split_at_free _ (b64_encode bs))
    by (rewrite ?sep_free_app, ?Hc; auto using b64_encode_comma_free).
  rewrite <- (string_app_assoc "data:" type ";base64"), includes_base64, string_app_assoc.
  cbn [head default id]. rewrite atob_b64_encode by done. cbn [mbind option_bind].
  rewrite header_mime by (rewrite sep_free_app, Hcol; reflexivity).
  change (type +:+ ";base64") with (type +:+ String ";" EmptyString +:+ "base64").
  rewrite split_at_app by done. cbn. by rewrite bytes_mod256.
Qed.

(** C27 *)
(** A plan stored as a data URI without [;base64] is decoded with
    [decodeURI] and each code unit is then stored in the [Uint8Array]
    modulo 256, so a percent-encoded UTF-8 text is not kept: for every
    character of two UTF-8 bytes (U+0080-U+07FF) the blob holds one byte,
    the code point modulo 256, instead of the two bytes of the text. *)
Theorem dataURIToBlob_text_truncated type v :
  128 <= v < 2048 ->
  sep_free "," type = true -> sep_free ":" type = true -> sep_free ";" type = true ->
  includes ("data:" +:+ type) "base64" = false ->
  dataURIToBlob (textDataURI type (pct_utf8_2 v)) = Some (mkBlob [v mod 256] (blobType type)).
Proof.
  intros Hv Hc Hcol Hsc Hb. destruct (decodeURI_pct_utf8_2 v Hv) as [Hd Hfree].
  unfold dataURIToBlob, textDataURI.
  replace ("data:" +:+ type +:+ "," +:+ pct_utf8_2 v)
    with (("data:" +:+ type) +:+ String "," EmptyString +:+ pct_utf8_2 v)
    by (rewrite string_app_assoc; reflexivity).
  rewrite split_at_app, (split_at_free _ (pct_utf8_2 v)) by (rewrite ?sep_free_app, ?Hc; auto).
  rewrite Hb. cbn [head default id]. rewrite Hd. cbn [decoded_units mbind option_bind].
  by rewrite header_mime, (split_at_free _ type).
Qed.


(** The decode loop of [decodeURI] terminates: given more fuel than the
    input has characters it never runs out, since every round consumes at
    least one character; so [decodeURI] always returns its decoded string
    or its [URIError]. *)
Lemma decode_loop_total fuel s : (length s < fuel)%nat -> decode_loop fuel s <> OutOfFuel.
Proof.
  revert s. induction fuel as [|fuel IH]; intros s Hs; [lia|].
  destruct s as [|c rest]; cbn [decode_loop]; [done|]. cbn [length] in Hs.
  destruct (Ascii.eqb c "%"); [|apply decoded_app_fuel, IH; lia].
  destruct rest as [|h1 [|h2 rest']]; try done. destruct (hex_byte h1 h2) as [b|]; [|done].
  destruct (b <? 128); [apply decoded_app_fuel, IH; simpl in Hs; lia|].
  destruct (_ || _); [done|]. destruct (take_conts _ rest') as [[conts rest'']|] eqn:E; [|done].
  destruct (utf8_code_point b conts); [|done].
  apply decoded_app_fuel, IH. apply take_conts_length in E. simpl in Hs. lia.
Qed.


(** C31 *)
(** The plan viewer's entries are the spreadsheet's rows from the first one
    whose [week] cell is truthy and names a week ([Hafta]) or has a digit,
    or all rows when no row does; no row before it names a week; the entry
    at position [i] is that row with the id [`${plan.id}-${i}`], so the
    ids are distinct when the rows carry no [id] column of their own. *)
Theorem planEntries_spec plan json :
  exists start,
    Forall (fun r => isWeekRow r = false) (take start json) /\
    ((start = 0%nat /\ Forall (fun r => isWeekRow r = false) json) \/
     exists r, json !! start = Some r /\ isWeekRow r = true) /\
    length (planEntries plan json) = (length json - start)%nat /\
    (forall i, planEntries plan json !! i =
       (fun r : Row => r ∪ {["id" := CStr (plan_id plan +:+ "-" +:+ nat_str i)]}) <$> json !! (start + i)%nat) /\
    (Forall (fun r : Row => r !! "id" = None) json ->
     NoDup ((fun e : Entry => e !! "id") <$> planEntries plan json)).
Proof.
  destruct (planEntries_start plan json) as (start & Heq & Htake & Hfirst).
  assert (Hlook : forall i, planEntries plan json !! i =
    (fun r : Row => r ∪ {["id" := CStr (plan_id plan +:+ "-" +:+ nat_str i)]}) <$> json !! (start + i)%nat)
    by (intros i; by rewrite Heq, list_lookup_imap, lookup_drop).
  exists start. split_and!; [done|done|by rewrite Heq, length_imap, length_drop|done|].
  intros Hnoid. apply NoDup_alt. intros i j x. rewrite !list_lookup_fmap, !Hlook.
  destruct (json !! (start + i)%nat) as [ri|] eqn:Ei; [|done].
  destruct (json !! (start + j)%nat) as [rj|] eqn:Ej; [|done].
  rewrite <- !option_fmap_compose. unfold compose. rewrite !fmap_Some.
  intros (? & [= <-] & ->) (? & [= <-] & Hx).
  pose proof (Forall_lookup_1 _ _ _ _ Hnoid Ei). pose proof (Forall_lookup_1 _ _ _ _ Hnoid Ej).
  rewrite !lookup_union_r, !lookup_singleton_eq in Hx by done.
  injection Hx as Hij. by apply entry_id_inj in Hij.
Qed.


(** ** Witnesses *)

(** The first bytes of an [.xls] file, stored by [readAsDataURL]. *)
Lemma dataURIToBlob_base64_witness :
  base64DataURI "application/vnd.ms-excel" [208; 207; 17; 224] =
    "data:application/vnd.ms-excel;base64,0M8R4A==" /\
  dataURIToBlob (base64DataURI "application/vnd.ms-excel" [208; 207; 17; 224]) =
    Some (mkBlob [208; 207; 17; 224] (blobType "application/vnd.ms-excel")).
Proof.
  split; [reflexivity|]. apply dataURIToBlob_base64; [repeat constructor; lia|reflexivity..].
Defined.


(** ["ş"] (U+015F), escaped [%C5%9F], becomes the one byte [0x5F]. *)
Lemma dataURIToBlob_text_truncated_witness :
  textDataURI "text/plain" (pct_utf8_2 351) = "data:text/plain,%C5%9F" /\
  dataURIToBlob (textDataURI "text/plain" (pct_utf8_2 351)) = Some (mkBlob [351 mod 256] (blobType "text/plain")).
Proof.
  split; [reflexivity|]. apply dataURIToBlob_text_truncated; [lia|reflexivity..].
Defined.

End PlanViewer.
