(* ===== verification/SettingsPanel.v ===== *)
(** * SettingsPanel: the schedule settings card ([src/src/components/ders-programi.tsx])

    The card edits a local copy of the settings ([localSettings], lines
    56 and 65-67): the duration input and the time-slot inputs change only
    the local copy ([handleSettingsChange], [handleTimeSlotChange]); leaving
    an input ([handleSettingsBlur], modelled in [Schedule.v]) writes the
    field when it differs from the hook's settings; the hook's listener
    then reloads the settings and the effect copies them into the local
    state.  The panel is the pair of the local settings and the hook's
    state; its events are the inputs, the blurs and a snapshot delivered
    by the listener, each a computation of the [FS] monad on the schedule
    document. *)

From S2P Require Import Prelude Schedule ScheduleView.
Import Schedule ScheduleView.

Module SettingsPanel.

(** [parseInt(s)] on the values of a number input without a sign: the
    value of the leading decimal digits, [None] ([NaN]) when there is none.
    A negative entry, which [parseInt] keeps negative, gives a duration the
    [nat] minutes of [ScheduleSettings] cannot hold and is not modelled. *)
Fixpoint leadingDigits (s : string) (acc : option nat) : option nat :=
  match s with
  | EmptyString => acc
  | String c rest =>
      match digit_value c with
      | Some d => leadingDigits rest (Some (default 0 acc * 10 + d))
      | None => acc
      end
  end.

(** [parseInt(e.target.value) || 0] *)
Definition parseIntOr0 (s : string) : nat := default 0 (leadingDigits s None).

(** [value={localSettings.lessonDuration || 40}] *)
Definition durationShown (local : ScheduleSettings) : nat :=
  match lessonDuration local with 0 => 40 | n => n end.

Record Panel := mkPanel {
  panel_local : ScheduleSettings;
  panel_hook : HookView;
  panel_toasts : list Toast
}.

Inductive PanelEvent :=
  | DurationInput (value : string)
  | TimeSlotInput (index : nat) (value : string)
  | DurationBlur
  | TimeSlotsBlur
  | Snapshot.

(** [handleSettingsChange('lessonDuration', parseInt(...) || 0)] (lines
    160-174, its last branch). *)
Definition handleDurationChange (value : string) (local : ScheduleSettings) : ScheduleSettings :=
  mkSettings (timeSlots local) (parseIntOr0 value).

(** [handleTimeSlotChange(index, value)] (lines 176-180).  The inputs are
    rendered from [localSettings.timeSlots], so [index] is below its
    length, where an array assignment replaces the element. *)
Definition handleTimeSlotChange (index : nat) (value : string) (local : ScheduleSettings) : ScheduleSettings :=
  mkSettings (<[index := value]> (timeSlots local)) (lessonDuration local).

(** The snapshot the listener delivers: the current document, read
    without a request. *)
Definition listen : FS Store Store := fun fl s => (Ok s, fl, s).

Local Open Scope fs_scope.

(** One event of the card for the signed-in [userId]. *)
Definition panelStep (userId : option string) (p : Panel) (ev : PanelEvent) : FS Store Panel :=
  match ev with
  | DurationInput v =>
      fs_ret (mkPanel (handleDurationChange v (panel_local p)) (panel_hook p) (panel_toasts p))
  | TimeSlotInput i v =>
      fs_ret (mkPanel (handleTimeSlotChange i v (panel_local p)) (panel_hook p) (panel_toasts p))
  | DurationBlur =>
      let* ts := handleDurationBlur userId (view_settings (panel_hook p)) (panel_local p) in
      fs_ret (mkPanel (panel_local p) (panel_hook p) (panel_toasts p ++ ts))
  | TimeSlotsBlur =>
      let* ts := handleTimeSlotsBlur userId (view_settings (panel_hook p)) (panel_local p) None in
      fs_ret (mkPanel (panel_local p) (panel_hook p) (panel_toasts p ++ ts))
  | Snapshot =>
      let* snap := listen in
      let* v := onSnapshotNext snap (panel_hook p) in
      fs_ret (mkPanel (view_settings v) v (panel_toasts p))
  end.

Fixpoint panelRun (userId : option string) (p : Panel) (evs : list PanelEvent) : FS Store Panel :=
  match evs with
  | [] => fs_ret p
  | ev :: evs' => let* p' := panelStep userId p ev in panelRun userId p' evs'
  end.

(** ** Lemmas *)

Lemma loadSettings_duration_pos d : lessonDuration (loadSettings d) <> 0.
Proof. unfold loadSettings. simpl. by destruct (lessonDurationField d) as [[|n]|]. Qed.

(** The write of a duration, without a failure. *)
Lemma handleDurationBlur_run userId d local :
  no_user userId = false ->
  handleDurationBlur userId (loadSettings d) local [] (Some d) =
    if decide (lessonDuration local = lessonDuration (loadSettings d)) then (Ok [], [], Some d)
    else (Ok [toast_settings], [], Some (set_settings (mkPatch None (Some (lessonDuration local))) d)).
Proof. intros Hu. unfold handleDurationBlur, updateSettings. rewrite !Hu. case_decide; reflexivity. Qed.

(** What the listener then loads: the duration written, or 40 for 0. *)
Lemma loadSettings_set_duration d n :
  lessonDuration (loadSettings (set_settings (mkPatch None (Some n)) d)) = match n with 0 => 40 | _ => n end.
Proof. by destruct n. Qed.

Lemma panelRun_cons userId p ev evs fl s :
  panelRun userId p (ev :: evs) fl s =
    match panelStep userId p ev fl s with
    | (Ok p', fl', s') => panelRun userId p' evs fl' s'
    | (Err e, fl', s') => (Err e, fl', s')
    end.
Proof. reflexivity. Qed.

(** A snapshot of an existing document: the hook reloads it and the
    effect copies its settings into the local state. *)
Lemma panelStep_snapshot userId p fl d :
  panelStep userId p Snapshot fl (Some d) =
    (Ok (mkPanel (loadSettings d) (mkView (loadSchedule d) (loadSettings d) false (view_toasts (panel_hook p)))
           (panel_toasts p)), fl, Some d).
Proof. reflexivity. Qed.

Lemma panelStep_durationBlur userId local hook toasts d :
  no_user userId = false -> view_settings hook = loadSettings d ->
  panelStep userId (mkPanel local hook toasts) DurationBlur [] (Some d) =
    if decide (lessonDuration local = lessonDuration (loadSettings d))
    then (Ok (mkPanel local hook (toasts ++ [])), [], Some d)
    else (Ok (mkPanel local hook (toasts ++ [toast_settings])), [],
          Some (set_settings (mkPatch None (Some (lessonDuration local))) d)).
Proof.
  intros Hu Hh. unfold panelStep, fs_bind. cbn [panel_hook panel_local panel_toasts].
  rewrite Hh, handleDurationBlur_run by done. by case_decide.
Qed.

(** The duration field shows what the schedule uses: after typing [v] in
    the duration input and leaving it, with nothing failing, the listener's
    next snapshot gives the page, for its end times, and the field the
    duration the field displayed while it was being edited ([40] for an
    emptied field, whose [0] is written and read back as [40]). *)
Theorem duration_field_shown userId d local hook toasts v :
  no_user userId = false -> view_settings hook = loadSettings d ->
  exists p' s',
    panelRun userId (mkPanel local hook toasts) [DurationInput v; DurationBlur; Snapshot] [] (Some d) =
      (Ok p', [], Some s') /\
    lessonDuration (view_settings (panel_hook p')) = durationShown (handleDurationChange v local) /\
    panel_local p' = view_settings (panel_hook p').
Proof.
  intros Hu Hh. rewrite panelRun_cons.
  change (panelStep userId (mkPanel local hook toasts) (DurationInput v) [] (Some d))
    with (Ok (mkPanel (handleDurationChange v local) hook toasts), @nil bool, Some d).
  cbv iota beta. rewrite panelRun_cons, panelStep_durationBlur by done. unfold durationShown, handleDurationChange.
  cbn [lessonDuration]. case_decide as Heq; rewrite panelRun_cons, panelStep_snapshot;
    (eexists _, _; split; [reflexivity|]); cbn [panel_hook panel_local view_settings]; split; try done.
  rewrite Heq. destruct (lessonDuration (loadSettings d)) eqn:E; [|done].
  by apply loadSettings_duration_pos in E.
Qed.

Lemma filter_Forall_id {A} (P : A -> Prop) `{!forall x, Decision (P x)} (l : list A) :
  Forall P l -> filter P l = l.
Proof. induction 1 as [|x l Hx _ IH]; [done|]. rewrite filter_cons, decide_True by done. by rewrite IH. Qed.

(** Emptying the label of slot [i] makes [i] a removed index. *)
Lemma removedSlotsIndices_clear ts i t :
  ts !! i = Some t -> removedSlotsIndices ts (<[i:=""]> ts) <> [].
Proof.
  intros Hi Hnil. pose proof (lookup_lt_Some _ _ _ Hi) as Hlt.
  assert (i ∈ removedSlotsIndices ts (<[i:=""]> ts)) as Hin.
  { apply list_elem_of_filter. split.
    - unfold falsy_at. by rewrite list_lookup_insert_eq.
    - apply list_elem_of_In, in_seq. lia. }
  rewrite Hnil in Hin. set_solver.
Qed.

Lemma insert_empty_ne (ts : list string) (i : nat) t : ts !! i = Some t -> t <> "" -> <[i:=""]> ts <> ts.
Proof.
  intros Hi Ht E. pose proof (lookup_lt_Some _ _ _ Hi) as Hlt.
  apply Ht. rewrite <- E, list_lookup_insert_eq in Hi by done. congruence.
Qed.

(** Leaving the time-slot inputs when the local slots leave a former index
    without a label: the fault-free write runs the clean-up batch. *)
Lemma panelStep_timeSlotsBlur_cleanup userId local hook toasts d :
  no_user userId = false -> view_settings hook = loadSettings d ->
  timeSlots local <> timeSlots (loadSettings d) ->
  removedSlotsIndices (timeSlots (loadSettings d)) (timeSlots local) <> [] ->
  panelStep userId (mkPanel local hook toasts) TimeSlotsBlur [] (Some d) =
    (Ok (mkPanel local hook (toasts ++ [toast_settings])), [],
     Some (set_settings (mkPatch (Some (timeSlots local)) None)
             (set_days (cleanupUpdates (length (timeSlots local)) d) d))).
Proof.
  intros Hu Hh Hne Hr. unfold panelStep, handleTimeSlotsBlur, fs_bind.
  cbn [panel_hook panel_local panel_toasts]. rewrite Hh, Hu. cbn [default].
  rewrite decide_False by done. by rewrite (updateSettings_run_cleanup _ _ _ (timeSlots local)).
Qed.

(** ** Theorems *)

(** C35 *)
(** Emptying the label of a time slot moves lessons.  On any schedule
    document whose card shows its settings, emptying the non-empty label
    of slot [i] and leaving the input runs, with nothing failing, the
    clean-up batch of a removal although no slot is removed:
    [removedSlotsIndices] counts the empty label as removed.  The card
    then shows the same number of slots with slot [i] empty, and every day
    whose lessons had distinct slots below the slot count keeps all its
    lessons, in order, renumbered [0 .. k-1] by position: a lesson moves
    to a lower slot whenever a lower slot of its day was free. *)
Theorem clear_slot_label_moves_lessons userId d i t :
  no_user userId = false -> timeSlots (loadSettings d) !! i = Some t -> t <> "" ->
  let ts := timeSlots (loadSettings d) in
  exists p' d',
    panelRun userId (mkPanel (loadSettings d) (mkView (loadSchedule d) (loadSettings d) false []) [])
      [TimeSlotInput i ""; TimeSlotsBlur; Snapshot] [] (Some d) = (Ok p', [], Some d') /\
    panel_toasts p' = [toast_settings] /\
    timeSlots (panel_local p') = <[i:=""]> ts /\
    length (timeSlots (panel_local p')) = length ts /\
    forall day, slots_ok (length ts) (dayLessonsOf d day) ->
      lesson_id <$> dayLessonsOf d' day = lesson_id <$> dayLessonsOf d day /\
      lessonSlot <$> dayLessonsOf d' day = seq 0 (length (dayLessonsOf d day)).
Proof.
  intros Hu Hi Ht ts. rewrite panelRun_cons. cbn [panelStep]. unfold fs_ret. cbv iota beta.
  rewrite panelRun_cons, panelStep_timeSlotsBlur_cleanup; cbn [handleTimeSlotChange timeSlots];
    [|done|done|by apply (insert_empty_ne _ _ t)|by apply (removedSlotsIndices_clear _ _ t)].
  rewrite panelRun_cons, panelStep_snapshot. eexists _, _. split; [reflexivity|].
  cbn [panel_local panel_toasts]. rewrite timeSlots_set_settings. cbn [patch_timeSlots].
  split_and!; [done|done|apply length_insert|]. intros day [_ Hall].
  rewrite dayLessonsOf_set_settings, dayLessonsOf_cleanup, length_insert.
  split; [by rewrite cleanedLessons_ids, filter_Forall_id|].
  by rewrite cleanedLessons_slots, length_cleanedLessons, filter_Forall_id.
Qed.

(** ** Witnesses *)

(** The sample schedule: emptying the label of slot 0 moves Monday's
    lessons from slots 1 and 2 to slots 0 and 1. *)
Lemma clear_slot_label_moves_lessons_witness :
  exists p' d',
    panelRun (Some "t1") (mkPanel (loadSettings sample_doc)
        (mkView (loadSchedule sample_doc) (loadSettings sample_doc) false []) [])
      [TimeSlotInput 0 ""; TimeSlotsBlur; Snapshot] [] (Some sample_doc) = (Ok p', [], Some d') /\
    lessonSlot <$> dayLessonsOf sample_doc Pazartesi = [1; 2] /\
    lessonSlot <$> dayLessonsOf d' Pazartesi = [0; 1].
Proof.
  destruct (clear_slot_label_moves_lessons (Some "t1") sample_doc 0 "08:30")
    as (p' & d' & Hrun & _ & _ & _ & Hday); [reflexivity|reflexivity|discriminate|].
  exists p', d'. split_and!; [exact Hrun|reflexivity|].
  destruct (Hday Pazartesi) as [_ ->]; [|reflexivity].
  split; vm_compute; repeat constructor; set_solver.
Defined.

End SettingsPanel.
