(* ===== verification/ScheduleRender.v ===== *)
(** * ScheduleRender: what the schedule page draws ([src/src/components/ders-programi.tsx])

    The JSX of [DersProgrami] (lines 248-430) as a function from the
    page's state to a view: the loading card, the weekday tabs, one button
    per time slot of the selected day with its end time and lesson, the
    settings card, the props of [AddLessonForm] and of [PlanViewer].  The
    colours come from the [string-to-color] package, a section variable.
    The theorems connect the view to the handlers of [ScheduleView.v]: the
    button of a slot carries the slot's lesson, and a double click on it
    opens the editor on that lesson with the slot's time range. *)

From S2P Require Import Prelude Schedule ScheduleView PlanViewer SettingsPanel.
Import Schedule ScheduleView PlanViewer SettingsPanel.

Module ScheduleRender.

Section render.
(** [stringToColor] of the [string-to-color] package. *)
Variable stringToColor : string -> string.

(** ** The weekday tabs (lines 268-286) *)

Record DayTab := mkDayTab {
  tab_day : Day;
  tab_active : bool;
  tab_background : option string;
  tab_label : string;
  tab_short : string
}.

(** [dayOrder.map(day => <button ...>)]: the tab of the selected day is
    filled with the day's colour, the others have no inline colour. *)
Definition dayTab (selectedDay day : Day) : DayTab :=
  let color := stringToColor (day_name day) in
  let active := bool_decide (selectedDay = day) in
  mkDayTab day active (if active then Some color else None) (day_name day) (dayShort day).

Definition dayTabs (selectedDay : Day) : list DayTab := dayTab selectedDay <$> dayOrder.

(** ** The slot buttons of the selected day (lines 296-335) *)

Record SlotButton := mkSlotButton {
  slot_time : string;
  slot_endTime : string;
  slot_lesson : option Lesson;
  slot_background : option string;
  slot_border : option string;
  slot_lines : list string;
  slot_onClick : EditTarget
}.

Definition msg_add_lesson : string := "Ders eklemek için tıklayın...".

(** One button of [localSettings.timeSlots.map((time, slotIndex) => ...)]:
    the end time is computed from the saved [settings.lessonDuration],
    the lesson is read from the hook's [schedule]. *)
Definition slotButton (schedule : list (Day * list Lesson)) (settings : ScheduleSettings)
    (selectedDay : Day) (slotIndex : nat) (time : string) : SlotButton :=
  let lesson := getLessonForSlot schedule selectedDay slotIndex in
  let lessonColor := (fun l => stringToColor (subject l)) <$> lesson in
  mkSlotButton time (calculateEndTime time (lessonDuration settings)) lesson
    ((fun c => c +:+ "20") <$> lessonColor) ((fun c => c +:+ "40") <$> lessonColor)
    (match lesson with
     | Some l => [subject l; grade l +:+ " - " +:+ class l]
     | None => [msg_add_lesson]
     end)
    (selectedDay, slotIndex, lesson).

Definition slotButtons (schedule : list (Day * list Lesson)) (settings local : ScheduleSettings)
    (selectedDay : Day) : list SlotButton :=
  imap (slotButton schedule settings selectedDay) (timeSlots local).

(** ** The settings card (lines 338-398) *)

(** The confirmation of [handleRemoveTimeSlot(index)] for the slot [time]. *)
Definition removeSlotDescription (time : string) : string :=
  "Bu işlem geri alınamaz. " +:+ quote +:+ time +:+ quote +:+
  " ders saatini ve bu saate ait tüm haftalık dersleri kalıcı olarak silecektir. Emin misiniz?".

Record SlotInput := mkSlotInput {
  input_index : nat;
  input_value : string;
  input_removeText : string
}.

Definition slotInputs (local : ScheduleSettings) : list SlotInput :=
  imap (fun index time => mkSlotInput index time (removeSlotDescription time)) (timeSlots local).

(** ** The editor and the viewer (lines 400-422) *)

(** [`${settings.timeSlots[slot]}`]: an index out of range is [undefined]. *)
Definition slotStart (settings : ScheduleSettings) (slot : nat) : string :=
  default "undefined" (timeSlots settings !! slot).

(** [calculateEndTime(settings.timeSlots[slot], ...)]: [!startTime] holds
    for [undefined], which gives [''] like the empty string. *)
Definition slotEnd (settings : ScheduleSettings) (slot : nat) : string :=
  match timeSlots settings !! slot with
  | Some t => calculateEndTime t (lessonDuration settings)
  | None => ""
  end.

Record EditorProps := mkEditorProps {
  editor_day : Day;
  editor_slot : nat;
  editor_lesson : option Lesson;
  editor_timeSlot : string;
  editor_relatedPlan : option Plan;
  editor_availablePlans : list Plan
}.

(** [<AddLessonForm ...>] when [editingLesson] is set; the [|| ''] of the
    [timeSlot] prop never applies, the template is never empty. *)
Definition editorProps (settings : ScheduleSettings) (plans : list Plan) (t : EditTarget)
    : EditorProps :=
  let '(day, slot, lesson) := t in
  let timeSlot := slotStart settings slot +:+ " - " +:+ slotEnd settings slot in
  mkEditorProps day slot lesson (if String.eqb timeSlot "" then "" else timeSlot)
    (findRelatedPlan plans lesson) (filter (fun p => plan_type p = "annual") plans).

Record ViewerProps := mkViewerProps {
  viewer_isOpen : bool;
  viewer_title : string;
  viewer_entries : list Entry;
  viewer_startWeek : nat
}.

(** [<PlanViewer isOpen={!!viewingPlanContent} ... entries={viewingPlanContent || []} />] *)
Definition viewerProps (v : Viewer) : ViewerProps :=
  mkViewerProps (viewerOpen v) (viewingPlanTitle v) (default [] (viewingPlanContent v))
    (startWeekForPlan v).

(** ** The page *)

Inductive PageView :=
  | PageLoading
  | PageLoaded (tabs : list DayTab) (dayHeader : string) (slots : list SlotButton)
      (durationValue : nat) (inputs : list SlotInput) (editor : option EditorProps)
      (viewer : ViewerProps).

(** The component's return value: the loading card while the schedule
    or the plans load, the page otherwise. *)
Definition renderSchedulePage (isLoading isLoadingPlans : bool) (hook : HookView)
    (plans : list Plan) (local : ScheduleSettings) (selectedDay : Day) (clicks : ClickState)
    (v : Viewer) : PageView :=
  if isLoading || isLoadingPlans then PageLoading else
  PageLoaded (dayTabs selectedDay) (day_name selectedDay)
    (slotButtons (view_schedule hook) (view_settings hook) local selectedDay)
    (durationShown local)
    (slotInputs local)
    (editorProps (view_settings hook) plans <$> editingLesson clicks)
    (viewerProps v).

(** ** Lemmas *)

Lemma slotButtons_lookup sch settings local day i :
  slotButtons sch settings local day !! i = slotButton sch settings day i <$> timeSlots local !! i.
Proof. apply list_lookup_imap. Qed.

Lemma eqb_app_sep_nonempty a sep b : sep <> "" -> String.eqb (a +:+ sep +:+ b) "" = false.
Proof. intros Hs. destruct a, sep; done. Qed.

Lemma editorProps_in_range settings plans day i lesson t :
  timeSlots settings !! i = Some t ->
  editorProps settings plans (day, i, lesson) =
    mkEditorProps day i lesson (t +:+ " - " +:+ calculateEndTime t (lessonDuration settings))
      (findRelatedPlan plans lesson) (filter (fun p => plan_type p = "annual") plans).
Proof.
  intros Ht. unfold editorProps, slotStart, slotEnd. rewrite Ht. cbn [default].
  by rewrite eqb_app_sep_nonempty.
Qed.

(** Two clicks on the same target, with no timer expiry between them,
    open the editor on it and leave nothing pending. *)
Lemma double_click_idle plans target :
  clickStep (clickStep idleClicks (LessonClick plans target)) (LessonClick plans target) =
    mkClickState None (Some target) None.
Proof. done. Qed.

Lemma dayTabs_active selectedDay :
  filter (fun tab => tab_active tab = true) (dayTabs selectedDay) = [dayTab selectedDay selectedDay].
Proof. destruct selectedDay; vm_compute; reflexivity. Qed.

(** C37 *)
(** The rendered schedule page and the click protocol together: once
    loaded, the page shows the seven weekday tabs with only the selected
    day active, and one button per local time slot, whose button [i]
    shows the slot's time, the end time from the saved duration and the
    lesson stored at ([selectedDay], [i]) (its subject and grade - class,
    or the invitation to add one).  Double-clicking that button opens the
    [AddLessonForm] on exactly that day, slot and lesson, with the time
    range ["start - end"] of the saved slot; nothing else on the page
    changes. *)
Theorem schedule_page_double_click hook plans local day v i t :
  timeSlots local !! i = Some t ->
  exists tabs slots inputs b,
    renderSchedulePage false false hook plans local day idleClicks v =
      PageLoaded tabs (day_name day) slots (durationShown local) inputs None (viewerProps v) /\
    filter (fun tab => tab_active tab = true) tabs = [dayTab day day] /\ length tabs = 7 /\
    length slots = length (timeSlots local) /\
    slots !! i = Some b /\
    slot_time b = t /\
    slot_endTime b = calculateEndTime t (lessonDuration (view_settings hook)) /\
    slot_lesson b = getLessonForSlot (view_schedule hook) day i /\
    slot_lines b = match getLessonForSlot (view_schedule hook) day i with
                   | Some l => [subject l; grade l +:+ " - " +:+ class l]
                   | None => [msg_add_lesson]
                   end /\
    (forall ts, timeSlots (view_settings hook) !! i = Some ts ->
     renderSchedulePage false false hook plans local day
       (clickStep (clickStep idleClicks (LessonClick plans (slot_onClick b)))
          (LessonClick plans (slot_onClick b))) v =
     PageLoaded tabs (day_name day) slots (durationShown local) inputs
       (Some (mkEditorProps day i (getLessonForSlot (view_schedule hook) day i)
                (ts +:+ " - " +:+ calculateEndTime ts (lessonDuration (view_settings hook)))
                (findRelatedPlan plans (getLessonForSlot (view_schedule hook) day i))
                (filter (fun p => plan_type p = "annual") plans)))
       (viewerProps v)).
Proof.
  intros Ht.
  eexists _, _, _, (slotButton (view_schedule hook) (view_settings hook) day i t).
  split_and!; [reflexivity|apply dayTabs_active|by destruct day| | |done..| ].
  - apply length_imap.
  - by rewrite slotButtons_lookup, Ht.
  - intros ts Hts. rewrite double_click_idle. unfold renderSchedulePage. cbn [orb editingLesson fmap option_fmap option_map].
    cbn [slot_onClick slotButton]. by rewrite (editorProps_in_range _ _ _ _ _ ts).
Qed.

End render.

(** The sample Monday of [Schedule.sample_doc], double-clicked on slot 1. *)
Definition sample_hook : HookView :=
  mkView (loadSchedule sample_doc) (loadSettings sample_doc) false [].

Lemma schedule_page_double_click_witness :
  timeSlots (loadSettings sample_doc) !! 1 = Some "09:20" /\
  exists tabs slots inputs b,
    renderSchedulePage id false false sample_hook [] (loadSettings sample_doc) Pazartesi idleClicks
      closedViewer =
      PageLoaded tabs "Pazartesi" slots 40 inputs None (viewerProps closedViewer) /\
    slots !! 1 = Some b /\ slot_endTime b = "10:00" /\
    slot_lesson b = Some (sample_lesson 1 "09:20").
Proof.
  split; [reflexivity|].
  destruct (schedule_page_double_click id sample_hook [] (loadSettings sample_doc) Pazartesi
              closedViewer 1 "09:20" eq_refl)
    as (tabs & slots & inputs & b & Hr & _ & _ & _ & Hb & _ & He & Hl & _).
  exists tabs, slots, inputs, b. split_and!; [exact Hr|exact Hb|rewrite He; vm_compute; reflexivity|].
  rewrite Hl. vm_compute. reflexivity.
Defined.

End ScheduleRender.
