(* ===== verification/SurveyView.v ===== *)
(** * SurveyView: what the survey pages draw ([src/src/app/anket/*/page.tsx])

    The JSX of the three survey pages as functions of their state: the
    back link, the progress header, one card per question with its radio
    group, the submit button, and the result screens (the ranked cards of
    the Holland and multiple-intelligence pages, the dominant style of the
    learning-style page), with [PageWrapper]'s choice of [AuthGuard].  The
    question screen is generic over the [SurveyBank] of [Survey.v]; the
    radio group's [onValueChange] goes through [parseInt] of the value the
    item prints, which the theorems show to be the value itself. *)

From Stdlib Require Import QArith.
Local Close Scope Q_scope.
From S2P Require Import Prelude Schedule ScheduleView SettingsPanel Survey SurveyStore SurveyPages.
Import ScheduleView SettingsPanel Survey SurveyStore SurveyPages.

Module SurveyView.

(** [parseInt(value)]: the leading decimal digits; [None] is [NaN]. *)
Definition parseInt (s : string) : option nat := leadingDigits s None.

(** [isStudentSession ? `/ogrenci/${studentId}` : '/anket']: a missing
    [studentId] search parameter is [null] in the template. *)
Definition backHref (isStudentSession : bool) (studentId : option string) : string :=
  if isStudentSession then "/ogrenci/" +:+ default "null" studentId else "/anket".

Definition backLabel (isStudentSession : bool) : string :=
  if isStudentSession then "Öğrenci Paneline Geri Dön" else "Öğrenci Seçimine Geri Dön".

(** ** The question screen *)

Record OptionView := mkOptionView {
  opt_value : string;
  opt_id : string;
  opt_lines : list string
}.

Record QuestionCard := mkQuestionCard {
  card_id : string;
  card_number : string;
  card_text : string;
  card_answered : bool;
  card_value : option string;
  card_options : list OptionView
}.

Record SubmitButton := mkSubmitButton {
  submit_disabled : bool;
  submit_label : string
}.

Record QuestionsView := mkQuestionsView {
  qv_backHref : string;
  qv_backLabel : string;
  qv_progressLabel : string;
  qv_progress : Q;
  qv_cards : list QuestionCard;
  qv_submit : SubmitButton
}.

Section questions.
Context {C : Type} `{!EqDecision C} `{!SurveyBank C}.
(** What the label of an answer option shows: the label (learning styles,
    Holland) or the value above the label (multiple intelligences). *)
Variable optionLines : string * nat -> list string.

(** [<RadioGroupItem value={opt.value.toString()} id={`q${index}-opt${opt.value}`} />] *)
Definition optionView (index : nat) (opt : string * nat) : OptionView :=
  mkOptionView (nat_str opt.2) ("q" +:+ nat_str index +:+ "-opt" +:+ nat_str opt.2) (optionLines opt).

(** The card of [questions.map((q, index) => ...)]: marked, with a check
    icon, when [answers[index] !== undefined]; the radio group's value is
    [answers[index]?.toString()]. *)
Definition questionCard (answers : Answers) (index : nat) (q : string * C) : QuestionCard :=
  mkQuestionCard ("q-" +:+ nat_str index) (nat_str (S index) +:+ ".") q.1
    (bool_decide (is_Some (answers !! index))) (nat_str <$> answers !! index)
    (optionView index <$> answerOptions).

Definition questionCards (answers : Answers) : list QuestionCard :=
  imap (questionCard answers) questions.

(** [onValueChange={(value) => handleAnswerChange(index, value)}]: the
    answer stored is [parseInt(value)]; [None] marks a value [parseInt]
    reads as [NaN], which an [Answers] of numbers cannot hold. *)
Definition onValueChange (index : nat) (value : string) (answers : Answers) : option Answers :=
  (fun v => handleAnswerChange index v answers) <$> parseInt value.

(** [{answeredCount} / {questions.length}] *)
Definition progressLabel (answers : Answers) : string :=
  nat_str (answeredCount answers) +:+ " / " +:+ nat_str (length questions).

Definition submitButton (answers : Answers) (isSaving : bool) : SubmitButton :=
  mkSubmitButton (negb (canSubmit answers isSaving))
    (if isSaving then "Kaydediliyor..." else "Anketi Tamamla ve Kaydet").

Definition questionsView (isStudentSession : bool) (studentId : option string)
    (answers : Answers) (isSaving : bool) : QuestionsView :=
  mkQuestionsView (backHref isStudentSession studentId) (backLabel isStudentSession)
    (progressLabel answers) (progress answers) (questionCards answers)
    (submitButton answers isSaving).

End questions.

(** ** The result screens *)

Record ResultCard := mkResultCard {
  rc_key : string;
  rc_title : string;
  rc_score : string;
  rc_border : string
}.

(** [index === 0 && "border-primary bg-primary/5"], ... *)
Definition rankBorder (index : nat) : string :=
  match index with
  | 0 => "border-primary bg-primary/5"
  | 1 => "border-primary/30"
  | 2 => "border-primary/20"
  | _ => ""
  end.

(** A card of [topThree.map((result, index) => ...)]: the rank, a title,
    and [{result.score} Puan]. *)
Definition resultCard (title : RankedEntry -> string) (index : nat) (r : RankedEntry) : ResultCard :=
  mkResultCard (entry_id r) (nat_str (S index) +:+ ". " +:+ title r)
    (nat_str (entry_score r) +:+ " Puan") (rankBorder index).

(** [results.slice(0, 3)] *)
Definition topThreeCards (title : RankedEntry -> string) (results : list RankedEntry) : list ResultCard :=
  imap (resultCard title) (take 3 results).

(** [personalityTypes[type].name], the Holland entry's [fullName]. *)
Definition holland_fullName (r : RankedEntry) : string :=
  default "" (personality_name <$> head (filter (fun c => personality_key c = entry_id r)
                                              (categories (C := Personality)))).

Definition learningStyle_name (c : LearningStyle) : string :=
  match c with
  | visual => "Görsel Öğrenme"
  | auditory => "İşitsel Öğrenme"
  | kinesthetic => "Dokunsal/Kinestetik Öğrenme"
  end.

Inductive SurveyScreen :=
  | RankedScreen (heading : string) (chart : list RankedEntry) (cards : list ResultCard)
      (finishHref : string)
  | DominantScreen (name : string) (finishHref : string)
  | QuestionsScreen (v : QuestionsView).

(** The render of the Holland page (lines 237-418). *)
Definition hollandScreen (isStudentSession : bool) (studentId : option string)
    (answers : Answers) (isSaving isSurveyComplete : bool) (results : list RankedEntry)
    : SurveyScreen :=
  if isSurveyComplete then
    RankedScreen ("Holland Kodunuz: " +:+ hollandCode results) results
      (topThreeCards holland_fullName results) (backHref isStudentSession studentId)
  else QuestionsScreen (questionsView (C := Personality) (fun opt => [opt.1])
                          isStudentSession studentId answers isSaving).

(** The render of the multiple-intelligence page (lines 265-417). *)
Definition cokluScreen (isStudentSession : bool) (studentId : option string)
    (answers : Answers) (isSaving isSurveyComplete : bool) (results : list RankedEntry)
    : SurveyScreen :=
  if isSurveyComplete then
    RankedScreen "Anket Sonuçları" results (topThreeCards entry_name results)
      (backHref isStudentSession studentId)
  else QuestionsScreen (questionsView (C := Intelligence) (fun opt => [nat_str opt.2; opt.1])
                          isStudentSession studentId answers isSaving).

(** The render of the learning-style page (lines 129-248): the result
    screen needs both [isSurveyComplete] and a dominant style. *)
Definition ogrenmeScreen (isStudentSession : bool) (studentId : option string)
    (answers : Answers) (isSaving isSurveyComplete : bool) (dominant : option LearningStyle)
    : SurveyScreen :=
  match isSurveyComplete, dominant with
  | true, Some d => DominantScreen (learningStyle_name d) (backHref isStudentSession studentId)
  | _, _ => QuestionsScreen (questionsView (C := LearningStyle) (fun opt => [opt.1])
                               isStudentSession studentId answers isSaving)
  end.

(** [PageWrapper]: the content directly for a signed-in teacher or a
    student session, inside [AuthGuard] otherwise. *)
Inductive Wrapped := Direct | InAuthGuard.

Definition pageWrapper (user : option string) (isStudent : bool) : Wrapped :=
  match user with Some _ => Direct | None => if isStudent then Direct else InAuthGuard end.

(** ** Lemmas *)

(** [pretty_N_char] prints the digit [digit_value] reads. *)
Lemma digit_value_pretty d : (d < 10)%N -> digit_value (pretty_N_char d) = Some (N.to_nat d).
Proof.
  intros Hd. assert (d = 0 \/ d = 1 \/ d = 2 \/ d = 3 \/ d = 4 \/ d = 5 \/ d = 6 \/ d = 7 \/ d = 8 \/ d = 9)%N
    as Hc by lia.
  repeat destruct Hc as [->|Hc]; [reflexivity..|subst; reflexivity].
Qed.

(** Reading the digits [pretty] prints in front of [s] accumulates the
    printed number. *)
Lemma leadingDigits_pretty_go x s :
  leadingDigits (pretty_N_go x s) None =
    leadingDigits s (if decide (x = 0)%N then None else Some (N.to_nat x)).
Proof.
  revert s. induction (N.lt_wf_0 x) as [x _ IH]; intros s.
  destruct (decide (x = 0)%N) as [->|Hx]; [by rewrite pretty_N_go_0|].
  rewrite pretty_N_go_step by lia. rewrite IH by (apply N.div_lt; lia).
  pose proof (N.mod_lt x 10 ltac:(lia)) as Hm. pose proof (N.div_mod x 10 ltac:(lia)) as Hdm.
  cbn [leadingDigits]. rewrite digit_value_pretty by done.
  destruct (decide (x `div` 10 = 0)%N) as [Hq|Hq]; cbn [default]; do 2 f_equal.
  all: unfold id; lia.
Qed.

(** The print/parse round trip of a number: [parseInt(String(n)) = n]. *)
Lemma parseInt_nat_str n : parseInt (nat_str n) = Some n.
Proof.
  unfold parseInt, nat_str, pretty, pretty_N. case_decide as H.
  - vm_compute. f_equal. lia.
  - rewrite leadingDigits_pretty_go. case_decide; [done|]. cbn. by rewrite Nat2N.id.
Qed.

(** The string is made of decimal digits only. *)
Fixpoint all_digits (s : string) : bool :=
  match s with
  | EmptyString => true
  | String c rest => bool_decide (is_Some (digit_value c)) && all_digits rest
  end.

(** The string does not start with a decimal digit. *)
Definition starts_nondigit (s : string) : Prop :=
  match s with EmptyString => True | String c _ => digit_value c = None end.

Lemma all_digits_pretty_go x s : all_digits (pretty_N_go x s) = all_digits s.
Proof.
  revert s. induction (N.lt_wf_0 x) as [x _ IH]; intros s.
  destruct (decide (x = 0)%N) as [->|Hx]; [by rewrite pretty_N_go_0|].
  rewrite pretty_N_go_step by lia. rewrite IH by (apply N.div_lt; lia). cbn [all_digits].
  rewrite digit_value_pretty by (apply N.mod_lt; lia). done.
Qed.

Lemma all_digits_nat_str n : all_digits (nat_str n) = true.
Proof.
  unfold nat_str, pretty, pretty_N. case_decide; [done|]. by rewrite all_digits_pretty_go.
Qed.

(** A run of digits followed by a non-digit splits one way only. *)
Lemma app_digits_inj a a' b b' :
  all_digits a = true -> all_digits a' = true -> starts_nondigit b -> starts_nondigit b' ->
  a +:+ b = a' +:+ b' -> a = a' /\ b = b'.
Proof.
  revert a'. induction a as [|c a IH]; intros [|c' a'] Ha Ha' Hb Hb' Heq;
    [change ("" +:+ b = "" +:+ b') with (b = b') in Heq
    |change ("" +:+ b = String c' a' +:+ b') with (b = String c' (a' +:+ b')) in Heq
    |change (String c a +:+ b = "" +:+ b') with (String c (a +:+ b) = b') in Heq
    |change (String c a +:+ b = String c' a' +:+ b') with (String c (a +:+ b) = String c' (a' +:+ b')) in Heq];
    cbn [all_digits] in *.
  - done.
  - rewrite Heq in Hb. apply andb_prop in Ha' as [Hc _]. apply bool_decide_eq_true in Hc.
    cbn in Hb. rewrite Hb in Hc. by destruct Hc.
  - rewrite <- Heq in Hb'. apply andb_prop in Ha as [Hc _]. apply bool_decide_eq_true in Hc.
    cbn in Hb'. rewrite Hb' in Hc. by destruct Hc.
  - apply andb_prop in Ha as [_ Ha]. apply andb_prop in Ha' as [_ Ha'].
    injection Heq as <- Heq. destruct (IH a' Ha Ha' Hb Hb' Heq) as [-> ->]. done.
Qed.

(** The ids [`q${index}-opt${opt.value}`] of two radio items differ
    unless both the question and the value do not. *)
Lemma optionId_inj i j v w :
  "q" +:+ nat_str i +:+ "-opt" +:+ nat_str v = "q" +:+ nat_str j +:+ "-opt" +:+ nat_str w ->
  i = j /\ v = w.
Proof.
  intros H. apply (string_app_inj_r "q") in H.
  apply app_digits_inj in H as [Hi Hv]; [|apply all_digits_nat_str..|done|done].
  apply string_app_inj_r in Hv. split; by apply nat_str_inj.
Qed.

Section question_facts.
Context {C : Type} `{!EqDecision C} `{!SurveyBank C}.
Variable optionLines : string * nat -> list string.

Lemma questionCards_lookup answers i :
  questionCards optionLines answers !! i = questionCard optionLines answers i <$> questions !! i.
Proof. apply list_lookup_imap. Qed.

(** Answering a question adds one to the count exactly when it had no
    answer. *)
Lemma answeredCount_insert answers i v :
  answeredCount (<[i := v]> answers) =
    answeredCount answers + (if bool_decide (is_Some (answers !! i)) then 0 else 1).
Proof.
  unfold answeredCount. case_bool_decide as H.
  - destruct H as [x Hx]. rewrite map_size_insert_Some by eauto. lia.
  - rewrite map_size_insert_None by (by apply eq_None_not_Some). lia.
Qed.

(** C18 *)
(** The question cards and their radio groups: choosing the option [opt]
    of question [i] sends the value the item prints, [parseInt] reads back
    exactly [opt.value], and the result is a step of the page's state
    machine; afterwards card [i] is marked answered and its radio group
    shows that option checked, the progress count grows by one exactly
    when [i] had no answer, and no two radio items of the page share an
    id, so every label points to its own item. *)
Theorem answer_option_roundtrip st i q opt :
  questions !! i = Some q -> opt ∈ answerOptions ->
  exists answers',
    onValueChange i (opt_value (optionView optionLines i opt)) (page_answers st) = Some answers' /\
    page_step st (mkPage answers' (page_isSurveyComplete st) (page_results st)) /\
    questionCards optionLines answers' !! i = Some (questionCard optionLines answers' i q) /\
    card_answered (questionCard optionLines answers' i q) = true /\
    card_value (questionCard optionLines answers' i q) = Some (opt_value (optionView optionLines i opt)) /\
    answeredCount answers' = answeredCount (page_answers st) +
      (if bool_decide (is_Some (page_answers st !! i)) then 0 else 1) /\
    (forall j o, opt_id (optionView optionLines i opt) = opt_id (optionView optionLines j o) ->
       i = j /\ opt.2 = o.2).
Proof.
  intros Hq Hopt. exists (<[i := opt.2]> (page_answers st)).
  assert (Hi : i < length questions) by (apply lookup_lt_is_Some; eauto).
  split_and!.
  - unfold onValueChange. cbn [opt_value optionView]. by rewrite parseInt_nat_str.
  - apply (step_answer st i opt.2); [done|]. by apply list_elem_of_fmap_2.
  - by rewrite questionCards_lookup, Hq.
  - cbn. rewrite lookup_insert_eq. done.
  - cbn. rewrite lookup_insert_eq. done.
  - apply answeredCount_insert.
  - intros j o. apply optionId_inj.
Qed.

End question_facts.

Lemma topThreeCards_lookup title results k :
  topThreeCards title results !! k = resultCard title k <$> take 3 results !! k.
Proof. apply list_lookup_imap. Qed.

Lemma holland_fullName_key e c : entry_id e = personality_key c -> holland_fullName e = personality_name c.
Proof. unfold holland_fullName. intros ->. by destruct c. Qed.

(** C22 *)
(** The Holland result screen: the results list each of the six
    categories once, and the three cards under the Holland code are the
    first three results in rank order, card [k] titled ["k+1. "] and the
    full name of its category, showing its score, which is at least the
    score of every category left out of the code. *)
Theorem holland_result_screen answers :
  Permutation (entry_id <$> holland_results answers) (personality_key <$> categories) /\
  length (topThreeCards holland_fullName (holland_results answers)) = 3 /\
  forall k card, topThreeCards holland_fullName (holland_results answers) !! k = Some card ->
    exists e c, holland_results answers !! k = Some e /\ entry_id e = personality_key c /\
      rc_title card = nat_str (S k) +:+ ". " +:+ personality_name c /\
      rc_score card = nat_str (entry_score e) +:+ " Puan" /\
      rc_border card = rankBorder k /\
      (forall e', e' ∈ drop 3 (holland_results answers) -> entry_score e' <= entry_score e).
Proof.
  destruct (holland_results_ranked answers) as [Hperm Hrank].
  split_and!; [done| |].
  - unfold topThreeCards. rewrite length_imap, length_take.
    apply Permutation_length in Hperm. rewrite length_fmap in Hperm. cbn in Hperm. lia.
  - intros k card Hk. rewrite topThreeCards_lookup in Hk.
    apply fmap_Some in Hk as (e & He & ->). apply lookup_take_Some in He as [He Hk3].
    assert (Hin : entry_id e ∈ personality_key <$> categories (C := Personality)).
    { rewrite <- Hperm. apply list_elem_of_fmap_2. by eapply list_elem_of_lookup_2. }
    apply list_elem_of_fmap in Hin as (c & Hc & _).
    exists e, c.
    split_and!; [done|done| |done|done|].
    + cbn [rc_title resultCard]. by rewrite (holland_fullName_key e c).
    + intros e' He'. apply Hrank; [|done]. apply list_elem_of_lookup_2 with k. by rewrite lookup_take_Some.
Qed.

(** The first learning-style question answered "Bana Uygun" (2) on a
    fresh page: the radio item [q0-opt2] stores 2 and the count is 1/5. *)
Lemma answer_option_roundtrip_witness :
  exists answers',
    onValueChange 0 "2" ∅ = Some answers' /\
    progressLabel (C := LearningStyle) answers' = "1 / 5" /\
    opt_id (optionView (fun opt => [opt.1]) 0 ("Bana Uygun", 2)) = "q0-opt2".
Proof.
  destruct (@answer_option_roundtrip LearningStyle _ ogrenme_bank (fun opt => [opt.1]) initialPage 0
              (default ("", visual) (head ogrenme_questions)) ("Bana Uygun", 2) ltac:(vm_compute; reflexivity) ltac:(cbn; set_solver))
    as (a & Ha & _ & _ & _ & _ & Hc & _).
  exists a. split_and!; [exact Ha| |reflexivity].
  unfold progressLabel. rewrite Hc. reflexivity.
Defined.

End SurveyView.
