(* ===== verification/StudentPortal.v ===== *)
(** * StudentPortal: the student's path from the login page to a survey
      ([src/src/app/ogrenci-giris/page.tsx], [src/src/app/ogrenci/[studentId]/page.tsx])

    The student side of the app has no account of the authentication
    provider.  The login page signs out any teacher signed in on the
    browser, runs [onSubmit] ([StudentLogin.v]) and, on success, stores the
    session in [sessionStorage] under ['studentAuth'] and navigates to the
    student's dashboard.  The dashboard's effect accepts the stored session
    only for the student of its route, and its cards link to the three
    survey pages with the [studentId] and [classId] search parameters,
    whose [calculateResults] ([SurveyPages.v]) save through
    [saveSurveyResult] with [auth.currentUser] ([SurveyStore.v]).

    The browser is the record [Browser]: the stored session, the location,
    the signed-in user of the authentication provider and the toasts shown.
    A link is its target page and its query as a list of name/value pairs;
    the encoding of the query into the URL and its parsing by the router
    are the browser's and are not modelled. *)

From S2P Require Import Prelude StudentLogin Survey SurveyStore SurveyPages.
Import StudentLogin Survey SurveyStore SurveyPages.

Module StudentPortal.

(** ** The browser *)

(** The value under ['studentAuth']: the JSON text [onSubmit] stored, or
    text that [JSON.parse] or the read of [studentData.id] rejects. *)
Inductive StoredAuth :=
  | AuthJson (a : StudentSession)
  | AuthMalformed.

Record Browser := mkBrowser {
  studentAuth : option StoredAuth;
  location : string;
  authUser : option string;
  shownToasts : list Toast
}.

Definition set_studentAuth (v : option StoredAuth) (b : Browser) : Browser :=
  mkBrowser v (location b) (authUser b) (shownToasts b).
Definition set_location (l : string) (b : Browser) : Browser :=
  mkBrowser (studentAuth b) l (authUser b) (shownToasts b).
Definition set_authUser (u : option string) (b : Browser) : Browser :=
  mkBrowser (studentAuth b) (location b) u (shownToasts b).
Definition push_toast (t : Toast) (b : Browser) : Browser :=
  mkBrowser (studentAuth b) (location b) (authUser b) (shownToasts b ++ [t]).

Definition route_login : string := "/ogrenci-giris".
Definition route_dashboard (studentId : string) : string := "/ogrenci/" +:+ studentId.

(** [logOut()] of the authentication hook (outside [src/]): the provider
    forgets the signed-in user. *)
Definition logOut (b : Browser) : Browser := set_authUser None b.

(** ** The login page *)

(** The effect of the login page (lines 57-61): a signed-in teacher is
    signed out. *)
Definition loginPageEffect (b : Browser) : Browser :=
  match authUser b with
  | Some _ => logOut b
  | None => b
  end.

Definition toast_login_ok : Toast := mkToast "Giriş Başarılı!" false.

(** The browser effects of [onSubmit] (lines 74-80) for its outcome: the
    session is stored, the router goes to the dashboard, the toast is shown;
    a failure only sets the page's [error]. *)
Definition applyLogin (r : option StudentSession * option string) (b : Browser) : Browser :=
  match r.1 with
  | Some a => push_toast toast_login_ok
                (set_location (route_dashboard (session_studentId a))
                   (set_studentAuth (Some (AuthJson a)) b))
  | None => b
  end.

(** ** The dashboard *)

(** [student], [classId] and [isLoading] after the effect. *)
Record DashState := mkDash {
  dash_student : option StudentDoc;
  dash_classId : option string;
  dash_loading : bool
}.

Definition toast_session_error : Toast := mkToast "Oturum Hatası" true.

(** The effect of the dashboard for the route's [studentId] (lines 26-52).
    Without a session it redirects and returns before the [try], so
    [isLoading] stays [true]; every other path passes the [finally]. *)
Definition dashboardEffect (studentId : string) (b : Browser) : Browser * DashState :=
  match studentAuth b with
  | None => (set_location route_login b, mkDash None None true)
  | Some AuthMalformed =>
      (set_location route_login (set_studentAuth None (push_toast toast_session_error b)),
       mkDash None None false)
  | Some (AuthJson a) =>
      if String.eqb (student_id (session_student a)) studentId
      then (b, mkDash (Some (session_student a)) (Some (session_classId a)) false)
      else (set_location route_login (set_studentAuth None b), mkDash None None false)
  end.

Definition toast_logged_out : Toast := mkToast "Çıkış Yapıldı" false.

(** [handleLogout] (lines 54-58). *)
Definition handleLogout (b : Browser) : Browser :=
  set_location route_login (push_toast toast_logged_out (set_studentAuth None b)).

(** The three survey pages the cards link to. *)
Inductive SurveyKind := CokluZeka | HollandMeslek | OgrenmeStilleri.

Record SurveyLink := mkLink {
  link_survey : SurveyKind;
  link_query : list (string * string)
}.

(** The cards' [href]s (lines 106, 123, 140). *)
Definition surveyLinks (s : StudentDoc) (classId : string) : list SurveyLink :=
  (fun k => mkLink k [("studentId", student_id s); ("classId", classId)]) <$>
    [CokluZeka; HollandMeslek; OgrenmeStilleri].

Inductive DashView :=
  | DashSpinner
  | DashPanel (s : StudentDoc) (links : list SurveyLink).

(** The render (lines 60-66 and the cards): the spinner while loading or
    without a student or a truthy [classId]. *)
Definition dashboardView (d : DashState) : DashView :=
  if dash_loading d then DashSpinner else
  match dash_student d, dash_classId d with
  | Some s, Some cid => if String.eqb cid "" then DashSpinner else DashPanel s (surveyLinks s cid)
  | _, _ => DashSpinner
  end.

(** ** The survey pages reached from a card *)

(** [searchParams.get(name)]: the first value of the name. *)
Definition searchParams_get (name : string) (q : list (string * string)) : option string :=
  snd <$> head (filter (fun kv : string * string => kv.1 = name) q).

Local Open Scope fs_scope.

(** Submitting the survey of a link: the toasts and [isSurveyComplete]. *)
Definition submitSurvey (l : SurveyLink) (currentUser : option string) (newId now : string)
    (answers : Answers) : FS SurveyDb (list Toast * bool) :=
  let sid := searchParams_get "studentId" (link_query l) in
  let cid := searchParams_get "classId" (link_query l) in
  match link_survey l with
  | CokluZeka =>
      let* o := calculateResults_coklu sid cid currentUser newId now answers in
      fs_ret (out_toasts o, out_complete o)
  | HollandMeslek =>
      let* o := calculateResults_holland sid cid currentUser newId now answers in
      fs_ret (out_toasts o, out_complete o)
  | OgrenmeStilleri =>
      let* o := calculateResults_ogrenme sid cid currentUser newId now answers in
      fs_ret (out_toasts o, out_complete o)
  end.

(** ** Lemmas *)

(** A session that [onSubmit] returns names its own student, and comes
    without an error. *)
Lemma onSubmit_session cc sc fl db a e :
  fs_out (onSubmit cc sc fl db) = Ok (Some a, e) ->
  session_studentId a = student_id (session_student a) /\ e = None.
Proof.
  unfold onSubmit, fs_bind, fs_out.
  destruct (studentLoginAction _ _ fl db) as [[[r|err] fl'] db']; simpl; [|discriminate].
  destruct r as [[] [st|] [cid|] err]; simpl; intros; simplify_eq; auto.
Qed.

Lemma loginPageEffect_signed_out b : authUser (loginPageEffect b) = None.
Proof. unfold loginPageEffect. destruct (authUser b) eqn:H; [reflexivity|exact H]. Qed.

(** The dashboard of the student of the stored session shows it and keeps
    the browser as it is. *)
Lemma dashboardEffect_own a b :
  studentAuth b = Some (AuthJson a) ->
  dashboardEffect (student_id (session_student a)) b =
    (b, mkDash (Some (session_student a)) (Some (session_classId a)) false).
Proof. intros H. unfold dashboardEffect. rewrite H, String.eqb_refl. done. Qed.

Lemma surveyLinks_params s cid l :
  l ∈ surveyLinks s cid ->
  searchParams_get "studentId" (link_query l) = Some (student_id s) /\
  searchParams_get "classId" (link_query l) = Some cid.
Proof. unfold surveyLinks. intros (k & -> & _)%list_elem_of_fmap. done. Qed.

(** Without a signed-in user a survey page saves nothing: it reports the
    missing parameters or the missing session, and the survey is not
    complete. *)
Lemma submitSurvey_no_user l newId now answers fl db :
  submitSurvey l None newId now answers fl db =
    (Ok (if param_missing (searchParams_get "studentId" (link_query l)) ||
            param_missing (searchParams_get "classId" (link_query l))
         then [toast_missing_params] else [toast_no_session; toast_save_failed], false), fl, db).
Proof.
  unfold submitSurvey.
  generalize (searchParams_get "studentId" (link_query l)) (searchParams_get "classId" (link_query l)).
  intros [sid|] [cid|]; destruct (link_survey l); simpl; rewrite ?orb_true_r;
    repeat case_match; reflexivity.
Qed.

(** With a signed-in user, a link with non-empty ids and no failure, the
    survey page stores one document for the link's student and class and
    completes. *)
Lemma submitSurvey_signed_in l uid newId now answers db sid cid :
  searchParams_get "studentId" (link_query l) = Some sid ->
  searchParams_get "classId" (link_query l) = Some cid ->
  String.eqb sid "" = false -> String.eqb cid "" = false ->
  exists data, submitSurvey l (Some uid) newId now answers [] db =
      (Ok ([toast_survey_saved], true), [], <[(uid, newId) := mkSurveyDoc data uid]> db) /\
    sd_studentId data = sid /\ sd_classId data = cid.
Proof.
  intros Hs Hc Hs0 Hc0. unfold submitSurvey. rewrite Hs, Hc.
  destruct (link_survey l); simpl; rewrite Hs0, Hc0; simpl; (eexists; split; [reflexivity|done]).
Qed.

(** ** Theorems *)

(** C40 *)
(** A student who logs in with the codes reaches the dashboard of their own
    record, with the three survey cards carrying their student id and
    class id; but a survey submitted from there is never saved, under any
    answers and any fault schedule: the login page has signed out the
    teacher, the student has no account of the authentication provider, and
    [saveSurveyResult] needs [auth.currentUser].  The page shows the
    missing-session toasts and the survey stays incomplete. *)
Theorem student_survey_never_saved cc sc fl db a e b :
  fs_out (onSubmit cc sc fl db) = Ok (Some a, e) ->
  let b2 := applyLogin (Some a, e) (loginPageEffect b) in
  let sid := student_id (session_student a) in
  let cid := session_classId a in
  location b2 = route_dashboard sid /\
  dashboardEffect sid b2 = (b2, mkDash (Some (session_student a)) (Some cid) false) /\
  (cid <> "" -> dashboardView (mkDash (Some (session_student a)) (Some cid) false) =
                 DashPanel (session_student a) (surveyLinks (session_student a) cid)) /\
  forall l, l ∈ surveyLinks (session_student a) cid ->
  forall newId now answers fl' sdb,
    submitSurvey l (authUser b2) newId now answers fl' sdb =
      (Ok (if String.eqb sid "" || String.eqb cid "" then [toast_missing_params]
           else [toast_no_session; toast_save_failed], false), fl', sdb).
Proof.
  intros [Hid ->]%onSubmit_session. simpl. split_and!.
  - by rewrite Hid.
  - by apply dashboardEffect_own.
  - intros Hc. unfold dashboardView. simpl. by destruct (String.eqb_spec (session_classId a) "").
  - intros l Hl newId now answers fl' sdb. pose proof (loginPageEffect_signed_out b) as Hu.
    unfold applyLogin. simpl. rewrite Hu, submitSurvey_no_user.
    apply surveyLinks_params in Hl as [-> ->]. done.
Qed.

(** ** Witnesses *)

Definition sample_student : StudentDoc := mkStudent "st1" "123" "Ali".
Definition sample_admin_db : AdminDb := [mkUser "t1" "teacher" [mkClass "c2" "5A" [sample_student]]].
Definition sample_session : StudentSession := mkSession "st1" sample_student "c2".
Definition sample_browser : Browser := mkBrowser None route_login (Some "teacher-uid") [].

Lemma student_survey_never_saved_witness :
  submitSurvey (mkLink OgrenmeStilleri [("studentId", "st1"); ("classId", "c2")])
    (authUser (applyLogin (Some sample_session, None) (loginPageEffect sample_browser)))
    "s1" "2026-11-09" ∅ [] ∅ = (Ok ([toast_no_session; toast_save_failed], false), [], ∅).
Proof.
  destruct (student_survey_never_saved "5a" "123" [] sample_admin_db sample_session None sample_browser)
    as (_ & _ & _ & H); [vm_compute; reflexivity|].
  apply H. do 2 apply list_elem_of_further. apply list_elem_of_here.
Defined.

End StudentPortal.
