(* ===== verification/LoginPage.v ===== *)
(** * LoginPage: the student login page as a state machine
      ([src/src/app/ogrenci-giris/page.tsx])

    The page holds the form's values, the field messages of the zod
    schema, the [error] of the last attempt and the [loading] flag.  A
    submission is two events, as the browser sees it: the submit itself
    ([form.handleSubmit(onSubmit)] up to the [await]), which validates and,
    when the values pass, sets [loading] and sends the request, and the
    response, after which [onSubmit] stores the session or the error and
    clears [loading].  Between them the student can type; the request
    carries the values of the submit.  The submit button is [disabled]
    while loading, and the HTML form does not submit implicitly (Enter)
    when its default button is disabled, so a submit while loading does
    nothing.  After the first submission the form re-validates the field
    that changes ([reValidateMode: 'onChange'], the default). *)

From S2P Require Import Prelude StudentLogin Survey SurveyStore SurveyPages StudentPortal.
Import StudentLogin StudentPortal.

Module LoginPage.

Record LoginPage := mkLoginPage {
  lp_form : LoginForm;
  lp_submitted : bool;
  lp_fieldErrors : list (string * string);
  lp_error : option string;
  lp_loading : bool;
  lp_pending : option LoginForm
}.

(** The page as it mounts: empty codes, no message, not loading. *)
Definition loginPage_init : LoginPage := mkLoginPage loginForm_init false [] None false None.

Inductive LoginEvent :=
  | LInput (ev : FormInput)
  | LSubmit
  | LResponse.

(** The name of the field an input changes. *)
Definition inputField (ev : FormInput) : string :=
  match ev with ClassCodeInput _ => "classCode" | StudentCodeInput _ => "studentCode" end.

(** Typing in a field: after a submission its message is recomputed. *)
Definition pageInput (p : LoginPage) (ev : FormInput) : LoginPage :=
  let f := formInput (lp_form p) ev in
  let n := inputField ev in
  mkLoginPage f (lp_submitted p)
    (if lp_submitted p
     then filter (fun e => e.1 <> n) (lp_fieldErrors p) ++ filter (fun e => e.1 = n) (validate f)
     else lp_fieldErrors p)
    (lp_error p) (lp_loading p) (lp_pending p).

(** The submit (lines 64-72 up to the request): ignored while loading;
    otherwise the schema's messages, or [setLoading(true)],
    [setError(null)] and the request with the values. *)
Definition pageSubmit (p : LoginPage) : LoginPage :=
  if lp_loading p then p else
  match validate (lp_form p) with
  | [] => mkLoginPage (lp_form p) true [] None true (Some (lp_form p))
  | errs => mkLoginPage (lp_form p) true errs (lp_error p) false None
  end.

Local Open Scope fs_scope.

(** The response (lines 72-91): [onSubmit]'s outcome for the values sent,
    the session and navigation on success ([applyLogin]), the [error]
    otherwise, and [setLoading(false)] in the [finally]. *)
Definition pageResponse (p : LoginPage) (b : Browser) : FS AdminDb (LoginPage * Browser) :=
  match lp_pending p with
  | None => fs_ret (p, b)
  | Some f =>
      let* r := onSubmit (form_classCode f) (form_studentCode f) in
      fs_ret (mkLoginPage (lp_form p) (lp_submitted p) (lp_fieldErrors p) r.2 false None,
              applyLogin r b)
  end.

Definition loginStep (st : LoginPage * Browser) (ev : LoginEvent) : FS AdminDb (LoginPage * Browser) :=
  match ev with
  | LInput i => fs_ret (pageInput st.1 i, st.2)
  | LSubmit => fs_ret (pageSubmit st.1, st.2)
  | LResponse => pageResponse st.1 st.2
  end.

Fixpoint loginRun (st : LoginPage * Browser) (evs : list LoginEvent) : FS AdminDb (LoginPage * Browser) :=
  match evs with
  | [] => fs_ret st
  | ev :: evs' => let* st' := loginStep st ev in loginRun st' evs'
  end.

(** ** What the page shows (lines 95-176) *)

Record LoginView := mkLoginView {
  lv_alert : option string;
  lv_classCodeMessage : option string;
  lv_studentCodeMessage : option string;
  lv_buttonDisabled : bool;
  lv_buttonLabel : option string
}.

(** [<FormMessage />] of a field: its schema message. *)
Definition fieldMessage (name : string) (errs : list (string * string)) : option string :=
  snd <$> head (filter (fun e => e.1 = name) errs).

(** [{error && <Alert>...}]: an empty message is not shown; the button is
    [disabled={loading}] and shows the spinner instead of ['Giriş Yap']. *)
Definition loginView (p : LoginPage) : LoginView :=
  mkLoginView (lp_error p ≫= fun e => if String.eqb e "" then None else Some e)
    (fieldMessage "classCode" (lp_fieldErrors p)) (fieldMessage "studentCode" (lp_fieldErrors p))
    (lp_loading p) (if lp_loading p then None else Some "Giriş Yap").

(** ** Invariants *)

(** The page's own invariant: [loading] is set exactly while a request is
    pending, and the values typed and sent are upper-case; a request is
    only sent with values that pass the schema. *)
Definition page_ok (p : LoginPage) : Prop :=
  lp_loading p = bool_decide (is_Some (lp_pending p)) /\ form_upper (lp_form p) /\
  (forall f, lp_pending p = Some f -> validate f = [] /\ form_upper f).

(** A session the login opened: one of a teacher's students, whose stored
    codes are non-empty and upper-case. *)
Definition session_ok (db : AdminDb) (a : StudentSession) : Prop :=
  exists u c, u ∈ db /\ role u = "teacher" /\ c ∈ user_classes u /\ class_id c = session_classId a /\
    session_student a ∈ class_students c /\
    classCode c <> "" /\ toUpperCase (classCode c) = classCode c /\
    studentCode (session_student a) <> "" /\
    toUpperCase (studentCode (session_student a)) = studentCode (session_student a).

(** The browser's stored session is the one it had, or one the login
    opened. *)
Definition browser_ok (db : AdminDb) (b0 b : Browser) : Prop :=
  studentAuth b = studentAuth b0 \/ exists a, studentAuth b = Some (AuthJson a) /\ session_ok db a.

(** ** Lemmas *)

(** [onSubmit] never rejects and never writes, under any fault schedule. *)
Lemma onSubmit_total cc sc fl db : exists r fl', onSubmit cc sc fl db = (Ok r, fl', db).
Proof.
  set (cc' := toUpperCase cc). set (sc' := toUpperCase sc).
  destruct (studentLogin_faults cc' sc' fl db) as [Hst Hout].
  destruct (studentLogin_correct db cc' sc') as (r0 & Hrun & _).
  assert (Hr0 : fs_out (studentLoginAction cc' sc' [] db) = Ok r0).
  { unfold fs_run in Hrun. unfold fs_out. by destruct (studentLoginAction _ _ [] db) as [[o ?] ?]; simplify_eq. }
  unfold onSubmit, fs_bind. fold cc' sc'. unfold fs_out, fs_state in *.
  destruct (studentLoginAction cc' sc' fl db) as [[o fl1] db1]; cbn in *. subst db1.
  destruct Hout as [Ho | Ho]; [rewrite Hr0 in Ho|]; subst o; cbn;
    repeat case_match; eexists _, _; reflexivity.
Qed.

Lemma pageInput_ok p ev : page_ok p -> page_ok (pageInput p ev).
Proof.
  intros (Hl & [Uc Us] & Hp). split_and!; [exact Hl| |exact Hp].
  destruct ev; split; cbn; rewrite ?toUpperCase_idem; done.
Qed.

Lemma pageSubmit_ok p : page_ok p -> page_ok (pageSubmit p).
Proof.
  intros Hok. unfold pageSubmit. destruct (lp_loading p) eqn:El; [exact Hok|].
  destruct Hok as (Hl & Hu & Hp).
  destruct (validate (lp_form p)) eqn:Hv; (split_and!; [done|done|]); cbn; [|by intros f ?].
  by intros f [= <-].
Qed.

(** A response: the page drops the request and shows [onSubmit]'s error;
    the browser gets the session [onSubmit] opened, a good one. *)
Lemma pageResponse_ok p b0 b fl db :
  page_ok p -> browser_ok db b0 b ->
  exists p' b' fl', pageResponse p b fl db = (Ok (p', b'), fl', db) /\ page_ok p' /\ browser_ok db b0 b'.
Proof.
  intros (Hl & Hu & Hp) Hb. unfold pageResponse. destruct (lp_pending p) as [f|] eqn:Ef.
  - destruct (Hp f eq_refl) as [Hv Huf].
    destruct (onSubmit_total (form_classCode f) (form_studentCode f) fl db) as (r & fl' & Hr).
    unfold fs_bind. rewrite Hr. cbn. eexists _, _, _. split; [reflexivity|]. split; [done|].
    unfold applyLogin. destruct r as [[a|] e]; cbn; [|done]. right. exists a. split; [done|].
    apply (onSubmit_codes_uppercase f fl db a e Hv Huf). unfold fs_out. by rewrite Hr.
  - eexists _, _, _. split; [reflexivity|]. split; [|done]. unfold page_ok. rewrite Ef.
    split_and!; [exact Hl|exact Hu|by intros ? ?].
Qed.

Lemma loginStep_ok st ev fl db b0 :
  page_ok st.1 -> browser_ok db b0 st.2 ->
  exists st' fl', loginStep st ev fl db = (Ok st', fl', db) /\ page_ok st'.1 /\ browser_ok db b0 st'.2.
Proof.
  destruct st as [p b]. intros Hp Hb. destruct ev as [i| |]; cbn.
  - eexists _, _. split; [reflexivity|]. split; [by apply pageInput_ok|done].
  - eexists _, _. split; [reflexivity|]. split; [by apply pageSubmit_ok|done].
  - destruct (pageResponse_ok p b0 b fl db Hp Hb) as (p' & b' & fl' & -> & ? & ?). by eexists _, _.
Qed.

Lemma loginRun_ok evs st fl db b0 :
  page_ok st.1 -> browser_ok db b0 st.2 ->
  exists st' fl', loginRun st evs fl db = (Ok st', fl', db) /\ page_ok st'.1 /\ browser_ok db b0 st'.2.
Proof.
  revert st fl. induction evs as [|ev evs IH]; intros st fl Hp Hb; [by eexists _, _|].
  destruct (loginStep_ok st ev fl db b0 Hp Hb) as (st1 & fl1 & E & Hp1 & Hb1).
  cbn [loginRun]. unfold fs_bind. rewrite E. apply IH; done.
Qed.

Lemma loginPage_init_ok : page_ok loginPage_init.
Proof. split_and!; done. Qed.

(** [onSubmit]'s outcome: a session without an error, or no session and
    a non-empty message. *)
Lemma onSubmit_result cc sc fl db r fl' db' :
  onSubmit cc sc fl db = (Ok r, fl', db') ->
  (is_Some r.1 /\ r.2 = None) \/ (r.1 = None /\ exists m, r.2 = Some m /\ m <> "").
Proof.
  unfold onSubmit, fs_bind. destruct (studentLoginAction _ _ fl db) as [[[x|e] fl1] db1]; cbn; [|done].
  destruct (login_success x), (login_student x), (login_classId x); cbn; intros [= <- _ _];
    first [left; by split | right; split; [done|eexists; split; [done|by apply str_or_nonempty]]].
Qed.

(** A submit with an empty class code shows the field's message and sends
    nothing. *)
Lemma pageSubmit_empty_class p :
  lp_loading p = false -> form_classCode (lp_form p) = "" ->
  lv_classCodeMessage (loginView (pageSubmit p)) = Some msg_classCode_empty /\
  lp_pending (pageSubmit p) = None.
Proof.
  intros Hl Hc. unfold pageSubmit. rewrite Hl. unfold validate. rewrite Hc. cbn.
  by destruct (String.eqb (form_studentCode (lp_form p)) "").
Qed.

(** ** Theorems *)

(** C7 *)
(** The login page's submission protocol, whatever the student types,
    submits and receives, in any order and under any fault schedule: the
    page never fails and never writes; the button is disabled exactly
    while a request is pending, and a submit then sends nothing and
    changes nothing; a submit with an empty class code shows its message
    and sends nothing; a pending request carries codes that pass the
    schema, and its response clears the spinner, stores what [onSubmit]
    returns, and shows the alert exactly when no session was opened. *)
Theorem login_page_protocol evs fl db b :
  exists p b' fl', loginRun (loginPage_init, b) evs fl db = (Ok (p, b'), fl', db) /\
    lv_buttonDisabled (loginView p) = bool_decide (is_Some (lp_pending p)) /\
    (is_Some (lp_pending p) -> forall fl2, loginStep (p, b') LSubmit fl2 db = (Ok (p, b'), fl2, db)) /\
    (lp_pending p = None -> form_classCode (lp_form p) = "" ->
       lv_classCodeMessage (loginView (pageSubmit p)) = Some msg_classCode_empty /\
       lp_pending (pageSubmit p) = None) /\
    (forall f, lp_pending p = Some f -> validate f = [] /\
       forall fl2, exists r fl3 p',
         onSubmit (form_classCode f) (form_studentCode f) fl2 db = (Ok r, fl3, db) /\
         loginStep (p, b') LResponse fl2 db = (Ok (p', applyLogin r b'), fl3, db) /\
         lv_buttonDisabled (loginView p') = false /\
         (lv_alert (loginView p') = None <-> is_Some r.1)).
Proof.
  destruct (loginRun_ok evs (loginPage_init, b) fl db b loginPage_init_ok (or_introl eq_refl))
    as ([p b'] & fl' & Hrun & (Hl & Hu & Hp) & _). cbn [fst] in Hl, Hu, Hp.
  exists p, b', fl'. split_and!; [done|done| | |].
  - intros Hs fl2. cbn. unfold pageSubmit. rewrite Hl, bool_decide_eq_true_2 by done. done.
  - intros Hn Hc. apply pageSubmit_empty_class; [|done]. rewrite Hl, Hn. done.
  - intros f Hf. split; [apply (Hp f Hf)|]. intros fl2.
    destruct (onSubmit_total (form_classCode f) (form_studentCode f) fl2 db) as (r & fl3 & Hr).
    eexists r, fl3, _. split; [done|]. cbn [loginStep fst snd]. unfold pageResponse. rewrite Hf.
    unfold fs_bind. rewrite Hr. split; [reflexivity|]. split; [done|].
    cbn [loginView lv_alert lp_error mbind option_bind].
    destruct (onSubmit_result _ _ _ _ _ _ _ Hr) as [[Hs ->] | [-> (m & -> & Hm)]]; [done|].
    cbn. destruct (String.eqb_spec m ""); [done|]. split; [done|]. by intros [? ?].
Qed.

(** C34 *)
(** The codes the page sends have the type its schema and inputs give
    them (non-empty, [min(1)], and upper-case, each input upper-casing
    what is typed), so whatever the student types, submits and receives,
    under any fault schedule, every session the page stores in the
    browser is one of a teacher's students whose stored class and student
    codes are non-empty and upper-case: a code stored with a lower-case
    letter can never log in. *)
Theorem login_page_sessions_uppercase evs fl db b :
  exists p b' fl', loginRun (loginPage_init, b) evs fl db = (Ok (p, b'), fl', db) /\
    (forall a, studentAuth b' = Some (AuthJson a) ->
       studentAuth b = Some (AuthJson a) \/ session_ok db a).
Proof.
  destruct (loginRun_ok evs (loginPage_init, b) fl db b loginPage_init_ok (or_introl eq_refl))
    as ([p b'] & fl' & Hrun & _ & Hb).
  exists p, b', fl'. split; [done|]. intros a Ha.
  destruct Hb as [Hb | (a' & Ha' & Hok)]; cbn in *; [left; congruence|].
  right. rewrite Ha in Ha'. by simplify_eq.
Qed.

(** ** Witnesses *)

(** A student types [5a] and [123] and presses the button twice before
    the answer comes: one request, with [5A], is pending. *)
Definition sample_events : list LoginEvent :=
  [LInput (ClassCodeInput "5a"); LInput (StudentCodeInput "123"); LSubmit; LSubmit].

Lemma login_page_protocol_witness :
  exists p b' fl', loginRun (loginPage_init, sample_browser) sample_events [] sample_login_db =
    (Ok (p, b'), fl', sample_login_db) /\ lp_pending p = Some (mkLoginForm "5A" "123") /\
    lv_buttonDisabled (loginView p) = true.
Proof.
  destruct (login_page_protocol sample_events [] sample_login_db sample_browser)
    as (p & b' & fl' & Hrun & Hd & _).
  exists p, b', fl'. assert (Hp : lp_pending p = Some (mkLoginForm "5A" "123")).
  { vm_compute in Hrun. injection Hrun as <- _ _. reflexivity. }
  split_and!; [exact Hrun|exact Hp|]. rewrite Hd, Hp. reflexivity.
Defined.

(** The answer arrives: the browser holds the session of Ali, whose codes
    are upper-case. *)
Lemma login_page_sessions_uppercase_witness :
  exists p b' fl', loginRun (loginPage_init, sample_browser) (sample_events ++ [LResponse]) []
      sample_login_db = (Ok (p, b'), fl', sample_login_db) /\
    studentAuth b' = Some (AuthJson (mkSession "st1" (mkStudent "st1" "123" "Ali") "c2")) /\
    session_ok sample_login_db (mkSession "st1" (mkStudent "st1" "123" "Ali") "c2").
Proof.
  destruct (login_page_sessions_uppercase (sample_events ++ [LResponse]) [] sample_login_db sample_browser)
    as (p & b' & fl' & Hrun & Hs).
  assert (Hb : studentAuth b' = Some (AuthJson (mkSession "st1" (mkStudent "st1" "123" "Ali") "c2"))).
  { vm_compute in Hrun. injection Hrun as _ <- _. reflexivity. }
  exists p, b', fl'. split_and!; [exact Hrun|exact Hb|].
  destruct (Hs _ Hb) as [H|H]; [discriminate|exact H].
Defined.

End LoginPage.
