(* ===== verification/ForumView.v ===== *)
(** * ForumView: what the forum pages read ([src/src/hooks/use-forum.ts]
      [useForum] and [useForumPost], [src/src/app/forum/soru/[id]/page.tsx])

    The read side of the forum.  [useForum] listens to the posts ordered by
    date, newest first, and the forum page filters them by category and
    search term.  [useForumPost] listens to one post and to its replies
    (oldest first) and, on every replies snapshot, reads the comments of
    each reply with one [getDocs] each, awaited together by
    [Promise.all].

    A query result is the documents of the collection sorted by the
    Firestore order: the [date] field, ties broken by the document id in
    the same direction.  The sort is stdpp's [merge_sort] on that order.  A
    listener callback is a function of the snapshot it receives; the
    comment reads of the replies callback are remote requests of the [FS]
    monad, so one of them can fail.  The handler runs against one store:
    writes between the snapshot and the reads are not interleaved. *)

From S2P Require Import Prelude Forum.
From stdpp Require Import sorting.
From Stdlib Require Import ZArith.
Import Forum.

Module ForumView.

(** ** The Firestore order on [date], then document id *)

Definition key_le (k1 k2 : string * string) : Prop :=
  String.compare k1.1 k2.1 = Lt \/ (k1.1 = k2.1 /\ String.le k1.2 k2.2).

#[export] Instance key_le_dec : RelDecision key_le.
Proof. intros k1 k2. unfold key_le. apply _. Defined.

(** [orderBy('date', 'asc')] on documents given with their ids. *)
Definition ascByDate {D} (date : D -> string) (x y : string * D) : Prop :=
  key_le (date x.2, x.1) (date y.2, y.1).

(** [orderBy('date', 'desc')] *)
Definition descByDate {D} (date : D -> string) (x y : string * D) : Prop :=
  key_le (date y.2, y.1) (date x.2, x.1).

#[export] Instance ascByDate_dec {D} (date : D -> string) : RelDecision (ascByDate date).
Proof. intros x y. unfold ascByDate. apply _. Defined.

#[export] Instance descByDate_dec {D} (date : D -> string) : RelDecision (descByDate date).
Proof. intros x y. unfold descByDate. apply _. Defined.

(** ** [useForum]: the posts, newest first *)

(** [query(collection(db, 'forum'), orderBy('date', 'desc'))] *)
Definition forumPostsView (db : ForumDb) : list (string * ForumPost) :=
  merge_sort (descByDate post_date) (map_to_list (posts db)).

(** The state of [useForum] (lines 30-31) and the toasts shown. *)
Record ForumListHook := mkListHook {
  lh_posts : list (string * ForumPost);
  lh_loading : bool;
  lh_toasts : list Toast
}.

Definition useForum_init : ForumListHook := mkListHook [] true [].

Definition toast_forum_load_failed : Toast := mkToast "Forum Yüklenemedi" true.

(** The listener's callbacks (lines 37-49). *)
Definition onPostsSnapshot (snap : ForumDb) (h : ForumListHook) : ForumListHook :=
  mkListHook (forumPostsView snap) false (lh_toasts h).

Definition onPostsError (h : ForumListHook) : ForumListHook :=
  mkListHook (lh_posts h) false (lh_toasts h ++ [toast_forum_load_failed]).

(** ** The forum page ([src/src/app/forum/soru/[id]/page.tsx])

    The page at [/forum/soru/{id}] renders the list of all posts: it reads
    [useForum] and does not read the [id] of its route. *)

Definition categories : list string :=
  ["Tümü"; "Matematik"; "Türkçe"; "Fen Bilimleri"; "Sosyal Bilgiler";
   "Eğitim Teknolojileri"; "Okul Öncesi"; "Rehberlik"; "Diğer"].

Section forum_page.
(** [String.prototype.toLowerCase] is the Unicode case mapping of the
    JavaScript runtime; the page only needs it as a function that maps the
    empty string to itself. *)
Variable toLowerCase : string -> string.

(** The predicate of [filteredPosts] (lines 33-37). *)
Definition matchesPost (selectedCategory searchTerm : string) (e : string * ForumPost) : bool :=
  (String.eqb selectedCategory "Tümü" || String.eqb (post_category e.2) selectedCategory) &&
  (includes (toLowerCase (post_title e.2)) (toLowerCase searchTerm) ||
   includes (toLowerCase (post_description e.2)) (toLowerCase searchTerm)).

(** [filteredPosts] (lines 32-38). *)
Definition filteredPosts (posts : list (string * ForumPost)) (searchTerm selectedCategory : string)
    : list (string * ForumPost) :=
  filter (fun e => matchesPost selectedCategory searchTerm e = true) posts.

Inductive ForumPageView :=
  | ForumSpinner
  | ForumList (shown : list (string * ForumPost)) (emptyMessage : bool).

(** The render (lines 84-122): the spinner while loading, else the cards of
    [filteredPosts] and, when there is none, the empty message. *)
Definition forumPageView (h : ForumListHook) (searchTerm selectedCategory : string) : ForumPageView :=
  if lh_loading h then ForumSpinner else
  let shown := filteredPosts (lh_posts h) searchTerm selectedCategory in
  ForumList shown (bool_decide (shown = [])).

(** [format(new Date(post.date), 'dd MMMM yyyy', { locale: tr })] of
    date-fns, a library function. *)
Variable formatDate : string -> string.

(** A post's card (lines 91-112). *)
Record PostCard := mkPostCard {
  card_title : string;
  card_category : string;
  card_description : string;
  card_author : string;
  card_date : string;
  card_href : string
}.

Definition postCard (e : string * ForumPost) : PostCard :=
  mkPostCard (post_title e.2) (post_category e.2) (post_description e.2)
    (author_name (post_author e.2)) (formatDate (post_date e.2)) ("/forum/soru/" +:+ e.1).

(** The page's filters: [searchTerm] and [selectedCategory] (lines 29-30). *)
Record ForumFilters := mkFilters {
  searchTerm : string;
  selectedCategory : string
}.

Definition forumFilters_init : ForumFilters := mkFilters "" "Tümü".

(** The search input and the category select (lines 64-80); the select
    offers [categories]. *)
Inductive FilterEvent :=
  | SearchInput (value : string)
  | CategorySelect (value : string).

Definition filterStep (f : ForumFilters) (ev : FilterEvent) : ForumFilters :=
  match ev with
  | SearchInput v => mkFilters v (selectedCategory f)
  | CategorySelect c => mkFilters (searchTerm f) c
  end.

(** The whole page: the link to a new question, the filters, and the list
    of cards or the spinner (lines 40-127). *)
Record ForumPage := mkForumPage {
  fp_newPostHref : string;
  fp_search : string;
  fp_category : string;
  fp_categoryOptions : list string;
  fp_cards : option (list PostCard);
  fp_emptyMessage : bool
}.

Definition forumPage (h : ForumListHook) (f : ForumFilters) : ForumPage :=
  match forumPageView h (searchTerm f) (selectedCategory f) with
  | ForumSpinner => mkForumPage "/forum/yeni" (searchTerm f) (selectedCategory f) categories None false
  | ForumList shown empty =>
      mkForumPage "/forum/yeni" (searchTerm f) (selectedCategory f) categories
        (Some (postCard <$> shown)) empty
  end.

End forum_page.

(** ** [useForumPost]: one post, its replies and their comments *)

(** The documents of a sub-collection, with their ids, from the ids of
    [getDocs]. *)
Definition replyDocs (postId : string) (db : ForumDb) : list (string * ForumReply) :=
  omap (fun r => (fun v => (r, v)) <$> replies db !! (postId, r)) (replyIds postId db).

Definition commentDocs (postId replyId : string) (db : ForumDb) : list (string * ForumComment) :=
  omap (fun c => (fun v => (c, v)) <$> comments db !! (postId, replyId, c)) (commentIds postId replyId db).

(** [query(collection(db, `forum/${postId}/replies`), orderBy('date', 'asc'))] *)
Definition repliesView (postId : string) (db : ForumDb) : list (string * ForumReply) :=
  merge_sort (ascByDate reply_date) (replyDocs postId db).

(** The comments query of a reply, [orderBy('date', 'asc')]. *)
Definition commentsView (postId replyId : string) (db : ForumDb) : list (string * ForumComment) :=
  merge_sort (ascByDate comment_date) (commentDocs postId replyId db).

(** The state of [useForumPost] (lines 61-65) and the toasts shown. *)
Record PostHook := mkPostHook {
  ph_post : option (string * ForumPost);
  ph_replies : list (string * ForumReply);
  ph_comments : gmap string (list (string * ForumComment));
  ph_loading : bool;
  ph_toasts : list Toast
}.

Definition usePost_init : PostHook := mkPostHook None [] ∅ true [].

Definition set_ph_post (p : option (string * ForumPost)) (h : PostHook) : PostHook :=
  mkPostHook p (ph_replies h) (ph_comments h) (ph_loading h) (ph_toasts h).
Definition set_ph_replies (rs : list (string * ForumReply)) (h : PostHook) : PostHook :=
  mkPostHook (ph_post h) rs (ph_comments h) (ph_loading h) (ph_toasts h).
Definition set_ph_loaded (cs : gmap string (list (string * ForumComment))) (h : PostHook) : PostHook :=
  mkPostHook (ph_post h) (ph_replies h) cs false (ph_toasts h).
Definition set_ph_loading (b : bool) (h : PostHook) : PostHook :=
  mkPostHook (ph_post h) (ph_replies h) (ph_comments h) b (ph_toasts h).
Definition push_ph_toast (t : Toast) (h : PostHook) : PostHook :=
  mkPostHook (ph_post h) (ph_replies h) (ph_comments h) (ph_loading h) (ph_toasts h ++ [t]).

(** The start of the effect (lines 72-77): without a post id it only
    stops loading and subscribes to nothing. *)
Definition usePostEffect (postId : string) (h : PostHook) : PostHook :=
  if String.eqb postId "" then set_ph_loading false h else set_ph_loading true h.

Definition toast_post_failed : Toast := mkToast "Hata" true.
Definition toast_replies_failed : Toast := mkToast "Hata" true.

(** The post listener (lines 80-89). *)
Definition onPostSnapshot (postId : string) (snap : ForumDb) (h : PostHook) : PostHook :=
  set_ph_post ((fun p => (postId, p)) <$> posts snap !! postId) h.

Definition onPostError (h : PostHook) : PostHook := push_ph_toast toast_post_failed h.

(** [getDocs(commentsQuery).then(s => { allComments[reply.id] = ... })] *)
Definition getComments (postId replyId : string) : FS ForumDb (list (string * ForumComment)) :=
  remote (fun db => Some (commentsView postId replyId db, db)).

Local Open Scope fs_scope.

(** [await Promise.all(commentPromises)]: every read, each result stored
    under its reply's id; the first failure rejects the whole. *)
Fixpoint fetchAllComments (postId : string) (rs : list string)
    (acc : gmap string (list (string * ForumComment)))
    : FS ForumDb (gmap string (list (string * ForumComment))) :=
  match rs with
  | [] => fs_ret acc
  | r :: rs' => let* cs := getComments postId r in fetchAllComments postId rs' (<[r := cs]> acc)
  end.

(** The map [allComments] after every read has succeeded. *)
Definition commentsOfAll (postId : string) (db : ForumDb) (rs : list string)
    (acc : gmap string (list (string * ForumComment))) :=
  foldl (fun m r => <[r := commentsView postId r db]> m) acc rs.

(** The replies listener (lines 92-106).  [setReplies] runs before the
    first [await]; a rejected read ends the async callback, which nothing
    catches, so the hook keeps the new replies, the old comments and its
    [isLoading]: the [fs_catch] below returns that state. *)
Definition onRepliesSnapshot (postId : string) (snap : ForumDb) (h : PostHook) : FS ForumDb PostHook :=
  let rs := repliesView postId snap in
  let h1 := set_ph_replies rs h in
  fs_catch
    (let* cs := fetchAllComments postId (fst <$> rs) ∅ in fs_ret (set_ph_loaded cs h1))
    (fun _ => fs_ret h1).

(** The error callback of the replies listener (lines 107-111). *)
Definition onRepliesError (h : PostHook) : PostHook :=
  set_ph_loading false (push_ph_toast toast_replies_failed h).

(** ** Lemmas *)

#[export] Instance key_le_total : Total key_le.
Proof.
  intros [d1 i1] [d2 i2]. unfold key_le; simpl.
  destruct (String.compare d1 d2) eqn:E.
  - apply String.compare_eq_iff in E as ->. destruct (total String.le i1 i2); auto.
  - by left; left.
  - right; left. by rewrite String.compare_antisym, E.
Qed.

#[export] Instance ascByDate_total {D} (date : D -> string) : Total (ascByDate date).
Proof. intros x y. apply (total key_le). Qed.

#[export] Instance descByDate_total {D} (date : D -> string) : Total (descByDate date).
Proof. intros x y. apply (total key_le). Qed.

Lemma forumPostsView_perm db : forumPostsView db ≡ₚ map_to_list (posts db).
Proof. apply merge_sort_Permutation. Qed.

Lemma elem_of_forumPostsView db i p : (i, p) ∈ forumPostsView db <-> posts db !! i = Some p.
Proof. rewrite forumPostsView_perm. apply elem_of_map_to_list. Qed.

Lemma includes_empty hay : includes hay "" = true.
Proof. by destruct hay. Qed.

Lemma elem_of_replyDocs p db r v : (r, v) ∈ replyDocs p db <-> replies db !! (p, r) = Some v.
Proof.
  unfold replyDocs, replyIds. rewrite list_elem_of_omap. split.
  - intros (r' & _ & Hr). destruct (replies db !! (p, r')) eqn:E; simplify_eq/=. done.
  - intros Hv. exists r. rewrite Hv. split; [|done]. apply list_elem_of_fmap.
    exists (p, r). split; [done|]. apply elem_of_elements, elem_of_filter. split; [done|].
    apply elem_of_dom. by eexists.
Qed.

Lemma length_commentDocs p r db : length (commentDocs p r db) = countComments p r db.
Proof.
  unfold commentDocs. rewrite length_omap_Some.
  - unfold commentIds, countComments. by rewrite length_fmap.
  - intros c (k & -> & Hk)%list_elem_of_fmap.
    apply elem_of_elements, elem_of_filter in Hk as [Hk1 [v Hv]%elem_of_dom].
    destruct k as [[p' r'] c']. simpl in *. simplify_eq. rewrite Hv. by eexists.
Qed.

Lemma length_commentsView p r db : length (commentsView p r db) = countComments p r db.
Proof. unfold commentsView. by rewrite (Permutation_length (merge_sort_Permutation _ _)), length_commentDocs. Qed.

Lemma fetchAllComments_faults p rs acc fl db :
  fs_state (fetchAllComments p rs acc fl db) = db /\
  (fs_out (fetchAllComments p rs acc fl db) = Ok (commentsOfAll p db rs acc) \/
   exists e, fs_out (fetchAllComments p rs acc fl db) = Err e).
Proof.
  revert acc fl. induction rs as [|r rs IH]; intros acc fl; [by split; [|left]|]. simpl.
  unfold fs_bind, getComments.
  destruct (remote_read (fun db => commentsView p r db) fl db) as [[fl1 ->]|(e & fl1 & ->)];
    [apply IH|by split; [|right; exists e]].
Qed.

Lemma fetchAllComments_run p rs acc db :
  fetchAllComments p rs acc [] db = (Ok (commentsOfAll p db rs acc), [], db).
Proof. revert acc. induction rs as [|r rs IH]; intros acc; [done|]. apply IH. Qed.

Lemma lookup_commentsOfAll p db rs acc r :
  r ∈ rs -> commentsOfAll p db rs acc !! r = Some (commentsView p r db).
Proof.
  intros Hr. unfold commentsOfAll.
  rewrite (lookup_foldl_insert id (fun r => commentsView p r db)). by rewrite last_filter_eq.
Qed.

Lemma elem_of_repliesView p db r v : (r, v) ∈ repliesView p db <-> replies db !! (p, r) = Some v.
Proof. unfold repliesView. rewrite (merge_sort_Permutation _ _). apply elem_of_replyDocs. Qed.

(** The replies callback against the store it reads: it shows the replies
    of the query, and either loads the comments of every reply or keeps
    the hook as [setReplies] left it; without a failure it loads. *)
Lemma onRepliesSnapshot_cases postId db h fl :
  let rs := repliesView postId db in
  let loaded := set_ph_loaded (commentsOfAll postId db (fst <$> rs) ∅) (set_ph_replies rs h) in
  exists h' fl', onRepliesSnapshot postId db h fl db = (Ok h', fl', db) /\
    (h' = loaded \/ h' = set_ph_replies rs h) /\ (fl = [] -> h' = loaded).
Proof.
  intros rs loaded. subst rs loaded. unfold onRepliesSnapshot, fs_catch, fs_bind.
  destruct (fetchAllComments_faults postId (fst <$> repliesView postId db) ∅ fl db) as [Hs Ho].
  unfold fs_out, fs_state in Hs, Ho.
  destruct (fetchAllComments postId (fst <$> repliesView postId db) ∅ fl db) as [[o fl'] db'] eqn:E.
  simpl in Hs, Ho. subst db'.
  destruct Ho as [->|[e ->]]; (eexists _, fl'; split; [reflexivity|]).
  - split; [by left|done].
  - split; [by right|]. intros ->. rewrite fetchAllComments_run in E. discriminate.
Qed.

Section forum_page_lemmas.
Variable toLowerCase : string -> string.
Hypothesis toLowerCase_empty : toLowerCase "" = "".

Lemma elem_of_filteredPosts posts term cat e :
  e ∈ filteredPosts toLowerCase posts term cat <-> e ∈ posts /\ matchesPost toLowerCase cat term e = true.
Proof. unfold filteredPosts. rewrite list_elem_of_filter. tauto. Qed.

(** With the initial filters ('Tümü' and an empty search) the page lists
    every post it received, in order. *)
Lemma filteredPosts_initial posts : filteredPosts toLowerCase posts "" "Tümü" = posts.
Proof.
  unfold filteredPosts. induction posts as [|e posts IH]; [done|].
  rewrite filter_cons_True, IH; [done|]. unfold matchesPost.
  by rewrite toLowerCase_empty, includes_empty.
Qed.

(** Choosing a category shows the posts of that category among those
    shown for all categories, in the same order. *)
Lemma filteredPosts_category posts term cat :
  cat <> "Tümü" ->
  filteredPosts toLowerCase posts term cat =
    filter (fun e => post_category e.2 = cat) (filteredPosts toLowerCase posts term "Tümü").
Proof.
  intros Hc. unfold filteredPosts. rewrite list_filter_filter. apply list_filter_iff.
  intros e. unfold matchesPost. rewrite (proj2 (String.eqb_neq cat "Tümü") Hc). cbn.
  rewrite andb_true_iff, orb_true_iff, String.eqb_eq. naive_solver.
Qed.

(** Each card links to its own post, and the links of the cards shown are
    the ids of the posts shown. *)
Lemma forumPage_links formatDate h f cards :
  fp_cards (forumPage toLowerCase formatDate h f) = Some cards ->
  card_href <$> cards = (fun e : string * ForumPost => "/forum/soru/" +:+ e.1) <$>
    filteredPosts toLowerCase (lh_posts h) (searchTerm f) (selectedCategory f).
Proof.
  unfold forumPage, forumPageView. destruct (lh_loading h); cbn; [done|].
  intros [= <-]. rewrite <- list_fmap_compose. done.
Qed.

End forum_page_lemmas.

(** ** Theorems *)

(** C36 *)
(** The post page never shows a comment count that disagrees with the
    comments it lists, when the store keeps [commentCount] exact: after the
    replies callback every reply shown is a reply of the post in the store,
    and either every reply's comments are loaded, listed in date order, and
    number exactly its [commentCount], or (a comment read failed) the page
    keeps its previous comments and its loading state, so a first load
    never ends.  Without a failure the comments are loaded. *)
Theorem post_page_consistent postId db h fl :
  counts_ok db ->
  exists h' fl', onRepliesSnapshot postId db h fl db = (Ok h', fl', db) /\
    ph_replies h' = repliesView postId db /\
    (forall rid rep, (rid, rep) ∈ ph_replies h' -> replies db !! (postId, rid) = Some rep) /\
    ((ph_loading h' = false /\
      forall rid rep, (rid, rep) ∈ ph_replies h' ->
        ph_comments h' !! rid = Some (commentsView postId rid db) /\
        Sorted (ascByDate comment_date) (commentsView postId rid db) /\
        commentCount rep = Z.of_nat (length (commentsView postId rid db))) \/
     (ph_loading h' = ph_loading h /\ ph_comments h' = ph_comments h)) /\
    (fl = [] -> ph_loading h' = false).
Proof.
  intros Hok. destruct (onRepliesSnapshot_cases postId db h fl) as (h' & fl' & Hrun & Hcases & Hfree).
  exists h', fl'. split; [done|].
  assert (ph_replies h' = repliesView postId db) as Hr by (destruct Hcases as [-> | ->]; done).
  split_and!; [done| |destruct Hcases as [-> | ->]; [left|right]|by intros ->%Hfree].
  - intros rid rep. rewrite Hr. apply elem_of_repliesView.
  - split; [done|]. intros rid rep Hin. simpl in Hin. split_and!.
    + apply lookup_commentsOfAll, list_elem_of_fmap. by exists (rid, rep).
    + apply Sorted_merge_sort, _.
    + rewrite length_commentsView. apply (Hok postId). by apply elem_of_repliesView.
  - done.
Qed.

(** ** Witnesses *)

Lemma post_page_consistent_witness :
  exists h' fl', onRepliesSnapshot "p1" sample_forum usePost_init [] sample_forum = (Ok h', fl', sample_forum) /\
    ph_loading h' = false.
Proof.
  destruct (post_page_consistent "p1" sample_forum usePost_init [] sample_forum_counts)
    as (h' & fl' & Hrun & _ & _ & _ & Hl).
  exists h', fl'. split; [exact Hrun|]. by apply Hl.
Defined.

End ForumView.
