(* ===== verification/SurveyIndex.v ===== *)
(** * SurveyIndex: the teacher's survey index ([src/src/app/anket/page.tsx])

    The teacher picks a class, then a student of it; the page then shows
    the three survey cards, whose links carry the student's id and the
    class id to the survey pages ([SurveyPages.v]).  The page's state is
    the selected class id, the students of that class and the selected
    student; the effect on [selectedClassId] and [classes] recomputes the
    students and clears the selection.  The page is a step function over
    the events the page reacts to: a class chosen, a student chosen, and a
    new [classes] list from the class listener (outside [src/]). *)

From S2P Require Import Prelude StudentLogin Survey SurveyStore SurveyPages StudentPortal.
Import StudentLogin Survey SurveyStore SurveyPages StudentPortal.

Module SurveyIndex.

(** A class of [useClassesAndStudents] with its students. *)
Record ClassWithStudents := mkClassWS {
  cws_id : string;
  cws_name : string;
  cws_students : list StudentDoc
}.

Record IndexState := mkIndex {
  classes : list ClassWithStudents;
  selectedClassId : option string;
  studentsInClass : list StudentDoc;
  selectedStudent : option StudentDoc
}.

Definition index_init (cs : list ClassWithStudents) : IndexState := mkIndex cs None [] None.

(** The effect on [selectedClassId] and [classes] (lines 30-39):
    [classes.find(c => c.id === selectedClassId)?.students || []]. *)
Definition selectionEffect (st : IndexState) : IndexState :=
  match selectedClassId st with
  | Some cid =>
      if String.eqb cid "" then mkIndex (classes st) (selectedClassId st) [] None
      else mkIndex (classes st) (selectedClassId st)
             (default [] (cws_students <$> head (filter (fun c => cws_id c = cid) (classes st)))) None
  | None => mkIndex (classes st) (selectedClassId st) [] None
  end.

(** [handleStudentSelect(studentId)] (lines 41-44). *)
Definition handleStudentSelect (studentId : string) (st : IndexState) : IndexState :=
  mkIndex (classes st) (selectedClassId st) (studentsInClass st)
    (head (filter (fun s => student_id s = studentId) (studentsInClass st))).

Inductive IndexEvent :=
  | ClassChosen (cid : string)
  | StudentChosen (sid : string)
  | ClassesLoaded (cs : list ClassWithStudents).

(** An event and the effect it triggers. *)
Definition indexStep (st : IndexState) (ev : IndexEvent) : IndexState :=
  match ev with
  | ClassChosen cid => selectionEffect (mkIndex (classes st) (Some cid) (studentsInClass st) (selectedStudent st))
  | StudentChosen sid => handleStudentSelect sid st
  | ClassesLoaded cs => selectionEffect (mkIndex cs (selectedClassId st) (studentsInClass st) (selectedStudent st))
  end.

(** The survey cards (lines 90-154): shown once a student is selected,
    each link with [studentId=${selectedStudent.id}&classId=${selectedClassId}]. *)
Definition indexLinks (st : IndexState) : list SurveyLink :=
  match selectedStudent st, selectedClassId st with
  | Some s, Some cid => surveyLinks s cid
  | _, _ => []
  end.

(** The students shown are none, or those of the selected class; a
    selected student is one of them. *)
Definition students_ok (st : IndexState) : Prop :=
  studentsInClass st = [] \/
  exists cid c, selectedClassId st = Some cid /\ String.eqb cid "" = false /\
    head (filter (fun c => cws_id c = cid) (classes st)) = Some c /\ studentsInClass st = cws_students c.

Definition index_ok (st : IndexState) : Prop :=
  students_ok st /\ forall s, selectedStudent st = Some s -> s ∈ studentsInClass st.

(** ** The rendered page (lines 46-90) *)

(** A [SelectItem]: its [value] and the text it shows. *)
Record SelectOption := mkOption {
  opt_value : string;
  opt_label : string
}.

Record IndexView := mkIndexView {
  classSelect_disabled : bool;
  classOptions : list SelectOption;
  studentSelect_disabled : bool;
  studentPlaceholder : string;
  studentOptions : list string;
  surveyCards : list SurveyLink
}.

(** [selectedClassId] as a JavaScript condition: [null] and [''] are falsy. *)
Definition classChosen (st : IndexState) : bool :=
  match selectedClassId st with
  | Some cid => negb (String.eqb cid "")
  | None => false
  end.

(** The two selects and the cards of step 2: the class select is disabled
    while [useClassesAndStudents] loads and lists [classes.map(c => ...)]
    by id and name; the student select is disabled without a chosen class
    or without students, and lists the students by id (the label shows the
    student number and names, fields [StudentDoc] does not carry). *)
Definition indexView (isLoading : bool) (st : IndexState) : IndexView :=
  mkIndexView isLoading
    ((fun c => mkOption (cws_id c) (cws_name c)) <$> classes st)
    (negb (classChosen st) || bool_decide (length (studentsInClass st) = 0))
    (if classChosen st then "Bir öğrenci seçin..." else "Önce sınıf seçin")
    (student_id <$> studentsInClass st)
    (indexLinks st).

(** ** Lemmas *)

Lemma selectionEffect_ok st : index_ok (selectionEffect st).
Proof.
  unfold selectionEffect, index_ok, students_ok.
  destruct (selectedClassId st) as [cid|]; simpl; [|by split; [left|]].
  destruct (String.eqb cid "") eqn:Ec; simpl; [by split; [left|]|].
  split; [|done]. destruct (head _) as [c|] eqn:E; simpl; [right|by left].
  by exists cid, c.
Qed.

Lemma handleStudentSelect_ok sid st : index_ok st -> index_ok (handleStudentSelect sid st).
Proof.
  intros [Hs _]. split; [exact Hs|]. simpl. intros s Hh. by apply head_filter_Some in Hh as [? _].
Qed.

Lemma indexStep_ok st ev : index_ok st -> index_ok (indexStep st ev).
Proof. destruct ev; simpl; intros; auto using selectionEffect_ok, handleStudentSelect_ok. Qed.

Lemma index_reachable_ok cs evs : index_ok (foldl indexStep (index_init cs) evs).
Proof.
  assert (Hinit : index_ok (index_init cs)) by (split; [left|]; done).
  revert Hinit. generalize (index_init cs). induction evs as [|ev evs IH]; intros st Hst; [done|].
  apply IH, indexStep_ok, Hst.
Qed.

(** The students listed belong to the selected class, which is chosen. *)
Lemma studentsInClass_cons st s ss :
  students_ok st -> studentsInClass st = s :: ss ->
  exists cid c, selectedClassId st = Some cid /\ classChosen st = true /\
    head (filter (fun c => cws_id c = cid) (classes st)) = Some c /\ studentsInClass st = cws_students c.
Proof.
  intros [Hnil|(cid & c & Ec & Hne & Hc & Hs)] Heq; [congruence|].
  exists cid, c. unfold classChosen. rewrite Ec, Hne. done.
Qed.

(** Choosing the [k]-th option of the rendered student select, when the
    students of the class have distinct ids, selects the [k]-th student of
    the class; the select was enabled and the survey cards then link to
    that student and the selected class. *)
Lemma index_student_option_selects cs evs k sid :
  let st := foldl indexStep (index_init cs) evs in
  NoDup (student_id <$> studentsInClass st) ->
  studentOptions (indexView false st) !! k = Some sid ->
  studentSelect_disabled (indexView false st) = false /\
  exists s cid, studentsInClass st !! k = Some s /\ student_id s = sid /\
    selectedClassId st = Some cid /\
    surveyCards (indexView false (indexStep st (StudentChosen sid))) = surveyLinks s cid.
Proof.
  intros st Hnd Hk. destruct (index_reachable_ok cs evs) as [Hst _]. fold st in Hst.
  cbn [studentOptions indexView] in Hk. apply list_lookup_fmap_Some in Hk as (s & -> & Hs).
  destruct (studentsInClass st) as [|s0 ss] eqn:Eq; [done|].
  destruct (studentsInClass_cons st s0 ss Hst Eq) as (cid & c & Ec & Hch & _).
  split; [cbn [studentSelect_disabled indexView]; by rewrite Hch, Eq|].
  exists s, cid. split_and!; [done|done|done|].
  cbn [surveyCards indexView indexStep]. unfold indexLinks, handleStudentSelect.
  cbn [selectedStudent selectedClassId studentsInClass].
  rewrite Eq, (head_filter_key_lookup student_id _ k s Hnd Hs), Ec. done.
Qed.

(** ** Theorems *)

(** C21 *)
(** From any sequence of choices on the index page, a survey link shown
    belongs to a student of the selected class; a signed-in teacher who
    completes that survey without a failure stores it for that student and
    class, and the student's result list shows it. *)
Theorem teacher_survey_saved cs evs uid newId now answers db l :
  let st := foldl indexStep (index_init cs) evs in
  l ∈ indexLinks st ->
  exists s cid c, selectedStudent st = Some s /\ selectedClassId st = Some cid /\
    head (filter (fun c => cws_id c = cid) (classes st)) = Some c /\ s ∈ cws_students c /\
    (String.eqb (student_id s) "" = false ->
     exists db' d, submitSurvey l (Some uid) newId now answers [] db =
         (Ok ([toast_survey_saved], true), [], db') /\
       (newId, d) ∈ studentSurveys db' uid (student_id s) /\ sd_classId (doc_data d) = cid).
Proof.
  intros st Hl. destruct (index_reachable_ok cs evs) as [Hst Hsel]. fold st in Hst, Hsel.
  unfold indexLinks in Hl.
  destruct (selectedStudent st) as [s|] eqn:Es, (selectedClassId st) as [cid|] eqn:Ec;
    try by apply elem_of_nil in Hl.
  pose proof (Hsel s eq_refl) as Hin.
  destruct Hst as [Hnil|(cid' & c & Ec' & Hne & Hc & Hstud)]; [rewrite Hnil in Hin; by apply elem_of_nil in Hin|].
  rewrite Ec in Ec'. injection Ec' as <-.
  exists s, cid, c. split_and!; [done|done|done|by rewrite <- Hstud|].
  intros Hs0. apply surveyLinks_params in Hl as [Hps Hpc].
  destruct (submitSurvey_signed_in l uid newId now answers db _ _ Hps Hpc Hs0 Hne) as (data & Hrun & Hsd & Hcd).
  eexists _, (mkSurveyDoc data uid). split; [exact Hrun|]. split; [|done].
  apply elem_of_studentSurveys. by rewrite lookup_insert_eq.
Qed.

(** ** Witnesses *)

Definition sample_classes : list ClassWithStudents := [mkClassWS "c2" "5A" [sample_student]].
Definition sample_choices : list IndexEvent := [ClassChosen "c2"; StudentChosen "st1"].

Lemma teacher_survey_saved_witness :
  exists s, selectedStudent (foldl indexStep (index_init sample_classes) sample_choices) = Some s.
Proof.
  destruct (teacher_survey_saved sample_classes sample_choices "t1" "s1" "2026-11-09" ∅ ∅
              (mkLink OgrenmeStilleri [("studentId", "st1"); ("classId", "c2")]))
    as (s & _ & _ & Hs & _).
  - vm_compute. do 2 apply list_elem_of_further. apply list_elem_of_here.
  - by exists s.
Defined.

End SurveyIndex.
