(* ===== verification/ReminderPopup.v ===== *)
(** * ReminderPopup: the overdue-reminder dialog ([src/src/components/smart-reminder-popup.tsx])

    The dialog opens for a reminder whose due time has passed.  It offers
    to mark the reminder completed or, when it is overdue, to reschedule
    it to a date picked in a calendar (days before today are disabled) and
    an optional time.  Both buttons call a callback of the parent
    ([onUpdate], [onMarkAsComplete]), outside [src/]: each is modelled from
    the spec as one update of the reminder document in the [FS] monad,
    which fails on a network error or a missing document.

    Dates are the strings the code builds and parses: [format(d,
    'yyyy-MM-dd')] for the new due date, and [new Date(dueDate + 'T' +
    time)] for the due instant, a local date and time.  A local date and
    time is the record [LocalTime]; [Date.prototype.getTime] is monotone on
    local times outside a daylight-saving change, so [isPast] compares
    local times lexicographically, through [lt_key]. *)

From S2P Require Import Prelude Schedule ScheduleView.
From Stdlib Require Import Ascii NArith.
Import ScheduleView.

Module ReminderPopup.

(** ** Data *)

(** [Reminder] of [lib/types]. *)
Record Reminder := mkReminder {
  rem_id : string;
  rem_title : string;
  rem_dueDate : string;
  rem_time : option string;
  rem_isCompleted : bool
}.

Abbreviation ReminderDb := (gmap string Reminder).

(** A local date and time: the fields of a [Date] in the local zone. *)
Record LocalTime := mkLocalTime {
  lt_year : N;
  lt_month : N;
  lt_day : N;
  lt_seconds : N
}.

(** Chronological order of local times with fields in range. *)
Definition lt_key (t : LocalTime) : N :=
  ((lt_year t * 13 + lt_month t) * 32 + lt_day t) * 86400 + lt_seconds t.

Definition leap_year (y : nat) : bool :=
  (y mod 4 =? 0) && (negb (y mod 100 =? 0) || (y mod 400 =? 0)).

Definition daysInMonth (y m : nat) : nat :=
  match m with
  | 2 => if leap_year y then 29 else 28
  | 4 | 6 | 9 | 11 => 30
  | _ => 31
  end.

(** ** The date strings *)

(** A field of exactly [n] decimal digits. *)
Definition fixedDigits (n : nat) (s : string) : option nat :=
  if String.length s =? n then jsNumber s else None.

(** The date-time form of the ECMAScript date format,
    ["YYYY-MM-DDTHH:mm"] or ["YYYY-MM-DDTHH:mm:ss"], read as a local time;
    a string of another form, or with a field out of range, is an invalid
    date ([None]). *)
Definition parseLocalDateTime (s : string) : option LocalTime :=
  match split_at "T"%char s with
  | [date; time] =>
      match split_at "-"%char date, split_at ":"%char time with
      | [ys; ms; ds], hs :: mins :: rest =>
          y ← fixedDigits 4 ys; m ← fixedDigits 2 ms; d ← fixedDigits 2 ds;
          h ← fixedDigits 2 hs; mi ← fixedDigits 2 mins;
          sec ← match rest with [] => Some 0 | [ss] => fixedDigits 2 ss | _ => None end;
          if (1 <=? m) && (m <=? 12) && (1 <=? d) && (d <=? daysInMonth y m) &&
             (h <? 24) && (mi <? 60) && (sec <? 60)
          then Some (mkLocalTime (N.of_nat y) (N.of_nat m) (N.of_nat d)
                      (N.of_nat h * 3600 + N.of_nat mi * 60 + N.of_nat sec)) else None
      | _, _ => None
      end
  | _ => None
  end.

(** [new Date(reminder.dueDate)] on the date-only form ["YYYY-MM-DD"] the
    app stores: ECMAScript reads it as midnight UTC (not local time).  The
    fields of a valid date; [None] for an invalid date.  Other forms, which
    the app never stores, are not modelled and read as invalid here. *)
Definition parseDateOnly (s : string) : option (nat * nat * nat) :=
  match split_at "-"%char s with
  | [ys; ms; ds] =>
      y ← fixedDigits 4 ys; m ← fixedDigits 2 ms; d ← fixedDigits 2 ds;
      if (1 <=? m) && (m <=? 12) && (1 <=? d) && (d <=? daysInMonth y m)
      then Some (y, m, d) else None
  | _ => None
  end.

(** The calendar day before [y-m-d]. *)
Definition prevDay (y m d : nat) : nat * nat * nat :=
  if 2 <=? d then (y, m, d - 1)
  else if 2 <=? m then (y, m - 1, daysInMonth y (m - 1))
  else (y - 1, 12, 31).

(** The local calendar day of midnight UTC of [y-m-d] in a zone
    [tzOffset] minutes east of UTC, for offsets within a day (all real
    ones): the same day on or east of Greenwich, the day before west of it.
    Türkiye is at [+180]. *)
Definition utcMidnightLocalDay (tzOffset : Z) (ymd : nat * nat * nat) : nat * nat * nat :=
  let '(y, m, d) := ymd in if (tzOffset <? 0)%Z then prevDay y m d else (y, m, d).

Definition digit_char (d : nat) : ascii := ascii_of_nat (48 + d).

(** A string of decimal digits. *)
Fixpoint digit_string (s : string) : bool :=
  match s with
  | EmptyString => true
  | String c rest => match digit_value c with Some _ => digit_string rest | None => false end
  end.

(** [format(date, 'yyyy')]: the year zero-padded to four digits, for a
    year below 10000. *)
Definition yyyy (y : nat) : string :=
  String (digit_char (y / 1000 mod 10)) (String (digit_char (y / 100 mod 10))
    (String (digit_char (y / 10 mod 10)) (String (digit_char (y mod 10)) EmptyString))).

(** [format(date, 'yyyy-MM-dd')] *)
Definition formatYMD (y m d : nat) : string :=
  yyyy y +:+ "-" +:+ padStart2 (nat_str m) +:+ "-" +:+ padStart2 (nat_str d).

(** [reminder.dueDate + (reminder.time ? `T${reminder.time}` : 'T23:59:59')] *)
Definition dueString (r : Reminder) : string :=
  rem_dueDate r +:+
    match rem_time r with
    | Some t => if String.eqb t "" then "T23:59:59" else "T" +:+ t
    | None => "T23:59:59"
    end.

(** [isPast(new Date(...))] at the local time [now]: an invalid date is
    never past. *)
Definition isOverdue (r : Reminder) (now : LocalTime) : bool :=
  match parseLocalDateTime (dueString r) with
  | Some due => (lt_key due <? lt_key now)%N
  | None => false
  end.

(** ** The dialog *)

(** The form's values (lines 34-37): the day picked in the calendar and
    the time input, [undefined] until the reminder has a time or one is
    typed. *)
Record FormValues := mkFormValues {
  fv_year : nat;
  fv_month : nat;
  fv_day : nat;
  fv_time : option string
}.

(** [isUpdating], [showReschedule], and whether [onClose] was called. *)
Record PopupState := mkPopup {
  isUpdating : bool;
  showReschedule : bool;
  closed : bool
}.

Definition popup_init : PopupState := mkPopup false false false.

Definition set_isUpdating (b : bool) (st : PopupState) : PopupState :=
  mkPopup b (showReschedule st) (closed st).
Definition set_showReschedule (b : bool) (st : PopupState) : PopupState :=
  mkPopup (isUpdating st) b (closed st).
Definition onClose (st : PopupState) : PopupState :=
  mkPopup (isUpdating st) (showReschedule st) true.

(** [defaultValues] and the [form.reset] of the effect (lines 45-61): the
    local day of [new Date(reminder.dueDate)] in the calendar and the
    reminder's time; [None] is an Invalid Date, which the schema rejects. *)
Definition formDefaults (tzOffset : Z) (r : Reminder) : option FormValues :=
  (fun ymd : nat * nat * nat => let '(y, m, d) := ymd in mkFormValues y m d (rem_time r))
    <$> (utcMidnightLocalDay tzOffset <$> parseDateOnly (rem_dueDate r)).

(** The effect on a new [reminder] prop (lines 53-61): the form is reset
    when there is a reminder, and the reschedule view is closed. *)
Definition onReminderChange (tzOffset : Z) (reminder : option Reminder) (form : option FormValues)
    (st : PopupState) : option FormValues * PopupState :=
  (match reminder with Some r => formDefaults tzOffset r | None => form end,
   set_showReschedule false st).

(** The calendar's [disabled] (line 129): a day before today cannot be
    picked. *)
Definition calendarAllows (now : LocalTime) (y m d : nat) : bool :=
  (lt_key (mkLocalTime (lt_year now) (lt_month now) (lt_day now) 0) <=?
   lt_key (mkLocalTime (N.of_nat y) (N.of_nat m) (N.of_nat d) 0))%N.

(** [onUpdate(reminder.id, { dueDate, time })] of the parent: one update
    of the reminder document. *)
Definition onUpdate (reminderId dueDate : string) (time : option string) : FS ReminderDb unit :=
  remote (fun db => match db !! reminderId with
                    | Some r => Some (tt, <[reminderId := mkReminder (rem_id r) (rem_title r) dueDate time
                                                              (rem_isCompleted r)]> db)
                    | None => None
                    end).

(** [onMarkAsComplete(reminder.id, true)] of the parent. *)
Definition onMarkAsComplete (reminderId : string) (isCompleted : bool) : FS ReminderDb unit :=
  remote (fun db => match db !! reminderId with
                    | Some r => Some (tt, <[reminderId := mkReminder (rem_id r) (rem_title r) (rem_dueDate r)
                                                              (rem_time r) isCompleted]> db)
                    | None => None
                    end).

(** The reminder [onUpdate] stores for the form's values. *)
Definition rescheduled (r0 : Reminder) (values : FormValues) : Reminder :=
  mkReminder (rem_id r0) (rem_title r0) (formatYMD (fv_year values) (fv_month values) (fv_day values))
    (fv_time values) (rem_isCompleted r0).

Local Open Scope fs_scope.

(** [handleUpdate(values)] (lines 67-76).  Nothing catches a rejected
    [onUpdate]: the handler stops there, with [isUpdating] still [true]
    and the dialog open; the [fs_catch] returns that state. *)
Definition handleUpdate (r : Reminder) (values : FormValues) (st : PopupState) : FS ReminderDb PopupState :=
  let st1 := set_isUpdating true st in
  fs_catch
    (let* _ := onUpdate (rem_id r) (formatYMD (fv_year values) (fv_month values) (fv_day values))
                 (fv_time values) in
     fs_ret (onClose (set_isUpdating false st1)))
    (fun _ => fs_ret st1).

(** [handleMarkAsComplete] (lines 78-83), with the same shape. *)
Definition handleMarkAsComplete (r : Reminder) (st : PopupState) : FS ReminderDb PopupState :=
  let st1 := set_isUpdating true st in
  fs_catch
    (let* _ := onMarkAsComplete (rem_id r) true in fs_ret (onClose (set_isUpdating false st1)))
    (fun _ => fs_ret st1).

(** The buttons the dialog shows (lines 102-174) and whether they are
    enabled. *)
Inductive PopupView :=
  | RescheduleForm (buttonsEnabled : bool)
  | Choices (rescheduleOffered : bool) (buttonsEnabled : bool).

Definition popupView (r : Reminder) (now : LocalTime) (st : PopupState) : PopupView :=
  if showReschedule st then RescheduleForm (negb (isUpdating st))
  else Choices (isOverdue r now) (negb (isUpdating st)).

(** [if (!reminder) return null;] (lines 63-65) and the dialog's
    description (lines 96-99). *)
Definition dialogDescription (r : Reminder) : string :=
  quote +:+ rem_title r +:+ quote +:+ " başlıklı hatırlatıcınızın zamanı geçti. Şimdi ne yapmak istersiniz?".

Definition renderPopup (reminder : option Reminder) (now : LocalTime) (st : PopupState)
    : option (string * PopupView) :=
  (fun r => (dialogDescription r, popupView r now st)) <$> reminder.

(** ** Lemmas on the date strings *)

Lemma digit_string_sep_free c s : digit_value c = None -> digit_string s = true -> sep_free c s = true.
Proof.
  intros Hc. induction s as [|x s IH]; simpl; [done|].
  destruct (digit_value x) eqn:Hx; [|done]. intros Hs. rewrite IH by done.
  destruct (Ascii.eqb_spec x c); [congruence|done].
Qed.

Lemma digit_char_value d : d < 10 -> digit_value (digit_char d) = Some d.
Proof.
  apply (Forall_seq_check (fun d => digit_value (digit_char d) = Some d)). vm_compute. reflexivity.
Qed.

Lemma digits_acc_app a b acc :
  digits_acc (a +:+ b) acc = match digits_acc a acc with Some n => digits_acc b n | None => None end.
Proof.
  revert acc. induction a as [|x a IH]; intros acc; simpl; [done|].
  destruct (digit_value x); [apply IH|done].
Qed.

(** The four digits of a year below 10000 read back as the year. *)
Lemma yyyy_ok y :
  y < 10000 -> String.length (yyyy y) = 4 /\ digit_string (yyyy y) = true /\ jsNumber (yyyy y) = Some y.
Proof.
  intros Hy. assert (y < 10 * 10 * 10 * 10) as Hy' by exact Hy. clear Hy.
  unfold yyyy, jsNumber. cbn [digit_string digits_acc String.length].
  rewrite !digit_char_value by (apply Nat.mod_upper_bound; lia). split_and!; [done|done|].
  f_equal.
  assert (y / 100 = y / 10 / 10) as -> by (rewrite Nat.Div0.div_div; done).
  assert (y / 1000 = y / 10 / 10 / 10) as -> by (rewrite !Nat.Div0.div_div; done).
  pose proof (Nat.div_mod_eq y 10). pose proof (Nat.div_mod_eq (y / 10) 10).
  pose proof (Nat.div_mod_eq (y / 10 / 10) 10).
  assert (y / 10 / 10 / 10 < 10) by (rewrite !Nat.Div0.div_div; apply Nat.Div0.div_lt_upper_bound; lia).
  rewrite (Nat.mod_small (y / 10 / 10 / 10)) by done. lia.
Qed.

(** Two-digit fields, checked on the hundred values by computation. *)
Lemma pad2_ok n :
  n < 100 -> String.length (padStart2 (nat_str n)) = 2 /\ digit_string (padStart2 (nat_str n)) = true /\
             jsNumber (padStart2 (nat_str n)) = Some n.
Proof.
  apply (Forall_seq_check (fun n => String.length (padStart2 (nat_str n)) = 2 /\
    digit_string (padStart2 (nat_str n)) = true /\ jsNumber (padStart2 (nat_str n)) = Some n)).
  vm_compute. reflexivity.
Qed.

Lemma digits_sep_free_all s :
  digit_string s = true ->
  sep_free "T"%char s = true /\ sep_free "-"%char s = true /\ sep_free ":"%char s = true.
Proof. intros H. split_and!; by apply digit_string_sep_free. Qed.

Lemma formatYMD_sep_free y m d :
  y < 10000 -> m < 100 -> d < 100 ->
  sep_free "T"%char (formatYMD y m d) = true /\ split_at "-"%char (formatYMD y m d) =
    [yyyy y; padStart2 (nat_str m); padStart2 (nat_str d)].
Proof.
  intros Hy Hm Hd. destruct (yyyy_ok y Hy) as (_ & Dy & _).
  destruct (pad2_ok m Hm) as (_ & Dm & _). destruct (pad2_ok d Hd) as (_ & Dd & _).
  apply digits_sep_free_all in Dy as (Ty & My & _), Dm as (Tm & Mm & _), Dd as (Td & Md & _).
  unfold formatYMD. split.
  - rewrite !sep_free_app, Ty, Tm, Td. done.
  - rewrite !split_at_app, split_at_free by done. done.
Qed.

Lemma hhmm_sep_free h mi :
  h < 100 -> mi < 100 ->
  sep_free "T"%char (hhmm h mi) = true /\ split_at ":"%char (hhmm h mi) =
    [padStart2 (nat_str h); padStart2 (nat_str mi)].
Proof.
  intros Hh Hm. destruct (pad2_ok h Hh) as (_ & Dh & _). destruct (pad2_ok mi Hm) as (_ & Dm & _).
  apply digits_sep_free_all in Dh as (Th & _ & Ch), Dm as (Tm & _ & Cm).
  unfold hhmm. split.
  - rewrite !sep_free_app, Th, Tm. done.
  - rewrite split_at_app, split_at_free by done. done.
Qed.

(** The three fields [handleUpdate] writes read back as their values. *)
Lemma ymd_fields y m d :
  y < 10000 -> m < 100 -> d < 100 ->
  fixedDigits 4 (yyyy y) = Some y /\ fixedDigits 2 (padStart2 (nat_str m)) = Some m /\
  fixedDigits 2 (padStart2 (nat_str d)) = Some d.
Proof.
  intros Hy Hm Hd. destruct (yyyy_ok y Hy) as (Ly & _ & Ny).
  destruct (pad2_ok m Hm) as (Lm & _ & Nm). destruct (pad2_ok d Hd) as (Ld & _ & Nd).
  unfold fixedDigits. by rewrite Ly, Lm, Ld, Ny, Nm, Nd.
Qed.

Lemma daysInMonth_le y m : daysInMonth y m <= 31.
Proof. unfold daysInMonth. repeat case_match; lia. Qed.

Lemma daysInMonth_ge y m : 28 <= daysInMonth y m.
Proof. unfold daysInMonth. repeat case_match; lia. Qed.

(** The due date written by [handleUpdate] and a time typed in the time
    input read back as that local time. *)
Lemma parse_formatYMD y m d h mi :
  y < 10000 -> 1 <= m <= 12 -> 1 <= d <= daysInMonth y m -> h < 24 -> mi < 60 ->
  parseLocalDateTime (formatYMD y m d +:+ "T" +:+ hhmm h mi) =
    Some (mkLocalTime (N.of_nat y) (N.of_nat m) (N.of_nat d) (N.of_nat h * 3600 + N.of_nat mi * 60)).
Proof.
  intros Hy Hm Hd Hh Hmi. pose proof (daysInMonth_le y m).
  destruct (formatYMD_sep_free y m d) as [Ty Sy]; [lia..|].
  destruct (hhmm_sep_free h mi) as [Th Sh]; [lia..|].
  unfold parseLocalDateTime. rewrite split_at_app, split_at_free, Sy, Sh by done.
  destruct (ymd_fields y m d) as (Fy & Fm & Fd); [lia..|].
  destruct (ymd_fields 0 h mi) as (_ & Fh & Fmi); [lia..|].
  rewrite Fy, Fm, Fd, Fh, Fmi. cbn [mbind option_bind].
  assert ((1 <=? m) && (m <=? 12) && (1 <=? d) && (d <=? daysInMonth y m) &&
          (h <? 24) && (mi <? 60) && (0 <? 60) = true) as ->.
  { rewrite !andb_true_iff, !Nat.leb_le, !Nat.ltb_lt. lia. }
  by rewrite N.add_0_r.
Qed.

Lemma split_at_cons sep a b :
  sep_free sep a = true -> split_at sep (a +:+ String sep b) = a :: split_at sep b.
Proof. exact (split_at_app sep a b). Qed.

(** Without a time the due date reads back as its last second. *)
Lemma parse_formatYMD_end_of_day y m d :
  y < 10000 -> 1 <= m <= 12 -> 1 <= d <= daysInMonth y m ->
  parseLocalDateTime (formatYMD y m d +:+ "T23:59:59") =
    Some (mkLocalTime (N.of_nat y) (N.of_nat m) (N.of_nat d) 86399).
Proof.
  intros Hy Hm Hd. pose proof (daysInMonth_le y m).
  destruct (formatYMD_sep_free y m d) as [Ty Sy]; [lia..|].
  unfold parseLocalDateTime. rewrite split_at_cons by done.
  change (split_at "T"%char "23:59:59") with ["23:59:59"]. cbv iota beta. rewrite Sy.
  change (split_at ":"%char "23:59:59") with ["23"; "59"; "59"]. cbv iota beta.
  destruct (ymd_fields y m d) as (Fy & Fm & Fd); [lia..|]. rewrite Fy, Fm, Fd.
  change (fixedDigits 2 "23") with (Some 23). change (fixedDigits 2 "59") with (Some 59).
  cbn [mbind option_bind].
  assert ((1 <=? m) && (m <=? 12) && (1 <=? d) && (d <=? daysInMonth y m) = true) as ->.
  { rewrite !andb_true_iff, !Nat.leb_le. lia. }
  reflexivity.
Qed.

(** The date-only string [handleUpdate] writes parses back to its day. *)
Lemma parseDateOnly_formatYMD y m d :
  y < 10000 -> 1 <= m <= 12 -> 1 <= d <= daysInMonth y m ->
  parseDateOnly (formatYMD y m d) = Some (y, m, d).
Proof.
  intros Hy Hm Hd. pose proof (daysInMonth_le y m).
  destruct (formatYMD_sep_free y m d) as [_ Sy]; [lia..|].
  destruct (ymd_fields y m d) as (Fy & Fm & Fd); [lia..|].
  unfold parseDateOnly. rewrite Sy, Fy, Fm, Fd. cbn [mbind option_bind].
  assert ((1 <=? m) && (m <=? 12) && (1 <=? d) && (d <=? daysInMonth y m) = true) as ->.
  { rewrite !andb_true_iff, !Nat.leb_le. lia. }
  reflexivity.
Qed.

(** The day before a valid day is a valid day, and another one. *)
Lemma prevDay_valid y m d :
  y < 10000 -> 1 <= m <= 12 -> 1 <= d <= daysInMonth y m ->
  let '(y', m', d') := prevDay y m d in
  y' < 10000 /\ 1 <= m' <= 12 /\ 1 <= d' <= daysInMonth y' m' /\ (y', m', d') <> (y, m, d).
Proof.
  intros Hy Hm Hd. unfold prevDay.
  destruct (2 <=? d) eqn:E1; [apply Nat.leb_le in E1|apply Nat.leb_gt in E1];
    [split_and!; try lia; intros [=]; lia|].
  destruct (2 <=? m) eqn:E2; [apply Nat.leb_le in E2|apply Nat.leb_gt in E2];
    pose proof (daysInMonth_ge y (m - 1)); [split_and!; try lia; intros [=]; lia|].
  change (daysInMonth (y - 1) 12) with 31. split_and!; try lia; intros [=]; lia.
Qed.

(** ** The handlers *)

(** [handleUpdate] under every fault schedule: it either stores the new
    date and time and closes the dialog, or leaves the reminder as it was
    with the dialog open and [isUpdating] stuck at [true]. *)
Lemma handleUpdate_cases r values st fl db :
  (exists r0 fl', db !! rem_id r = Some r0 /\
     handleUpdate r values st fl db =
       (Ok (onClose (set_isUpdating false (set_isUpdating true st))), fl',
        <[rem_id r := rescheduled r0 values]> db)) \/
  (exists fl', handleUpdate r values st fl db = (Ok (set_isUpdating true st), fl', db)).
Proof.
  unfold handleUpdate, fs_catch, fs_bind, onUpdate, remote.
  destruct fl as [|[] fl]; [| by right; eexists |];
    (destruct (db !! rem_id r) as [r0|] eqn:E; [left; exists r0; eexists; by split|by right; eexists]).
Qed.

Lemma handleUpdate_run r values st db r0 :
  db !! rem_id r = Some r0 ->
  handleUpdate r values st [] db =
    (Ok (onClose (set_isUpdating false (set_isUpdating true st))), [], <[rem_id r := rescheduled r0 values]> db).
Proof. intros E. unfold handleUpdate, fs_catch, fs_bind, onUpdate, remote. simpl. by rewrite E. Qed.

(** Whether the rescheduled reminder is overdue at [now]: never without a
    time, and with a time exactly when the new local time is before [now]. *)
Lemma rescheduled_overdue r0 values now :
  fv_year values < 10000 -> 1 <= fv_month values <= 12 ->
  1 <= fv_day values <= daysInMonth (fv_year values) (fv_month values) ->
  calendarAllows now (fv_year values) (fv_month values) (fv_day values) = true ->
  (lt_seconds now < 86400)%N ->
  match fv_time values with
  | None => isOverdue (rescheduled r0 values) now = false
  | Some t =>
      forall h mi, t = hhmm h mi -> h < 24 -> mi < 60 ->
      isOverdue (rescheduled r0 values) now =
        (lt_key (mkLocalTime (N.of_nat (fv_year values)) (N.of_nat (fv_month values))
                 (N.of_nat (fv_day values)) (N.of_nat h * 3600 + N.of_nat mi * 60)) <? lt_key now)%N
  end.
Proof.
  destruct values as [y m d time]; cbn [fv_year fv_month fv_day fv_time]. intros Hy Hm Hd Hcal Hnow.
  unfold isOverdue, dueString, rescheduled; cbn [rem_dueDate rem_time fv_year fv_month fv_day fv_time].
  destruct time as [t|].
  - intros h mi -> Hh Hmi. rewrite (proj2 (String.eqb_neq _ _)) by (unfold hhmm; by destruct (padStart2 _)).
    by rewrite parse_formatYMD.
  - rewrite parse_formatYMD_end_of_day by done. apply N.ltb_ge.
    unfold calendarAllows, lt_key in *. cbn [lt_year lt_month lt_day lt_seconds] in *.
    apply N.leb_le in Hcal. lia.
Qed.

Lemma popupView_disabled r now st :
  isUpdating st = true ->
  popupView r now st = RescheduleForm false \/ popupView r now st = Choices (isOverdue r now) false.
Proof. unfold popupView. intros ->. destruct (showReschedule st); auto. Qed.

(** ** Theorems *)

(** C3 *)
(** The reschedule form opens on the stored due day only east of
    Greenwich.  For a reminder due on a valid day [y-m-d] (the form
    [handleUpdate] writes), the form reset reads [new Date(dueDate)] as
    midnight UTC: in a zone at or east of UTC (Türkiye, [+180]) the
    calendar shows that day, and saving a new time without touching the
    date stores the same date; in a zone west of UTC it shows the day
    before, and the same save moves the reminder one day earlier. *)
Theorem reschedule_form_date tz r y m d :
  y < 10000 -> 1 <= m <= 12 -> 1 <= d <= daysInMonth y m -> rem_dueDate r = formatYMD y m d ->
  ((0 <= tz)%Z ->
     formDefaults tz r = Some (mkFormValues y m d (rem_time r)) /\
     forall t, rem_dueDate (rescheduled r (mkFormValues y m d t)) = rem_dueDate r) /\
  ((tz < 0)%Z ->
     exists v, formDefaults tz r = Some v /\ (fv_year v, fv_month v, fv_day v) = prevDay y m d /\
       forall t, rem_dueDate (rescheduled r (mkFormValues (fv_year v) (fv_month v) (fv_day v) t)) <>
                 rem_dueDate r).
Proof.
  intros Hy Hm Hd Hr. unfold formDefaults. rewrite Hr, parseDateOnly_formatYMD by done.
  cbn [fmap option_fmap option_map utcMidnightLocalDay]. split.
  - intros Htz. rewrite (proj2 (Z.ltb_ge tz 0)) by lia. split; [done|]. intros t. done.
  - intros Htz. rewrite (proj2 (Z.ltb_lt tz 0)) by lia.
    pose proof (prevDay_valid y m d Hy Hm Hd) as Hp.
    destruct (prevDay y m d) as [[y' m'] d'] eqn:E. destruct Hp as (Hy' & Hm' & Hd' & Hne).
    eexists. split_and!; [reflexivity|done|]. intros t. cbn [rescheduled rem_dueDate fv_year fv_month fv_day].
    intros Heq. apply Hne.
    apply (f_equal parseDateOnly) in Heq. rewrite !parseDateOnly_formatYMD in Heq by done. congruence.
Qed.

(** C20 *)
(** Rescheduling an overdue reminder to a day the calendar allows: under
    every fault schedule the dialog either stores the new date and time and
    closes, after which the reminder is no longer overdue when no time was
    given, and is overdue with a time exactly when that time is already
    past; or the update failed, the reminder is unchanged, and the dialog
    stays open with [isUpdating] stuck at [true], so both of its buttons
    are disabled and it can no longer be closed from its own buttons. *)
Theorem reschedule_outcome r r0 values st fl db now :
  db !! rem_id r = Some r0 ->
  fv_year values < 10000 -> 1 <= fv_month values <= 12 ->
  1 <= fv_day values <= daysInMonth (fv_year values) (fv_month values) ->
  calendarAllows now (fv_year values) (fv_month values) (fv_day values) = true ->
  (lt_seconds now < 86400)%N ->
  (exists fl', handleUpdate r values st fl db =
      (Ok (onClose (set_isUpdating false (set_isUpdating true st))), fl',
       <[rem_id r := rescheduled r0 values]> db) /\
    match fv_time values with
    | None => isOverdue (rescheduled r0 values) now = false
    | Some t =>
        forall h mi, t = hhmm h mi -> h < 24 -> mi < 60 ->
        isOverdue (rescheduled r0 values) now =
          (lt_key (mkLocalTime (N.of_nat (fv_year values)) (N.of_nat (fv_month values))
                   (N.of_nat (fv_day values)) (N.of_nat h * 3600 + N.of_nat mi * 60)) <? lt_key now)%N
    end) \/
  (exists fl', handleUpdate r values st fl db = (Ok (set_isUpdating true st), fl', db) /\
    closed (set_isUpdating true st) = closed st /\
    (popupView r now (set_isUpdating true st) = RescheduleForm false \/
     popupView r now (set_isUpdating true st) = Choices (isOverdue r now) false)).
Proof.
  intros Hr Hy Hm Hd Hcal Hnow.
  destruct (handleUpdate_cases r values st fl db) as [(r0' & fl' & Hr' & Hrun)|(fl' & Hrun)].
  - rewrite Hr in Hr'. injection Hr' as <-. left. exists fl'. split; [done|].
    by apply rescheduled_overdue.
  - right. exists fl'. split_and!; [done|done|]. by apply popupView_disabled.
Qed.

(** ** Witnesses *)

Definition sample_reminder : Reminder := mkReminder "rem1" "Veli toplantısı" "2026-11-08" (Some "09:00") false.
Definition sample_reminders : ReminderDb := {["rem1" := sample_reminder]}.
Definition sample_values : FormValues := mkFormValues 2026 11 9 (Some "14:30").
Definition sample_now : LocalTime := mkLocalTime 2026 11 9 36000.

Lemma reschedule_outcome_witness :
  isOverdue (rescheduled sample_reminder sample_values) sample_now = false.
Proof.
  destruct (reschedule_outcome sample_reminder sample_reminder sample_values popup_init []
              sample_reminders sample_now) as [(fl' & _ & Hover)|(fl' & Hrun & _)];
    [reflexivity|vm_compute; lia|vm_compute; lia|vm_compute; lia|reflexivity|vm_compute; reflexivity| |].
  - rewrite (Hover 14 30); [vm_compute; reflexivity|vm_compute; reflexivity|lia|lia].
  - vm_compute in Hrun. congruence.
Defined.

(** The sample reminder, due 2026-11-08, opened in Istanbul ([+180]) and
    in New York ([-300]). *)
Lemma reschedule_form_date_witness :
  formDefaults 180 sample_reminder = Some (mkFormValues 2026 11 8 (Some "09:00")) /\
  formDefaults (-300) sample_reminder = Some (mkFormValues 2026 11 7 (Some "09:00")).
Proof.
  destruct (reschedule_form_date 180 sample_reminder 2026 11 8) as [Heast _];
    [vm_compute; lia|lia|vm_compute; lia|reflexivity|].
  destruct (reschedule_form_date (-300) sample_reminder 2026 11 8) as [_ Hwest];
    [vm_compute; lia|lia|vm_compute; lia|reflexivity|].
  split; [by apply Heast; lia|].
  destruct (Hwest ltac:(lia)) as (v & Hv & Hp & _). rewrite Hv. destruct v. vm_compute in Hp.
  by simplify_eq.
Defined.

End ReminderPopup.
