(* ===== verification/PostLifecycle.v ===== *)
(** * PostLifecycle: the listeners of [useForumPost] over time
      ([src/src/hooks/use-forum.ts], lines 59-120)

    [ForumView.v] models each callback of [useForumPost] as a function of
    the snapshot it receives.  This file puts the callbacks on a time line.
    The effect runs again when [postId] or [refreshTrigger] changes, and
    the cleanup of the previous run has then unsubscribed both listeners;
    a listener delivers only while it is subscribed.  The replies callback
    sets the replies before its [await]; the [Promise.all] of its comment
    reads settles later, as an event of its own, whether or not the
    listener that started it is still subscribed (unsubscribing cancels
    no promise).  The reads are answered by the store at the time they
    settle.  Events are an [Inductive], [postStep] applies one, and a run
    is a [foldl] of it from the mounted hook. *)

From S2P Require Import Prelude Forum ForumView.
Import Forum ForumView.

Module PostLifecycle.

(** ** The runtime *)

(** A comment load in flight: the post of the listener that started it
    and the ids of the replies it reads. *)
Record Pending := mkPending {
  pd_postId : string;
  pd_replyIds : list string
}.

(** The hook's prop and state (lines 59-65), the post id whose two
    listeners are subscribed, and the loads in flight. *)
Record PostRuntime := mkRuntime {
  rt_postId : string;
  rt_refreshTrigger : nat;
  rt_subscribed : option string;
  rt_pending : list Pending;
  rt_hook : PostHook
}.

Definition set_rt_hook (h : PostHook) (rt : PostRuntime) : PostRuntime :=
  mkRuntime (rt_postId rt) (rt_refreshTrigger rt) (rt_subscribed rt) (rt_pending rt) h.

Definition set_rt_pending (ps : list Pending) (rt : PostRuntime) : PostRuntime :=
  mkRuntime (rt_postId rt) (rt_refreshTrigger rt) (rt_subscribed rt) ps (rt_hook rt).

(** One run of the effect (lines 71-79, 92, 113-116): the cleanup of the
    previous run unsubscribes its listeners; without a post id the effect
    only stops loading, otherwise it sets [isLoading] and subscribes both
    listeners for the current [postId]. *)
Definition runEffect (rt : PostRuntime) : PostRuntime :=
  mkRuntime (rt_postId rt) (rt_refreshTrigger rt)
    (if String.eqb (rt_postId rt) "" then None else Some (rt_postId rt))
    (rt_pending rt) (usePostEffect (rt_postId rt) (rt_hook rt)).

(** The first render and the first run of the effect. *)
Definition mount (postId : string) : PostRuntime :=
  runEffect (mkRuntime postId 0 None [] usePost_init).

Inductive PostEvent :=
  | SetPostId (p : string)
  | ForceRefresh
  | PostSnapshot (snap : ForumDb)
  | PostError
  | RepliesSnapshot (snap : ForumDb)
  | RepliesError
  | CommentsResolved (k : nat) (db : ForumDb)
  | CommentsRejected (k : nat).

(** One event.  A new [postId] equal to the old one changes no
    dependency; [forceRefresh] (lines 67-69) always does.  Snapshots and
    errors reach only subscribed listeners.  The replies callback up to its
    [await] (lines 93-103) sets the replies and starts a load; the [k]-th
    load in flight then resolves (lines 104-106) or rejects, and a
    rejection of the [await] ends the callback with nothing set. *)
Definition postStep (rt : PostRuntime) (ev : PostEvent) : PostRuntime :=
  match ev with
  | SetPostId p =>
      if String.eqb p (rt_postId rt) then rt
      else runEffect (mkRuntime p (rt_refreshTrigger rt) (rt_subscribed rt) (rt_pending rt) (rt_hook rt))
  | ForceRefresh =>
      runEffect (mkRuntime (rt_postId rt) (S (rt_refreshTrigger rt)) (rt_subscribed rt)
                   (rt_pending rt) (rt_hook rt))
  | PostSnapshot snap =>
      match rt_subscribed rt with
      | Some p => set_rt_hook (onPostSnapshot p snap (rt_hook rt)) rt
      | None => rt
      end
  | PostError =>
      match rt_subscribed rt with
      | Some _ => set_rt_hook (onPostError (rt_hook rt)) rt
      | None => rt
      end
  | RepliesSnapshot snap =>
      match rt_subscribed rt with
      | Some p =>
          let rs := repliesView p snap in
          set_rt_pending (rt_pending rt ++ [mkPending p (fst <$> rs)])
            (set_rt_hook (set_ph_replies rs (rt_hook rt)) rt)
      | None => rt
      end
  | RepliesError =>
      match rt_subscribed rt with
      | Some _ => set_rt_hook (onRepliesError (rt_hook rt)) rt
      | None => rt
      end
  | CommentsResolved k db =>
      match rt_pending rt !! k with
      | Some pd =>
          set_rt_pending (delete k (rt_pending rt))
            (set_rt_hook (set_ph_loaded (commentsOfAll (pd_postId pd) db (pd_replyIds pd) ∅)
                            (rt_hook rt)) rt)
      | None => rt
      end
  | CommentsRejected k => set_rt_pending (delete k (rt_pending rt)) rt
  end.

Definition postRun (postId : string) (evs : list PostEvent) : PostRuntime :=
  foldl postStep (mount postId) evs.

(** The listeners subscribed are those of the current post id, and none
    without one. *)
Definition listeners_ok (rt : PostRuntime) : Prop :=
  rt_subscribed rt = if String.eqb (rt_postId rt) "" then None else Some (rt_postId rt).

(** ** Lemmas *)

Lemma runEffect_ok rt : listeners_ok (runEffect rt).
Proof. done. Qed.

Lemma postStep_ok rt ev : listeners_ok rt -> listeners_ok (postStep rt ev).
Proof.
  intros Hok. destruct ev as [p| | | | | |k db|k]; cbn [postStep];
    repeat case_match; try apply runEffect_ok; exact Hok.
Qed.

Lemma postRun_ok postId evs : listeners_ok (postRun postId evs).
Proof.
  unfold postRun. assert (Hok : listeners_ok (mount postId)) by apply runEffect_ok.
  revert Hok. generalize (mount postId).
  induction evs as [|ev evs IH]; intros rt Hok; [exact Hok|]. apply IH, postStep_ok, Hok.
Qed.

(** Without a failure, the replies callback in [ForumView.v] ends with the
    comments of every reply loaded. *)
Lemma onRepliesSnapshot_run p db h :
  let rs := repliesView p db in
  onRepliesSnapshot p db h [] db =
    (Ok (set_ph_loaded (commentsOfAll p db (fst <$> rs) ∅) (set_ph_replies rs h)), [], db).
Proof.
  intros rs. unfold onRepliesSnapshot, fs_catch, fs_bind. by rewrite fetchAllComments_run.
Qed.

Lemma eqb_nonempty s : s <> "" -> String.eqb s "" = false.
Proof. apply String.eqb_neq. Qed.

(** The split callback refines the one of [ForumView.v]: a replies
    snapshot whose load resolves next, against the same store, leaves the
    runtime as the callback run without a failure does. *)
Lemma replies_then_resolve rt p snap :
  rt_subscribed rt = Some p ->
  exists h', onRepliesSnapshot p snap (rt_hook rt) [] snap = (Ok h', [], snap) /\
    postStep (postStep rt (RepliesSnapshot snap)) (CommentsResolved (length (rt_pending rt)) snap) =
      set_rt_hook h' rt.
Proof.
  intros Hs. eexists. split; [apply onRepliesSnapshot_run|].
  cbn [postStep]. rewrite Hs. cbn [rt_pending set_rt_pending set_rt_hook rt_hook].
  rewrite list_lookup_middle by done. rewrite delete_middle, app_nil_r. done.
Qed.

(** ** Theorems *)

(** C11 *)
(** The listeners always belong to the current post.  After any run of
    events from the mounted hook (navigations, refreshes, snapshots,
    errors, loads settling), the listeners subscribed are those of the
    current [postId], and none without one; so a post or replies snapshot
    then shows the current post's document and replies, and without a post
    id no snapshot changes anything. *)
Theorem post_listeners_current postId evs snap :
  let rt := postRun postId evs in
  rt_subscribed rt = (if String.eqb (rt_postId rt) "" then None else Some (rt_postId rt)) /\
  (rt_postId rt <> "" ->
   ph_post (rt_hook (postStep rt (PostSnapshot snap))) =
     (fun p => (rt_postId rt, p)) <$> posts snap !! rt_postId rt /\
   ph_replies (rt_hook (postStep rt (RepliesSnapshot snap))) = repliesView (rt_postId rt) snap) /\
  (rt_postId rt = "" -> postStep rt (PostSnapshot snap) = rt /\ postStep rt (RepliesSnapshot snap) = rt).
Proof.
  intros rt. pose proof (postRun_ok postId evs) as Hok. fold rt in Hok. unfold listeners_ok in Hok.
  split; [exact Hok|]. split; intros Hp.
  - rewrite eqb_nonempty in Hok by done. cbn [postStep]. by rewrite Hok.
  - rewrite Hp in Hok. cbn [postStep]. by rewrite Hok.
Qed.

(** C19 *)
(** The cleanup unsubscribes the listeners of the old post but cancels
    no comment load it started.  On post [A], after its post and replies
    snapshots, navigating to post [B] subscribes the listeners of [B] only
    and shows [B] loading; when [A]'s load then resolves, the page for
    [B] stops loading before any snapshot of [B] arrived, and shows [A]'s
    post, [A]'s replies and their comments. *)
Theorem stale_load_after_navigation A B snap db :
  A <> "" -> B <> "" -> A <> B ->
  let rt := postRun A [PostSnapshot snap; RepliesSnapshot snap; SetPostId B] in
  let rt' := postStep rt (CommentsResolved 0 db) in
  rt_subscribed rt = Some B /\ ph_loading (rt_hook rt) = true /\
  rt_postId rt' = B /\ rt_subscribed rt' = Some B /\ ph_loading (rt_hook rt') = false /\
  ph_post (rt_hook rt') = (fun p => (A, p)) <$> posts snap !! A /\
  ph_replies (rt_hook rt') = repliesView A snap /\
  ph_comments (rt_hook rt') = commentsOfAll A db (fst <$> repliesView A snap) ∅.
Proof.
  intros HA HB Hne. pose proof (eqb_nonempty A HA) as EA. pose proof (eqb_nonempty B HB) as EB.
  assert (String.eqb B A = false) as EBA by (apply String.eqb_neq; congruence).
  cbv zeta. unfold postRun, mount, runEffect, usePostEffect, set_rt_hook, set_rt_pending.
  repeat progress (cbn -[String.eqb repliesView commentsOfAll]; rewrite ?EA, ?EB, ?EBA).
  unfold usePostEffect. rewrite EB. done.
Qed.

(** ** Witnesses *)

Lemma stale_load_after_navigation_witness :
  ph_loading (rt_hook (postStep (postRun "p1" [PostSnapshot sample_forum; RepliesSnapshot sample_forum;
                                              SetPostId "p2"])
                         (CommentsResolved 0 sample_forum))) = false /\
  ph_replies (rt_hook (postStep (postRun "p1" [PostSnapshot sample_forum; RepliesSnapshot sample_forum;
                                              SetPostId "p2"])
                         (CommentsResolved 0 sample_forum))) <> [].
Proof.
  destruct (stale_load_after_navigation "p1" "p2" sample_forum sample_forum)
    as (_ & _ & _ & _ & Hl & _ & Hr & _); [done|done|done|].
  split; [exact Hl|]. rewrite Hr. vm_compute. discriminate.
Defined.

(** Navigating from post [p1] to [p2]: the post snapshot then shows [p2]'s
    document, absent from the sample forum, not [p1]'s. *)
Lemma post_listeners_current_witness :
  let rt := postRun "p1" [PostSnapshot sample_forum; RepliesSnapshot sample_forum; SetPostId "p2"] in
  rt_subscribed rt = Some "p2" /\ ph_post (rt_hook (postStep rt (PostSnapshot sample_forum))) = None.
Proof.
  destruct (post_listeners_current "p1" [PostSnapshot sample_forum; RepliesSnapshot sample_forum;
              SetPostId "p2"] sample_forum) as (Hs & Hp & _).
  split; [exact Hs|]. rewrite (proj1 (Hp ltac:(discriminate))). reflexivity.
Defined.

End PostLifecycle.
